(* ===== verification/_CoqProject ===== *)
-Q . S2P
Prelude.v
PyStr.v
Regex.v
RegexSpec.v
Strptime.v
DateField.v
FieldClasses.v
CharField.v
GenderField.v
DotDict.v
DecimalField.v
ActionReporter.v
Install.v
Fieldsets.v
AdminBase.v
ModelBase.v
Middleware.v
Logging.v
ConfigLoader.v
JSONEncoder.v
JSONDecoder.v
QueryDict.v
AdminChangelist.v
Serializers.v
Settings.v
Checks.v
Dev.v
