(* ===== verification/Prelude.v ===== *)
(** * A verification development for djultra

    djultra is a set of extensions to the Django web framework: ORM field
    types that clean their input ([src/fields.py]), an admin generated
    from model metadata ([src/admin/]), model and queryset helpers
    ([src/base.py]), request-scoped middleware and logging
    ([src/middleware.py], [src/logging.py]), serializers
    ([src/serializers.py]), a configuration loader
    ([src/utils/config_loader.py]), settings a project includes
    ([src/settings.py]), system checks ([src/checks.py]) and a [dev]
    command that runs the server beside a task worker
    ([src/management/commands/dev.py]).

    ** The parts and how they interact

    The fields clean values on their own; [JSONField] turns what the
    database returns into a [DotDict].  The admin package runs
    [install()] at import: for every model with an [Admin] stub it builds
    an admin class from [AutoFieldsetsMixin] and [BaseModelAdmin]
    ([src/admin/base.py]) and appends to its [actions] one action per
    model method that [base.admin_action] marked, each made by
    [make_action], which reports through an [ActionResultReporter].
    [RequestIDMiddleware] keeps the request in thread-local storage, and
    [CustomRichHandler] reads it to print times relative to the request.
    [AdminActionLoggerMiddleware] stores the urlencoded POST data of
    every admin action in the session, and [changelist_view] parses it
    back with [QueryDict] for the model's change list.
    Sessions are serialised with [CustomJSONSerializer], whose encoder
    also serves [JSONField], and read back by [json.loads];
    [ConfigLoader] supplies the settings.  [src/settings.py] configures
    [logging] for [CustomRichHandler] and puts djultra's middleware
    around the project's own, [AdminSessionMiddleware] before
    [SessionMiddleware]; the system checks log through that
    configuration; the [dev] command forks the worker and reaps it when
    the server ends.

    ** Files, and what of the code each models

    Each file models one part of the code, under the source's names,
    with its state as records and its operations as executable
    definitions that return [result] (the value or the exception a
    Python call raises).  The Python library the code calls is modelled
    from CPython where the code depends on its details.

    - [Prelude] (this file): [result], its notation [x <- r ;; k] in the
      scope [djultra_scope], the hint databases [djultra] and
      [djultra_rw], the tactic [by_check] that proves a statement over a
      finite range by evaluating a boolean checker, and shared lemmas.
    - [PyStr]: Python [str] as a list of code points, the Unicode
      properties [str] and [re] consult for U+0000..U+017F, the [str]
      methods the sources call, [str(int)], and [dict]s with [str] keys
      in insertion order ([kv_lookup], [kv_set], [kv_delete]).
    - [Regex], [RegexSpec]: [re] (the pattern parser, a backtracking
      matcher in the priority order of [_sre], [re.search], [re.sub]) and
      a relational semantics it is proved sound for.
    - [Strptime]: [_strptime] for the directives the sources use and
      the calendar check of [datetime.date].
    - [DateField], [DecimalField], [CharField], [GenderField],
      [DotDict]: the [to_python]/[clean] methods of [src/fields.py],
      [DotDict] and [JSONField.from_db_value].
    - [FieldClasses]: the constructors of the fields (their [defaults]
      dicts updated with the keyword arguments), [CountryField.clean],
      and [CleanValueDescriptor] with [DateField.contribute_to_class]
      under Python's attribute protocol, which makes every assignment of
      a [DateField] attribute run [DateField.to_python].
    - [ActionReporter]: [ActionResultReporter] and [make_action]
      ([src/admin/action_result_reporter.py], [src/admin/install.py]).
    - [Install]: [install()] over a heap of list objects, so that the
      shared [BaseModelAdmin.actions] list is one object.
    - [Fieldsets]: [AutoFieldsetsMixin.get_fieldsets].
    - [AdminBase]: the field lists, [get_actions], [get_list_display]
      (mutating the class attribute in the heap) and the logging
      [admin_action] wrapper of [src/admin/base.py].
    - [ModelBase]: [admin_action], [BaseQuerySet.delete] (reached
      through [BaseManager]), [BaseModel.to_dict], [get_admin_url] and
      [admin_link] of [src/base.py], and [created_at]/[updated_at] as
      Django fills them on [save()], a step relation with a clock.
    - [Middleware]: every middleware of [src/middleware.py]; the
      thread-local state is a map from threads to their attributes, and
      the process-wide [SESSION_COOKIE_NAME] is one cell that interleaved
      requests write and read.
    - [Logging]: [CustomRichHandler.emit], [render] and the time column
      of [custom_log_render], with its shared [_last_time], run over an
      interleaving of request and log events of several threads;
      [get_terminal_width] with [shutil.get_terminal_size],
      [get_level_text] and [RainbowHighlighter.highlight] (module
      [CustomRichHandler]).
    - [ConfigLoader]: [ConfigLoader] with its class-level cache and
      [configparser]'s interpolation.
    - [JSONEncoder]: [CustomJSONEncoder.default] ([Decimal.__format__],
      [isoformat]) and [CustomJSONSerializer.dumps] ([json.dumps] with
      [ensure_ascii], then UTF-8).
    - [Serializers]: [ModelMethodField], [DynamicFieldsModelSerializer]
      ([__init__], [late_init], [to_representation], a list of items),
      [create_custom_subclass] and [NoPagination].
    - [JSONDecoder]: [CustomJSONSerializer.loads], that is [json.loads]
      ([detect_encoding], UTF-8 with [surrogatepass], the scanner of
      [Modules/_json.c]), and the proof that it reads back what [dumps]
      writes.
    - [QueryDict]: Django's [QueryDict] ([appendlist] per pair,
      [urlencode] over [lists()] with UTF-8 and [quote_plus]) and
      [urllib.parse] ([parse_qsl] with [max_num_fields], [unquote] with
      the UTF-8 decoder of [errors='replace']), which the admin action
      log writes and reads back.
    - [AdminChangelist]: [BaseModelAdmin.changelist_view], which parses
      the last action the middleware stored back into
      [extra_context['last_action']], and [get_change_link].
    - [Settings]: the values [src/settings.py] computes from the
      project's [DEBUG], [LOG_LEVEL], [BASE_DIR], [FRONTEND_URL] and
      [MIDDLEWARE] (a record [project]): [LOGGING] and what
      [logging.config.dictConfig] makes of it (levels, propagation, the
      handlers a record reaches), [MIDDLEWARE] with the order in which
      its middleware read [SESSION_COOKIE_NAME] (run by
      [Middleware.run_cookie_events]), the static and media paths,
      [immutable_file_test] and the CSP directives, whose [re.sub] is run
      by [Regex].
    - [Checks]: the three system checks of [src/checks.py], with
      [posixpath] ([dirname], [join], [normpath], [abspath]) and the log
      calls rendered by [Logging.emit_message].
    - [Dev]: [Command.handle] and [_run_worker] as interaction trees
      (ITree) over their effects, interpreted in a world of processes
      from either side of [os.fork()].

    ** What the theorems show

    For each part: the functional behaviour of its operations on every
    branch, errors included ([DateField.to_python_str_result],
    [ActionReporter.make_action_reports], [ConfigLoader.environ_first],
    ...); invariants kept by every operation ([DotDict.dotdict_ops_all_dot],
    [Fieldsets.get_fieldsets_partition], the sequence invariant of
    [Middleware.process_exception_sequence]); round trips
    ([DateField.d_mon_yy_roundtrip], [ConfigLoader.int_setting_roundtrip]);
    termination with the fuel chosen ([DotDict.convert_value_enough],
    [JSONEncoder.dumps_terminates]); bounds ([JSONEncoder.dumps_ascii],
    [CharField.remove_quotes_length_bounds]); the soundness of the regex
    matcher for the relational semantics ([RegexSpec.re_search_sound]);
    the round trip of [json.loads] over [json.dumps]
    ([JSONDecoder.loads_dumps]) and the surrogate pairs it joins; the
    equivalence of [re.sub(r'^https?', 'ws', url)] run by the matcher
    with a direct definition ([Settings.ws_url_spec]); what
    [dictConfig(LOGGING)] accepts and which records reach the console
    ([Settings.logging_config_error], [Settings.sql_debug_dropped], ...);
    the round trip [QueryDict(d.urlencode()) = d]
    ([QueryDict.urlencode_querydict_roundtrip]), its [UnicodeEncodeError]
    on surrogates, the invariant of [appendlist], and its composition
    with the middleware: the last admin action comes back unchanged on
    the model's change list and on no other
    ([AdminChangelist.admin_action_replayed]);
    the liveness of the [dev] command, which ends with the server's
    outcome after killing and reaping its worker
    ([Dev.dev_worker_reaped]); the messages of the system checks; the
    invariant of the [created_at]/[updated_at] time stamps by induction
    on runs of saves ([ModelBase.timestamps_invariant]); the
    invariant that a [DateField] attribute only ever holds what
    [to_python] returns ([FieldClasses.init_fields_are_dates]); and the
    places where the code does not do what it means to, each a theorem
    named by a finding of [PROJECT.json]: the shared action list
    of [install], the unescaped record in the reporter's HTML, the stale
    thread-local state and shared [_last_time] of the logger, the
    [SESSION_COOKIE_NAME] race, the lost zeros of encoded [Decimal]s, the
    relations [late_init] forgets, the shared [Meta.model] of the
    serializers, the [pid=0] the worker logs, the debug records of
    djultra that the root level drops, and others.

    ** Bounds and fuel

    Recursion that Python bounds by the data is given fuel and proved to
    have enough: [Regex.star_loop] gets one more than the characters left
    ([Regex.star_fuel_enough]), [re.sub] the length of the string,
    [DotDict.convert_value] the depth of the value, [JSONEncoder.dumps]
    the nesting of the value ([json_depth]), [str_of_N] one digit per bit;
    the JSON scanner and [scanstring] the length of the text, which
    every level and every character consume (the round trip runs them
    with that fuel); [unquote] and the UTF-8 decoder recurse on the
    list, with no fuel;
    [configparser]'s interpolation has the depth 10 of
    [MAX_INTERPOLATION_DEPTH] and the length of the text for its inner
    loop.  Integers are unbounded in Python and are [Z] or [N] here.
    Statements over all two-digit years, days or months are proved with
    [by_check].

    ** What is not modelled

    The Django, Django REST framework, rich and django-countries code the
    sources subclass or call is not modelled: where the code hands a
    value to it, the value is a parameter of a Section or the result
    names the call.  Unicode properties are modelled for the code points
    below U+0180; [strptime] for the C locale.  JSON floats, the UTF-16
    and UTF-32 decoders of [json.loads] and the limit of 4300 digits on
    [int] are not modelled (the scanner stops with an error that says
    so).  In [Dev] the server and the worker are opaque calls that end
    as the world says, and signals are recorded, not delivered.
    [src/apps.py] and [src/admin/__init__.py] only import modules, and
    are not modelled; [django_countries.countries.alpha2] and the
    Django [clean] that [CountryField.clean] ends with are parameters.
*)

From stdpp Require Export base list decidable sets.
From Stdlib Require Export NArith Lia.

Declare Scope djultra_scope.
Delimit Scope djultra_scope with dj.
Open Scope djultra_scope.

(** ** Results: a Python call that returns a value or raises *)

Inductive result (E A : Type) : Type :=
| Ok (a : A)
| Err (e : E).
Arguments Ok {E A} a.
Arguments Err {E A} e.

Definition result_bind {E A B} (r : result E A) (f : A -> result E B) : result E B :=
  match r with
  | Ok a => f a
  | Err e => Err e
  end.

Notation "x <- r ;; k" := (result_bind r (fun x => k))
  (at level 60, r at next level, right associativity) : djultra_scope.

(** The results of [f] on each element in order, the first exception
    ending the loop. *)
Fixpoint map_result {E A B} (f : A -> result E B) (l : list A) : result E (list B) :=
  match l with
  | [] => Ok []
  | x :: l => y <- f x ;; ys <- map_result f l ;; Ok (y :: ys)
  end.

#[export] Instance result_eq_dec {E A} `{EqDecision E} `{EqDecision A} :
  EqDecision (result E A).
Proof. solve_decision. Defined.

Definition is_ok {E A} (r : result E A) : bool :=
  match r with Ok _ => true | Err _ => false end.

Lemma result_bind_ok {E A B} (r : result E A) (f : A -> result E B) b :
  result_bind r f = Ok b <-> exists a, r = Ok a /\ f a = Ok b.
Proof.
  destruct r as [a|e]; simpl; split.
  - intros H. by exists a.
  - by intros (a' & [= ->] & H).
  - discriminate.
  - by intros (a' & ? & _).
Qed.

Lemma map_result_cons {E A B} (f : A -> result E B) x l :
  map_result f (x :: l) = y <- f x ;; ys <- map_result f l ;; Ok (y :: ys).
Proof. reflexivity. Qed.

Lemma result_bind_err {E A B} (r : result E A) (f : A -> result E B) e :
  r = Err e -> result_bind r f = Err e.
Proof. by intros ->. Qed.

(** ** Finite ranges checked by evaluation *)

(** [forall_below n f] holds when the boolean test [f] holds of every
    natural below [n]; it is how statements over all days, months or
    two-digit years are checked by computation. *)
Fixpoint forall_below (n : nat) (f : nat -> bool) : bool :=
  match n with
  | 0 => true
  | S k => forall_below k f && f k
  end.

Lemma forall_below_spec n f :
  forall_below n f = true <-> forall x, x < n -> f x = true.
Proof.
  induction n as [|n IH]; simpl.
  - split; [intros _ x Hx; lia | done].
  - rewrite andb_true_iff, IH. split.
    + intros [H1 H2] x Hx. destruct (decide (x = n)) as [->|]; [done|]. apply H1; lia.
    + intros H. split; [intros x Hx; apply H; lia | apply H; lia].
Qed.

Lemma forall_below_sound n f x :
  forall_below n f = true -> x < n -> f x = true.
Proof. intros H. by apply forall_below_spec. Qed.

Lemma forall_range_sound lo n f x :
  forall_below n (fun i => f (lo + i)) = true -> lo <= x < lo + n -> f x = true.
Proof.
  intros H Hx. replace x with (lo + (x - lo)) by lia.
  apply (forall_below_sound n (fun i => f (lo + i))); [done | lia].
Qed.

(** Decide the comparisons [=?], [<?] and [<=?] of the goal on [N] that
    [lia] settles from the context. *)
Ltac n_tests :=
  repeat match goal with
  | |- context [(?x <=? ?y)%N] =>
    first [rewrite (proj2 (N.leb_le x y)) by lia | rewrite (proj2 (N.leb_gt x y)) by lia]
  | |- context [(?x <? ?y)%N] =>
    first [rewrite (proj2 (N.ltb_lt x y)) by lia | rewrite (proj2 (N.ltb_ge x y)) by lia]
  | |- context [(?x =? ?y)%N] =>
    first [rewrite (proj2 (N.eqb_eq x y)) by lia | rewrite (proj2 (N.eqb_neq x y)) by lia]
  end.

(** [by_check] closes a goal [f x = true] from a hypothesis-free
    computation of [forall_below]: the checker is evaluated by the
    virtual machine, and the arithmetic side conditions by [lia]. *)
Ltac by_check :=
  first
    [ eapply forall_below_sound; [vm_compute; reflexivity | lia]
    | eapply forall_range_sound; [vm_compute; reflexivity | lia] ].

(** [forall_N lo hi f]: the test [f] holds of every [N] in [lo..hi];
    nested, it checks statements over several bounded variables, which
    [forall_N_sound2] and [forall_N_sound3] instantiate at once. *)
Definition forall_N (lo hi : N) (f : N -> bool) : bool :=
  forall_below (N.to_nat (hi + 1 - lo)) (fun i => f (lo + N.of_nat i)%N).

Lemma forall_N_sound lo hi f x :
  forall_N lo hi f = true -> (lo <= x <= hi)%N -> f x = true.
Proof.
  unfold forall_N. intros H Hx.
  replace x with (lo + N.of_nat (N.to_nat (x - lo)))%N by lia.
  apply (forall_below_sound (N.to_nat (hi + 1 - lo)) (fun i => f (lo + N.of_nat i)%N)); [done | lia].
Qed.

Lemma forall_N_sound2 lo1 hi1 lo2 hi2 (f : N -> N -> bool) x y :
  forall_N lo1 hi1 (fun x => forall_N lo2 hi2 (fun y => f x y)) = true ->
  (lo1 <= x <= hi1)%N -> (lo2 <= y <= hi2)%N -> f x y = true.
Proof.
  intros H Hx Hy. apply (forall_N_sound lo2 hi2 (fun y => f x y)); [|done].
  exact (forall_N_sound lo1 hi1 (fun x => forall_N lo2 hi2 (fun y => f x y)) x H Hx).
Qed.

Lemma forall_N_sound3 lo1 hi1 lo2 hi2 lo3 hi3 (f : N -> N -> N -> bool) x y z :
  forall_N lo1 hi1 (fun x => forall_N lo2 hi2 (fun y => forall_N lo3 hi3 (fun z => f x y z))) = true ->
  (lo1 <= x <= hi1)%N -> (lo2 <= y <= hi2)%N -> (lo3 <= z <= hi3)%N -> f x y z = true.
Proof.
  intros H Hx Hy Hz. apply (forall_N_sound lo3 hi3 (fun z => f x y z)); [|done].
  exact (forall_N_sound2 lo1 hi1 lo2 hi2 (fun x y => forall_N lo3 hi3 (fun z => f x y z)) x y H Hx Hy).
Qed.

(** A decidable property checked over [lo..hi]. *)
Lemma forall_N_decide (P : N -> Prop) `{!forall x, Decision (P x)} lo hi x :
  forall_N lo hi (fun x => bool_decide (P x)) = true -> (lo <= x <= hi)%N -> P x.
Proof. intros Hc Hx. apply (bool_decide_eq_true_1 (P x)). exact (forall_N_sound _ _ _ x Hc Hx). Qed.

(** A checked implication [implb c b] gives [b] where [c] holds. *)
Lemma implb_true_elim c b : implb c b = true -> c = true -> b = true.
Proof. by intros H ->. Qed.


(** ** Shared list lemmas *)

Create HintDb djultra discriminated.
Create Rewrite HintDb djultra_rw.

Lemma list_lookup_app_length {A} (l1 l2 : list A) i :
  (l1 ++ l2) !! (length l1 + i) = l2 !! i.
Proof. rewrite lookup_app_r by lia. f_equal. lia. Qed.

Lemma take_drop_middle_eq {A} (l : list A) i x :
  l !! i = Some x -> take i l ++ x :: drop (S i) l = l.
Proof. apply take_drop_middle. Qed.

(** An element of [l] contributes [f x], in place, to [l ≫= f]. *)
Lemma bind_elem_split {A B} (f : A -> list B) l x :
  x ∈ l -> exists pre post, l ≫= f = pre ++ f x ++ post.
Proof.
  intros (l1 & l2 & ->)%list_elem_of_split. exists (l1 ≫= f), (l2 ≫= f).
  by rewrite bind_app, bind_cons.
Qed.

#[export] Hint Resolve forall_below_sound : djultra.
#[export] Hint Rewrite @list_lookup_app_length : djultra_rw.
