(* ===== verification/PyStr.v ===== *)
(** * Python [str]: code points, the Unicode tables [str] and [re] use,
      and the [str] methods called by the sources

    A Python [str] is a sequence of Unicode code points, modelled as
    [list N].  The predicates [is_space], [is_word], [is_decimal] and the
    case mappings follow CPython's [unicodedata] for U+0000..U+017F (and
    the two code points U+02BC, U+039C that [str.upper] produces from that
    range); see the header of [Prelude] for the restriction.  String
    literals of the development are written in UTF-8 and decoded by [u].
    [int] of a string and [str] of a number, [dict]s with [str] keys in
    insertion order and [html.escape] are here too. *)

From S2P Require Import Prelude.
From Stdlib Require Import Ascii ZArith.
From Stdlib Require String.

Abbreviation pystr := (list N).

Local Open Scope N_scope.

(** ** UTF-8 decoding of the development's literals *)

Fixpoint utf8_decode (fuel : nat) (bs : list N) : pystr :=
  match fuel with
  | O => []
  | S fuel =>
    match bs with
    | [] => []
    | b0 :: rest =>
      if b0 <? 128 then b0 :: utf8_decode fuel rest
      else if b0 <? 224 then
        match rest with
        | b1 :: rest' => (N.land b0 31 * 64 + N.land b1 63) :: utf8_decode fuel rest'
        | [] => []
        end
      else
        match rest with
        | b1 :: b2 :: rest' =>
          (N.land b0 15 * 4096 + N.land b1 63 * 64 + N.land b2 63) :: utf8_decode fuel rest'
        | _ => []
        end
    end
  end.

(** [u "..."] is the Python string written by the literal. *)
Definition u (s : String.string) : pystr :=
  let bs := map N_of_ascii (String.list_ascii_of_string s) in
  utf8_decode (List.length bs) bs.

(** ** Character classes of the Unicode database *)

Definition in_range (lo hi c : N) : bool := (lo <=? c) && (c <=? hi).

(** [Py_UNICODE_ISSPACE]: the characters [\s] and [str.strip] use. *)
Definition is_space (c : N) : bool :=
  if c <? 128 then in_range 9 13 c || in_range 28 32 c
  else (c =? 133) || (c =? 160).

(** [Py_UNICODE_ISDECIMAL]: the characters [\d] and [int] accept. *)
Definition is_decimal (c : N) : bool := in_range 48 57 c.

(** [Py_UNICODE_ISALNUM] or the underscore: the characters of [\w]. *)
Definition is_word (c : N) : bool :=
  if c <? 128 then in_range 48 57 c || in_range 65 90 c || (c =? 95) || in_range 97 122 c
  else (c =? 170) || in_range 178 179 c || (c =? 181) || in_range 185 186 c
  || in_range 188 190 c || in_range 192 214 c || in_range 216 246 c
  || in_range 248 383 c || (c =? 700) || (c =? 924).

(** Latin Extended-A pairs capital/small letters: the capital is at the
    even code point in U+0100..U+0137 and U+014A..U+0177, at the odd one
    in U+0139..U+0148 and U+0179..U+017E. *)
Definition ext_a_small (c : N) : bool :=
  (in_range 256 311 c && N.odd c && negb (c =? 305))
  || (in_range 313 328 c && N.even c)
  || (in_range 330 375 c && N.odd c)
  || (in_range 378 382 c && N.even c).

Definition ext_a_capital (c : N) : bool :=
  (in_range 256 311 c && N.even c && negb (c =? 304))
  || (in_range 313 328 c && N.odd c)
  || (in_range 330 375 c && N.even c)
  || (in_range 377 381 c && N.odd c).

(** [str.upper] of one code point (the full mapping: [ß] gives [SS]). *)
Definition upper_char (c : N) : pystr :=
  if in_range 97 122 c then [c - 32]
  else if c =? 181 then [924]
  else if c =? 223 then [83; 83]
  else if in_range 224 246 c || in_range 248 254 c then [c - 32]
  else if c =? 255 then [376]
  else if c =? 305 then [73]
  else if c =? 329 then [700; 78]
  else if c =? 383 then [83]
  else if ext_a_small c then [c - 1]
  else [c].

(** [str.lower] of one code point (the full mapping: [İ] gives [i̇]). *)
Definition lower_char (c : N) : pystr :=
  if in_range 65 90 c then [c + 32]
  else if in_range 192 214 c || in_range 216 222 c then [c + 32]
  else if c =? 304 then [105; 775]
  else if c =? 376 then [255]
  else if c =? 924 then [956]
  else if ext_a_capital c then [c + 1]
  else [c].

(** The simple (one code point) lower and upper case mappings that
    [_sre] uses for [re.IGNORECASE]. *)
Definition sre_lower (c : N) : N :=
  if c =? 304 then 105
  else match lower_char c with [d] => d | _ => c end.

Definition sre_upper (c : N) : N :=
  match upper_char c with [d] => d | _ => c end.

(** The case-insensitive equivalences [_sre] adds to the simple mappings
    ([_ignorecase_fixes] of [re._compiler]) in the modelled range. *)
Definition icase_fixes (c : N) : list N :=
  if c =? 105 then [305] else if c =? 305 then [105]
  else if c =? 115 then [383] else if c =? 383 then [115]
  else if c =? 181 then [956] else if c =? 956 then [181]
  else [].

(** A literal [lit] of a pattern compiled with [re.IGNORECASE] accepts
    [c] when the lower case of [c] is the lower case of [lit] or one of
    its fixes ([LITERAL_UNI_IGNORE] and [IN_UNI_IGNORE] of [_sre]). *)
Definition icase_lit_match (lit c : N) : bool :=
  let lo := sre_lower lit in
  let lc := sre_lower c in
  (lc =? lo) || existsb (N.eqb lc) (icase_fixes lo).

(** ** The [str] methods *)

Definition py_upper (s : pystr) : pystr := s ≫= upper_char.
Definition py_lower (s : pystr) : pystr := s ≫= lower_char.

(** The title case of one code point, which [str.capitalize] puts first
    ([ß] gives [Ss]; elsewhere in the modelled range it is the upper
    case). *)
Definition title_char (c : N) : pystr :=
  if c =? 223 then [83; 115] else upper_char c.

(** [s.capitalize()]: the first character in title case, the others in
    lower case. *)
Definition py_capitalize (s : pystr) : pystr :=
  match s with
  | [] => []
  | c :: s' => title_char c ++ py_lower s'
  end.

(** [html.escape(s)] (with [quote=True]), which Django's [escape] calls. *)
Definition html_escape (s : pystr) : pystr :=
  s ≫= fun c =>
    if c =? 38 then [38; 97; 109; 112; 59] (* &amp; *)
    else if c =? 60 then [38; 108; 116; 59] (* &lt; *)
    else if c =? 62 then [38; 103; 116; 59] (* &gt; *)
    else if c =? 34 then [38; 113; 117; 111; 116; 59] (* &quot; *)
    else if c =? 39 then [38; 35; 120; 50; 55; 59] (* &#x27; *)
    else [c].

Fixpoint lstrip_by (p : N -> bool) (s : pystr) : pystr :=
  match s with
  | c :: s' => if p c then lstrip_by p s' else s
  | [] => []
  end.

Fixpoint take_while (p : N -> bool) (s : pystr) : pystr :=
  match s with
  | c :: s' => if p c then c :: take_while p s' else []
  | [] => []
  end.

Definition strip_by (p : N -> bool) (s : pystr) : pystr :=
  rev (lstrip_by p (rev (lstrip_by p s))).

(** [s.strip()] and [s.strip(chars)]. *)
Definition py_strip (s : pystr) : pystr := strip_by is_space s.
Definition py_strip_chars (chars s : pystr) : pystr :=
  strip_by (fun c => existsb (N.eqb c) chars) s.

(** [s.rstrip(chars)]. *)
Definition py_rstrip_chars (chars s : pystr) : pystr :=
  rev (lstrip_by (fun c => existsb (N.eqb c) chars) (rev s)).

Fixpoint is_prefix (p s : pystr) : bool :=
  match p, s with
  | [], _ => true
  | a :: p', b :: s' => (a =? b) && is_prefix p' s'
  | _ :: _, [] => false
  end.

Definition startswith (s p : pystr) : bool := is_prefix p s.
Definition endswith (s p : pystr) : bool := is_prefix (rev p) (rev s).

(** [s.replace(old, new)] for a non-empty [old]: every occurrence, left
    to right, without overlap.  [fuel] bounds the scan and [length s]
    is enough (each step consumes a character of [s]). *)
Fixpoint replace_aux (fuel : nat) (old new s : pystr) : pystr :=
  match fuel with
  | O => s
  | S fuel =>
    match s with
    | [] => []
    | c :: s' =>
      if is_prefix old s then new ++ replace_aux fuel old new (drop (length old) s)
      else c :: replace_aux fuel old new s'
    end
  end.

(** With an empty [old], Python inserts [new] around every character. *)
Definition py_replace (s old new : pystr) : pystr :=
  match old with
  | [] => new ++ (s ≫= fun c => c :: new)
  | _ :: _ => replace_aux (length s) old new s
  end.

(** [s.split(sep)] for a separator of one character: the pieces between
    the separators, the empty ones included ([''.split('/')] is
    [['']]). *)
Fixpoint split_char_aux (sep : N) (s cur : pystr) : list pystr :=
  match s with
  | [] => [rev cur]
  | x :: s' => if x =? sep then rev cur :: split_char_aux sep s' [] else split_char_aux sep s' (x :: cur)
  end.

Definition py_split_char (sep : N) (s : pystr) : list pystr := split_char_aux sep s [].

(** [sep.join(l)]. *)
Definition py_join (sep : pystr) (l : list pystr) : pystr :=
  match l with
  | [] => []
  | x :: l => x ++ (l ≫= fun y => sep ++ y)
  end.

(** [int(s)] of a string of decimal digits. *)
Definition digit_value (c : N) : N := c - 48.

Definition py_int (s : pystr) : N :=
  foldl (fun acc c => acc * 10 + digit_value c) 0 s.

(** Decimal digits with single underscores between them. *)
Fixpoint digit_groups (s : pystr) : bool :=
  match s with
  | [] => false
  | c :: s' =>
    is_decimal c &&
    match s' with
    | [] => true
    | d :: s'' => if d =? 95 then digit_groups s'' else digit_groups s'
    end
  end.

(** [int(value)]: surrounding whitespace, a sign, digit groups. *)
Definition py_int_of_str (value : pystr) : option Z :=
  let s := py_strip value in
  let '(sign, body) := match s with
                       | c :: b => if c =? 43 then (1%Z, b) else if c =? 45 then ((-1)%Z, b) else (1%Z, s)
                       | [] => (1%Z, [])
                       end in
  if digit_groups body then Some (Z.mul sign (Z.of_N (py_int (List.filter (fun c => negb (c =? 95)) body))))
  else None.

(** The decimal digits of a natural number, as [str(n)] prints them, and
    zero-padded to a width as [format(n, '02d')] does. *)
Definition digit_char (d : N) : N := 48 + d.

Fixpoint str_of_N_aux (fuel : nat) (n : N) (acc : pystr) : pystr :=
  match fuel with
  | O => acc
  | S fuel =>
    let acc' := digit_char (n mod 10) :: acc in
    if n <? 10 then acc' else str_of_N_aux fuel (n / 10) acc'
  end.

Definition str_of_N (n : N) : pystr := str_of_N_aux (S (N.to_nat (N.log2 n))) n [].

Definition pad_N (width : nat) (n : N) : pystr :=
  let s := str_of_N n in replicate (width - length s) 48 ++ s.

(** ** [dict]s with [str] keys, in insertion order *)

Fixpoint kv_lookup {A} (k : pystr) (kvs : list (pystr * A)) : option A :=
  match kvs with
  | [] => None
  | (k', v) :: kvs' => if bool_decide (k' = k) then Some v else kv_lookup k kvs'
  end.

(** [d[k] = v]: in place when [k] is a key, at the end otherwise. *)
Fixpoint kv_set {A} (k : pystr) (v : A) (kvs : list (pystr * A)) : list (pystr * A) :=
  match kvs with
  | [] => [(k, v)]
  | (k', v') :: kvs' => if bool_decide (k' = k) then (k, v) :: kvs' else (k', v') :: kv_set k v kvs'
  end.

Fixpoint kv_delete {A} (k : pystr) (kvs : list (pystr * A)) : list (pystr * A) :=
  match kvs with
  | [] => []
  | (k', v') :: kvs' => if bool_decide (k' = k) then kvs' else (k', v') :: kv_delete k kvs'
  end.

(** Python's [<] on [str]: code points compared lexicographically. *)
Fixpoint str_lt (s t : pystr) : bool :=
  match s, t with
  | _, [] => false
  | [], _ :: _ => true
  | c :: s', d :: t' => (c <? d) || ((c =? d) && str_lt s' t')
  end.

(** ** [int] and [str] on natural numbers *)

Lemma py_int_foldl_acc l a :
  foldl (fun acc c => acc * 10 + digit_value c) a l = a * 10 ^ N.of_nat (length l) + py_int l.
Proof.
  unfold py_int. revert a. induction l as [|c l IH]; intros a; simpl; [lia|].
  rewrite (IH (a * 10 + digit_value c)), (IH (0 * 10 + digit_value c)).
  rewrite Nat2N.inj_succ, N.pow_succ_r'. lia.
Qed.

Lemma py_int_cons c l :
  py_int (c :: l) = digit_value c * 10 ^ N.of_nat (length l) + py_int l.
Proof. unfold py_int at 1. simpl. by rewrite py_int_foldl_acc. Qed.

Lemma digit_value_char d : d < 10 -> digit_value (digit_char d) = d.
Proof. unfold digit_value, digit_char. lia. Qed.

Lemma str_of_N_aux_value fuel n acc :
  n < 10 ^ N.of_nat fuel ->
  py_int (str_of_N_aux fuel n acc) = n * 10 ^ N.of_nat (length acc) + py_int acc.
Proof.
  revert n acc. induction fuel as [|fuel IH]; intros n acc Hn; simpl in *.
  - assert (n = 0) as -> by lia. lia.
  - pose proof (N.mod_lt n 10 ltac:(lia)) as Hmod.
    pose proof (N.div_mod n 10 ltac:(lia)) as Hdm.
    destruct (n <? 10) eqn:E.
    + rewrite py_int_cons, digit_value_char by done.
      rewrite N.mod_small by (apply N.ltb_lt; done). lia.
    + rewrite Nat2N.inj_succ, N.pow_succ_r' in Hn.
      rewrite IH by (apply N.Div0.div_lt_upper_bound; lia).
      simpl length. rewrite py_int_cons, digit_value_char, Nat2N.inj_succ, N.pow_succ_r' by done.
      nia.
Qed.

Lemma str_of_N_fuel n : n < 10 ^ N.of_nat (S (N.to_nat (N.log2 n))).
Proof.
  rewrite Nat2N.inj_succ, N2Nat.id.
  destruct (N.eq_dec n 0) as [->|Hn]; [simpl; lia|].
  apply N.lt_le_trans with (2 ^ N.succ (N.log2 n)).
  - apply N.log2_spec. lia.
  - apply N.pow_le_mono_l. lia.
Qed.

Lemma py_int_zeros k l : py_int (replicate k 48 ++ l) = py_int l.
Proof. induction k as [|k IH]; [done|]. simpl. rewrite py_int_cons, IH. unfold digit_value. lia. Qed.

(** [int] reads back what [format(n, '0wd')] prints: the digits of
    [str(n)], padded with zeros to the width. *)
Theorem py_int_pad_N w n : py_int (pad_N w n) = n.
Proof.
  unfold pad_N, str_of_N. rewrite py_int_zeros, str_of_N_aux_value by apply str_of_N_fuel.
  cbn [length N.of_nat]. rewrite N.pow_0_r. unfold py_int. simpl. lia.
Qed.

Lemma py_int_str_of_N n : py_int (str_of_N n) = n.
Proof. pose proof (py_int_pad_N 0 n) as H. unfold pad_N in H. by rewrite Nat.sub_0_l in H. Qed.

Lemma str_of_N_aux_digits fuel n acc :
  Forall (fun c => is_decimal c = true) acc ->
  Forall (fun c => is_decimal c = true) (str_of_N_aux fuel n acc) /\
  (fuel <> O -> str_of_N_aux fuel n acc <> []).
Proof.
  revert n acc. induction fuel as [|fuel IH]; intros n acc Hacc; cbn [str_of_N_aux]; [done|].
  assert (Hd : is_decimal (digit_char (n mod 10)) = true).
  { unfold is_decimal, in_range, digit_char. pose proof (N.mod_lt n 10 ltac:(lia)) as Hm.
    revert Hm. generalize (n mod 10). intros d Hd.
    apply andb_true_iff. split; apply N.leb_le; lia. }
  destruct (n <? 10).
  - split; [by constructor|done].
  - destruct (IH (n / 10) (digit_char (n mod 10) :: acc)) as [H1 H2]; [by constructor|].
    split; [done|]. intros _. destruct fuel; [done|]. by apply H2.
Qed.

Lemma str_of_N_digits n : Forall (fun c => is_decimal c = true) (str_of_N n) /\ str_of_N n <> [].
Proof.
  destruct (str_of_N_aux_digits (S (N.to_nat (N.log2 n))) n [] (List.Forall_nil _)) as [H1 H2].
  split; [done|]. by apply H2.
Qed.

(** [str(n)] of a positive [n] starts with a digit other than [0]. *)
Lemma str_of_N_aux_head fuel n acc :
  0 < n -> n < 10 ^ N.of_nat fuel -> exists c t, str_of_N_aux fuel n acc = c :: t /\ 49 <= c <= 57.
Proof.
  revert n acc. induction fuel as [|fuel IH]; intros n acc Hn Hf; [simpl in Hf; lia|].
  cbn [str_of_N_aux]. pose proof (N.mod_lt n 10 ltac:(lia)). destruct (N.ltb_spec n 10).
  - rewrite N.mod_small by done. unfold digit_char. eexists _, _. split; [done|lia].
  - apply IH; [apply N.div_str_pos; lia|].
    rewrite Nat2N.inj_succ, N.pow_succ_r' in Hf. apply N.Div0.div_lt_upper_bound; lia.
Qed.

Lemma str_of_N_head n : 0 < n -> exists c t, str_of_N n = c :: t /\ 49 <= c <= 57.
Proof. intros Hn. apply str_of_N_aux_head; [done|apply str_of_N_fuel]. Qed.

(** [str(n)] built with an accumulator is [str(n)] followed by it. *)
Lemma str_of_N_aux_acc fuel n acc : str_of_N_aux fuel n acc = str_of_N_aux fuel n [] ++ acc.
Proof.
  revert n acc. induction fuel as [|fuel IH]; intros n acc; [done|]. cbn [str_of_N_aux].
  destruct (n <? 10); [done|]. rewrite (IH _ (_ :: acc)), (IH _ [_]), <- app_assoc. done.
Qed.

(** Any fuel of at least one digit and enough for [n] gives the same
    digits. *)
Lemma str_of_N_aux_fuel_indep f1 f2 n acc :
  (0 < f1)%nat -> (0 < f2)%nat -> n < 10 ^ N.of_nat f1 -> n < 10 ^ N.of_nat f2 ->
  str_of_N_aux f1 n acc = str_of_N_aux f2 n acc.
Proof.
  revert f2 n acc. induction f1 as [|f1 IH]; intros [|f2] n acc H1 H2 Hn1 Hn2; try lia.
  cbn [str_of_N_aux]. destruct (n <? 10) eqn:E; [done|]. apply N.ltb_ge in E.
  rewrite Nat2N.inj_succ, N.pow_succ_r' in Hn1, Hn2.
  destruct f1, f2; simpl in Hn1, Hn2; try lia.
  apply IH; try lia; apply N.Div0.div_lt_upper_bound; lia.
Qed.

Lemma str_of_N_aux_S fuel n acc :
  str_of_N_aux (S fuel) n acc =
  if n <? 10 then digit_char (n mod 10) :: acc
  else str_of_N_aux fuel (n / 10) (digit_char (n mod 10) :: acc).
Proof. reflexivity. Qed.

(** [str(10 * n)] is [str(n)] followed by a zero, for [n > 0]. *)
Lemma str_of_N_mul10 n : 0 < n -> str_of_N (10 * n) = str_of_N n ++ [48].
Proof.
  intros Hn. unfold str_of_N at 1.
  pose proof (str_of_N_fuel (10 * n)) as Hf. pose proof (str_of_N_fuel n) as Hf'.
  remember (N.to_nat (N.log2 (10 * n))) as L eqn:HL.
  assert (1 <= L)%nat.
  { subst L. assert (1 <= N.log2 (10 * n)) by (apply N.log2_le_pow2; lia). lia. }
  rewrite str_of_N_aux_S.
  replace ((10 * n) mod 10) with 0 by (rewrite N.mul_comm, N.Div0.mod_mul; lia).
  replace (10 * n <? 10) with false by (symmetry; apply N.ltb_ge; lia).
  replace (10 * n / 10) with n by (rewrite N.mul_comm, N.div_mul; lia).
  rewrite str_of_N_aux_acc. f_equal. apply str_of_N_aux_fuel_indep; try lia.
  rewrite Nat2N.inj_succ, N.pow_succ_r' in Hf. lia.
Qed.
(** ** [str.replace] of one character *)

Lemma replace_aux_char_cons fuel c new x s :
  replace_aux (S fuel) [c] new (x :: s)
  = if x =? c then new ++ replace_aux fuel [c] new s else x :: replace_aux fuel [c] new s.
Proof. simpl. by destruct (c =? x) eqn:E1, (x =? c) eqn:E2; try rewrite N.eqb_sym, E1 in E2. Qed.

Lemma py_replace_char_not_in c new s :
  c ∉ new -> c ∉ py_replace s [c] new.
Proof.
  intros Hn. unfold py_replace. induction s as [|x s IH]; [simpl; set_solver|].
  cbn [length]. rewrite replace_aux_char_cons.
  destruct (N.eqb_spec x c) as [->|Hx]; rewrite ?elem_of_app, ?elem_of_cons; [tauto|].
  intros [->|?]; [done | by apply IH].
Qed.

Lemma py_replace_char_length c new s :
  length new = 1%nat -> length (py_replace s [c] new) = length s.
Proof.
  intros Hn. unfold py_replace. induction s as [|x s IH]; [done|].
  cbn [length]. rewrite replace_aux_char_cons.
  destruct (x =? c); simpl; [rewrite length_app, Hn|]; simpl; lia.
Qed.

Lemma py_replace_char_absent c new s :
  c ∉ s -> py_replace s [c] new = s.
Proof.
  unfold py_replace. induction s as [|x s IH]; [done|]. intros Hc.
  cbn [length]. rewrite replace_aux_char_cons, elem_of_cons in *.
  destruct (N.eqb_spec x c) as [->|]; [tauto|]. f_equal. apply IH. tauto.
Qed.

(** [str.replace] of one character is a substitution of that character. *)
Lemma py_replace_char_bind c new s :
  py_replace s [c] new = s ≫= (fun x => if x =? c then new else [x]).
Proof.
  unfold py_replace. induction s as [|x s IH]; [done|].
  cbn [length]. rewrite replace_aux_char_cons, IH. simpl. by destruct (x =? c).
Qed.

(** ** Stripping *)

Lemma lstrip_by_app_all p l1 l2 : Forall (fun c => p c = true) l1 -> lstrip_by p (l1 ++ l2) = lstrip_by p l2.
Proof. induction 1 as [|x l1 Hx _ IH]; simpl; [done|]. by rewrite Hx. Qed.

Lemma lstrip_by_stop p c l : p c = false -> lstrip_by p (c :: l) = c :: l.
Proof. simpl. by intros ->. Qed.

Lemma lstrip_by_none p s : Forall (fun c => p c = false) s -> lstrip_by p s = s.
Proof. destruct s as [|c s]; [done|]. intros [Hc _]%Forall_cons. by apply lstrip_by_stop. Qed.

(** A string that neither starts nor ends with white space, followed by
    white space only, is stripped to itself. *)
Lemma py_strip_app_space t w :
  Forall (fun c => is_space c = false) t -> t <> [] -> Forall (fun c => is_space c = true) w ->
  py_strip (t ++ w) = t.
Proof.
  intros Ht Hne Hw. unfold py_strip, strip_by.
  assert (lstrip_by is_space (t ++ w) = t ++ w) as ->.
  { destruct t as [|c t']; [done|]. apply Forall_cons in Ht as [Hc _]. simpl. by rewrite Hc. }
  rewrite rev_app_distr, lstrip_by_app_all by (by apply Forall_rev).
  assert (lstrip_by is_space (rev t) = rev t) as ->; [|apply rev_involutive].
  destruct (rev t) as [|d r] eqn:E; [done|]. apply lstrip_by_stop.
  assert (In d t) as Hd by (apply in_rev; rewrite E; by left).
  rewrite Forall_forall in Ht. by apply Ht, list_elem_of_In.
Qed.

(** [s.startswith(p)] compares the first [len(p)] characters. *)
Lemma is_prefix_spec p s : is_prefix p s = true <-> take (length p) s = p.
Proof.
  revert s. induction p as [|a p IH]; intros [|b s]; cbn; try done.
  rewrite andb_true_iff, N.eqb_eq, IH. split; [by intros [-> ->]|]. by intros [= -> ->].
Qed.

(** ** [take_while] *)

Lemma take_while_split p t :
  t = take_while p t ++ drop (length (take_while p t)) t /\
  (drop (length (take_while p t)) t = [] \/
   exists c t', drop (length (take_while p t)) t = c :: t' /\ p c = false).
Proof.
  induction t as [|c t IH]; simpl; [by split; [|left]|].
  destruct (p c) eqn:E; simpl.
  - destruct IH as [IH1 IH2]. split; [by f_equal|done].
  - split; [done|]. right. eauto.
Qed.

Lemma take_while_all p t : Forall (fun c => p c = true) (take_while p t).
Proof. induction t as [|c t IH]; simpl; [done|]. destruct (p c) eqn:E; by constructor. Qed.

(** [take_while] stops at the first character that fails. *)
Lemma take_while_app p l r :
  Forall (fun c => p c = true) l -> (match r with c :: _ => p c = false | [] => True end) ->
  take_while p (l ++ r) = l.
Proof.
  intros Hl Hr. induction Hl as [|c l Hc _ IH]; simpl.
  - destruct r as [|c r]; [done|]. simpl. by rewrite Hr.
  - by rewrite Hc, IH.
Qed.

(** ** [dict]s *)

Lemma kv_lookup_Some_in {A} k (kvs : list (pystr * A)) x : kv_lookup k kvs = Some x -> k ∈ kvs.*1.
Proof.
  induction kvs as [|[k' x'] kvs IH]; [done|]. cbn. case_bool_decide; [subst; left|].
  intros Hk. right. by apply IH.
Qed.

Lemma kv_lookup_set_eq {A} k (x : A) kvs : kv_lookup k (kv_set k x kvs) = Some x.
Proof.
  induction kvs as [|[k' v'] kvs IH]; simpl; [by rewrite bool_decide_true|].
  case_bool_decide; simpl; [by rewrite bool_decide_true|]. by rewrite bool_decide_false.
Qed.

Lemma kv_lookup_set_ne {A} k k' (x : A) kvs : k <> k' -> kv_lookup k (kv_set k' x kvs) = kv_lookup k kvs.
Proof.
  intros Hne. induction kvs as [|[k1 v1] kvs IH]; simpl; [by rewrite bool_decide_false|].
  case_bool_decide; subst; simpl.
  - by rewrite !bool_decide_false by done.
  - case_bool_decide; [done|]. apply IH.
Qed.

Lemma kv_lookup_delete_eq {A} k (kvs : list (pystr * A)) :
  NoDup kvs.*1 -> kv_lookup k (kv_delete k kvs) = None.
Proof.
  induction kvs as [|[k' v'] kvs IH]; simpl; [done|]. rewrite NoDup_cons. intros [Hk Hnd].
  case_bool_decide as E; simpl.
  - subst k'. clear IH. induction kvs as [|[k'' v''] kvs IH']; simpl in *; [done|].
    rewrite elem_of_cons in Hk. apply NoDup_cons in Hnd as [_ Hnd].
    rewrite bool_decide_false by (intros ->; tauto). apply IH'; [tauto|done].
  - rewrite bool_decide_false by done. by apply IH.
Qed.

Lemma kv_set_absent {A} k (v : A) acc : k ∉ acc.*1 -> kv_set k v acc = acc ++ [(k, v)].
Proof.
  induction acc as [|[k' v'] acc IH]; [done|]. cbn [fmap list_fmap fst]. intros Hk.
  apply not_elem_of_cons in Hk as [Hk Hacc]. cbn [kv_set]. rewrite bool_decide_false by congruence.
  by rewrite IH.
Qed.

(** Setting the last key of a dict whose other keys differ. *)
Lemma kv_set_last {A} k (x y : A) acc :
  k ∉ acc.*1 -> kv_set k x (acc ++ [(k, y)]) = acc ++ [(k, x)].
Proof.
  induction acc as [|[k' v'] acc IH]; cbn; [by rewrite bool_decide_true|].
  intros Hk. apply not_elem_of_cons in Hk as [Hk Hacc]. rewrite bool_decide_false by congruence.
  by rewrite IH.
Qed.

Lemma kv_lookup_last {A} k (y : A) acc : k ∉ acc.*1 -> kv_lookup k (acc ++ [(k, y)]) = Some y.
Proof.
  induction acc as [|[k' v'] acc IH]; cbn; [by rewrite bool_decide_true|].
  intros Hk. apply not_elem_of_cons in Hk as [Hk Hacc]. rewrite bool_decide_false by congruence.
  by apply IH.
Qed.

Lemma kv_set_values {A} (P : A -> Prop) k x (kvs : list (pystr * A)) :
  Forall (fun kv => P kv.2) kvs -> P x -> Forall (fun kv => P kv.2) (kv_set k x kvs).
Proof.
  intros Hall Hx. induction Hall as [|[k' v'] kvs Hv Hall IH]; simpl; [by constructor|].
  case_bool_decide; constructor; auto.
Qed.

(** The keys after [d[k] = x]: unchanged when [k] is one, [k] added last
    otherwise. *)
Lemma kv_set_keys {A} k (x : A) kvs :
  (kv_set k x kvs).*1 = if bool_decide (k ∈ kvs.*1) then kvs.*1 else kvs.*1 ++ [k].
Proof.
  induction kvs as [|[k' v'] kvs IH]; [by rewrite bool_decide_false by set_solver|].
  cbn [kv_set]. destruct (decide (k' = k)) as [<-|Hne].
  - rewrite bool_decide_true by done. rewrite !fmap_cons. cbn [fst]. by rewrite bool_decide_true by left.
  - rewrite bool_decide_false by done. rewrite !fmap_cons, IH. cbn [fst].
    destruct (decide (k ∈ kvs.*1)) as [Hin|Hin].
    + rewrite (bool_decide_true (k ∈ kvs.*1)) by done. by rewrite bool_decide_true by (by right).
    + rewrite (bool_decide_false (k ∈ kvs.*1)) by done.
      by rewrite bool_decide_false by (rewrite elem_of_cons; intros [->|]; done).
Qed.

Lemma kv_set_nodup {A} k (x : A) kvs : NoDup kvs.*1 -> NoDup (kv_set k x kvs).*1.
Proof.
  intros Hnd. rewrite kv_set_keys. case_bool_decide; [done|].
  apply NoDup_app. split_and!; [done| |by apply NoDup_singleton]. set_solver.
Qed.

Lemma kv_lookup_notin {A} k (kvs : list (pystr * A)) : k ∉ kvs.*1 -> kv_lookup k kvs = None.
Proof.
  induction kvs as [|[k' v'] kvs IH]; simpl; [done|]. rewrite not_elem_of_cons. intros [Hk Hn].
  rewrite bool_decide_false by congruence. by apply IH.
Qed.

Lemma kv_lookup_delete_ne {A} k k' (kvs : list (pystr * A)) :
  k <> k' -> kv_lookup k (kv_delete k' kvs) = kv_lookup k kvs.
Proof.
  intros Hne. induction kvs as [|[k1 v1] kvs IH]; simpl; [done|].
  case_bool_decide; subst; simpl.
  - by rewrite bool_decide_false by done.
  - case_bool_decide; [done|]. apply IH.
Qed.

(** ** [str.upper] is idempotent *)

Lemma upper_char_above c : 384 <= c -> upper_char c = [c].
Proof.
  intros Hc. assert (E : forall lo hi, hi < c -> in_range lo hi c = false).
  { intros lo hi Hhi. unfold in_range. apply andb_false_iff. right. apply N.leb_gt. lia. }
  unfold upper_char, ext_a_small. rewrite !E by lia.
  repeat rewrite (proj2 (N.eqb_neq c _)) by lia. reflexivity.
Qed.

Lemma py_upper_app s t : py_upper (s ++ t) = py_upper s ++ py_upper t.
Proof. apply bind_app. Qed.

Lemma upper_char_idem c : py_upper (upper_char c) = upper_char c.
Proof.
  destruct (N.lt_ge_cases c 384) as [Hc|Hc].
  - assert (Hchk : forall_N 0 383 (fun c => bool_decide (py_upper (upper_char c) = upper_char c)) = true)
      by (vm_compute; reflexivity).
    pose proof (forall_N_sound _ _ _ c Hchk ltac:(lia)) as H. cbv beta in H. by apply bool_decide_eq_true in H.
  - rewrite upper_char_above by done. unfold py_upper. cbn. by rewrite upper_char_above, app_nil_r.
Qed.

Lemma py_upper_idem s : py_upper (py_upper s) = py_upper s.
Proof.
  induction s as [|c s IH]; [done|]. unfold py_upper in *. rewrite bind_cons, bind_app.
  fold (py_upper (upper_char c)). by rewrite upper_char_idem, IH.
Qed.

(** ** [html.escape] *)

Lemma html_escape_char_safe c :
  Forall (fun d => d <> 60 /\ d <> 62 /\ d <> 34 /\ d <> 39)
    (if c =? 38 then [38; 97; 109; 112; 59] else if c =? 60 then [38; 108; 116; 59]
     else if c =? 62 then [38; 103; 116; 59] else if c =? 34 then [38; 113; 117; 111; 116; 59]
     else if c =? 39 then [38; 35; 120; 50; 55; 59] else [c]).
Proof.
  repeat (case N.eqb_spec; intros); repeat constructor; lia.
Qed.

(** [html.escape] leaves no markup character: no [<], [>], double or
    single quote. *)
Lemma html_escape_safe s :
  Forall (fun c => c <> 60 /\ c <> 62 /\ c <> 34 /\ c <> 39) (html_escape s).
Proof. unfold html_escape. apply Forall_bind, Forall_forall. intros c _. apply html_escape_char_safe. Qed.

(** ** Digits *)

Lemma decimal_not_space c : is_decimal c = true -> is_space c = false.
Proof.
  unfold is_decimal, is_space, in_range. intros [H1 H2]%andb_true_iff.
  apply N.leb_le in H1, H2. rewrite (proj2 (N.ltb_lt c 128)) by lia.
  apply orb_false_iff. split; apply andb_false_iff; right; apply N.leb_gt; lia.
Qed.

Lemma digit_groups_decimal s : s <> [] -> Forall (fun c => is_decimal c = true) s -> digit_groups s = true.
Proof.
  induction s as [|c s IH]; intros Hne Hs; [done|]. apply Forall_cons in Hs as [Hc Hs].
  cbn [digit_groups]. rewrite Hc. destruct s as [|d s]; [done|].
  apply Forall_cons in Hs as Hd. destruct Hd as [Hd _].
  rewrite (proj2 (N.eqb_neq d 95)); [by apply IH|]. intros ->. by vm_compute in Hd.
Qed.

Lemma py_strip_decimal s : Forall (fun c => is_decimal c = true) s -> py_strip s = s.
Proof.
  intros Hs. assert (Hn : Forall (fun c => is_space c = false) s).
  { eapply Forall_impl; [exact Hs|]. intros c. apply decimal_not_space. }
  unfold py_strip, strip_by. rewrite (lstrip_by_none is_space s Hn).
  rewrite lstrip_by_none; [apply rev_involutive|]. by apply Forall_rev.
Qed.

Lemma filter_no_underscore s :
  Forall (fun c => is_decimal c = true) s -> List.filter (fun c => negb (c =? 95)) s = s.
Proof.
  induction s as [|c s IH]; intros Hs; [done|]. apply Forall_cons in Hs as [Hc Hs].
  cbn. rewrite IH by done. destruct (c =? 95) eqn:E; [|done].
  apply N.eqb_eq in E. subst c. discriminate.
Qed.

Lemma py_int_of_str_N n : py_int_of_str (str_of_N n) = Some (Z.of_N n).
Proof.
  destruct (str_of_N_digits n) as [Hd Hne]. unfold py_int_of_str. rewrite py_strip_decimal by done.
  destruct (str_of_N n) as [|c s] eqn:E; [done|].
  assert (Hc : c <> 43 /\ c <> 45).
  { apply Forall_cons in Hd as [Hc _]. split; intros ->; by vm_compute in Hc. }
  destruct Hc as [H1 H2]. rewrite (proj2 (N.eqb_neq c 43) H1), (proj2 (N.eqb_neq c 45) H2).
  rewrite digit_groups_decimal by done. rewrite filter_no_underscore by done.
  rewrite <- E, py_int_str_of_N. f_equal. lia.
Qed.
