(* ===== verification/Regex.v ===== *)
(** * Python's [re]: patterns, the backtracking matcher, [search] and [sub]

    The sources call [re.sub], [re.compile(...).match] and [re.search] on
    literal patterns.  This file models the part of [re] they rely on:
    - [re_parse]: the pattern syntax of [re._parser] that the sources use
      (literals, escapes, classes, groups, named groups, alternation,
      greedy and lazy quantifiers, anchors, back-references);
    - [mtch]: the matcher of [_sre], in continuation-passing style: a
      pattern is tried in the priority order of the backtracking engine
      and the first success is the match, as [re] returns it;
    - [re_match], [re_search], [re_sub]: the module functions, with the
      rule of Python 3.7 that a match may not be empty at the position
      where the previous match ended.

    Bounded quantifiers are expanded ([r{2}] is [r r], [r{1,3}] is
    [r (r r?)?]) and [r+] is [r r*]; a starred body must consume a
    character at each iteration, as the bodies of the sources' patterns
    always do. *)

From S2P Require Import Prelude PyStr.
From Stdlib Require String.

(** ** Syntax *)

Inductive class_item : Type :=
| CChar (c : N)
| CRange (lo hi : N)
| CWord | CNotWord | CSpace | CNotSpace | CDigit | CNotDigit.

Inductive regex : Type :=
| REmpty
| RChar (c : N)
| RAny
| RClass (neg : bool) (items : list class_item)
| RSeq (r1 r2 : regex)
| RAlt (r1 r2 : regex)
| RStar (greedy : bool) (r : regex)
| RGroup (g : nat) (r : regex)
| RBackref (g : nat)
| RBol | REol | REnd | RWordB | RNotWordB.

(** A compiled pattern: the expression, its named groups, its flag. *)
Record pattern : Type := Pattern {
  pat_re : regex;
  pat_names : list (pystr * nat);
  pat_icase : bool
}.

(** ** The matcher *)

Definition item_match (icase : bool) (it : class_item) (c : N) : bool :=
  match it with
  | CChar l => if icase then icase_lit_match l c else (c =? l)%N
  | CRange lo hi =>
    if icase then in_range lo hi (sre_lower c) || in_range lo hi (sre_upper (sre_lower c))
    else in_range lo hi c
  | CWord => is_word c
  | CNotWord => negb (is_word c)
  | CSpace => is_space c
  | CNotSpace => negb (is_space c)
  | CDigit => is_decimal c
  | CNotDigit => negb (is_decimal c)
  end.

Definition class_match (icase neg : bool) (items : list class_item) (c : N) : bool :=
  xorb neg (existsb (fun it => item_match icase it c) items).

Definition char_match (icase : bool) (l c : N) : bool :=
  if icase then icase_lit_match l c else (c =? l)%N.

(** The state of a match: the position and the spans of the groups
    matched so far, the most recent first. *)
Record mstate : Type := MState { mpos : nat; mcaps : list (nat * (nat * nat)) }.

Fixpoint cap_lookup (g : nat) (caps : list (nat * (nat * nat))) : option (nat * nat) :=
  match caps with
  | [] => None
  | (g', span) :: caps' => if g' =? g then Some span else cap_lookup g caps'
  end.

Definition slice (i j : nat) (s : pystr) : pystr := take (j - i) (drop i s).

Section Matcher.
Context (icase : bool) (s : pystr).

Definition at_word (i : nat) : bool :=
  match s !! i with Some c => is_word c | None => false end.

(** [\b] of [_sre] ([SRE_AT_UNI_BOUNDARY]): never in the empty string. *)
Definition at_boundary (i : nat) : bool :=
  match s with
  | [] => false
  | _ :: _ => xorb (match i with O => false | S j => at_word j end) (at_word i)
  end.

Definition advance (st : mstate) : mstate := MState (S (mpos st)) (mcaps st).

Definition step_char (p : N -> bool) (st : mstate) (k : mstate -> option mstate) :
    option mstate :=
  match s !! mpos st with
  | Some c => if p c then k (advance st) else None
  | None => None
  end.

Definition orelse (a : option mstate) (b : unit -> option mstate) : option mstate :=
  match a with Some x => Some x | None => b tt end.

(** The iterations of a starred body [body]: each must advance;
    [greedy] tries one more iteration before the continuation, a lazy
    star the continuation first.  [fuel] bounds the iterations; the
    caller gives one more than the characters left, which is enough
    ([star_fuel_enough]). *)
Fixpoint star_loop (body : mstate -> (mstate -> option mstate) -> option mstate)
    (greedy : bool) (k : mstate -> option mstate) (fuel : nat) (st : mstate) :
    option mstate :=
  match fuel with
  | O => k st
  | S fuel =>
    let more := fun _ : unit =>
      body st (fun st1 => if mpos st1 =? mpos st then None
                          else star_loop body greedy k fuel st1) in
    if greedy then orelse (more tt) (fun _ => k st)
    else orelse (k st) more
  end.

Fixpoint mtch (r : regex) (st : mstate) (k : mstate -> option mstate) {struct r} :
    option mstate :=
  match r with
  | REmpty => k st
  | RChar l => step_char (char_match icase l) st k
  | RAny => step_char (fun c => negb (c =? 10)%N) st k
  | RClass neg items => step_char (class_match icase neg items) st k
  | RSeq r1 r2 => mtch r1 st (fun st1 => mtch r2 st1 k)
  | RAlt r1 r2 => orelse (mtch r1 st k) (fun _ => mtch r2 st k)
  | RStar greedy r1 =>
    star_loop (fun st' k' => mtch r1 st' k') greedy k (S (length s - mpos st)) st
  | RGroup g r1 =>
    mtch r1 st (fun st1 => k (MState (mpos st1) ((g, (mpos st, mpos st1)) :: mcaps st1)))
  | RBackref g =>
    match cap_lookup g (mcaps st) with
    | Some (i, j) =>
      let w := slice i j s in
      if is_prefix w (drop (mpos st) s)
      then k (MState (mpos st + length w) (mcaps st)) else None
    | None => None
    end
  | RBol => if mpos st =? 0 then k st else None
  | REol =>
    if (mpos st =? length s)
       || ((S (mpos st) =? length s) && bool_decide (s !! mpos st = Some 10%N))
    then k st else None
  | REnd => if mpos st =? length s then k st else None
  | RWordB => if at_boundary (mpos st) then k st else None
  | RNotWordB =>
    match s with
    | [] => None
    | _ :: _ => if at_boundary (mpos st) then None else k st
    end
  end.
End Matcher.

(** A match object: where it starts and the final state. *)
Record match_obj : Type := MatchObj { m_start : nat; m_state : mstate }.

Definition m_end (mo : match_obj) : nat := mpos (m_state mo).

(** [pattern.match(s, pos)]; with [must_adv] an empty match is refused. *)
Definition re_match_at (p : pattern) (s : pystr) (pos : nat) (must_adv : bool) :
    option match_obj :=
  MatchObj pos <$>
    mtch (pat_icase p) s (pat_re p) (MState pos [])
      (fun st => if must_adv && (mpos st =? pos) then None else Some st).

Definition re_match (p : pattern) (s : pystr) : option match_obj := re_match_at p s 0 false.

Fixpoint first_some {A B} (f : A -> option B) (l : list A) : option B :=
  match l with
  | [] => None
  | x :: l' => match f x with Some y => Some y | None => first_some f l' end
  end.

(** [pattern.search(s, pos)]: the leftmost position where a match starts. *)
Definition re_search_from (p : pattern) (s : pystr) (pos : nat) (must_adv : bool) :
    option match_obj :=
  first_some (fun i => re_match_at p s i (must_adv && (i =? pos)))
    (seq pos (S (length s - pos))).

Definition re_search (p : pattern) (s : pystr) : option match_obj :=
  re_search_from p s 0 false.

(** The text of group [g] of a match ([m.group(g)], [None] unmatched). *)
Definition group (s : pystr) (mo : match_obj) (g : nat) : option pystr :=
  if g =? 0 then Some (slice (m_start mo) (m_end mo) s)
  else (fun ij => slice (fst ij) (snd ij) s) <$> cap_lookup g (mcaps (m_state mo)).

Definition group_named (p : pattern) (s : pystr) (mo : match_obj) (name : pystr) :
    option pystr :=
  match list_find (fun ng => fst ng = name) (pat_names p) with
  | Some (_, (_, g)) => group s mo g
  | None => None
  end.

(** ** [re.sub] *)

Inductive tpiece : Type := TLit (c : N) | TGroup (g : nat).

(** [re._parser.parse_template] for the templates of the sources: a
    backslash followed by one or two digits is a group reference, a
    doubled backslash is a backslash, every other character is itself. *)
Fixpoint parse_template (t : pystr) : list tpiece :=
  match t with
  | [] => []
  | c :: rest =>
    if (c =? 92)%N then
      match rest with
      | d1 :: rest1 =>
        if is_decimal d1 then
          match rest1 with
          | d2 :: rest2 =>
            if is_decimal d2
            then TGroup (N.to_nat (digit_value d1 * 10 + digit_value d2)) :: parse_template rest2
            else TGroup (N.to_nat (digit_value d1)) :: parse_template rest1
          | [] => [TGroup (N.to_nat (digit_value d1))]
          end
        else if (d1 =? 92)%N then TLit 92 :: parse_template rest1
        else TLit 92 :: parse_template rest
      | [] => [TLit 92]
      end
    else TLit c :: parse_template rest
  end.

Definition expand (s : pystr) (mo : match_obj) (tmpl : list tpiece) : pystr :=
  tmpl ≫= fun pc =>
    match pc with
    | TLit c => [c]
    | TGroup g => default [] (group s mo g)
    end.

(** The loop of [pattern_subx] in [_sre]: copy the text before the next
    match, then the expanded template, and go on from the end of the
    match; after an empty match the next one must advance.  Two steps per
    character are enough fuel. *)
Fixpoint sub_loop (fuel : nat) (p : pattern) (tmpl : list tpiece) (s : pystr)
    (pos : nat) (must_adv : bool) : pystr :=
  match fuel with
  | O => drop pos s
  | S fuel =>
    match re_search_from p s pos must_adv with
    | None => drop pos s
    | Some mo =>
      slice pos (m_start mo) s ++ expand s mo tmpl
        ++ sub_loop fuel p tmpl s (m_end mo) (m_end mo =? m_start mo)
    end
  end.

Definition re_sub (p : pattern) (repl : pystr) (s : pystr) : pystr :=
  sub_loop (2 * length s + 2) p (parse_template repl) s 0 false.

(** ** The pattern syntax ([re._parser]) *)

(** Code points of the syntax characters. *)
Definition ch_bslash : N := 92.
Definition ch_lpar : N := 40.
Definition ch_rpar : N := 41.
Definition ch_lbrack : N := 91.
Definition ch_rbrack : N := 93.
Definition ch_bar : N := 124.
Definition ch_star : N := 42.
Definition ch_plus : N := 43.
Definition ch_quest : N := 63.
Definition ch_lbrace : N := 123.
Definition ch_rbrace : N := 125.
Definition ch_comma : N := 44.
Definition ch_caret : N := 94.
Definition ch_dollar : N := 36.
Definition ch_dot : N := 46.
Definition ch_minus : N := 45.
Definition ch_colon : N := 58.
Definition ch_lt : N := 60.
Definition ch_gt : N := 62.
Definition ch_P : N := 80.

(** The escapes of a class or of an atom that name a category. *)
Definition category_escape (c : N) : option class_item :=
  if (c =? 119)%N then Some CWord else if (c =? 87)%N then Some CNotWord
  else if (c =? 115)%N then Some CSpace else if (c =? 83)%N then Some CNotSpace
  else if (c =? 100)%N then Some CDigit else if (c =? 68)%N then Some CNotDigit
  else None.

(** An escaped character that stands for itself or a control character. *)
Definition literal_escape (c : N) : N :=
  if (c =? 110)%N then 10 else if (c =? 116)%N then 9
  else if (c =? 114)%N then 13 else c.

(** One character of a class: an escape or a plain character. *)
Definition class_char (s : pystr) : option (N * pystr) :=
  match s with
  | c :: d :: rest => if (c =? ch_bslash)%N then Some (literal_escape d, rest) else Some (c, d :: rest)
  | [c] => Some (c, [])
  | [] => None
  end.

(** The items of a class up to its closing bracket.  A bracket right
    after the opening one (or after [^]) is a literal, a dash before the
    closing bracket is a literal. *)
Fixpoint parse_class_items (fuel : nat) (first : bool) (s : pystr) :
    option (list class_item * pystr) :=
  match fuel with
  | O => None
  | S fuel =>
    match s with
    | [] => None
    | c :: rest =>
      if (c =? ch_rbrack)%N && negb first then Some ([], rest)
      else
        let single :=
          match s with
          | b :: e :: rest' =>
            if (b =? ch_bslash)%N then
              match category_escape e with
              | Some it => Some (inl it, rest')
              | None => Some (inr (literal_escape e), rest')
              end
            else Some (inr b, e :: rest')
          | [b] => Some (inr b, [])
          | [] => None
          end in
        match single with
        | None => None
        | Some (inl it, rest1) =>
          (fun r => (it :: r.1, r.2)) <$> parse_class_items fuel false rest1
        | Some (inr lo, rest1) =>
          match rest1 with
          | m :: rest2 =>
            if (m =? ch_minus)%N && negb (bool_decide (head rest2 = Some ch_rbrack))
               && negb (bool_decide (rest2 = []))
            then
              match class_char rest2 with
              | Some (hi, rest3) =>
                (fun r => (CRange lo hi :: r.1, r.2)) <$> parse_class_items fuel false rest3
              | None => None
              end
            else (fun r => (CChar lo :: r.1, r.2)) <$> parse_class_items fuel false rest1
          | [] => None
          end
        end
    end
  end.

(** A run of decimal digits and its value. *)
Fixpoint take_digits (s : pystr) : pystr * pystr :=
  match s with
  | c :: rest => if is_decimal c then let '(ds, r) := take_digits rest in (c :: ds, r) else ([], s)
  | [] => ([], [])
  end.

Fixpoint rep (n : nat) (r : regex) : regex :=
  match n with O => REmpty | S n => RSeq r (rep n r) end.

(** [r] at most [n] more times, most first when [greedy]. *)
Fixpoint upto (greedy : bool) (n : nat) (r : regex) : regex :=
  match n with
  | O => REmpty
  | S n =>
    if greedy then RAlt (RSeq r (upto greedy n r)) REmpty
    else RAlt REmpty (RSeq r (upto greedy n r))
  end.

(** A quantifier after an atom: its bounds ([None] is unbounded) and the
    rest of the pattern after the optional lazy mark. *)
Definition parse_quant (s : pystr) : option (nat * option nat * bool * pystr) :=
  let lazy_mark rest := match rest with
                        | q :: rest' => if (q =? ch_quest)%N then (false, rest') else (true, rest)
                        | [] => (true, [])
                        end in
  match s with
  | c :: rest =>
    if (c =? ch_star)%N then let '(g, r) := lazy_mark rest in Some (0, None, g, r)
    else if (c =? ch_plus)%N then let '(g, r) := lazy_mark rest in Some (1, None, g, r)
    else if (c =? ch_quest)%N then let '(g, r) := lazy_mark rest in Some (0, Some 1, g, r)
    else if (c =? ch_lbrace)%N then
      let '(d1, r1) := take_digits rest in
      match d1, r1 with
      | _ :: _, b :: r2 =>
        if (b =? ch_rbrace)%N then
          let n := N.to_nat (py_int d1) in let '(g, r) := lazy_mark r2 in Some (n, Some n, g, r)
        else if (b =? ch_comma)%N then
          let '(d2, r3) := take_digits r2 in
          match r3 with
          | e :: r4 =>
            if (e =? ch_rbrace)%N then
              let '(g, r) := lazy_mark r4 in
              Some (N.to_nat (py_int d1),
                    (match d2 with [] => None | _ => Some (N.to_nat (py_int d2)) end), g, r)
            else None
          | [] => None
          end
        else None
      | _, _ => None
      end
    else None
  | [] => None
  end.

Definition quantify (r : regex) (lo : nat) (hi : option nat) (greedy : bool) : regex :=
  match hi with
  | None => RSeq (rep lo r) (RStar greedy r)
  | Some hi => RSeq (rep lo r) (upto greedy (hi - lo) r)
  end.

(** The state of the parser: the number of the next group and the
    names given so far. *)
Record pstate : Type := PState { p_next : nat; p_names : list (pystr * nat) }.

Fixpoint take_name (s : pystr) : pystr * pystr :=
  match s with
  | c :: rest => if (c =? ch_gt)%N then ([], rest) else let '(n, r) := take_name rest in (c :: n, r)
  | [] => ([], [])
  end.

Fixpoint parse_alt (fuel : nat) (ps : pstate) (s : pystr) {struct fuel} :
    option (regex * pstate * pystr) :=
  match fuel with
  | O => None
  | S fuel =>
    match parse_seq fuel ps s with
    | Some (r1, ps1, c :: rest) =>
      if (c =? ch_bar)%N then
        match parse_alt fuel ps1 rest with
        | Some (r2, ps2, rest2) => Some (RAlt r1 r2, ps2, rest2)
        | None => None
        end
      else Some (r1, ps1, c :: rest)
    | res => res
    end
  end
with parse_seq (fuel : nat) (ps : pstate) (s : pystr) {struct fuel} :
    option (regex * pstate * pystr) :=
  match fuel with
  | O => None
  | S fuel =>
    match s with
    | [] => Some (REmpty, ps, [])
    | c :: _ =>
      if (c =? ch_bar)%N || (c =? ch_rpar)%N then Some (REmpty, ps, s)
      else
        match parse_atom fuel ps s with
        | Some (a, ps1, rest1) =>
          let '(a', rest2) :=
            match parse_quant rest1 with
            | Some (lo, hi, g, rest2) => (quantify a lo hi g, rest2)
            | None => (a, rest1)
            end in
          match parse_seq fuel ps1 rest2 with
          | Some (r, ps2, rest3) => Some (RSeq a' r, ps2, rest3)
          | None => None
          end
        | None => None
        end
    end
  end
with parse_atom (fuel : nat) (ps : pstate) (s : pystr) {struct fuel} :
    option (regex * pstate * pystr) :=
  match fuel with
  | O => None
  | S fuel =>
    match s with
    | [] => None
    | c :: rest =>
      if (c =? ch_lpar)%N then
        let '(kind, rest1) :=
          match rest with
          | q :: c2 :: rest' =>
            if (q =? ch_quest)%N && (c2 =? ch_colon)%N then (None, rest')
            else if (q =? ch_quest)%N && (c2 =? ch_P)%N then
              match rest' with
              | l :: rest'' => if (l =? ch_lt)%N then let '(n, r) := take_name rest'' in (Some (Some n), r)
                               else (Some None, rest)
              | [] => (Some None, rest)
              end
            else (Some None, rest)
          | _ => (Some None, rest)
          end in
        match kind with
        | None =>
          match parse_alt fuel ps rest1 with
          | Some (r, ps1, e :: rest2) => if (e =? ch_rpar)%N then Some (r, ps1, rest2) else None
          | _ => None
          end
        | Some name =>
          let g := p_next ps in
          let names := match name with Some n => (n, g) :: p_names ps | None => p_names ps end in
          match parse_alt fuel (PState (S g) names) rest1 with
          | Some (r, ps1, e :: rest2) =>
            if (e =? ch_rpar)%N then Some (RGroup g r, ps1, rest2) else None
          | _ => None
          end
        end
      else if (c =? ch_lbrack)%N then
        let '(neg, rest1) :=
          match rest with
          | h :: rest' => if (h =? ch_caret)%N then (true, rest') else (false, rest)
          | [] => (false, [])
          end in
        (fun r => (RClass neg r.1, ps, r.2)) <$> parse_class_items (S (length rest1)) true rest1
      else if (c =? ch_dot)%N then Some (RAny, ps, rest)
      else if (c =? ch_caret)%N then Some (RBol, ps, rest)
      else if (c =? ch_dollar)%N then Some (REol, ps, rest)
      else if (c =? ch_bslash)%N then
        match rest with
        | e :: rest' =>
          match category_escape e with
          | Some it => Some (RClass false [it], ps, rest')
          | None =>
            if (e =? 98)%N then Some (RWordB, ps, rest')
            else if (e =? 66)%N then Some (RNotWordB, ps, rest')
            else if (e =? 65)%N then Some (RBol, ps, rest')
            else if (e =? 90)%N then Some (REnd, ps, rest')
            else if is_decimal e && negb (e =? 48)%N then
              Some (RBackref (N.to_nat (digit_value e)), ps, rest')
            else Some (RChar (literal_escape e), ps, rest')
          end
        | [] => None
        end
      else Some (RChar c, ps, rest)
    end
  end.

(** [re.compile(p, flags)]: [None] when [p] is outside the syntax above
    or has unbalanced parentheses. *)
Definition re_compile (icase : bool) (p : pystr) : option pattern :=
  match parse_alt (S (2 * length p)) (PState 1 []) p with
  | Some (r, ps, []) => Some (Pattern r (p_names ps) icase)
  | _ => None
  end.

(** The patterns of the sources are literals; [pat] compiles one (a
    pattern outside the syntax would compile to the empty pattern, and
    the examples below check that none of the sources' does). *)
Definition pat (icase : bool) (p : String.string) : pattern :=
  default (Pattern REmpty [] icase) (re_compile icase (u p)).

Definition compiles (icase : bool) (p : String.string) : bool :=
  bool_decide (is_Some (re_compile icase (u p))).

(** ** Properties of the matcher *)

(** The groups a match of [r] always sets: those not under an
    alternation or a star. *)
Fixpoint mandatory_groups (r : regex) : list nat :=
  match r with
  | RSeq r1 r2 => mandatory_groups r1 ++ mandatory_groups r2
  | RGroup g r1 => g :: mandatory_groups r1
  | _ => []
  end.

Section MatcherProps.
Context (icase : bool) (s : pystr).

(** [st'] is reachable from [st]: not before it, and inside the string
    when it has moved. *)
Definition reachable (st st' : mstate) : Prop :=
  mpos st <= mpos st' /\ (mpos st' = mpos st \/ mpos st' <= length s).

(** [st'] extends [st]: reachable, and every group set in [st] is set. *)
Definition extends (st st' : mstate) : Prop :=
  reachable st st' /\
  forall g, is_Some (cap_lookup g (mcaps st)) -> is_Some (cap_lookup g (mcaps st')).

#[local] Instance reachable_preorder : PreOrder reachable.
Proof. split; [intros st; red; lia | intros a b c; unfold reachable; lia]. Qed.

#[local] Instance extends_preorder : PreOrder extends.
Proof.
  split; [intros st; split; [reflexivity | done]|].
  intros a b c [Hab Cab] [Hbc Cbc]. split; [by transitivity b | eauto].
Qed.

(** A body only looks at its continuation on states reachable from
    where it starts. *)
Definition local_body (body : mstate -> (mstate -> option mstate) -> option mstate) : Prop :=
  forall st k k', (forall st', reachable st st' -> k st' = k' st') -> body st k = body st k'.

(** A body that succeeds calls its continuation on an extension. *)
Definition extending_body (body : mstate -> (mstate -> option mstate) -> option mstate) : Prop :=
  forall st k res, body st k = Some res -> exists st', k st' = Some res /\ extends st st'.

Lemma lookup_some_lt (i : nat) (c : N) : s !! i = Some c -> i < length s.
Proof. intros H. by apply lookup_lt_Some in H. Qed.

Lemma is_prefix_length w i : is_prefix w (drop i s) = true -> w = [] \/ i + length w <= length s.
Proof.
  intros H. destruct w as [|a w]; [by left|right].
  assert (length (a :: w) <= length (drop i s)) as Hl.
  { clear -H. revert H. generalize (drop i s). generalize (a :: w) as p.
    induction p as [|x p IH]; intros [|y t] Hp; simpl in *; try lia; try discriminate.
    apply andb_prop in Hp as [_ Hp]. specialize (IH t Hp). lia. }
  rewrite length_drop in Hl. destruct (decide (i <= length s)); [lia|].
  rewrite (proj2 (Nat.sub_0_le (length s) i)) in Hl by lia. simpl in Hl. lia.
Qed.

Lemma step_char_local p : local_body (step_char s p).
Proof.
  intros st k k' Hk. unfold step_char. destruct (s !! mpos st) eqn:E; [|done].
  destruct (p n); [|done]. apply Hk. apply lookup_some_lt in E. red; simpl; lia.
Qed.

Lemma star_loop_local body greedy :
  local_body body -> forall fuel, local_body (fun st k => star_loop body greedy k fuel st).
Proof.
  intros Hb fuel. induction fuel as [|fuel IH]; intros st k k' Hk; simpl.
  - apply Hk. reflexivity.
  - assert (body st (fun st1 => if mpos st1 =? mpos st then None else star_loop body greedy k fuel st1)
          = body st (fun st1 => if mpos st1 =? mpos st then None else star_loop body greedy k' fuel st1))
      as ->.
    { apply Hb. intros st1 H1. destruct (_ =? _); [done|].
      apply IH. intros st2 H2. apply Hk. by transitivity st1. }
    by rewrite (Hk st) by reflexivity.
Qed.

Lemma mtch_local r : local_body (mtch icase s r).
Proof.
  induction r; intros st k k' Hk; cbn [mtch]; try (apply step_char_local; done);
    try (destruct (_ =? _); [apply Hk; reflexivity|done]).
  - apply Hk. reflexivity.
  - apply IHr1. intros st1 H1. apply IHr2. intros st2 H2. apply Hk. by transitivity st1.
  - by rewrite (IHr1 st k k'), (IHr2 st k k').
  - exact (star_loop_local _ greedy IHr _ st k k' Hk).
  - apply IHr. intros st1 H1. apply Hk. done.
  - destruct (cap_lookup g (mcaps st)) as [[i j]|]; [|done].
    destruct (is_prefix _ _) eqn:E; [|done]. apply Hk.
    apply is_prefix_length in E as [->|E]; red; simpl; lia.
  - destruct (_ || _) eqn:E; [apply Hk; reflexivity|done].
  - destruct (at_boundary s (mpos st)); [apply Hk; reflexivity|done].
  - destruct s; [done|]. destruct (at_boundary _ _); [done|]. apply Hk. reflexivity.
Qed.

(** Termination of a starred expression: from any state inside the
    string, every fuel larger than the number of characters left gives
    the same result, since each iteration consumes a character. *)
Lemma star_loop_fuel body greedy k :
  local_body body ->
  forall f1 f2 st, mpos st <= length s -> length s - mpos st < f1 -> length s - mpos st < f2 ->
  star_loop body greedy k f1 st = star_loop body greedy k f2 st.
Proof.
  intros Hb f1. induction f1 as [|f1 IH]; intros [|f2] st Hst H1 H2; try lia; simpl.
  assert (body st (fun st1 => if mpos st1 =? mpos st then None else star_loop body greedy k f1 st1)
        = body st (fun st1 => if mpos st1 =? mpos st then None else star_loop body greedy k f2 st1))
    as ->; [|done].
  apply Hb. intros st1 [Hle Hin]. destruct (Nat.eqb_spec (mpos st1) (mpos st)); [done|].
  apply IH; lia.
Qed.

(** The fuel the matcher gives a starred body, one more than the
    characters left, is enough: any larger fuel gives the same result,
    so the bounded loop computes the unbounded one. *)
Theorem star_fuel_enough greedy r k st fuel :
  mpos st <= length s -> length s - mpos st < fuel ->
  star_loop (fun st' k' => mtch icase s r st' k') greedy k fuel st
  = mtch icase s (RStar greedy r) st k.
Proof.
  intros Hst Hf. cbn [mtch]. apply star_loop_fuel; [|done|done|lia].
  intros st0 k0 k0' H. by apply mtch_local.
Qed.

Lemma cap_lookup_cons_mono g g' span caps :
  is_Some (cap_lookup g' caps) -> is_Some (cap_lookup g' ((g, span) :: caps)).
Proof. simpl. destruct (g =? g'); eauto. Qed.

Lemma cap_lookup_cons_eq g span caps : cap_lookup g ((g, span) :: caps) = Some span.
Proof. simpl. by rewrite Nat.eqb_refl. Qed.

Lemma step_char_extending p : extending_body (step_char s p).
Proof.
  intros st k res. unfold step_char. destruct (s !! mpos st) eqn:E; [|done].
  destruct (p n); [|done]. intros H. exists (advance st). split; [done|].
  apply lookup_some_lt in E. split; [red; simpl; lia | done].
Qed.

Lemma star_loop_extending body greedy k :
  extending_body body -> forall fuel st res,
  star_loop body greedy k fuel st = Some res ->
  exists st', k st' = Some res /\ extends st st'.
Proof.
  intros Hb fuel. induction fuel as [|fuel IH]; intros st res; simpl.
  - intros H. exists st. split; [done | reflexivity].
  - assert (forall res', body st (fun st1 => if mpos st1 =? mpos st then None
                                            else star_loop body greedy k fuel st1) = Some res' ->
              exists st', k st' = Some res' /\ extends st st') as Hmore.
    { intros res' H. apply Hb in H as (st1 & H1 & E1).
      destruct (_ =? _); [done|]. apply IH in H1 as (st2 & H2 & E2).
      exists st2. split; [done | by transitivity st1]. }
    destruct greedy; unfold orelse.
    + destruct (body st _) eqn:E; [intros [= <-]; by apply Hmore|].
      intros H. exists st. split; [done | reflexivity].
    + destruct (k st) eqn:E; [intros [= <-]; exists st; split; [done | reflexivity]|].
      apply Hmore.
Qed.

(** A successful match calls its continuation on a state that extends
    the start and where every mandatory group of the pattern is set. *)
Lemma mtch_extends r : forall st k res,
  mtch icase s r st k = Some res ->
  exists st', k st' = Some res /\ extends st st' /\
    forall g, g ∈ mandatory_groups r -> is_Some (cap_lookup g (mcaps st')).
Proof.
  induction r; intros st k res; cbn [mtch mandatory_groups];
    try (intros H; apply step_char_extending in H as (st' & H & E);
         exists st'; split; [done | split; [done | set_solver]]);
    try (destruct (_ =? _) eqn:?; [|done]; intros H; exists st;
         split; [done | split; [reflexivity | set_solver]]).
  - intros H. exists st. split; [done | split; [reflexivity | set_solver]].
  - intros H. apply IHr1 in H as (st1 & H1 & E1 & M1). apply IHr2 in H1 as (st2 & H2 & E2 & M2).
    exists st2. split; [done|]. split; [by transitivity st1|].
    intros g [Hg|Hg]%elem_of_app; [|by apply M2]. apply E2. by apply M1.
  - unfold orelse. destruct (mtch icase s r1 st k) eqn:E1.
    + intros [= <-]. apply IHr1 in E1 as (st' & ? & ? & _). exists st'. set_solver.
    + intros H. apply IHr2 in H as (st' & ? & ? & _). exists st'. set_solver.
  - intros H. apply star_loop_extending in H as (st' & ? & ?); [exists st'; set_solver|].
    intros st0 k0 res0 H0. apply IHr in H0 as (st1 & ? & ? & _). eauto.
  - intros H. apply IHr in H as (st1 & H1 & [R1 C1] & M1).
    eexists. split; [exact H1|]. split; [split; [exact R1|]|].
    + intros g' Hg'. apply cap_lookup_cons_mono. by apply C1.
    + intros g' [->|Hg']%elem_of_cons; [cbn [mcaps]; rewrite cap_lookup_cons_eq; eauto|].
      apply cap_lookup_cons_mono. by apply M1.
  - destruct (cap_lookup g (mcaps st)) as [[i j]|]; [|done].
    destruct (is_prefix _ _) eqn:E; [|done]. intros H.
    eexists. split; [exact H|]. split; [|set_solver]. split; [|done].
    apply is_prefix_length in E as [->|E]; red; simpl; lia.
  - destruct (_ || _); [|done]. intros H. exists st. split; [done | split; [reflexivity | set_solver]].
  - destruct (at_boundary s (mpos st)); [|done]. intros H.
    exists st. split; [done | split; [reflexivity | set_solver]].
  - destruct s; [done|]. destruct (at_boundary _ _); [done|]. intros H.
    exists st. split; [done | split; [reflexivity | set_solver]].
Qed.
End MatcherProps.

(** ** [match], [search] and [sub] *)

Lemma first_some_Some {A B} (f : A -> option B) l y :
  first_some f l = Some y ->
  exists i x, l !! i = Some x /\ f x = Some y /\
    forall j x', j < i -> l !! j = Some x' -> f x' = None.
Proof.
  induction l as [|a l IH]; simpl; [done|].
  destruct (f a) eqn:E.
  - intros [= <-]. exists 0, a. split; [done | split; [done | intros; lia]].
  - intros H. apply IH in H as (i & x & Hi & Hx & Hj). exists (S i), x.
    split; [done | split; [done|]]. intros [|j] x' Hlt Hj'; simpl in Hj'.
    + by injection Hj' as <-.
    + apply (Hj j); [lia | done].
Qed.

(** A match at [pos] starts at [pos], ends inside the string (or where
    it started), and sets every mandatory group of the pattern. *)
Lemma re_match_at_spec p s pos ma mo :
  re_match_at p s pos ma = Some mo ->
  m_start mo = pos /\ pos <= m_end mo /\ (m_end mo = pos \/ m_end mo <= length s) /\
  (ma = true -> m_end mo <> pos) /\
  forall g, g ∈ mandatory_groups (pat_re p) -> is_Some (cap_lookup g (mcaps (m_state mo))).
Proof.
  unfold re_match_at. destruct (mtch _ _ _ _ _) as [res|] eqn:E; [|done].
  intros [= <-]. apply mtch_extends in E as (st' & Hk & [[R1 R2] _] & M).
  destruct (ma && (mpos st' =? pos)) eqn:Ema; [done|]. injection Hk as <-.
  unfold m_end. simpl in *. split; [done|]. split; [lia|]. split; [lia|]. split; [|done].
  intros -> Heq. rewrite Heq, Nat.eqb_refl in Ema. discriminate.
Qed.

(** [search] returns the leftmost match: the match at its start, and
    no match at any earlier position. *)
Theorem re_search_leftmost p s pos ma mo :
  re_search_from p s pos ma = Some mo ->
  pos <= m_start mo /\
  re_match_at p s (m_start mo) (ma && (m_start mo =? pos)) = Some mo /\
  forall i, pos <= i < m_start mo -> re_match_at p s i (ma && (i =? pos)) = None.
Proof.
  unfold re_search_from. intros H. apply first_some_Some in H as (i & x & Hi & Hx & Hj).
  apply lookup_seq in Hi as [-> Hi].
  pose proof (re_match_at_spec _ _ _ _ _ Hx) as [Hs _]. rewrite Hs.
  split; [lia|]. split; [done|]. intros i' Hi'.
  apply (Hj (i' - pos)); [lia|]. apply lookup_seq. split; lia.
Qed.

(** [re.sub] returns the string unchanged when the pattern matches
    nowhere. *)
Theorem re_sub_no_match p repl s : re_search p s = None -> re_sub p repl s = s.
Proof.
  intros H. unfold re_sub, re_search in *. rewrite Nat.add_comm. simpl. by rewrite H.
Qed.

(** ** Instances *)

Import String.StringSyntax.
Local Open Scope string_scope.

Lemma star_fuel_enough_witness :
  star_loop (fun st' k' => mtch false (u "aab") (RChar 97) st' k') true
    (fun st => Some st) 10 (MState 0 [])
  = mtch false (u "aab") (RStar true (RChar 97)) (MState 0 []) (fun st => Some st).
Proof. apply star_fuel_enough; simpl; lia. Defined.

Lemma mtch_extends_witness :
  exists st', Some st' = Some (MState 1 [(1, (0, 1))]) /\ extends (u "ab") (MState 0 []) st' /\
    forall g, g ∈ mandatory_groups (RGroup 1 (RChar 97)) -> is_Some (cap_lookup g (mcaps st')).
Proof.
  apply (mtch_extends false (u "ab") (RGroup 1 (RChar 97)) (MState 0 []) (fun st => Some st)).
  vm_compute. reflexivity.
Defined.

Lemma re_search_leftmost_witness :
  exists mo, re_search_from (pat false "b+") (u "aabb") 0 false = Some mo /\
  0 <= m_start mo /\
  re_match_at (pat false "b+") (u "aabb") (m_start mo) (false && (m_start mo =? 0)) = Some mo /\
  forall i, 0 <= i < m_start mo -> re_match_at (pat false "b+") (u "aabb") i (false && (i =? 0)) = None.
Proof.
  eexists. split; [vm_compute; reflexivity|].
  apply re_search_leftmost. vm_compute. reflexivity.
Defined.

Lemma re_sub_no_match_witness : re_sub (pat false "x") (u "y") (u "abc") = u "abc".
Proof. apply re_sub_no_match. vm_compute. reflexivity. Defined.
