(* ===== verification/RegexSpec.v ===== *)
(** * What a match of [Regex] means: a relational semantics and the
      soundness of the backtracking matcher

    [matches icase s r st st'] holds when the expression [r] can match
    the text of [s] from the state [st] to the state [st'] (position and
    groups), by the rules of each construct: a character class consumes
    one character it accepts, a sequence matches its parts one after the
    other, a star repeats its body zero or more times (each time
    consuming a character, as [_sre] requires of a repeated body that
    can match empty), a group records its span, an anchor holds where
    its condition does.  [mtch_sound] shows that every result of the
    matcher [mtch] comes from such a match, so what the matcher returns
    is a match in this sense; the priority order of [_sre] is what
    [mtch] adds.  The span lemmas derive, from the form of an
    expression, what every string it matches looks like: which
    characters it has ([matches_chars]), how often a character can
    occur in it ([matches_max_occ]), how many decimal digits it has at
    least ([matches_min_digits]), and where a final [$] leaves the
    match ([matches_last_eol]). *)

From S2P Require Import Prelude PyStr Regex.


(** ** What an expression lets a match contain *)

(** The characters a match of [r] may consume (a back-reference may copy
    any). *)
Fixpoint char_ok (icase : bool) (r : regex) (c : N) : bool :=
  match r with
  | RChar l => char_match icase l c
  | RAny => negb (c =? 10)%N
  | RClass neg items => class_match icase neg items c
  | RSeq r1 r2 | RAlt r1 r2 => char_ok icase r1 c || char_ok icase r2 c
  | RStar _ r1 | RGroup _ r1 => char_ok icase r1 c
  | RBackref _ => true
  | _ => false
  end.

(** How often the character [c0] may occur in a match of [r] ([None]:
    without bound). *)
Fixpoint max_occ (icase : bool) (c0 : N) (r : regex) : option nat :=
  match r with
  | RChar l => Some (if char_match icase l c0 then 1 else 0)
  | RAny => Some (if (c0 =? 10)%N then 0 else 1)
  | RClass neg items => Some (if class_match icase neg items c0 then 1 else 0)
  | RSeq r1 r2 =>
    match max_occ icase c0 r1, max_occ icase c0 r2 with
    | Some n1, Some n2 => Some (n1 + n2)
    | _, _ => None
    end
  | RAlt r1 r2 =>
    match max_occ icase c0 r1, max_occ icase c0 r2 with
    | Some n1, Some n2 => Some (Nat.max n1 n2)
    | _, _ => None
    end
  | RStar _ r1 => match max_occ icase c0 r1 with Some 0 => Some 0 | _ => None end
  | RGroup _ r1 => max_occ icase c0 r1
  | RBackref _ => None
  | _ => Some 0
  end.

(** A class item that accepts decimal digits only. *)
Definition item_digit (icase : bool) (it : class_item) : bool :=
  match it with
  | CDigit => true
  | CChar c => negb icase && is_decimal c
  | CRange lo hi => negb icase && (48 <=? lo)%N && (hi <=? 57)%N
  | _ => false
  end.

(** How many decimal digits a match of [r] has at least. *)
Fixpoint min_digits (icase : bool) (r : regex) : nat :=
  match r with
  | RChar l => if negb icase && is_decimal l then 1 else 0
  | RClass false items => if forallb (item_digit icase) items then 1 else 0
  | RSeq r1 r2 => min_digits icase r1 + min_digits icase r2
  | RAlt r1 r2 => Nat.min (min_digits icase r1) (min_digits icase r2)
  | RGroup _ r1 => min_digits icase r1
  | _ => 0
  end.

(** The expression does not move: it consumes no character. *)
Fixpoint no_move (r : regex) : bool :=
  match r with
  | REmpty | RBol | REol | REnd | RWordB | RNotWordB => true
  | RSeq r1 r2 => no_move r1 && no_move r2
  | RGroup _ r1 => no_move r1
  | _ => false
  end.

(** The expression ends with [$], followed at most by parts that do not
    move. *)
Fixpoint last_eol (r : regex) : bool :=
  match r with
  | RSeq r1 r2 => last_eol r2 || (last_eol r1 && no_move r2)
  | RGroup _ r1 => last_eol r1
  | REol => true
  | _ => false
  end.

(** The characters of a string that satisfy [p]. *)
Definition count_if (p : N -> bool) (t : pystr) : nat := length (List.filter p t).

Section Semantics.
Context (icase : bool) (s : pystr).

Inductive matches : regex -> mstate -> mstate -> Prop :=
| MEmpty st : matches REmpty st st
| MChar l st c :
    s !! mpos st = Some c -> char_match icase l c = true -> matches (RChar l) st (advance st)
| MAny st c :
    s !! mpos st = Some c -> negb (c =? 10)%N = true -> matches RAny st (advance st)
| MClass neg items st c :
    s !! mpos st = Some c -> class_match icase neg items c = true ->
    matches (RClass neg items) st (advance st)
| MSeq r1 r2 st st1 st2 : matches r1 st st1 -> matches r2 st1 st2 -> matches (RSeq r1 r2) st st2
| MAltL r1 r2 st st' : matches r1 st st' -> matches (RAlt r1 r2) st st'
| MAltR r1 r2 st st' : matches r2 st st' -> matches (RAlt r1 r2) st st'
| MStarNil g r st : matches (RStar g r) st st
| MStarCons g r st st1 st2 :
    matches r st st1 -> mpos st1 <> mpos st -> matches (RStar g r) st1 st2 ->
    matches (RStar g r) st st2
| MGroup g r st st1 :
    matches r st st1 ->
    matches (RGroup g r) st (MState (mpos st1) ((g, (mpos st, mpos st1)) :: mcaps st1))
| MBackref g st i j :
    cap_lookup g (mcaps st) = Some (i, j) -> is_prefix (slice i j s) (drop (mpos st) s) = true ->
    matches (RBackref g) st (MState (mpos st + length (slice i j s)) (mcaps st))
| MBol st : mpos st = 0 -> matches RBol st st
| MEol st :
    ((mpos st =? length s) || ((S (mpos st) =? length s) && bool_decide (s !! mpos st = Some 10%N))) = true ->
    matches REol st st
| MEnd st : mpos st = length s -> matches REnd st st
| MWordB st : at_boundary s (mpos st) = true -> matches RWordB st st
| MNotWordB st : s <> [] -> at_boundary s (mpos st) = false -> matches RNotWordB st st.

(** A body of a star that is sound for the expression [r]. *)
Definition sound_body (r : regex) (body : mstate -> (mstate -> option mstate) -> option mstate) : Prop :=
  forall st k res, body st k = Some res -> exists st', matches r st st' /\ k st' = Some res.

Lemma step_char_sound (p : N -> bool) (r : regex) st k res :
  (forall st c, s !! mpos st = Some c -> p c = true -> matches r st (advance st)) ->
  step_char s p st k = Some res -> exists st', matches r st st' /\ k st' = Some res.
Proof.
  intros Hr. unfold step_char. destruct (s !! mpos st) as [c|] eqn:E; [|done].
  destruct (p c) eqn:Ep; [|done]. intros H. exists (advance st). split; [|done]. by apply (Hr st c).
Qed.

Lemma star_loop_sound g r body k :
  sound_body r body -> forall fuel st res,
  star_loop body g k fuel st = Some res -> exists st', matches (RStar g r) st st' /\ k st' = Some res.
Proof.
  intros Hb fuel. induction fuel as [|fuel IH]; intros st res; simpl.
  - intros H. exists st. split; [apply MStarNil | done].
  - assert (forall res', body st (fun st1 => if mpos st1 =? mpos st then None
                                          else star_loop body g k fuel st1) = Some res' ->
              exists st', matches (RStar g r) st st' /\ k st' = Some res') as Hmore.
    { intros res' H. apply Hb in H as (st1 & M1 & H1).
      destruct (Nat.eqb_spec (mpos st1) (mpos st)); [done|].
      apply IH in H1 as (st2 & M2 & H2). exists st2. split; [|done]. by eapply MStarCons. }
    destruct g; unfold orelse.
    + destruct (body st _) eqn:E; [intros [= <-]; by apply Hmore|].
      intros H. exists st. split; [apply MStarNil | done].
    + destruct (k st) eqn:E; [intros [= <-]; exists st; split; [apply MStarNil | done]|].
      apply Hmore.
Qed.

(** The matcher is sound: when [mtch] calls its continuation with a
    result, some match of the expression in the sense of [matches] ends
    at the state the continuation received. *)
Theorem mtch_sound r : forall st k res,
  mtch icase s r st k = Some res -> exists st', matches r st st' /\ k st' = Some res.
Proof.
  induction r; intros st k res; cbn [mtch].
  - intros H. exists st. split; [apply MEmpty | done].
  - apply step_char_sound. intros. by econstructor.
  - apply step_char_sound. intros. by econstructor.
  - apply step_char_sound. intros. by econstructor.
  - intros H. apply IHr1 in H as (st1 & M1 & H1). apply IHr2 in H1 as (st2 & M2 & H2).
    exists st2. split; [by econstructor | done].
  - unfold orelse. destruct (mtch icase s r1 st k) eqn:E.
    + intros [= <-]. apply IHr1 in E as (st' & ? & ?). exists st'. split; [by constructor | done].
    + intros H. apply IHr2 in H as (st' & ? & ?). exists st'. split; [by apply MAltR | done].
  - apply star_loop_sound. intros st0 k0 res0. apply IHr.
  - intros H. apply IHr in H as (st1 & M1 & H1). eexists. split; [by constructor | exact H1].
  - destruct (cap_lookup g (mcaps st)) as [[i j]|] eqn:E; [|done].
    destruct (is_prefix _ _) eqn:Ep; [|done]. intros H. eexists. split; [by constructor | exact H].
  - destruct (Nat.eqb_spec (mpos st) 0); [|done]. intros H. exists st. split; [by constructor | done].
  - destruct (_ || _) eqn:E; [|done]. intros H. exists st. split; [by constructor | done].
  - destruct (Nat.eqb_spec (mpos st) (length s)); [|done]. intros H. exists st. split; [by constructor | done].
  - destruct (at_boundary s (mpos st)) eqn:E; [|done]. intros H. exists st. split; [by constructor | done].
  - destruct s as [|c s'] eqn:Es; [done|]. destruct (at_boundary _ _) eqn:E; [done|].
    intros H. exists st. split; [|done]. apply MNotWordB; rewrite Es; done.
Qed.

(** ** The span of a match *)

Lemma take_take_drop {A} (t : list A) a b : take a t ++ take b (drop a t) = take (a + b) t.
Proof.
  revert t. induction a as [|a IH]; intros t; simpl; [done|].
  destruct t as [|x t]; simpl; [by rewrite take_nil|]. by rewrite IH.
Qed.

Lemma slice_app i j k : i <= j -> j <= k -> slice i j s ++ slice j k s = slice i k s.
Proof.
  intros Hij Hjk. unfold slice.
  replace (drop j s) with (drop (j - i) (drop i s)) by (rewrite drop_drop; f_equal; lia).
  rewrite take_take_drop. f_equal. lia.
Qed.

Lemma slice_nil i : slice i i s = [].
Proof. unfold slice. by rewrite Nat.sub_diag. Qed.

Lemma slice_single i c : s !! i = Some c -> slice i (S i) s = [c].
Proof.
  intros Hc. unfold slice. rewrite Nat.sub_succ_l, Nat.sub_diag by lia.
  rewrite <- (take_drop_middle s i c Hc), drop_app_length'; [done|].
  rewrite length_take. apply lookup_lt_Some in Hc. lia.
Qed.

Lemma matches_mono r st st' : matches r st st' -> mpos st <= mpos st'.
Proof. induction 1; simpl in *; lia. Qed.

(** The characters of the span come from the expression. *)
Lemma matches_chars r st st' :
  matches r st st' -> Forall (fun c => char_ok icase r c = true) (slice (mpos st) (mpos st') s).
Proof.
  induction 1 as [| l st c Hc Hm | st c Hc Hm | neg items st c Hc Hm
                  | r1 r2 st st1 st2 M1 IH1 M2 IH2 | r1 r2 st st' M IH | r1 r2 st st' M IH
                  | g r st | g r st st1 st2 M1 IH1 Hne M2 IH2 | g r st st1 M IH | g st i j Hg Hp
                  | st | st | st | st | st]; simpl;
    rewrite ?slice_nil; try by constructor.
  - rewrite (slice_single _ c Hc). by constructor.
  - rewrite (slice_single _ c Hc). by constructor.
  - rewrite (slice_single _ c Hc). by constructor.
  - pose proof (matches_mono _ _ _ M1). pose proof (matches_mono _ _ _ M2).
    rewrite <- (slice_app (mpos st) (mpos st1) (mpos st2)) by lia. apply Forall_app. split.
    + eapply Forall_impl; [exact IH1|]. simpl. intros c ->. done.
    + eapply Forall_impl; [exact IH2|]. simpl. intros c ->. apply orb_true_r.
  - eapply Forall_impl; [exact IH|]. simpl. intros c ->. done.
  - eapply Forall_impl; [exact IH|]. simpl. intros c ->. apply orb_true_r.
  - pose proof (matches_mono _ _ _ M1). pose proof (matches_mono _ _ _ M2).
    rewrite <- (slice_app (mpos st) (mpos st1) (mpos st2)) by lia. apply Forall_app. split; [exact IH1|].
    exact IH2.
  - exact IH.
  - apply Forall_forall. intros; reflexivity.
Qed.

Lemma count_if_app p t1 t2 : count_if p (t1 ++ t2) = count_if p t1 + count_if p t2.
Proof. unfold count_if. by rewrite List.filter_app, length_app. Qed.

(** The character [c0] occurs at most [max_occ] times in the span. *)
Lemma matches_max_occ c0 r st st' n :
  matches r st st' -> max_occ icase c0 r = Some n ->
  count_if (fun c => (c =? c0)%N) (slice (mpos st) (mpos st') s) <= n.
Proof.
  intros M. revert n. induction M as [| l st c Hc Hm | st c Hc Hm | neg items st c Hc Hm
                  | r1 r2 st st1 st2 M1 IH1 M2 IH2 | r1 r2 st st' M IH | r1 r2 st st' M IH
                  | g r st | g r st st1 st2 M1 IH1 Hne M2 IH2 | g r st st1 M IH | g st i j Hg Hp
                  | st | st | st | st | st]; intros n Hn; simpl in *;
    rewrite ?slice_nil; try discriminate; try (unfold count_if; simpl; lia).
  - rewrite (slice_single _ c Hc). injection Hn as <-. unfold count_if. simpl.
    destruct (N.eqb_spec c c0) as [->|]; simpl; [rewrite Hm|]; lia.
  - rewrite (slice_single _ c Hc). injection Hn as <-. unfold count_if. simpl.
    destruct (N.eqb_spec c c0) as [->|]; simpl; [rewrite <- (negb_involutive (c0 =? 10)%N), Hm|]; simpl; lia.
  - rewrite (slice_single _ c Hc). injection Hn as <-. unfold count_if. simpl.
    destruct (N.eqb_spec c c0) as [->|]; simpl; [rewrite Hm|]; lia.
  - pose proof (matches_mono _ _ _ M1). pose proof (matches_mono _ _ _ M2).
    rewrite <- (slice_app (mpos st) (mpos st1) (mpos st2)), count_if_app by lia.
    destruct (max_occ icase c0 r1) as [n1|], (max_occ icase c0 r2) as [n2|]; try done.
    injection Hn as <-. specialize (IH1 n1 eq_refl). specialize (IH2 n2 eq_refl). lia.
  - destruct (max_occ icase c0 r1) as [n1|], (max_occ icase c0 r2) as [n2|]; try done.
    injection Hn as <-. specialize (IH n1 eq_refl). lia.
  - destruct (max_occ icase c0 r1) as [n1|], (max_occ icase c0 r2) as [n2|]; try done.
    injection Hn as <-. specialize (IH n2 eq_refl). lia.
  - pose proof (matches_mono _ _ _ M1). pose proof (matches_mono _ _ _ M2).
    rewrite <- (slice_app (mpos st) (mpos st1) (mpos st2)), count_if_app by lia.
    destruct (max_occ icase c0 r) as [[|n1]|] eqn:E; try done. injection Hn as <-.
    specialize (IH1 0 eq_refl). specialize (IH2 0 eq_refl). lia.
  - by apply IH.
Qed.

Lemma item_digit_sound it c : item_digit icase it = true -> item_match icase it c = true -> is_decimal c = true.
Proof.
  destruct it as [l|lo hi| | | | | |]; simpl; try done; destruct icase; simpl; try done.
  - intros Hl Hc. by apply N.eqb_eq in Hc as ->.
  - intros Hb Hc. unfold is_decimal, in_range in *.
    apply andb_prop in Hb as [Hlo Hhi]. apply andb_prop in Hc as [Hc1 Hc2].
    apply N.leb_le in Hlo, Hhi, Hc1, Hc2. apply andb_true_intro. split; apply N.leb_le; lia.
Qed.

(** A match has at least [min_digits] decimal digits. *)
Lemma matches_min_digits r st st' :
  matches r st st' -> min_digits icase r <= count_if is_decimal (slice (mpos st) (mpos st') s).
Proof.
  induction 1 as [| l st c Hc Hm | st c Hc Hm | neg items st c Hc Hm
                  | r1 r2 st st1 st2 M1 IH1 M2 IH2 | r1 r2 st st' M IH | r1 r2 st st' M IH
                  | g r st | g r st st1 st2 M1 IH1 Hne M2 IH2 | g r st st1 M IH | g st i j Hg Hp
                  | st | st | st | st | st]; simpl in *; try lia.
  - rewrite (slice_single _ c Hc). unfold count_if. simpl.
    destruct icase; simpl; [lia|]. apply N.eqb_eq in Hm as ->. destruct (is_decimal l); simpl; lia.
  - rewrite (slice_single _ c Hc). unfold count_if. simpl.
    destruct neg; [lia|]. destruct (forallb _ items) eqn:Hall; [|lia].
    unfold class_match in Hm. simpl in Hm. apply existsb_exists in Hm as (it & Hin & Hit).
    rewrite forallb_forall in Hall. rewrite (item_digit_sound it c (Hall it Hin) Hit). simpl. lia.
  - pose proof (matches_mono _ _ _ M1). pose proof (matches_mono _ _ _ M2).
    rewrite <- (slice_app (mpos st) (mpos st1) (mpos st2)), count_if_app by lia. lia.
Qed.

Lemma matches_no_move r st st' : matches r st st' -> no_move r = true -> mpos st' = mpos st.
Proof.
  induction 1; simpl; try done; intros Hnm.
  apply andb_prop in Hnm as [Hn1 Hn2]. rewrite IHmatches2, IHmatches1; done.
Qed.

(** A final [$] leaves the match at the end of the string or before a
    final newline. *)
Lemma matches_last_eol r st st' :
  matches r st st' -> last_eol r = true ->
  mpos st' = length s \/ (S (mpos st') = length s /\ s !! mpos st' = Some 10%N).
Proof.
  induction 1 as [| l st c Hc Hm | st c Hc Hm | neg items st c Hc Hm
                  | r1 r2 st st1 st2 M1 IH1 M2 IH2 | r1 r2 st st' M IH | r1 r2 st st' M IH
                  | g r st | g r st st1 st2 M1 IH1 Hne M2 IH2 | g r st st1 M IH | g st i j Hg Hp
                  | st Hb | st He | st | st | st]; simpl; try done.
  - intros [H|[H1 H2]%andb_prop]%orb_prop; [by apply IH2|].
    rewrite (matches_no_move _ _ _ M2 H2). by apply IH1.
  - intros _. apply orb_prop in He as [He|He]; [left; by apply Nat.eqb_eq|right].
    apply andb_prop in He as [H1 H2]. apply Nat.eqb_eq in H1. by apply bool_decide_eq_true in H2.
Qed.

End Semantics.

(** A match of [re.match] is a match of the expression from the start
    of the string. *)
Lemma re_match_matches p v mo :
  re_match p v = Some mo -> matches (pat_icase p) v (pat_re p) (MState 0 []) (m_state mo).
Proof.
  unfold re_match, re_match_at. destruct (mtch _ _ _ _ _) as [res|] eqn:E; [|done].
  intros [= <-]. apply mtch_sound in E as (st' & M & Hk). simpl in Hk. by injection Hk as ->.
Qed.

(** [re.search] is sound: the match object it returns is a match of
    the pattern, in the relational semantics, from its start position to
    its end state. *)
Theorem re_search_sound p v mo :
  re_search p v = Some mo ->
  matches (pat_icase p) v (pat_re p) (MState (m_start mo) []) (m_state mo).
Proof.
  unfold re_search, re_search_from. intros (_ & i & _ & Hi & _)%first_some_Some.
  unfold re_match_at in Hi. destruct (mtch _ _ _ _ _) as [res|] eqn:E; [|done].
  injection Hi as <-. apply mtch_sound in E as (st' & M & Hk). cbn in Hk |- *.
  by injection Hk as ->.
Qed.

Import String.StringSyntax.
Local Open Scope string_scope.

Lemma re_search_sound_witness :
  matches false (u "xab") (pat_re (pat false "ab")) (MState 1 []) (MState 3 []).
Proof.
  apply (re_search_sound (pat false "ab") (u "xab") (MatchObj 1 (MState 3 []))).
  vm_compute. reflexivity.
Defined.
