(* ===== verification/Strptime.v ===== *)
(** * [datetime.strptime(s, fmt).date()] for the directives of the sources

    [_strptime.TimeRE.pattern] turns a format into a regular expression:
    it escapes the regex syntax characters of the format with a [re.sub],
    replaces every run of white space by [\s+] with another [re.sub],
    and substitutes each [%x] directive by the expression [TimeRE] keeps
    for it.  [_strptime._strptime] matches that pattern with
    [re.IGNORECASE] at the start of the string, raises when the match
    leaves characters over ("unconverted data remains"), converts the
    named groups, and [datetime.date] checks the calendar.  The month
    names are those of the C locale. *)

From S2P Require Import Prelude PyStr Regex.
From Stdlib Require String.
Import String.StringSyntax.

Local Open Scope string_scope.
Local Open Scope N_scope.

(** ** Calendar ([Lib/datetime.py]) *)

Record date : Type := Date { d_year : N; d_month : N; d_day : N }.

#[export] Instance date_eq_dec : EqDecision date.
Proof. solve_decision. Defined.

Definition is_leap (y : N) : bool :=
  (y mod 4 =? 0) && (negb (y mod 100 =? 0) || (y mod 400 =? 0)).

Definition days_in_month (y m : N) : N :=
  if (m =? 2) && is_leap y then 29
  else nth (N.to_nat m) [0; 31; 28; 31; 30; 31; 30; 31; 31; 30; 31; 30; 31] 0.

(** [_check_date_fields]: the arguments [date(y, m, d)] accepts. *)
Definition valid_date (d : date) : bool :=
  in_range 1 9999 (d_year d) && in_range 1 12 (d_month d)
  && in_range 1 (days_in_month (d_year d) (d_month d)) (d_day d).

(** ** [_strptime.LocaleTime] in the C locale *)

Definition a_month : list pystr :=
  map u [""; "jan"; "feb"; "mar"; "apr"; "may"; "jun";
         "jul"; "aug"; "sep"; "oct"; "nov"; "dec"].

Definition f_month : list pystr :=
  map u [""; "january"; "february"; "march"; "april"; "may"; "june"; "july";
         "august"; "september"; "october"; "november"; "december"].

(** ** [TimeRE] *)

(** [sorted(to_convert, key=len, reverse=True)]: a stable sort, so that
    names of equal length keep their order. *)
Fixpoint insert_by_len_desc (x : pystr) (l : list pystr) : list pystr :=
  match l with
  | [] => [x]
  | y :: l' => if (length y <? length x)%nat then x :: y :: l' else y :: insert_by_len_desc x l'
  end.

Definition sort_by_len_desc (l : list pystr) : list pystr :=
  foldl (fun acc x => insert_by_len_desc x acc) [] l.

(** [re.escape]: a backslash before the characters of
    [_special_chars_map]. *)
Definition re_escape (s : pystr) : pystr :=
  s ≫= fun c => if existsb (N.eqb c) (u "()[]{}?*+-|^$\.&~# ") then [92; c] else [c].

(** [sep.join(l)]. *)
Fixpoint join (sep : pystr) (l : list pystr) : pystr :=
  match l with
  | [] => []
  | [x] => x
  | x :: l' => x ++ sep ++ join sep l'
  end.

(** [TimeRE.__seqToRE]. *)
Definition seq_to_re (to_convert : list pystr) (directive : pystr) : pystr :=
  let sorted := sort_by_len_desc to_convert in
  if forallb (fun v => bool_decide (v = [])) sorted then []
  else u "(?P<" ++ directive ++ u ">"
       ++ join (u "|") (map re_escape sorted) ++ u ")".

(** The entries of the [TimeRE] dictionary for the directives of the
    sources; any other directive is a [KeyError]. *)
Definition time_re (d : N) : option pystr :=
  if d =? 100 (* d *) then Some (u "(?P<d>3[0-1]|[1-2]\d|0[1-9]|[1-9]| [1-9])")
  else if d =? 109 (* m *) then Some (u "(?P<m>1[0-2]|0[1-9]|[1-9])")
  else if d =? 121 (* y *) then Some (u "(?P<y>\d\d)")
  else if d =? 89 (* Y *) then Some (u "(?P<Y>\d\d\d\d)")
  else if d =? 98 (* b *) then Some (seq_to_re (tail a_month) (u "b"))
  else if d =? 66 (* B *) then Some (seq_to_re (tail f_month) (u "B"))
  else if d =? 37 (* % *) then Some (u "%")
  else None.

Definition regex_chars : pattern := Eval vm_compute in pat false "([\\.^$*+?\(\){}\[\]|])".
Definition whitespace_replacement : pattern := Eval vm_compute in pat false "\s+".

(** The [while '%' in format] loop of [TimeRE.pattern]; [fuel] is the
    length of the format, one step per directive is enough. *)
Fixpoint expand_directives (fuel : nat) (processed format : pystr) : option pystr :=
  match fuel with
  | O => Some (processed ++ format)
  | S fuel =>
    match list_find (fun c => c = 37) format with
    | None => Some (processed ++ format)
    | Some (i, _) =>
      match format !! S i with
      | None => None
      | Some d =>
        match time_re d with
        | Some re => expand_directives fuel (processed ++ take i format ++ re) (drop (S (S i)) format)
        | None => None
        end
      end
    end
  end.

(** [TimeRE.pattern]. *)
Definition time_pattern (format : pystr) : option pystr :=
  let format := re_sub regex_chars (u "\\\1") format in
  let format := re_sub whitespace_replacement (u "\\s+") format in
  expand_directives (length format) [] format.

(** [TimeRE.compile]: the pattern compiled with [re.IGNORECASE]. *)
Definition time_compile (format : pystr) : option pattern :=
  time_pattern format ≫= re_compile true.

(** ** [_strptime._strptime] *)

Inductive strptime_error : Type :=
| BadFormat             (* a bad directive or a stray [%] *)
| DoesNotMatch          (* "time data ... does not match format ..." *)
| UnconvertedData       (* "unconverted data remains: ..." *)
| BadMonthName          (* [list.index] of a month name not in the table *)
| DateOutOfRange        (* [date(year, month, day)] refuses the fields *)
| GroupNotMatched.      (* [int(None)]: a [TypeError], not a [ValueError] *)

(** Every error but [GroupNotMatched] is a [ValueError]. *)
Definition is_value_error (e : strptime_error) : bool :=
  match e with GroupNotMatched => false | _ => true end.

#[export] Instance strptime_error_eq_dec : EqDecision strptime_error.
Proof. solve_decision. Defined.

(** The fields being converted: [year] is [None] until a year directive
    sets it, [month] and [day] start at 1. *)
Record fields : Type := Fields { fl_year : option N; fl_month : N; fl_day : N }.

(** The pivot of [%y]: 00..68 are in the 2000s, 69..99 in the 1900s. *)
Definition y2k_pivot (y : N) : N := if y <=? 68 then y + 2000 else y + 1900.

Definition index_of (x : pystr) (l : list pystr) : option N :=
  (fun r => N.of_nat r.1) <$> list_find (fun y => y = x) l.

(** One step of the [for group_key in found_dict.keys()] loop. *)
Definition convert_group (key : N) (found : option pystr) (fs : fields) :
    result strptime_error fields :=
  match found with
  | None => Err GroupNotMatched
  | Some t =>
    if key =? 121 then Ok (Fields (Some (y2k_pivot (py_int t))) (fl_month fs) (fl_day fs))
    else if key =? 89 then Ok (Fields (Some (py_int t)) (fl_month fs) (fl_day fs))
    else if key =? 109 then Ok (Fields (fl_year fs) (py_int t) (fl_day fs))
    else if key =? 66 then
      match index_of (py_lower t) f_month with
      | Some m => Ok (Fields (fl_year fs) m (fl_day fs))
      | None => Err BadMonthName
      end
    else if key =? 98 then
      match index_of (py_lower t) a_month with
      | Some m => Ok (Fields (fl_year fs) m (fl_day fs))
      | None => Err BadMonthName
      end
    else if key =? 100 then Ok (Fields (fl_year fs) (fl_month fs) (py_int t))
    else Ok fs
  end.

Fixpoint convert_groups (p : pattern) (s : pystr) (mo : match_obj)
    (keys : list (pystr * nat)) (fs : fields) : result strptime_error fields :=
  match keys with
  | [] => Ok fs
  | (name, g) :: keys' =>
    fs' <- convert_group (default 0 (head name)) (group s mo g) fs ;;
    convert_groups p s mo keys' fs'
  end.

(** The year when no directive gave one: 1904 for the 29th of
    February, 1900 otherwise. *)
Definition default_year (fs : fields) : N :=
  match fl_year fs with
  | Some y => y
  | None => if (fl_month fs =? 2) && (fl_day fs =? 29) then 1904 else 1900
  end.

(** [_strptime._strptime] once the format is compiled (CPython keeps
    compiled formats in [_regex_cache]). *)
Definition strptime_compiled (compiled : option pattern) (data : pystr) :
    result strptime_error date :=
  match compiled with
  | None => Err BadFormat
  | Some p =>
    match re_match p data with
    | None => Err DoesNotMatch
    | Some mo =>
      if negb (Nat.eqb (length data) (m_end mo)) then Err UnconvertedData
      else
        fs <- convert_groups p data mo (rev (pat_names p)) (Fields None 1 1) ;;
        let d := Date (default_year fs) (fl_month fs) (fl_day fs) in
        if valid_date d then Ok d else Err DateOutOfRange
    end
  end.

Definition strptime (data format : pystr) : result strptime_error date :=
  strptime_compiled (time_compile format) data.

(** ** Properties *)

(** Every named group of [p] is numbered and set by every match. *)
Definition names_mandatory (p : pattern) : bool :=
  forallb (fun ng => negb (ng.2 =? 0)%nat && bool_decide (ng.2 ∈ mandatory_groups (pat_re p)))
    (pat_names p).

Lemma days_in_month_le_31 y m : days_in_month y m <= 31.
Proof.
  unfold days_in_month. destruct (_ && _); [lia|].
  destruct (N.to_nat m) as [|[|[|[|[|[|[|[|[|[|[|[|[|[]]]]]]]]]]]]]]; simpl; lia.
Qed.

Lemma convert_group_matched key t fs : convert_group key (Some t) fs <> Err GroupNotMatched.
Proof.
  unfold convert_group.
  repeat match goal with
         | |- context [if ?b then _ else _] => destruct b
         | |- context [match ?o with Some _ => _ | None => _ end] => destruct o
         end; discriminate.
Qed.

Lemma convert_groups_matched p s mo keys fs :
  Forall (fun ng => is_Some (group s mo ng.2)) keys ->
  convert_groups p s mo keys fs <> Err GroupNotMatched.
Proof.
  intros Hall. revert fs. induction Hall as [|[name g] keys [t Ht] _ IH]; intros fs; simpl in *; [done|].
  rewrite Ht. destruct (convert_group _ (Some t) fs) eqn:E; simpl; [apply IH|].
  intros [= ->]. by apply (convert_group_matched (default 0 (head name)) t fs).
Qed.

(** A compiled format whose named groups are mandatory never raises the
    [TypeError] of [int(None)]: its errors are all [ValueError]s. *)
Lemma strptime_compiled_value_error p data e :
  names_mandatory p = true -> strptime_compiled (Some p) data = Err e -> is_value_error e = true.
Proof.
  intros Hp. unfold strptime_compiled.
  destruct (re_match p data) as [mo|] eqn:Em; [|by intros [= <-]].
  destruct (negb _); [by intros [= <-]|].
  destruct (convert_groups p data mo (rev (pat_names p)) (Fields None 1 1)) as [fs|e'] eqn:Ec; simpl.
  - destruct (valid_date _); [done | by intros [= <-]].
  - intros [= ->]. destruct e; try done. exfalso. revert Ec. apply convert_groups_matched.
    apply Forall_rev, List.Forall_forall. intros [name g] Hin.
    unfold names_mandatory in Hp. rewrite forallb_forall in Hp.
    specialize (Hp _ Hin). simpl in Hp.
    apply andb_prop in Hp as [Hg0 Hm]. apply bool_decide_eq_true in Hm.
    apply re_match_at_spec in Em as (_ & _ & _ & _ & Hcaps).
    unfold group. simpl. destruct (g =? 0)%nat eqn:E0; [done|].
    destruct (Hcaps g Hm) as [sp Hsp]. rewrite Hsp. eauto.
Qed.

(** A compiled format only gives dates that [datetime.date] accepts. *)
Lemma strptime_compiled_date_valid c data d :
  strptime_compiled c data = Ok d -> valid_date d = true.
Proof.
  unfold strptime_compiled. destruct c as [p|]; [|done].
  destruct (re_match p data) as [mo|]; [|done]. destruct (negb _); [done|].
  destruct (convert_groups _ _ _ _ _); simpl; [|done].
  destruct (valid_date _) eqn:E; [|done]. by intros [= <-].
Qed.

(** [datetime.strptime(data, format).date()] only returns dates
    that [datetime.date] accepts, whatever the format. *)
Theorem strptime_valid data format d :
  strptime data format = Ok d -> valid_date d = true.
Proof. apply strptime_compiled_date_valid. Qed.

(** The check of [%y] over the two-digit years. *)
Lemma strptime_y_table :
  forall_N 0 99 (fun yy => bool_decide (strptime (pad_N 2 yy) (u "%y") = Ok (Date (y2k_pivot yy) 1 1))) = true.
Proof. vm_compute. reflexivity. Qed.

(** [%y] alone: [strptime(yy, '%y')] is the first of January of the
    pivoted year, for every two-digit [yy]: 00..68 are 2000..2068 and
    69..99 are 1969..1999. *)
Theorem strptime_two_digit_year yy :
  yy <= 99 ->
  strptime (pad_N 2 yy) (u "%y") = Ok (Date (y2k_pivot yy) 1 1) /\
  (yy <= 68 -> y2k_pivot yy = 2000 + yy) /\ (69 <= yy -> y2k_pivot yy = 1900 + yy).
Proof.
  intros Hy. split; [|unfold y2k_pivot; split; intros; destruct (N.leb_spec yy 68); lia].
  exact (forall_N_decide (fun yy => strptime (pad_N 2 yy) (u "%y") = Ok (Date (y2k_pivot yy) 1 1))
           0 99 yy strptime_y_table ltac:(lia)).
Qed.

(** ** Instances *)

Lemma strptime_valid_witness : valid_date (Date 2024 2 14) = true.
Proof.
  apply (strptime_valid (u "14 FEB 24") (u "%d %b %y")).
  vm_compute. reflexivity.
Defined.

Lemma strptime_two_digit_year_witness :
  strptime (pad_N 2 50) (u "%y") = Ok (Date (y2k_pivot 50) 1 1) /\
  (50 <= 68 -> y2k_pivot 50 = 2000 + 50) /\ (69 <= 50 -> y2k_pivot 50 = 1900 + 50).
Proof. apply strptime_two_digit_year. lia. Defined.
