(* ===== verification/DateField.v ===== *)
(** * [DateField.to_python] ([src/fields.py] lines 202-263)

    A value that is [None] or a [date] (a [datetime] included) is returned
    as it is.  A string is normalised by seven rewrites, one per source
    line ([normalize]), and then parsed with each of thirteen
    [strptime] formats in order; the first that succeeds gives the date,
    and when none does a [ValidationError] carries the normalised text.
    Any other value reaches [re.sub], which raises a [TypeError]. *)

From S2P Require Import Prelude PyStr Regex Strptime.
From Stdlib Require String.
Import String.StringSyntax.
Local Open Scope string_scope.

(** ** Values and errors *)

(** The values [to_python] distinguishes: [datetime] is a subclass of
    [date], so [isinstance(value, date)] accepts both. *)
Inductive pyvalue : Type :=
| VNone
| VDate (d : date)
| VDateTime (d : date) (seconds : N)
| VStr (s : pystr)
| VOther.

Inductive field_error : Type :=
| ValidationError (value : pystr)   (* "Date format for '{value}' not recognized" *)
| TypeError.

#[export] Instance pyvalue_eq_dec : EqDecision pyvalue.
Proof. solve_decision. Defined.
#[export] Instance field_error_eq_dec : EqDecision field_error.
Proof. solve_decision. Defined.

(** ** The formats, in the order of the source *)

Definition formats : list pystr :=
  map u ["%d %b %y"; "%d %B %y"; "%d %b %Y"; "%d %B %Y"; "%B %d %Y"; "%Y-%m-%d";
         "%d.%m.%Y"; "%d/%m/%Y"; "%d/%m/%y"; "%y%m%d"; "%Y-%m"; "%y-%m"; "%Y"].

(** ** The normalisation, one definition per step *)

(** Line 223: "... 20 19" at the very end becomes "... 2019". *)
Definition glued_year_re : pattern := Eval vm_compute in pat false "(\b19\b|\b20\b) (\d{2})$".
Definition repair_glued_year (v : pystr) : pystr := re_sub glued_year_re (u "\1\2") v.

(** Lines 226-227: " ABR/APR " becomes " APR ". *)
Definition dual_month_re : pattern := Eval vm_compute in
  pat false " (?P<local_month>[A-ZÇĞİÖŞÜ]{3})/(?P<english_month>[A-ZÇĞİÖŞÜ]{3}) ".
Definition collapse_dual_month (v : pystr) : pystr := re_sub dual_month_re (u " \2 ") v.

(** Line 230: every character that is not a word character, a space, a
    dot, a slash or a dash, and a dot at the end, becomes a space; then
    the string is put in upper case. *)
Definition special_chars_re : pattern := Eval vm_compute in pat false "[^\w\s./-]|\.$".
Definition strip_special_chars (v : pystr) : pystr :=
  py_upper (re_sub special_chars_re (u " ") v).

(** Line 231: runs of two or more spaces become one, then [strip()]. *)
Definition multi_space_re : pattern := Eval vm_compute in pat false "\s\s+".
Definition collapse_whitespace (v : pystr) : pystr := py_strip (re_sub multi_space_re (u " ") v).

(** Line 234: "1ST" becomes "1". *)
Definition ordinal_re : pattern := Eval vm_compute in pat false "\b(\d+)(?:ST|ND|RD|TH)\b".
Definition remove_ordinal_suffixes (v : pystr) : pystr := re_sub ordinal_re (u "\1") v.

(** Lines 236-249: the month aliases, in the order of the dictionary. *)
Definition months : list (pystr * pystr) :=
  map (fun kv => (u kv.1, u kv.2))
    [("FÉV", "FEB"); ("AVR", "APR"); ("MAI", "MAY"); ("JUI", "JUN"); ("AOÛ", "AUG"); ("DÉC", "DEC")].

(** Lines 251-252: [value = value.replace(key, value_month)] for each. *)
Definition replace_month_aliases (v : pystr) : pystr :=
  foldl (fun acc kv => py_replace acc kv.1 kv.2) v months.

(** Line 255: "FEB/FEB" becomes "FEB". *)
Definition dup_word_re : pattern := Eval vm_compute in pat false "\b(\w+)\b/\b\1\b".
Definition collapse_duplicate_words (v : pystr) : pystr := re_sub dup_word_re (u "\1") v.

(** Lines 222-255, in the order of the source. *)
Definition normalize (v : pystr) : pystr :=
  collapse_duplicate_words
    (replace_month_aliases
      (remove_ordinal_suffixes
        (collapse_whitespace
          (strip_special_chars
            (collapse_dual_month
              (repair_glued_year v)))))).

(** ** The format loop and [to_python] *)

(** Lines 257-263: the first format that parses wins; a [ValueError] is
    caught and the next format is tried; when all have failed, the
    [ValidationError] names the normalised value. *)
Fixpoint try_formats (fmts : list pystr) (v : pystr) : result field_error date :=
  match fmts with
  | [] => Err (ValidationError v)
  | fmt :: fmts' =>
    match strptime v fmt with
    | Ok d => Ok d
    | Err e => if is_value_error e then try_formats fmts' v else Err TypeError
    end
  end.

Definition to_python (value : pyvalue) : result field_error pyvalue :=
  match value with
  | VNone => Ok VNone
  | VDate d => Ok (VDate d)
  | VDateTime d t => Ok (VDateTime d t)
  | VStr s =>
    match try_formats formats (normalize s) with
    | Ok d => Ok (VDate d)
    | Err e => Err e
    end
  | VOther => Err TypeError
  end.

(** The formats compiled once, as [_strptime._regex_cache] keeps them. *)
Definition format_regexes : list (option pattern) := Eval vm_compute in map time_compile formats.

Fixpoint try_compiled (fmts : list (option pattern)) (v : pystr) : result field_error date :=
  match fmts with
  | [] => Err (ValidationError v)
  | c :: fmts' =>
    match strptime_compiled c v with
    | Ok d => Ok d
    | Err e => if is_value_error e then try_compiled fmts' v else Err TypeError
    end
  end.

(** ** The format loop *)

Lemma format_regexes_eq : format_regexes = map time_compile formats.
Proof. vm_compute. reflexivity. Qed.

Lemma try_formats_compiled fmts v : try_formats fmts v = try_compiled (map time_compile fmts) v.
Proof.
  induction fmts as [|f fmts IH]; simpl; [done|]. unfold strptime.
  destruct (strptime_compiled _ _); [done|]. by rewrite IH.
Qed.

(** Every format of the source compiles, and its named groups are set
    by every match. *)
Definition compiled_ok (c : option pattern) : bool :=
  match c with Some p => names_mandatory p | None => false end.

Lemma format_regexes_ok : Forall (fun c => compiled_ok c = true) format_regexes.
Proof. apply List.Forall_forall, forallb_forall. vm_compute. reflexivity. Qed.

Lemma strptime_formats_value_error v fmt e :
  fmt ∈ formats -> strptime v fmt = Err e -> is_value_error e = true.
Proof.
  intros Hf. unfold strptime.
  assert (compiled_ok (time_compile fmt) = true) as Hok.
  { pose proof format_regexes_ok as Hall. rewrite Forall_forall in Hall. apply Hall.
    rewrite format_regexes_eq. apply list_elem_of_In, in_map, list_elem_of_In. done. }
  destruct (time_compile fmt) as [p|]; [|done]. by apply strptime_compiled_value_error.
Qed.

(** The loop returns the result of the first format that parses, and
    gets there only when every earlier format raised a [ValueError]. *)
Lemma try_formats_ok fmts v d :
  (forall fmt e, fmt ∈ fmts -> strptime v fmt = Err e -> is_value_error e = true) ->
  try_formats fmts v = Ok d <->
  exists i fmt, fmts !! i = Some fmt /\ strptime v fmt = Ok d /\
    forall j fmt', j < i -> fmts !! j = Some fmt' -> exists e, strptime v fmt' = Err e.
Proof.
  intros Hve. induction fmts as [|f fmts IH]; simpl.
  - split; [done|]. by intros (i & fmt & Hi & _).
  - destruct (strptime v f) as [d'|e] eqn:Ef.
    + split.
      * intros [= ->]. exists 0, f. split; [done|]. split; [done|]. intros; lia.
      * intros (i & fmt & Hi & Hd & Hj). destruct i as [|i].
        -- simpl in Hi. injection Hi as ->. congruence.
        -- destruct (Hj 0 f) as [e He]; [lia | done | congruence].
    + rewrite (Hve f e); [|apply elem_of_cons; by left|done].
      rewrite IH; [|intros fmt e' Hin; apply Hve; apply elem_of_cons; by right]. split.
      * intros (i & fmt & Hi & Hd & Hj). exists (S i), fmt. split; [done|]. split; [done|].
        intros [|j] fmt' Hlt Hj'; simpl in Hj'; [injection Hj' as <-; eauto|].
        apply (Hj j); [lia | done].
      * intros (i & fmt & Hi & Hd & Hj). destruct i as [|i]; [simpl in Hi; congruence|].
        exists i, fmt. split; [done|]. split; [done|].
        intros j fmt' Hlt Hj'. apply (Hj (S j)); [lia | done].
Qed.

Lemma try_compiled_error fmts v e :
  Forall (fun c => compiled_ok c = true) fmts ->
  try_compiled fmts v = Err e -> e = ValidationError v.
Proof.
  induction 1 as [|c fmts Hc _ IH]; simpl; [congruence|].
  destruct c as [p|]; [|done]. destruct (strptime_compiled (Some p) v) as [d|e'] eqn:E; [done|].
  rewrite (strptime_compiled_value_error p v e' Hc E). apply IH.
Qed.

Lemma try_compiled_valid fmts v d : try_compiled fmts v = Ok d -> valid_date d = true.
Proof.
  induction fmts as [|c fmts IH]; simpl; [done|].
  destruct (strptime_compiled c v) as [d'|e] eqn:E.
  - intros [= <-]. by apply strptime_compiled_date_valid in E.
  - destruct (is_value_error e); [apply IH | done].
Qed.

(** ** The behaviour of [to_python] *)

(** [to_python] on a string with the compiled formats: what the checkers
    below evaluate. *)
Definition to_python_str_cached (s : pystr) : result field_error pyvalue :=
  match try_compiled format_regexes (normalize s) with
  | Ok d => Ok (VDate d)
  | Err e => Err e
  end.

Lemma to_python_str_cached_eq s : to_python (VStr s) = to_python_str_cached s.
Proof. unfold to_python, to_python_str_cached. by rewrite try_formats_compiled, <- format_regexes_eq. Qed.

(** A check of [to_python] on one string against its expected result. *)
Definition check_to_python (s : pystr) (expected : result field_error pyvalue) : bool :=
  bool_decide (to_python_str_cached s = expected).

Lemma check_to_python_sound s expected :
  check_to_python s expected = true -> to_python (VStr s) = expected.
Proof. unfold check_to_python. rewrite to_python_str_cached_eq. by intros ?%bool_decide_eq_true. Qed.

(** C1: A string either gives a valid calendar date or a [ValidationError]
    that names its normalised form: never another exception, and never a
    date that [datetime.date] would refuse. *)
Theorem to_python_str_result s :
  (exists d, to_python (VStr s) = Ok (VDate d) /\ valid_date d = true) \/
  to_python (VStr s) = Err (ValidationError (normalize s)).
Proof.
  unfold to_python. rewrite try_formats_compiled, <- format_regexes_eq.
  destruct (try_compiled format_regexes (normalize s)) as [d|e] eqn:E.
  - left. exists d. split; [done|]. by apply try_compiled_valid in E.
  - right. by rewrite (try_compiled_error _ _ _ format_regexes_ok E).
Qed.

(** C2: Formats are tried in the order of the source and the first that
    parses the normalised string gives the date. *)
Theorem to_python_first_format s d :
  to_python (VStr s) = Ok (VDate d) <->
  exists i fmt, formats !! i = Some fmt /\ strptime (normalize s) fmt = Ok d /\
    forall j fmt', j < i -> formats !! j = Some fmt' -> exists e, strptime (normalize s) fmt' = Err e.
Proof.
  rewrite <- try_formats_ok by (intros fmt e Hf; by apply strptime_formats_value_error).
  unfold to_python. destruct (try_formats formats (normalize s)); split; congruence.
Qed.

(** Strings of the canonical shapes: a month abbreviation and a month
    name in upper case, as the normalisation leaves them. *)
Definition month_abbr (m : N) : pystr := py_upper (nth (N.to_nat m) a_month []).
Definition month_name (m : N) : pystr := py_upper (nth (N.to_nat m) f_month []).

(** The checker of the "D MON YY" round trip for one date. *)
Definition d_mon_yy_check (m yy d : N) : bool :=
  implb (d <=? days_in_month (y2k_pivot yy) m)%N
    (check_to_python (str_of_N d ++ u " " ++ month_abbr m ++ u " " ++ pad_N 2 yy)
       (Ok (VDate (Date (y2k_pivot yy) m d)))).

Lemma d_mon_yy_table :
  forall_N 1 12 (fun m => forall_N 0 99 (fun yy => forall_N 1 31 (fun d => d_mon_yy_check m yy d))) = true.
Proof. vm_compute. reflexivity. Qed.

(** C3: "D MON YY" round trip, and the two-digit-year pivot: every date
    written as day, month abbreviation and two-digit year parses back to
    itself, with the years 00..68 in the 2000s and 69..99 in the 1900s. *)
Theorem d_mon_yy_roundtrip (d m yy : N) :
  (1 <= m <= 12)%N -> (yy <= 99)%N -> (1 <= d <= days_in_month (y2k_pivot yy) m)%N ->
  to_python (VStr (str_of_N d ++ u " " ++ month_abbr m ++ u " " ++ pad_N 2 yy))
  = Ok (VDate (Date (y2k_pivot yy) m d)).
Proof.
  intros Hm Hy Hd. apply check_to_python_sound.
  pose proof (days_in_month_le_31 (y2k_pivot yy) m).
  refine (implb_true_elim _ _ (forall_N_sound3 1 12 0 99 1 31 d_mon_yy_check m yy d
            d_mon_yy_table Hm _ _) _); [lia | lia | apply N.leb_le; lia].
Qed.

(** Values that are not strings: [None] and dates (a [datetime]
    included) are returned unchanged; any other value reaches [re.sub],
    which raises [TypeError]. *)
Theorem to_python_non_str v :
  match v with VStr _ => True | VOther => to_python v = Err TypeError | _ => to_python v = Ok v end.
Proof. by destruct v. Qed.

(** The concrete scenarios of the specification that the code
    satisfies. *)
Example spec_scenarios :
  to_python (VStr (u "14 FEB 24")) = Ok (VDate (Date 2024 2 14)) /\
  to_python (VStr (u "25.10.2019")) = Ok (VDate (Date 2019 10 25)) /\
  to_python (VStr (u "JULY 6 1997")) = Ok (VDate (Date 1997 7 6)) /\
  to_python (VStr (u "1ST JAN 2000")) = Ok (VDate (Date 2000 1 1)) /\
  to_python (VStr (u "18 ABR/APR 2027")) = Ok (VDate (Date 2027 4 18)) /\
  to_python (VStr (u "14 FÉV 24")) = Ok (VDate (Date 2024 2 14)) /\
  to_python (VStr (u "990101")) = Ok (VDate (Date 1999 1 1)) /\
  to_python (VStr (u "banana")) = Err (ValidationError (u "BANANA")).
Proof. repeat split; apply check_to_python_sound; vm_compute; reflexivity. Qed.

(** The example the comment of line 222 names is not parsed: the
    glued year is repaired, but no format accepts the word "OF". *)
Example glued_year_comment_example :
  normalize (u "16 OF DECEMBER 20 19") = u "16 OF DECEMBER 2019" /\
  to_python (VStr (u "16 OF DECEMBER 20 19")) = Err (ValidationError (u "16 OF DECEMBER 2019")).
Proof. split; [vm_compute; reflexivity | apply check_to_python_sound; vm_compute; reflexivity]. Qed.

(** "31 FEB 2024" matches the grammar "%d %b %Y" but is no date:
    the code raises the same [ValidationError] as for a string that
    matches no grammar, where the specification asks for a separate
    [InvalidNumericRange]. *)
Example invalid_range_not_classified :
  to_python (VStr (u "31 FEB 2024")) = Err (ValidationError (u "31 FEB 2024")) /\
  to_python (VStr (u "30 FEB 2024")) = Err (ValidationError (u "30 FEB 2024")) /\
  to_python (VStr (u "29 FEB 2024")) = Ok (VDate (Date 2024 2 29)) /\
  to_python (VStr (u "29 FEB 2023")) = Err (ValidationError (u "29 FEB 2023")).
Proof. repeat split; apply check_to_python_sound; vm_compute; reflexivity. Qed.

(** "010100" is rejected: "%y%m%d" reads day 00, and "%Y" leaves
    "00" unconverted; the specification expects the year 2001. *)
Example yymmdd_010100_rejected :
  to_python (VStr (u "010100")) = Err (ValidationError (u "010100")).
Proof. apply check_to_python_sound; vm_compute; reflexivity. Qed.

(** The normalisation is not idempotent: the glued year is repaired
    before the trailing dot is removed, so a second pass repairs what the
    first left. *)
Example normalize_not_idempotent :
  normalize (u "20 19.") = u "20 19" /\ normalize (normalize (u "20 19.")) = u "2019".
Proof. split; vm_compute; reflexivity. Qed.

Lemma yymd_table :
  forall_N 0 99 (fun yy => forall_N 1 9 (fun m => forall_N 1 9 (fun d =>
    check_to_python (pad_N 2 yy ++ str_of_N m ++ str_of_N d) (Ok (VDate (Date (y2k_pivot yy) m d)))))) = true.
Proof. vm_compute. reflexivity. Qed.

(** A four-digit year whose last two digits are not zero is read by
    the earlier grammar "%y%m%d" as a two-digit year, a month and a day,
    never by the grammar "%Y": "2018" is the 8th of January 2020. *)
Theorem year_only_misread (yy m d : N) :
  (yy <= 99)%N -> (1 <= m <= 9)%N -> (1 <= d <= 9)%N ->
  to_python (VStr (pad_N 2 yy ++ str_of_N m ++ str_of_N d)) = Ok (VDate (Date (y2k_pivot yy) m d)).
Proof.
  intros Hy Hm Hd. apply check_to_python_sound.
  exact (forall_N_sound3 0 99 1 9 1 9 (fun yy m d => check_to_python (pad_N 2 yy ++ str_of_N m ++ str_of_N d)
    (Ok (VDate (Date (y2k_pivot yy) m d)))) yy m d yymd_table ltac:(lia) Hm Hd).
Qed.

Lemma same_dm_table :
  forall_N 1 12 (fun d => forall_N 1900 2099 (fun y =>
    check_to_python (str_of_N d ++ u "/" ++ str_of_N d ++ u "/" ++ str_of_N y)
      (Err (ValidationError (str_of_N d ++ u "/" ++ str_of_N y))))) = true.
Proof. vm_compute. reflexivity. Qed.

(** A date whose day and month are the same number, written
    "D/M/YYYY" with a year from 1900 to 2099, is rejected: the duplicate-word rewrite of line 255
    collapses "5/5" to "5" before any format is tried. *)
Theorem same_day_month_slash_rejected (d y : N) :
  (1 <= d <= 12)%N -> (1900 <= y <= 2099)%N ->
  to_python (VStr (str_of_N d ++ u "/" ++ str_of_N d ++ u "/" ++ str_of_N y))
  = Err (ValidationError (str_of_N d ++ u "/" ++ str_of_N y)).
Proof.
  intros Hd Hy. apply check_to_python_sound.
  exact (forall_N_sound2 1 12 1900 2099 (fun d y =>
    check_to_python (str_of_N d ++ u "/" ++ str_of_N d ++ u "/" ++ str_of_N y)
      (Err (ValidationError (str_of_N d ++ u "/" ++ str_of_N y)))) d y same_dm_table Hd Hy).
Qed.

(** The two-digit-year pivot of the code is that of [_strptime]
    (00..68 in the 2000s, 69..99 in the 1900s), not the one the
    specification documents (00..49 and 50..99): "1 JAN 50" is 2050. *)
Example pivot_boundary :
  to_python (VStr (u "1 JAN 49")) = Ok (VDate (Date 2049 1 1)) /\
  to_python (VStr (u "1 JAN 50")) = Ok (VDate (Date 2050 1 1)) /\
  to_python (VStr (u "1 JAN 68")) = Ok (VDate (Date 2068 1 1)) /\
  to_python (VStr (u "1 JAN 69")) = Ok (VDate (Date 1969 1 1)).
Proof. repeat split; apply check_to_python_sound; vm_compute; reflexivity. Qed.

(** The normalised text may keep a tab and an underscore: a single
    white-space character is not rewritten by [\s\s+], and [_] is a word
    character.  The formats still accept the tab, since [TimeRE] turns
    the spaces of a format into [\s+]. *)
Example normalize_keeps_tab_and_underscore :
  normalize (u "14" ++ [9%N] ++ u "FEB" ++ [9%N] ++ u "24") = u "14" ++ [9%N] ++ u "FEB" ++ [9%N] ++ u "24" /\
  normalize (u "14_FEB_24") = u "14_FEB_24" /\
  to_python (VStr (u "14" ++ [9%N] ++ u "FEB" ++ [9%N] ++ u "24")) = Ok (VDate (Date 2024 2 14)).
Proof. split; [|split]; [vm_compute; reflexivity.. | apply check_to_python_sound; vm_compute; reflexivity]. Qed.

(** The month aliases are replaced wherever they occur
    ([str.replace]), not as whole words: "FÉVRIER" becomes "FEBRIER"
    and "JUILLET" becomes "JUNLLET". *)
Example month_alias_inside_words :
  normalize (u "14 février 24") = u "14 FEBRIER 24" /\
  normalize (u "14 JUILLET 2020") = u "14 JUNLLET 2020".
Proof. split; vm_compute; reflexivity. Qed.

(** The dual-month rewrite runs before the upper-casing and its
    classes are upper case: "18 abr/apr 2027" keeps both tokens and is
    rejected, where "18 ABR/APR 2027" is the 18th of April 2027. *)
Example lowercase_dual_month_rejected :
  to_python (VStr (u "18 abr/apr 2027")) = Err (ValidationError (u "18 ABR/APR 2027")).
Proof. apply check_to_python_sound; vm_compute; reflexivity. Qed.

(** ** Instances *)

Lemma d_mon_yy_roundtrip_witness :
  to_python (VStr (str_of_N 29 ++ u " " ++ month_abbr 2 ++ u " " ++ pad_N 2 24))
  = Ok (VDate (Date (y2k_pivot 24) 2 29)).
Proof.
  apply d_mon_yy_roundtrip; [lia | lia | split; [lia | apply N.leb_le; reflexivity]].
Defined.

Lemma year_only_misread_witness :
  to_python (VStr (pad_N 2 20 ++ str_of_N 1 ++ str_of_N 8)) = Ok (VDate (Date (y2k_pivot 20) 1 8)).
Proof. apply year_only_misread; lia. Defined.

Lemma same_day_month_slash_rejected_witness :
  to_python (VStr (str_of_N 5 ++ u "/" ++ str_of_N 5 ++ u "/" ++ str_of_N 2019))
  = Err (ValidationError (str_of_N 5 ++ u "/" ++ str_of_N 2019)).
Proof. apply same_day_month_slash_rejected; lia. Defined.
