(* ===== verification/FieldClasses.v ===== *)
(** * Field constructors, [CountryField.clean] and [CleanValueDescriptor]
      ([src/fields.py] lines 18-36, 39-46, 94-103, 127-148, 172-200)

    The constructors build a [defaults] dict, [dict.update] it with the
    keyword arguments and pass the result to Django's constructor: the
    keyword arguments are an association list in call order (their
    names are distinct, as Python guarantees), and the result is the
    dict handed to [super().__init__], in insertion order.

    [CountryField.clean] looks the stripped, upper-cased string up in
    [self.mapping] and hands the result to [countries.alpha2], a
    parameter ([django_countries] is a library) that returns a code or
    raises [KeyError]; Django's [clean] that follows is a parameter too.

    [DateField.contribute_to_class] installs a [CleanValueDescriptor] on
    the model class.  An instance is its class's attributes and its
    [__dict__]; [setattr] and [getattr] follow Python's attribute
    protocol, in which a data descriptor of the class (one with
    [__set__]) takes precedence over the instance's [__dict__]. *)

From S2P Require Import Prelude PyStr Strptime DateField.
From Stdlib Require String.
Import String.StringSyntax.

Local Open Scope string_scope.

(** ** Keyword arguments *)

(** The values the constructors put in [defaults] or receive. *)
Inductive kwarg : Type :=
| KwBool (b : bool)
| KwInt (n : N)
| KwStr (s : pystr)
| KwObj (repr : pystr)
| KwChoices (choices : list (pystr * pystr)).   (* [choices=[(value, label), ...]] *)

#[export] Instance kwarg_eq_dec : EqDecision kwarg.
Proof. solve_decision. Defined.

(** [d.update(kwargs)]: each pair in order, as [d[k] = v]. *)
Definition dict_update {A} (d kwargs : list (pystr * A)) : list (pystr * A) :=
  fold_left (fun d kv => kv_set kv.1 kv.2 d) kwargs d.

(** [True if x is None else x]; [None] is also the absent argument. *)
Definition true_if_none (x : option kwarg) : kwarg :=
  match x with None => KwBool true | Some v => v end.

(** ** The constructors: the dict passed to [super().__init__] *)

Definition CountryField_init (mapping : option (list (pystr * pystr))) (form_blank db_null : option kwarg)
    (kwargs : list (pystr * kwarg)) : list (pystr * pystr) * list (pystr * kwarg) :=
  let defaults := [(u "blank", true_if_none form_blank); (u "null", true_if_none db_null)] in
  (* [self.mapping = mapping or {}] *)
  (match mapping with Some m => m | None => [] end, dict_update defaults kwargs).

Definition DecimalField_init (form_blank db_null : option kwarg) (kwargs : list (pystr * kwarg)) :
    list (pystr * kwarg) :=
  dict_update [(u "blank", true_if_none form_blank); (u "null", true_if_none db_null)] kwargs.

Definition AdvancedCharField_init (kwargs : list (pystr * kwarg)) : list (pystr * kwarg) :=
  dict_update [(u "max_length", KwInt 255); (u "blank", KwBool true); (u "null", KwBool false);
               (u "default", KwStr [])] kwargs.

(** The tests [if 'blank' in kwargs: pass] and [if 'null' in kwargs:
    pass] do nothing. *)
Definition CharField_init (form_blank db_null : option kwarg) (kwargs : list (pystr * kwarg)) :
    list (pystr * kwarg) :=
  dict_update [(u "max_length", KwInt 255); (u "blank", true_if_none form_blank);
               (u "null", true_if_none db_null); (u "default", KwStr [])] kwargs.

Definition DateField_init (form_blank db_null : option kwarg) (kwargs : list (pystr * kwarg)) :
    list (pystr * kwarg) :=
  dict_update [(u "max_length", KwInt 255); (u "blank", true_if_none form_blank);
               (u "null", true_if_none db_null)] kwargs.

(** [IntegerField.__init__]: its [if 'blank' in kwargs: pass] and
    [if 'null' in kwargs: pass] do nothing either. *)
Definition IntegerField_init (form_blank db_null : option kwarg) (kwargs : list (pystr * kwarg)) :
    list (pystr * kwarg) :=
  dict_update [(u "blank", true_if_none form_blank); (u "null", true_if_none db_null)] kwargs.

(** ** [CountryField.clean] *)

Inductive country_value : Type :=
| CVStr (s : pystr)
| CVOther.

Module CountryField.
Section Clean.

Context (alpha2 : pystr -> result unit pystr).    (* [django_countries.countries.alpha2] *)
Context {R : Type} (super_clean : country_value -> R).   (* [models.Field.clean] *)

(** [self.mapping.get(value.strip().upper(), value.strip().upper())]. *)
Definition mapped (mapping : list (pystr * pystr)) (s : pystr) : pystr :=
  let k := py_upper (py_strip s) in
  match kv_lookup k mapping with Some v => v | None => k end.

(** The value [clean] hands to [super().clean]. *)
Definition clean_value (mapping : list (pystr * pystr)) (value : country_value) : country_value :=
  match value with
  | CVStr s =>
    let v := mapped mapping s in
    match alpha2 v with Ok c => CVStr c | Err _ => CVStr v end
  | CVOther => CVOther
  end.

Definition clean (mapping : list (pystr * pystr)) (value : country_value) : R :=
  super_clean (clean_value mapping value).

End Clean.
End CountryField.

(** ** [CleanValueDescriptor] and the attribute protocol *)

(** An attribute of a model class: the descriptor of a field (by the
    field's name) or a plain class attribute. *)
Inductive class_attr : Type :=
| DataDescriptor (field_name : pystr)
| ClassValue (v : pyvalue).

Record model_instance : Type := ModelInstance {
  inst_class : list (pystr * class_attr);   (* the attributes of [type(instance)] *)
  inst_dict : list (pystr * pyvalue)        (* [instance.__dict__] *)
}.

Definition set_dict (obj : model_instance) (name : pystr) (v : pyvalue) : model_instance :=
  ModelInstance (inst_class obj) (kv_set name v (inst_dict obj)).

Module CleanValueDescriptor.
Section Descriptor.

Context (to_python : pyvalue -> result field_error pyvalue).   (* [self.field.to_python] *)

(** [__get__(instance)]: [instance.__dict__.get(self.field.name)]; the
    descriptor itself when [instance] is [None] (access on the class). *)
Inductive get_result : Type :=
| TheDescriptor
| Value (v : pyvalue).

Definition get (field_name : pystr) (instance : option model_instance) : get_result :=
  match instance with
  | None => TheDescriptor
  | Some obj => Value (match kv_lookup field_name (inst_dict obj) with Some v => v | None => VNone end)
  end.

(** [__set__(instance, value)]: [to_python] first, which may raise; the
    [__dict__] is written only with its result. *)
Definition set (field_name : pystr) (obj : model_instance) (value : pyvalue) : result field_error model_instance :=
  parsed <- to_python value ;;
  Ok (set_dict obj field_name parsed).

(** [setattr(obj, name, value)]: a data descriptor of the class takes
    the assignment, the [__dict__] otherwise. *)
Definition py_setattr (obj : model_instance) (name : pystr) (value : pyvalue) : result field_error model_instance :=
  match kv_lookup name (inst_class obj) with
  | Some (DataDescriptor f) => set f obj value
  | _ => Ok (set_dict obj name value)
  end.

(** [getattr(obj, name)]: a data descriptor first, the [__dict__], then
    a plain class attribute; [None] is [AttributeError]. *)
Definition py_getattr (obj : model_instance) (name : pystr) : option pyvalue :=
  match kv_lookup name (inst_class obj) with
  | Some (DataDescriptor f) =>
    match get f (Some obj) with Value v => Some v | TheDescriptor => None end
  | Some (ClassValue v) => Some (match kv_lookup name (inst_dict obj) with Some w => w | None => v end)
  | None => kv_lookup name (inst_dict obj)
  end.

(** [Model.__init__] with keyword arguments, as far as the fields go: [setattr] for
    each keyword argument in order, the first exception ending it. *)
Fixpoint setattrs (obj : model_instance) (kwargs : list (pystr * pyvalue)) : result field_error model_instance :=
  match kwargs with
  | [] => Ok obj
  | (n, v) :: kwargs' => obj' <- py_setattr obj n v ;; setattrs obj' kwargs'
  end.

End Descriptor.
End CleanValueDescriptor.

(** [DateField.contribute_to_class(cls, name)]: after Django's own
    (which names the field [name]), [setattr(cls, name,
    CleanValueDescriptor(self))]. *)
Definition DateField_contribute_to_class (cls : list (pystr * class_attr)) (name : pystr) :
    list (pystr * class_attr) :=
  kv_set name (DataDescriptor name) cls.

(** ** What the invariant speaks of *)

(** The values [DateField.to_python] returns: [None], a [date] or a
    [datetime]. *)
Definition date_value (v : pyvalue) : bool :=
  match v with VNone | VDate _ | VDateTime _ _ => true | VStr _ | VOther => false end.

(** Every descriptor of the class is named by its attribute, as
    [contribute_to_class] installs it. *)
Definition class_wf (cls : list (pystr * class_attr)) : bool :=
  forallb (fun na => match na.2 with DataDescriptor f => bool_decide (f = na.1) | ClassValue _ => true end) cls.

(** The [__dict__] entry of every field with a descriptor holds a value
    of the field. *)
Definition fields_ok (obj : model_instance) : Prop :=
  forall n f v, kv_lookup n (inst_class obj) = Some (DataDescriptor f) ->
                kv_lookup f (inst_dict obj) = Some v -> date_value v = true.

(** ** Examples *)

(** A model with one [DateField], [born]. *)
Definition ex_class : list (pystr * class_attr) := DateField_contribute_to_class [] (u "born").

(** [alpha2] that knows the code [DE] only. *)
Definition ex_alpha2 (s : pystr) : result unit pystr :=
  if bool_decide (s = u "DE") then Ok (u "DE") else Err tt.

(** ** Lemmas *)

(** [dict.update] with distinct keys: a key given wins, the default
    stays otherwise. *)
Lemma dict_update_lookup {A} (d kwargs : list (pystr * A)) k :
  NoDup kwargs.*1 ->
  kv_lookup k (dict_update d kwargs) = match kv_lookup k kwargs with Some v => Some v | None => kv_lookup k d end.
Proof.
  revert d. induction kwargs as [|[k' v] kwargs IH]; intros d; [done|]. cbn [fmap list_fmap fst].
  rewrite NoDup_cons. intros [Hk Hnd].
  change (dict_update d ((k', v) :: kwargs)) with (dict_update (kv_set k' v d) kwargs).
  rewrite IH by done. cbn [kv_lookup].
  case_bool_decide as E; [subst k'; by rewrite kv_lookup_notin, kv_lookup_set_eq|].
  destruct (kv_lookup k kwargs); [done|]. by apply kv_lookup_set_ne.
Qed.

Lemma class_wf_lookup cls n f : class_wf cls = true -> kv_lookup n cls = Some (DataDescriptor f) -> f = n.
Proof.
  induction cls as [|[n' a] cls IH]; [done|]. cbn. rewrite andb_true_iff. intros [Ha Hcls].
  case_bool_decide; [|by apply IH]. intros [= ->]. subst n'. by apply bool_decide_eq_true in Ha.
Qed.

Lemma contribute_to_class_wf cls name :
  class_wf cls = true -> class_wf (DateField_contribute_to_class cls name) = true.
Proof.
  unfold DateField_contribute_to_class. induction cls as [|[n' a] cls IH]; cbn.
  - by rewrite bool_decide_true.
  - rewrite !andb_true_iff. intros [Ha Hcls]. case_bool_decide; cbn; rewrite ?andb_true_iff.
    + by rewrite bool_decide_true.
    + split; [done|]. by apply IH.
Qed.

Lemma to_python_date_value v p : DateField.to_python v = Ok p -> date_value p = true.
Proof.
  unfold DateField.to_python. destruct v as [| | |s|]; [by intros [= <-]..| |done].
  destruct (try_formats _ _); [by intros [= <-]|done].
Qed.

Lemma set_dict_fields_ok obj n v :
  fields_ok obj -> (date_value v = true \/ forall m, kv_lookup m (inst_class obj) <> Some (DataDescriptor n)) ->
  fields_ok (set_dict obj n v).
Proof.
  intros Hok Hv m f w Hm. cbn. destruct (decide (f = n)) as [->|Hne].
  - rewrite kv_lookup_set_eq. intros [= <-]. destruct Hv as [Hv|Hv]; [done|]. by destruct (Hv m).
  - rewrite kv_lookup_set_ne by done. intros Hf. by apply (Hok m f w).
Qed.

Lemma setattr_fields_ok obj n v obj' :
  class_wf (inst_class obj) = true -> fields_ok obj ->
  CleanValueDescriptor.py_setattr DateField.to_python obj n v = Ok obj' -> fields_ok obj'.
Proof.
  intros Hwf Hok. unfold CleanValueDescriptor.py_setattr, CleanValueDescriptor.set.
  destruct (kv_lookup n (inst_class obj)) as [[f|cv]|] eqn:E.
  - destruct (DateField.to_python v) as [p|] eqn:Ep; [|done]. intros [= <-].
    apply set_dict_fields_ok; [done|left]. by eapply to_python_date_value.
  - intros [= <-]. apply set_dict_fields_ok; [done|right]. intros m Hm.
    rewrite (class_wf_lookup _ _ _ Hwf Hm) in E. congruence.
  - intros [= <-]. apply set_dict_fields_ok; [done|right]. intros m Hm.
    rewrite (class_wf_lookup _ _ _ Hwf Hm) in E. congruence.
Qed.

Lemma setattr_class obj n v obj' :
  CleanValueDescriptor.py_setattr DateField.to_python obj n v = Ok obj' -> inst_class obj' = inst_class obj.
Proof.
  unfold CleanValueDescriptor.py_setattr, CleanValueDescriptor.set.
  destruct (kv_lookup n (inst_class obj)) as [[f|cv]|]; [|by intros [= <-]..].
  destruct (DateField.to_python v); [by intros [= <-]|done].
Qed.

Lemma setattrs_fields_ok obj kwargs obj' :
  class_wf (inst_class obj) = true -> fields_ok obj ->
  CleanValueDescriptor.setattrs DateField.to_python obj kwargs = Ok obj' -> fields_ok obj'.
Proof.
  revert obj. induction kwargs as [|[n v] kwargs IH]; intros obj Hwf Hok; cbn; [by intros [= <-]|].
  destruct (CleanValueDescriptor.py_setattr _ obj n v) as [o|] eqn:E; [|done]. cbn.
  apply IH; [by rewrite (setattr_class _ _ _ _ E)|]. by apply setattr_fields_ok with obj n v.
Qed.

Lemma setattrs_class obj kwargs obj' :
  CleanValueDescriptor.setattrs DateField.to_python obj kwargs = Ok obj' -> inst_class obj' = inst_class obj.
Proof.
  revert obj. induction kwargs as [|[n v] kwargs IH]; intros obj; cbn; [by intros [= <-]|].
  destruct (CleanValueDescriptor.py_setattr _ obj n v) as [o|] eqn:E; [|done]. cbn.
  intros H. rewrite (IH _ H). by apply setattr_class with n v.
Qed.

(** [AdvancedCharField] passes [null=False] unless told otherwise, where
    [CharField] passes [True]. *)
Lemma advanced_char_null_default kwargs :
  NoDup kwargs.*1 ->
  kv_lookup (u "null") (AdvancedCharField_init kwargs) = Some (default (KwBool false) (kv_lookup (u "null") kwargs)) /\
  kv_lookup (u "blank") (AdvancedCharField_init kwargs) = Some (default (KwBool true) (kv_lookup (u "blank") kwargs)).
Proof.
  intros Hnd. unfold AdvancedCharField_init.
  split; rewrite dict_update_lookup by done; destruct (kv_lookup _ kwargs); reflexivity.
Qed.

(** The key [CountryField.clean] looks up is upper case. *)
Lemma mapped_key_upper s k : py_upper k <> k -> k <> py_upper (py_strip s).
Proof. intros Hk ->. apply Hk, py_upper_idem. Qed.

(** ** Theorems *)

(** C24: [blank] and [null] reach Django's constructor from the keyword
    arguments when given there, from [form_blank] and [db_null]
    otherwise, and are [True] when neither is given, for [CharField],
    [DateField], [DecimalField], [IntegerField] and [CountryField]: [blank=...] silently
    overrides [form_blank=...] (the [if 'blank' in kwargs] tests do
    nothing). *)
Theorem blank_null_precedence form_blank db_null kwargs :
  NoDup kwargs.*1 ->
  Forall (fun d => kv_lookup (u "blank") d = Some (default (true_if_none form_blank) (kv_lookup (u "blank") kwargs)) /\
                   kv_lookup (u "null") d = Some (default (true_if_none db_null) (kv_lookup (u "null") kwargs)))
    [CharField_init form_blank db_null kwargs; DateField_init form_blank db_null kwargs;
     DecimalField_init form_blank db_null kwargs; IntegerField_init form_blank db_null kwargs;
     (CountryField_init None form_blank db_null kwargs).2].
Proof.
  intros Hnd. repeat apply Forall_cons_2; [..|apply Forall_nil_2];
    unfold CharField_init, DateField_init, DecimalField_init, IntegerField_init, CountryField_init; cbn [snd];
    split; rewrite dict_update_lookup by done; destruct (kv_lookup _ kwargs); reflexivity.
Qed.

(** [CountryField.clean] looks [self.mapping] up with the stripped,
    upper-cased string only, so an entry whose key is not upper case
    ([{'Deutschland': 'DE'}]) is never used: removing it changes no
    result. *)
Theorem mapping_lowercase_keys_unused alpha2 mapping k s :
  py_upper k <> k ->
  CountryField.clean_value alpha2 (kv_delete k mapping) (CVStr s) = CountryField.clean_value alpha2 mapping (CVStr s).
Proof.
  intros Hk. unfold CountryField.clean_value, CountryField.mapped.
  by rewrite kv_lookup_delete_ne by (apply not_eq_sym, mapped_key_upper, Hk).
Qed.

(** C25: Assigning a [DateField] attribute goes through
    [CleanValueDescriptor.__set__]: when [to_python] accepts the value,
    reading the attribute back gives what [to_python] returned; when it
    raises, the assignment raises the same error. *)
Theorem descriptor_set_get obj n v :
  kv_lookup n (inst_class obj) = Some (DataDescriptor n) ->
  match DateField.to_python v with
  | Ok p => exists obj', CleanValueDescriptor.py_setattr DateField.to_python obj n v = Ok obj' /\
                         CleanValueDescriptor.py_getattr obj' n = Some p
  | Err e => CleanValueDescriptor.py_setattr DateField.to_python obj n v = Err e
  end.
Proof.
  intros Hn. unfold CleanValueDescriptor.py_setattr, CleanValueDescriptor.set. rewrite Hn.
  destruct (DateField.to_python v) as [p|e]; [|done]. eexists. split; [reflexivity|].
  unfold CleanValueDescriptor.py_getattr, CleanValueDescriptor.get. cbn. by rewrite Hn, kv_lookup_set_eq.
Qed.

(** C26: After [Model(name=value, ...)] assigns the keyword arguments one by
    one, on a class whose descriptors [contribute_to_class] installed,
    every [DateField] attribute holds [None], a [date] or a [datetime],
    whatever values were passed; a value [to_python] rejects raises
    instead. *)
Theorem init_fields_are_dates cls kwargs obj :
  class_wf cls = true ->
  CleanValueDescriptor.setattrs DateField.to_python (ModelInstance cls []) kwargs = Ok obj ->
  forall n, kv_lookup n cls = Some (DataDescriptor n) ->
  date_value (default VNone (CleanValueDescriptor.py_getattr obj n)) = true.
Proof.
  intros Hwf Hset n Hn. pose proof (setattrs_fields_ok (ModelInstance cls []) _ _ Hwf ltac:(done) Hset) as Hok.
  apply setattrs_class in Hset. cbn in Hset.
  unfold CleanValueDescriptor.py_getattr, CleanValueDescriptor.get. rewrite Hset, Hn. cbn.
  destruct (kv_lookup n (inst_dict obj)) as [w|] eqn:Ew; [|done]. apply (Hok n n w); [by rewrite Hset|done].
Qed.

(** ** Witnesses *)

Lemma blank_null_precedence_witness :
  Forall (fun d => kv_lookup (u "blank") d = Some (default (true_if_none (Some (KwBool false)))
                                                           (kv_lookup (u "blank") [(u "blank", KwBool true)])) /\
                   kv_lookup (u "null") d = Some (default (true_if_none None) (kv_lookup (u "null") [(u "blank", KwBool true)])))
    [CharField_init (Some (KwBool false)) None [(u "blank", KwBool true)];
     DateField_init (Some (KwBool false)) None [(u "blank", KwBool true)];
     DecimalField_init (Some (KwBool false)) None [(u "blank", KwBool true)];
     IntegerField_init (Some (KwBool false)) None [(u "blank", KwBool true)];
     (CountryField_init None (Some (KwBool false)) None [(u "blank", KwBool true)]).2].
Proof. apply blank_null_precedence. apply NoDup_singleton. Defined.

Lemma mapping_lowercase_keys_unused_witness :
  CountryField.clean_value ex_alpha2 (kv_delete (u "Deutschland") [(u "Deutschland", u "DE")]) (CVStr (u " Deutschland ")) =
  CountryField.clean_value ex_alpha2 [(u "Deutschland", u "DE")] (CVStr (u " Deutschland ")) /\
  CountryField.clean_value ex_alpha2 [(u "Deutschland", u "DE")] (CVStr (u " Deutschland ")) = CVStr (u "DEUTSCHLAND").
Proof.
  split; [apply mapping_lowercase_keys_unused; intros H; vm_compute in H; congruence | vm_compute; reflexivity].
Defined.

Lemma descriptor_set_get_witness :
  match DateField.to_python (VDateTime (Date 2020 1 5) 3600) with
  | Ok p => exists obj', CleanValueDescriptor.py_setattr DateField.to_python (ModelInstance ex_class []) (u "born")
                           (VDateTime (Date 2020 1 5) 3600) = Ok obj' /\
                         CleanValueDescriptor.py_getattr obj' (u "born") = Some p
  | Err e => CleanValueDescriptor.py_setattr DateField.to_python (ModelInstance ex_class []) (u "born")
               (VDateTime (Date 2020 1 5) 3600) = Err e
  end.
Proof. apply descriptor_set_get. vm_compute. reflexivity. Defined.

Lemma init_fields_are_dates_witness :
  date_value (default VNone (CleanValueDescriptor.py_getattr
                (ModelInstance ex_class [(u "born", VDate (Date 2020 1 5))]) (u "born"))) = true.
Proof.
  apply (init_fields_are_dates ex_class [(u "born", VDate (Date 2020 1 5))]);
    [vm_compute; reflexivity | vm_compute; reflexivity | vm_compute; reflexivity].
Defined.
