(* ===== verification/CharField.v ===== *)
(** * [AdvancedCharField] and [CharField]: [remove_quotes_and_parentheses]
      and [clean] ([src/fields.py] lines 94-170)

    Both classes carry the same [remove_quotes_and_parentheses]: a pair
    of single quotes, then of parentheses, then of double quotes, is cut
    off the ends of the string when the string starts with the opening
    and ends with the closing character, and every newline becomes a
    space.  [clean] applies it to strings before Django's [Field.clean]
    (which is not modelled: the definitions return the value handed to
    it).  One Module per class keeps the source's names. *)

From S2P Require Import Prelude PyStr.
From Stdlib Require String.
Import String.StringSyntax.

Local Open Scope string_scope.
Local Open Scope N_scope.

(** The values [clean] tells apart: strings and everything else. *)
Inductive cvalue : Type :=
| CStr (s : pystr)
| COther.

(** [if s.startswith(o) and s.endswith(c): s = s[1:]; s = s[:-1]]. *)
Definition strip_enclosing (o c : N) (s : pystr) : pystr :=
  if startswith s [o] && endswith s [c] then
    let s := drop 1 s in
    take (length s - 1) s
  else s.

Module AdvancedCharField.

Definition remove_quotes_and_parentheses (s : pystr) : pystr :=
  let s := strip_enclosing 39 39 s in
  let s := strip_enclosing 40 41 s in
  let s := strip_enclosing 34 34 s in
  py_replace s [10] [32].

(** The value handed to [super().clean]. *)
Definition clean (value : cvalue) : cvalue :=
  match value with
  | CStr s => CStr (remove_quotes_and_parentheses s)
  | COther => COther
  end.

End AdvancedCharField.

Module CharField.

Definition remove_quotes_and_parentheses (s : pystr) : pystr :=
  let s := strip_enclosing 39 39 s in
  let s := strip_enclosing 40 41 s in
  let s := strip_enclosing 34 34 s in
  py_replace s [10] [32].

Definition clean (value : cvalue) : cvalue :=
  match value with
  | CStr s => CStr (remove_quotes_and_parentheses s)
  | COther => COther
  end.

End CharField.

(** ** Lemmas *)


Lemma startswith_cons x s o : startswith (x :: s) [o] = (o =? x).
Proof. unfold startswith. simpl. by rewrite andb_true_r. Qed.

Lemma endswith_snoc x s c : endswith (s ++ [x]) [c] = (c =? x).
Proof. unfold endswith. rewrite rev_app_distr. simpl. by rewrite andb_true_r. Qed.

(** Cutting the enclosing pair [o ... c] off [o :: s ++ [c]]. *)
Lemma strip_enclosing_pair o c s : strip_enclosing o c (o :: s ++ [c]) = s.
Proof.
  unfold strip_enclosing. rewrite app_comm_cons, endswith_snoc.
  rewrite <- app_comm_cons, startswith_cons, !N.eqb_refl. cbn [andb drop].
  rewrite drop_0, length_app. cbn [length]. rewrite Nat.add_sub. apply take_app_length.
Qed.

(** A string that does not start with [o] is left alone. *)
Lemma strip_enclosing_not_start o c s :
  startswith s [o] = false -> strip_enclosing o c s = s.
Proof. unfold strip_enclosing. by intros ->. Qed.


(** The cleaned string holds no newline: every ["\n"] left after the
    pairs are cut off becomes a space. *)
Theorem clean_no_newline s :
  (10 ∉ CharField.remove_quotes_and_parentheses s) /\
  (10 ∉ AdvancedCharField.remove_quotes_and_parentheses s).
Proof. split; apply py_replace_char_not_in; by intros ?%list_elem_of_singleton. Qed.


(** A single-quoted string whose content has no newline and does not
    start with a parenthesis or a double quote is cleaned to its
    content. *)
Theorem remove_single_quotes s :
  10 ∉ s -> startswith s [40] = false -> startswith s [34] = false ->
  CharField.clean (CStr (39 :: s ++ [39])) = CStr s.
Proof.
  intros Hnl H40 H34. cbn [CharField.clean]. unfold CharField.remove_quotes_and_parentheses.
  rewrite strip_enclosing_pair, (strip_enclosing_not_start 40 41 s), (strip_enclosing_not_start 34 34 s)
    by done.
  by rewrite py_replace_char_absent.
Qed.

(** [clean] is not idempotent: the pairs are tried in a fixed order,
    so a value cleaned again loses another pair; "('x')" is cleaned to
    "'x'", and that to "x". *)
Example clean_not_idempotent :
  CharField.clean (CStr (u "('x')")) = CStr (u "'x'") /\
  CharField.clean (CharField.clean (CStr (u "('x')"))) = CStr (u "x").
Proof. split; vm_compute; reflexivity. Qed.

(** The quotes cut off need not enclose the string: "'a' or 'b'"
    starts and ends with a quote and is cleaned to "a' or 'b". *)
Example clean_unbalanced_quotes :
  CharField.clean (CStr (u "'a' or 'b'")) = CStr (u "a' or 'b") /\
  AdvancedCharField.clean (CStr (u "'a' or 'b'")) = CStr (u "a' or 'b").
Proof. split; vm_compute; reflexivity. Qed.

(** ** Instances *)

Lemma remove_single_quotes_witness : CharField.clean (CStr (39 :: u "abc" ++ [39])) = CStr (u "abc").
Proof. apply remove_single_quotes; [apply (bool_decide_unpack _); vm_compute; exact I | reflexivity | reflexivity]. Defined.

