(* ===== verification/GenderField.v ===== *)
(** * [GenderField] ([src/fields.py] lines 276-312): [__init__] and
      [to_python]

    [None] is returned as it is; a string is stripped, put in lower case
    and split at ["/"]; the first piece that names a man or a woman
    decides, and [UNKNOWN] is the answer when none does.  Any other
    value has no [strip] and raises [AttributeError].  The four
    choices are codes of one letter; [__init__] passes them with
    [max_length=1] and the default [UNKNOWN]. *)

From S2P Require Import Prelude PyStr FieldClasses.
From Stdlib Require String.
Import String.StringSyntax.

Local Open Scope string_scope.

Module GenderField.

Inductive gender : Type := UNKNOWN | MALE | FEMALE | OTHER.

#[export] Instance gender_eq_dec : EqDecision gender.
Proof. solve_decision. Defined.

(** The class attributes [UNKNOWN = 'U'], [MALE = 'M'], ... *)
Definition code (g : gender) : pystr :=
  match g with
  | UNKNOWN => u "U"
  | MALE => u "M"
  | FEMALE => u "F"
  | OTHER => u "O"
  end.

Definition GENDER_CHOICES : list (gender * pystr) :=
  [(UNKNOWN, u "Unknown"); (MALE, u "Male"); (FEMALE, u "Female"); (OTHER, u "Other")].

Inductive gvalue : Type :=
| GNone
| GStr (s : pystr)
| GOther.

Inductive gender_error : Type := AttributeError.

Definition male_names : list pystr := map u ["m"; "male"; "man"; "boy"].
Definition female_names : list pystr := map u ["f"; "female"; "woman"; "girl"].

(** [for value in values: if value in [...]: return self.MALE ...]. *)
Fixpoint classify (values : list pystr) : gender :=
  match values with
  | [] => UNKNOWN
  | v :: vs =>
    if bool_decide (v ∈ male_names) then MALE
    else if bool_decide (v ∈ female_names) then FEMALE
    else classify vs
  end.

Definition to_python (value : gvalue) : result gender_error (option pystr) :=
  match value with
  | GNone => Ok None
  | GStr s => Ok (Some (code (classify (py_split_char 47 (py_lower (py_strip s))))))
  | GOther => Err AttributeError
  end.

(** The pieces [to_python] looks at. *)
Definition tokens (s : pystr) : list pystr := py_split_char 47 (py_lower (py_strip s)).

(** [__init__]: the [defaults] dict passed to [models.CharField]. *)
Definition init (form_blank db_null : option kwarg) (kwargs : list (pystr * kwarg)) : list (pystr * kwarg) :=
  dict_update [(u "max_length", KwInt 1); (u "blank", true_if_none form_blank);
               (u "null", true_if_none db_null);
               (u "choices", KwChoices (map (fun gl => (code gl.1, gl.2)) GENDER_CHOICES));
               (u "default", KwStr (code UNKNOWN))] kwargs.

End GenderField.

Import GenderField.

(** ** Lemmas *)

Lemma code_inj g1 g2 : code g1 = code g2 -> g1 = g2.
Proof. by destruct g1, g2. Qed.

Lemma classify_not_other vs : classify vs <> OTHER.
Proof. induction vs as [|v vs IH]; simpl; [done|]. by repeat case_decide. Qed.

Lemma classify_spec vs g :
  g <> UNKNOWN ->
  classify vs = g <->
  exists i v, vs !! i = Some v /\
    (g = MALE /\ v ∈ male_names \/ g = FEMALE /\ (v ∉ male_names) /\ v ∈ female_names) /\
    forall j v', j < i -> vs !! j = Some v' -> (v' ∉ male_names) /\ (v' ∉ female_names).
Proof.
  intros Hg. induction vs as [|v vs IH]; simpl.
  - split; [by intros <-|]. by intros (i & v & Hi & _).
  - case_decide as Hm; [|case_decide as Hf].
    + split.
      * intros <-. exists 0, v. split; [done|]. split; [by left|]. intros; lia.
      * intros (i & v' & Hi & Hk & Hj). destruct i as [|i].
        -- simpl in Hi. injection Hi as <-. destruct Hk as [[-> _]|(-> & Hn & _)]; [done|contradiction].
        -- by destruct (Hj 0 v ltac:(lia) eq_refl).
    + split.
      * intros <-. exists 0, v. split; [done|]. split; [by right|]. intros; lia.
      * intros (i & v' & Hi & Hk & Hj). destruct i as [|i].
        -- simpl in Hi. injection Hi as <-. destruct Hk as [[-> ?]|(-> & _)]; [contradiction|done].
        -- by destruct (Hj 0 v ltac:(lia) eq_refl).
    + rewrite IH. split.
      * intros (i & v' & Hi & Hk & Hj). exists (S i), v'. split; [done|]. split; [done|].
        intros [|j] v'' Hlt Hj'; [simpl in Hj'; by injection Hj' as <-|].
        apply (Hj j); [lia|done].
      * intros (i & v' & Hi & Hk & Hj). destruct i as [|i].
        -- simpl in Hi. injection Hi as <-. by destruct Hk as [[_ ?]|(_ & _ & ?)].
        -- exists i, v'. split; [done|]. split; [done|].
           intros j v'' Hlt Hj'. apply (Hj (S j)); [lia|done].
Qed.

(** [to_python] never returns the code of [OTHER]: the choice
    ["O"] offered by [GENDER_CHOICES] cannot be produced. *)
Theorem to_python_never_other v : to_python v <> Ok (Some (code OTHER)).
Proof.
  destruct v as [|s|]; cbn [to_python]; try done.
  intros [= H]. change (u "O") with (code OTHER) in H.
  apply code_inj in H. by apply classify_not_other in H.
Qed.

(** Re-reading a stored code: ["U"], ["M"] and ["F"] are read back
    to themselves, but the stored ["O"] is read as ["U"]. *)
Example stored_codes_reread :
  to_python (GStr (code UNKNOWN)) = Ok (Some (code UNKNOWN)) /\
  to_python (GStr (code MALE)) = Ok (Some (code MALE)) /\
  to_python (GStr (code FEMALE)) = Ok (Some (code FEMALE)) /\
  to_python (GStr (code OTHER)) = Ok (Some (code UNKNOWN)).
Proof. repeat split; vm_compute; reflexivity. Qed.

(** C5: The first piece that names a gender decides: [to_python] gives
    [MALE] (or [FEMALE]) exactly when some piece of the stripped,
    lower-cased string split at "/" is a male (female) name and no
    earlier piece names either. *)
Theorem to_python_first_piece s g :
  g <> UNKNOWN ->
  to_python (GStr s) = Ok (Some (code g)) <->
  exists i v, tokens s !! i = Some v /\
    (g = MALE /\ v ∈ male_names \/ g = FEMALE /\ (v ∉ male_names) /\ v ∈ female_names) /\
    forall j v', j < i -> tokens s !! j = Some v' -> (v' ∉ male_names) /\ (v' ∉ female_names).
Proof.
  intros Hg. rewrite <- classify_spec by done. cbn [to_python]. unfold tokens.
  split; [intros [= ?%code_inj]; done | by intros ->].
Qed.

(** The spellings of the source, in any case, padded with white
    space, and the first of several pieces wins; [None] is kept and a
    value that is no string raises [AttributeError]. *)
Example gender_to_python_cases :
  to_python (GStr (u " Male ")) = Ok (Some (u "M")) /\
  to_python (GStr (u "WOMAN")) = Ok (Some (u "F")) /\
  to_python (GStr (u "m/f")) = Ok (Some (u "M")) /\
  to_python (GStr (u "f/m")) = Ok (Some (u "F")) /\
  to_python (GStr (u "x/Girl")) = Ok (Some (u "F")) /\
  to_python (GStr (u "other")) = Ok (Some (u "U")) /\
  to_python (GStr (u "")) = Ok (Some (u "U")) /\
  to_python GNone = Ok None /\
  to_python GOther = Err AttributeError.
Proof. repeat split; vm_compute; reflexivity. Qed.

(** Unless the keyword arguments override them, the field's [default]
    is one of its [choices] and every choice fits [max_length]. *)
Lemma init_choices_fit form_blank db_null kwargs :
  NoDup kwargs.*1 ->
  kv_lookup (u "max_length") kwargs = None -> kv_lookup (u "choices") kwargs = None ->
  kv_lookup (u "default") kwargs = None ->
  exists n choices d,
    kv_lookup (u "max_length") (init form_blank db_null kwargs) = Some (KwInt n) /\
    kv_lookup (u "choices") (init form_blank db_null kwargs) = Some (KwChoices choices) /\
    kv_lookup (u "default") (init form_blank db_null kwargs) = Some (KwStr d) /\
    d ∈ choices.*1 /\ Forall (fun c => N.of_nat (length c.1) <= n)%N choices.
Proof.
  intros Hnd Hm Hc Hd. unfold init. rewrite !dict_update_lookup, Hm, Hc, Hd by done.
  do 3 eexists. split_and!; [reflexivity..| |].
  - cbn. left.
  - apply (bool_decide_unpack _). vm_compute. reflexivity.
Qed.

(** ** Instances *)

Lemma to_python_first_piece_witness :
  to_python (GStr (u "x/boy")) = Ok (Some (code MALE)) <->
  exists i v, tokens (u "x/boy") !! i = Some v /\
    (MALE = MALE /\ v ∈ male_names \/ MALE = FEMALE /\ (v ∉ male_names) /\ v ∈ female_names) /\
    forall j v', j < i -> tokens (u "x/boy") !! j = Some v' -> (v' ∉ male_names) /\ (v' ∉ female_names).
Proof. apply to_python_first_piece. discriminate. Defined.
