(* ===== verification/DotDict.v ===== *)
(** * [DotDict] and [JSONField] ([src/fields.py] lines 340-412)

    [DotDict] is a [dict] whose nested dictionaries, also inside lists
    and tuples, are converted to [DotDict]s, and whose keys can be read,
    written and deleted as attributes.  Python objects are modelled by
    the inductive [pyobj] (dictionaries with string keys, as attribute
    access needs, kept in insertion order); a [dict] and a [DotDict]
    differ by the flag of [PDict].  The conversion recurses into every
    value and converts each value twice ([__init__] converts it, and
    [__setitem__] converts the result again); it is modelled with a fuel
    that bounds the depth, and [convert_value_enough] shows that the
    depth of the value is enough fuel.  [JSONField.__init__] and
    [from_db_value] use it; [json.loads] is a parameter. *)

From S2P Require Import Prelude PyStr.
From Stdlib Require Import ZArith.
From Stdlib Require String.
Import String.StringSyntax.

Local Open Scope string_scope.
Local Set Warnings "-register-all".

Inductive pyobj : Type :=
| PNone
| PInt (z : Z)
| PStr (s : pystr)
| PList (l : list pyobj)
| PTuple (l : list pyobj)
| PDict (dot : bool) (kvs : list (pystr * pyobj))
| PAttr (name : pystr).   (* a class attribute, such as the bound method [d.items] *)

Module DotDict.

(** [_convert_value], [__setitem__] and [_convert_nested] with a fuel
    that bounds the depth of the recursion.  [DotDict(value)] copies the
    pairs ([dict.__init__]) and then, for every key, stores
    [self._convert_value(value)] through [__setitem__], which converts
    it once more. *)
Fixpoint convert_value (fuel : nat) (value : pyobj) : pyobj :=
  match fuel with
  | O => value
  | S f =>
    match value with
    | PDict false kvs =>
      PDict true (foldl (fun d kv => kv_set kv.1 (convert_value f (convert_value f kv.2)) d) kvs kvs)
    | PList l => PList (map (convert_value f) l)
    | PTuple l => PTuple (map (convert_value f) l)
    | _ => value
    end
  end.

(** The depth of an object: the fuel its conversion needs. *)
Fixpoint depth (v : pyobj) : nat :=
  match v with
  | PList l | PTuple l => S (list_max (map depth l))
  | PDict _ kvs => S (list_max (map (fun kv => depth kv.2) kvs))
  | _ => 1
  end.

Definition fuel_of (v : pyobj) : nat := depth v.

Definition convert (v : pyobj) : pyobj := convert_value (fuel_of v) v.

(** [__setitem__]. *)
Definition setitem (kvs : list (pystr * pyobj)) (k : pystr) (v : pyobj) : list (pystr * pyobj) :=
  kv_set k (convert v) kvs.

(** [DotDict(kvs)]. *)
Definition new (kvs : list (pystr * pyobj)) : pyobj := convert (PDict false kvs).

(** The class attributes of [DotDict] (its own methods and those of
    [dict] and [object]): ordinary attribute lookup finds them, and
    [__getattr__] is not called. *)
Definition dict_attrs : list pystr :=
  map u ["clear"; "copy"; "fromkeys"; "get"; "items"; "keys"; "pop"; "popitem";
         "setdefault"; "update"; "values"; "__class__"; "__doc__"; "__init__"].

Definition class_attrs : list pystr :=
  dict_attrs ++ map u ["_convert_nested"; "_convert_value"; "__dict__"; "__module__"].

Inductive attr_error : Type := AttributeError (attr : pystr).

(** [d.attr]. *)
Definition getattr (kvs : list (pystr * pyobj)) (attr : pystr) : result attr_error pyobj :=
  if bool_decide (attr ∈ class_attrs) then Ok (PAttr attr)
  else match kv_lookup attr kvs with
       | Some v => Ok v
       | None => Err (AttributeError attr)
       end.

(** [d.attr = value]: [self[attr] = self._convert_value(value)]. *)
Definition setattr (kvs : list (pystr * pyobj)) (attr : pystr) (value : pyobj) : list (pystr * pyobj) :=
  setitem kvs attr (convert value).

(** [del d.attr]. *)
Definition delattr (kvs : list (pystr * pyobj)) (attr : pystr) : result attr_error (list (pystr * pyobj)) :=
  match kv_lookup attr kvs with
  | Some _ => Ok (kv_delete attr kvs)
  | None => Err (AttributeError attr)
  end.

(** [d.update({k: v})], inherited from [dict]: it stores [v] without
    calling [__setitem__]. *)
Definition update (kvs : list (pystr * pyobj)) (k : pystr) (v : pyobj) : list (pystr * pyobj) :=
  kv_set k v kvs.

End DotDict.

(** ** [JSONField] *)

Module JSONField.

(** The [default] argument: the callable [dict] (the default of the
    parameter) or a value. *)
Inductive default_arg : Type :=
| DefaultDictType
| DefaultValue (v : pyobj).

(** [if default == {} and isinstance(default, dict): default = DotDict(default)]:
    the class [dict] is not equal to [{}]. *)
Definition init_default (default : default_arg) : default_arg :=
  match default with
  | DefaultValue (PDict _ []) => DefaultValue (DotDict.new [])
  | d => d
  end.

(** The value a new instance gets from the default: Django calls a
    callable default and uses any other value as it is. *)
Definition initial_value (default : default_arg) : pyobj :=
  match default with
  | DefaultDictType => PDict false []
  | DefaultValue v => v
  end.

Inductive db_value : Type :=
| DbNone
| DbStr (s : pystr)
| DbObj (v : pyobj).

Section FromDb.
Context {json_error : Type} (json_loads : pystr -> result json_error pyobj).

(** [from_db_value]: a string is parsed by [json.loads], and a dictionary
    becomes a [DotDict]. *)
Definition from_db_value (value : db_value) : result json_error pyobj :=
  match value with
  | DbNone => Ok PNone
  | DbStr s =>
    match json_loads s with
    | Ok (PDict dot kvs) => Ok (DotDict.new kvs)
    | Ok v => Ok v
    | Err e => Err e
    end
  | DbObj (PDict dot kvs) => Ok (DotDict.new kvs)
  | DbObj v => Ok v
  end.

End FromDb.

(** Attribute access on a dictionary (the values [from_db_value] and
    the default produce): a [DotDict] has [getattr]; a plain [dict] has
    its class attributes only. *)
Definition obj_getattr (o : pyobj) (attr : pystr) : result DotDict.attr_error pyobj :=
  match o with
  | PDict true kvs => DotDict.getattr kvs attr
  | _ => if bool_decide (attr ∈ DotDict.dict_attrs) then Ok (PAttr attr) else Err (DotDict.AttributeError attr)
  end.

End JSONField.

(** ** The structure of objects *)

(** Induction on objects, through the lists and pairs they nest. *)
Section pyobj_ind.
Variable P : pyobj -> Prop.
Hypothesis HNone : P PNone.
Hypothesis HInt : forall z, P (PInt z).
Hypothesis HStr : forall s, P (PStr s).
Hypothesis HList : forall l, Forall P l -> P (PList l).
Hypothesis HTuple : forall l, Forall P l -> P (PTuple l).
Hypothesis HDict : forall dot kvs, Forall (fun kv => P kv.2) kvs -> P (PDict dot kvs).
Hypothesis HAttr : forall n, P (PAttr n).

Fixpoint pyobj_ind' (v : pyobj) : P v :=
  match v with
  | PNone => HNone
  | PInt z => HInt z
  | PStr s => HStr s
  | PList l => HList l ((fix go l : Forall P l :=
      match l with [] => @List.Forall_nil _ P | x :: l' => @List.Forall_cons _ P x l' (pyobj_ind' x) (go l') end) l)
  | PTuple l => HTuple l ((fix go l : Forall P l :=
      match l with [] => @List.Forall_nil _ P | x :: l' => @List.Forall_cons _ P x l' (pyobj_ind' x) (go l') end) l)
  | PDict dot kvs => HDict dot kvs ((fix go kvs : Forall (fun kv => P kv.2) kvs :=
      match kvs with [] => @List.Forall_nil _ _ | kv :: kvs' => @List.Forall_cons _ (fun kv => P kv.2) kv kvs' (pyobj_ind' kv.2) (go kvs') end) kvs)
  | PAttr n => HAttr n
  end.
End pyobj_ind.

(** A well-formed object: the keys of every dictionary are distinct. *)
Fixpoint wf (v : pyobj) : Prop :=
  match v with
  | PList l | PTuple l => Forall id (map wf l)
  | PDict _ kvs => NoDup kvs.*1 /\ Forall id (map (fun kv => wf kv.2) kvs)
  | _ => True
  end.

(** The conversion without fuel: what [DotDict] means to compute. *)
Fixpoint dot_value (v : pyobj) : pyobj :=
  match v with
  | PDict false kvs => PDict true (map (fun kv => (kv.1, dot_value kv.2)) kvs)
  | PList l => PList (map dot_value l)
  | PTuple l => PTuple (map dot_value l)
  | _ => v
  end.

(** Every dictionary inside is a [DotDict]. *)
Fixpoint all_dot (v : pyobj) : Prop :=
  match v with
  | PList l | PTuple l => Forall id (map all_dot l)
  | PDict dot kvs => dot = true /\ Forall id (map (fun kv => all_dot kv.2) kvs)
  | _ => True
  end.

(** Every [DotDict] inside (which the conversion keeps as it is)
    already has only [DotDict]s inside. *)
Fixpoint dots_ok (v : pyobj) : Prop :=
  match v with
  | PList l | PTuple l => Forall id (map dots_ok l)
  | PDict true kvs => all_dot (PDict true kvs)
  | PDict false kvs => Forall id (map (fun kv => dots_ok kv.2) kvs)
  | _ => True
  end.

(** ** Lemmas on dictionaries *)

Lemma kv_set_app_notin {A} k (x y : A) l1 l2 :
  k ∉ l1.*1 -> kv_set k x (l1 ++ (k, y) :: l2) = l1 ++ (k, x) :: l2.
Proof.
  induction l1 as [|[k' v'] l1 IH]; simpl; intros Hk; [by rewrite bool_decide_true|].
  rewrite elem_of_cons in Hk. rewrite bool_decide_false by (intros ->; tauto). f_equal. apply IH. tauto.
Qed.

(** Storing [g v] under every key [k] of [kvs], in order, maps [g]
    over the values: the loop of [_convert_nested]. *)
Lemma foldl_set_map (g h : pyobj -> pyobj) (kvs : list (pystr * pyobj)) :
  NoDup kvs.*1 -> Forall (fun kv => g kv.2 = h kv.2) kvs ->
  foldl (fun d kv => kv_set kv.1 (g kv.2) d) kvs kvs = map (fun kv => (kv.1, h kv.2)) kvs.
Proof.
  intros Hnd Hgh.
  cut (forall l1 l2, NoDup (l1 ++ l2).*1 -> Forall (fun kv => g kv.2 = h kv.2) l2 ->
         foldl (fun d kv => kv_set kv.1 (g kv.2) d) (map (fun kv => (kv.1, h kv.2)) l1 ++ l2) l2
         = map (fun kv => (kv.1, h kv.2)) (l1 ++ l2)).
  { intros H. exact (H [] kvs Hnd Hgh). }
  intros l1 l2. revert l1. induction l2 as [|[k v] l2 IH]; intros l1 Hnd' Hall; simpl.
  - by rewrite !app_nil_r.
  - apply Forall_cons in Hall as [Hkv Hall]. simpl in Hkv.
    rewrite kv_set_app_notin, Hkv.
    + replace (map (fun kv => (kv.1, h kv.2)) l1 ++ (k, h v) :: l2)
        with (map (fun kv => (kv.1, h kv.2)) (l1 ++ [(k, v)]) ++ l2)
        by (rewrite map_app, <- app_assoc; done).
      rewrite IH; [by rewrite <- app_assoc| by rewrite <- app_assoc|done].
    + rewrite fmap_app, NoDup_app in Hnd'. destruct Hnd' as (_ & Hdisj & _).
      rewrite <- list_fmap_compose. simpl. intros Hin. apply (Hdisj k Hin). simpl. set_solver.
Qed.

(** ** The conversion *)

Lemma Forall_id_map {A} (P : A -> Prop) l : Forall id (map P l) <-> Forall P l.
Proof. induction l; simpl; rewrite ?Forall_cons, ?Forall_nil; naive_solver. Qed.

Lemma convert_value_dot f v : DotDict.convert_value f (dot_value v) = dot_value v.
Proof.
  revert f. induction v as [| | |l IH|l IH|[] kvs IH|] using pyobj_ind'; intros [|f]; simpl; try done.
  - f_equal. rewrite map_map. apply map_ext_Forall. eapply Forall_impl; [exact IH|]. naive_solver.
  - f_equal. rewrite map_map. apply map_ext_Forall. eapply Forall_impl; [exact IH|]. naive_solver.
Qed.

Lemma dot_value_idem v : dot_value (dot_value v) = dot_value v.
Proof.
  induction v as [| | |l IH|l IH|[] kvs IH|] using pyobj_ind'; simpl; try done.
  - f_equal. rewrite map_map. apply map_ext_Forall. eapply Forall_impl; [exact IH|]. naive_solver.
  - f_equal. rewrite map_map. apply map_ext_Forall. eapply Forall_impl; [exact IH|]. naive_solver.
Qed.

Lemma Forall_map_id {A} (P : A -> Prop) (l : list A) : Forall id (map P l) <-> Forall P l.
Proof. induction l; simpl; rewrite ?Forall_cons, ?Forall_nil; naive_solver. Qed.

Lemma fmap_fst_map_snd (f : pyobj -> pyobj) (kvs : list (pystr * pyobj)) :
  (map (fun kv => (kv.1, f kv.2)) kvs).*1 = kvs.*1.
Proof. induction kvs as [|[k v] kvs IH]; simpl; [done|]. by f_equal. Qed.

Lemma wf_dot v : wf v -> wf (dot_value v).
Proof.
  induction v as [| | |l IH|l IH|[] kvs IH|] using pyobj_ind'; simpl; try done; intros Hw.
  - rewrite Forall_map_id in Hw |- *. rewrite List.Forall_map. rewrite Forall_forall in IH, Hw |- *. naive_solver.
  - rewrite Forall_map_id in Hw |- *. rewrite List.Forall_map. rewrite Forall_forall in IH, Hw |- *. naive_solver.
  - destruct Hw as [Hnd Hw]. rewrite Forall_map_id in Hw. split; [by rewrite fmap_fst_map_snd|].
    rewrite Forall_map_id, List.Forall_map. simpl. rewrite Forall_forall in IH, Hw |- *. naive_solver.
Qed.

Lemma depth_dot v : DotDict.depth (dot_value v) = DotDict.depth v.
Proof.
  induction v as [| | |l IH|l IH|[] kvs IH|] using pyobj_ind'; simpl; try done;
    f_equal; f_equal; rewrite map_map; apply map_ext_Forall; done.
Qed.

(** With the depth of a well-formed object as fuel, or more,
    [_convert_value] computes [dot_value]. *)
Lemma convert_value_fuel f v :
  wf v -> (DotDict.depth v <= f)%nat -> DotDict.convert_value f v = dot_value v.
Proof.
  revert f. induction v as [| | |l IH|l IH|[] kvs IH|] using pyobj_ind'; intros [|f] Hw Hd;
    simpl in *; try done; try lia.
  - f_equal. apply map_ext_Forall. rewrite Forall_map_id in Hw. apply Nat.succ_le_mono, list_max_le in Hd.
    rewrite Forall_forall in Hd. rewrite Forall_forall in IH, Hw |- *. intros x Hx. apply (IH x Hx); [by apply Hw|].
    apply Hd. by apply list_elem_of_In, in_map, list_elem_of_In.
  - f_equal. apply map_ext_Forall. rewrite Forall_map_id in Hw. apply Nat.succ_le_mono, list_max_le in Hd.
    rewrite Forall_forall in Hd. rewrite Forall_forall in IH, Hw |- *. intros x Hx. apply (IH x Hx); [by apply Hw|].
    apply Hd. by apply list_elem_of_In, in_map, list_elem_of_In.
  - destruct Hw as [Hnd Hw]. rewrite Forall_map_id in Hw. apply Nat.succ_le_mono, list_max_le in Hd.
    f_equal. apply (foldl_set_map (fun x => DotDict.convert_value f (DotDict.convert_value f x)) dot_value); [done|].
    rewrite Forall_forall in Hd. rewrite Forall_forall in IH, Hw |- *. intros kv Hkv.
    rewrite (IH kv Hkv f (Hw kv Hkv)); [apply convert_value_dot|].
    apply Hd. apply list_elem_of_In, (in_map (fun kv => DotDict.depth kv.2)), list_elem_of_In. done.
Qed.

Lemma convert_eq v : wf v -> DotDict.convert v = dot_value v.
Proof. intros Hw. by apply convert_value_fuel. Qed.

(** Enough fuel gives the conversion: with the depth of a
    well-formed object as fuel, or more, [_convert_value] computes what
    [DotDict.__init__] stores, the object with every dict made a
    [DotDict], so the fuel of the model never cuts the recursion of the
    source short. *)
Theorem convert_value_enough f v :
  wf v -> (DotDict.depth v <= f)%nat ->
  DotDict.convert_value f v = DotDict.convert v /\ DotDict.convert v = dot_value v.
Proof. intros Hw Hd. rewrite convert_eq by done. split; [by apply convert_value_fuel|done]. Qed.

Lemma convert_convert v : wf v -> DotDict.convert (DotDict.convert v) = dot_value v.
Proof. intros Hw. rewrite (convert_eq v Hw). apply convert_value_dot. Qed.

Lemma all_dot_dot v : dots_ok v -> all_dot (dot_value v).
Proof.
  induction v as [| | |l IH|l IH|[] kvs IH|] using pyobj_ind'; simpl; try done; intros Hok.
  - rewrite Forall_map_id in Hok |- *. rewrite List.Forall_map. rewrite Forall_forall in IH, Hok |- *. naive_solver.
  - rewrite Forall_map_id in Hok |- *. rewrite List.Forall_map. rewrite Forall_forall in IH, Hok |- *. naive_solver.
  - split; [done|]. rewrite Forall_map_id in Hok |- *. rewrite List.Forall_map. simpl.
    rewrite Forall_forall in IH, Hok |- *. naive_solver.
Qed.

Lemma dots_ok_all_dot v : all_dot v -> dots_ok v.
Proof.
  induction v as [| | |l IH|l IH|[] kvs IH|] using pyobj_ind'; simpl; try done.
  - rewrite !Forall_map_id, !Forall_forall in *. naive_solver.
  - rewrite !Forall_map_id, !Forall_forall in *. naive_solver.
  - by intros [? _].
Qed.

Lemma kv_delete_values {A} (P : A -> Prop) k (kvs : list (pystr * A)) :
  Forall (fun kv => P kv.2) kvs -> Forall (fun kv => P kv.2) (kv_delete k kvs).
Proof.
  induction 1 as [|[k' v'] kvs Hv Hall IH]; simpl; [by constructor|].
  case_bool_decide; [done|]. by constructor.
Qed.

(** C32: Every operation of [DotDict] that stores a value keeps the
    invariant that each dictionary inside is a [DotDict]: the
    constructor, [__setitem__], [__setattr__] and [__delattr__], for
    well-formed values whose own [DotDict]s satisfy it. *)
Theorem dotdict_ops_all_dot kvs kvs0 k v :
  all_dot (PDict true kvs) -> wf v -> dots_ok v -> wf (PDict false kvs0) -> dots_ok (PDict false kvs0) ->
  all_dot (DotDict.new kvs0) /\
  all_dot (PDict true (DotDict.setitem kvs k v)) /\
  all_dot (PDict true (DotDict.setattr kvs k v)) /\
  (forall kvs', DotDict.delattr kvs k = Ok kvs' -> all_dot (PDict true kvs')).
Proof.
  intros [_ Hkvs] Hw Hok Hw0 Hok0. rewrite Forall_map_id in Hkvs.
  split; [|split; [|split]].
  - unfold DotDict.new. rewrite convert_eq by done. by apply all_dot_dot.
  - split; [done|]. rewrite Forall_map_id. unfold DotDict.setitem. rewrite convert_eq by done.
    apply kv_set_values; [done|]. by apply all_dot_dot.
  - split; [done|]. rewrite Forall_map_id. unfold DotDict.setattr, DotDict.setitem.
    rewrite convert_convert by done. apply kv_set_values; [done|]. by apply all_dot_dot.
  - intros kvs'. unfold DotDict.delattr. destruct (kv_lookup k kvs); [|done].
    intros [= <-]. split; [done|]. rewrite Forall_map_id. by apply kv_delete_values.
Qed.

(** [dict.update], which [DotDict] inherits, stores a nested [dict]
    as it is: after [d.update({'a': {}})] the invariant is broken,
    where [d['a'] = {}] keeps it. *)
Example update_breaks_all_dot :
  ~ all_dot (PDict true (DotDict.update [] (u "a") (PDict false []))) /\
  all_dot (PDict true (DotDict.setitem [] (u "a") (PDict false []))).
Proof. split; [simpl; intros (_ & [[? _] _]%Forall_cons); done | vm_compute; repeat constructor]. Qed.

(** An attribute that is not a class attribute reads back the value
    it was set to, converted. *)
Theorem setattr_getattr kvs attr v :
  attr ∉ DotDict.class_attrs -> wf v ->
  DotDict.getattr (DotDict.setattr kvs attr v) attr = Ok (dot_value v).
Proof.
  intros Ha Hw. unfold DotDict.getattr, DotDict.setattr, DotDict.setitem.
  rewrite bool_decide_false by done. by rewrite convert_convert, kv_lookup_set_eq.
Qed.

(** A key named after a method of [dict] cannot be read as an
    attribute: after [d.items = 1], [d.items] is still the method. *)
Example setattr_shadowed_by_method :
  DotDict.getattr (DotDict.setattr [] (u "items") (PInt 1)) (u "items") = Ok (PAttr (u "items")) /\
  kv_lookup (u "items") (DotDict.setattr [] (u "items") (PInt 1)) = Some (PInt 1).
Proof. split; vm_compute; reflexivity. Qed.

(** [del d.attr] removes the key when it is present and raises
    [AttributeError] when it is not. *)
Theorem delattr_spec kvs attr :
  NoDup kvs.*1 ->
  (DotDict.delattr kvs attr = Err (DotDict.AttributeError attr) <-> kv_lookup attr kvs = None) /\
  (forall kvs', DotDict.delattr kvs attr = Ok kvs' -> kv_lookup attr kvs' = None).
Proof.
  intros Hnd. unfold DotDict.delattr. split.
  - destruct (kv_lookup attr kvs); split; congruence.
  - intros kvs'. destruct (kv_lookup attr kvs); [|done]. intros [= <-]. by apply kv_lookup_delete_eq.
Qed.

(** [JSONField]'s own default, the class [dict], is not replaced by a
    [DotDict] ([dict == {}] is false): a new instance holds a plain
    [dict] whose keys are no attributes, while the same data read from
    the database is a [DotDict]; only an explicit [default={}] becomes
    a [DotDict]. *)
Example json_default_not_dotdict :
  JSONField.init_default JSONField.DefaultDictType = JSONField.DefaultDictType /\
  JSONField.obj_getattr (JSONField.initial_value (JSONField.init_default JSONField.DefaultDictType)) (u "x")
    = Err (DotDict.AttributeError (u "x")) /\
  JSONField.init_default (JSONField.DefaultValue (PDict false [])) = JSONField.DefaultValue (PDict true []) /\
  (forall json_error (loads : pystr -> result json_error pyobj),
     match JSONField.from_db_value loads (JSONField.DbObj (PDict false [(u "x", PInt 1)])) with
     | Ok o => JSONField.obj_getattr o (u "x") = Ok (PInt 1)
     | Err _ => False
     end).
Proof. split; [done|]. split; [vm_compute; reflexivity|]. split; [vm_compute; reflexivity|]. intros. vm_compute. reflexivity. Qed.

(** ** Instances *)

Lemma dotdict_ops_all_dot_witness :
  all_dot (DotDict.new [(u "a", PList [PDict false []])]) /\
  all_dot (PDict true (DotDict.setitem [] (u "b") (PDict false []))) /\
  all_dot (PDict true (DotDict.setattr [] (u "b") (PDict false []))) /\
  (forall kvs', DotDict.delattr [] (u "b") = Ok kvs' -> all_dot (PDict true kvs')).
Proof.
  apply dotdict_ops_all_dot; vm_compute; repeat constructor; intros ?; set_solver.
Defined.

Lemma setattr_getattr_witness :
  DotDict.getattr (DotDict.setattr [] (u "x") (PDict false [])) (u "x") = Ok (dot_value (PDict false [])).
Proof.
  apply setattr_getattr; [apply (bool_decide_unpack _); vm_compute; exact I | vm_compute; repeat constructor].
Defined.

Lemma delattr_spec_witness :
  (DotDict.delattr [(u "x", PInt 1)] (u "y") = Err (DotDict.AttributeError (u "y")) <->
   kv_lookup (u "y") [(u "x", PInt 1)] = None) /\
  (forall kvs', DotDict.delattr [(u "x", PInt 1)] (u "y") = Ok kvs' -> kv_lookup (u "y") kvs' = None).
Proof. apply delattr_spec. vm_compute. repeat constructor. set_solver. Defined.

Lemma convert_value_enough_witness :
  DotDict.convert_value 5 (PList [PDict false []]) = DotDict.convert (PList [PDict false []]) /\
  DotDict.convert (PList [PDict false []]) = dot_value (PList [PDict false []]).
Proof. apply convert_value_enough; [vm_compute; repeat constructor | simpl; lia]. Defined.
