(* ===== verification/DecimalField.v ===== *)
(** * [DecimalField.to_python] ([src/fields.py] lines 39-86)

    A [Decimal] is returned as it is.  A string is stripped of the
    characters of [strip_chars] (point, comma, quotes and space) at both
    ends and matched, from its start,
    against a German pattern (dots between groups of three digits, a
    comma before at most two decimals) and then an English one (the
    other way round); the first that matches decides how the separators
    are removed before [Decimal(value)] parses the string.  Any other
    string, and any other value, goes to Django's
    [DecimalField.to_python], which is not modelled: the result [Super v]
    names the value handed to it.

    [Decimal(s)] is modelled for the strings of digits with at most one
    point, surrounded by white space; it returns the coefficient and the
    exponent that Python's [Decimal] keeps ([Decimal('1.50')] has the
    coefficient 150 and the exponent -2).  The strings the code hands to
    [Decimal] are of that form ([to_python_no_invalid_operation]). *)

From S2P Require Import Prelude PyStr Regex RegexSpec.
From Stdlib Require Import ZArith.
From Stdlib Require String.
Import String.StringSyntax.

Local Open Scope string_scope.

Module DecimalField.

Record decimal : Type := Decimal { dec_coeff : N; dec_exp : Z }.

#[export] Instance decimal_eq_dec : EqDecision decimal.
Proof. solve_decision. Defined.

Inductive dvalue : Type :=
| DDecimal (d : decimal)
| DStr (s : pystr)
| DOther.

(** The result: a [Decimal] of this method, or the value handed to
    [super().to_python]. *)
Inductive dout : Type :=
| Ret (d : decimal)
| Super (v : dvalue).

Inductive decimal_error : Type :=
| ValidationError (value : pystr).   (* "Invalid decimal value: {value}" *)

(** [Decimal(s)] on digits with at most one point, after white space
    is stripped; [None] is [InvalidOperation]. *)
Definition py_decimal (s : pystr) : option decimal :=
  let t := py_strip s in
  let ip := take_while is_decimal t in
  match drop (length ip) t with
  | [] => if bool_decide (ip = []) then None else Some (Decimal (py_int ip) 0)
  | 46%N :: fp =>
    if forallb is_decimal fp && negb (bool_decide (ip = [] /\ fp = []))
    then Some (Decimal (py_int (ip ++ fp)) (- Z.of_nat (length fp)))
    else None
  | _ => None
  end.

(** The argument of [value.strip]: point, comma, apostrophe, double
    quote, the two curly double quotes and the space. *)
Definition strip_chars : pystr := [46; 44; 39; 34; 8220; 8221; 32]%N.

Definition german_format_pattern : pattern := Eval vm_compute in pat false "^\d{1,3}(\.\d{3})*(,\d{1,2})?$".
Definition english_format_pattern : pattern := Eval vm_compute in pat false "^\d{1,3}(,\d{3})*(\.\d{1,2})?$".

Definition to_python (value : dvalue) : result decimal_error dout :=
  match value with
  | DDecimal d => Ok (Ret d)
  | DStr s =>
    let v := py_strip_chars strip_chars s in
    match re_match german_format_pattern v with
    | Some _ =>
      let v := py_replace (py_replace v (u ".") []) (u ",") (u ".") in
      match py_decimal v with
      | Some d => Ok (Ret d)
      | None => Err (ValidationError v)
      end
    | None =>
      match re_match english_format_pattern v with
      | Some _ =>
        let v := py_replace v (u ",") [] in
        match py_decimal v with
        | Some d => Ok (Ret d)
        | None => Err (ValidationError v)
        end
      | None => Ok (Super (DStr v))
      end
    end
  | DOther => Ok (Super DOther)
  end.

End DecimalField.

Import DecimalField.

(** ** The shape of the strings the patterns accept *)

Lemma drop_last_newline (v : pystr) e :
  S e = length v -> v !! e = Some 10%N -> drop e v = [10%N].
Proof.
  intros Hl He. rewrite <- (take_drop_middle v e 10%N He).
  rewrite drop_app_length'; [|rewrite length_take; lia].
  f_equal. apply drop_ge. lia.
Qed.

(** What [re.match] of an expression ending with [$] leaves: the span
    of the match, then nothing or a final newline. *)
Lemma match_shape p v mo c0 n :
  re_match p v = Some mo -> last_eol (pat_re p) = true -> max_occ (pat_icase p) c0 (pat_re p) = Some n ->
  exists t w, v = t ++ w /\ (w = [] \/ w = [10%N]) /\
    Forall (fun c => char_ok (pat_icase p) (pat_re p) c = true) t /\
    count_if (fun c => (c =? c0)%N) t <= n /\
    min_digits (pat_icase p) (pat_re p) <= count_if is_decimal t.
Proof.
  intros Hm Heol Hocc. apply re_match_matches in Hm.
  pose proof (matches_chars _ _ _ _ _ Hm) as Hc.
  pose proof (matches_max_occ _ _ _ _ _ _ _ Hm Hocc) as Ho.
  pose proof (matches_min_digits _ _ _ _ _ Hm) as Hd.
  pose proof (matches_last_eol _ _ _ _ _ Hm Heol) as He.
  assert (slice 0 (mpos (m_state mo)) v = take (mpos (m_state mo)) v) as Hs
    by (unfold slice; by rewrite drop_0, Nat.sub_0_r).
  simpl in Hc, Ho, Hd. rewrite Hs in Hc, Ho, Hd.
  exists (take (mpos (m_state mo)) v), (drop (mpos (m_state mo)) v).
  split; [by rewrite take_drop|]. split; [|done].
  destruct He as [He|[He1 He2]]; [left; apply drop_ge; lia | right; by apply drop_last_newline].
Qed.

Lemma count_if_zero p (l : pystr) : count_if p l = 0 -> Forall (fun x => p x = false) l.
Proof.
  unfold count_if. induction l as [|x l IH]; simpl; [done|].
  destruct (p x) eqn:E; simpl; [lia|]. intros H. constructor; [done | by apply IH].
Qed.

(** [Decimal] accepts digits with at most one point and at least one
    digit, followed by nothing or a newline. *)
Lemma py_decimal_ok t w :
  Forall (fun c => is_decimal c = true \/ c = 46%N) t ->
  count_if (fun c => (c =? 46)%N) t <= 1 -> 1 <= count_if is_decimal t ->
  (w = [] \/ w = [10%N]) -> is_Some (py_decimal (t ++ w)).
Proof.
  intros Ht H46 Hd Hw. unfold py_decimal.
  assert (t <> []) as Hne by (intros ->; unfold count_if in Hd; simpl in Hd; lia).
  rewrite py_strip_app_space; [| |done|].
  3: { destruct Hw as [->| ->]; repeat constructor. }
  2: { eapply Forall_impl; [exact Ht|]. intros c [Hc| ->]; [by apply decimal_not_space|done]. }
  destruct (take_while_split is_decimal t) as [Hsplit [Hrest|(c & t' & Hrest & Hc)]];
    set (ip := take_while is_decimal t) in *; rewrite Hrest.
  - case_bool_decide as Hip; [|eauto].
    rewrite Hsplit, Hrest, Hip in Hd. unfold count_if in Hd. simpl in Hd. lia.
  - rewrite Hsplit, Hrest, Forall_app, Forall_cons in Ht. destruct Ht as (_ & [Hc'| ->] & Ht'); [congruence|].
    rewrite Hsplit, Hrest, count_if_app in H46. unfold count_if in H46 at 2. simpl in H46.
    assert (Forall (fun c => is_decimal c = true) t') as Hdig.
    { assert (count_if (fun c => (c =? 46)%N) t' = 0) as H0 by (unfold count_if in *; lia).
      apply count_if_zero in H0. rewrite Forall_forall in Ht', H0 |- *.
      intros x Hx. destruct (Ht' x Hx) as [?| ->]; [done|]. specialize (H0 46%N Hx). done. }
    assert (forallb is_decimal t' = true) as -> by (apply forallb_forall; rewrite <- List.Forall_forall; exact Hdig).
    case_bool_decide as Hemp; simpl; [|eauto].
    destruct Hemp as [Hip Ht0]. rewrite Hsplit, Hrest, Hip, Ht0 in Hd. unfold count_if in Hd. simpl in Hd. lia.
Qed.

(** ** The separators removed by [str.replace] *)

Lemma Forall_bind_str (P Q : N -> Prop) (f : N -> pystr) (l : pystr) :
  (forall x, P x -> Forall Q (f x)) -> Forall P l -> Forall Q (l ≫= f).
Proof. intros Hf Hl. apply Forall_bind. eapply Forall_impl; [exact Hl|]. exact Hf. Qed.

Lemma count_if_bind (q q' : N -> bool) (f : N -> pystr) (l : pystr) :
  Forall (fun x => count_if q (f x) = count_if q' [x]) l -> count_if q (l ≫= f) = count_if q' l.
Proof.
  induction 1 as [|x l Hx _ IH]; [done|].
  rewrite bind_cons, count_if_app, Hx, IH. unfold count_if. simpl. by destruct (q' x).
Qed.

(** The strings of digits, points and commas. *)
Definition num_chars (c : N) : Prop := is_decimal c = true \/ c = 46%N \/ c = 44%N.

Lemma decimal_not_sep c : is_decimal c = true -> c <> 46%N /\ c <> 44%N.
Proof. intros H. split; intros ->; discriminate. Qed.

(** The German reading: points removed, then the comma made a point. *)
Lemma german_replace_ok t w :
  Forall num_chars t -> count_if (fun c => (c =? 44)%N) t <= 1 -> 1 <= count_if is_decimal t ->
  (w = [] \/ w = [10%N]) ->
  is_Some (py_decimal (py_replace (py_replace (t ++ w) (u ".") []) (u ",") (u "."))).
Proof.
  intros Ht H44 Hd Hw. change (u ".") with [46%N]. change (u ",") with [44%N].
  rewrite !py_replace_char_bind, !bind_app.
  replace ((w ≫= _) ≫= _) with w by (destruct Hw as [-> | ->]; reflexivity).
  set (t1 := t ≫= (fun x => if (x =? 46)%N then [] else [x])).
  assert (Forall (fun c => is_decimal c = true \/ c = 44%N) t1) as Ht1.
  { apply (Forall_bind_str num_chars); [|exact Ht]. intros x Hx.
    destruct (N.eqb_spec x 46) as [->|Hx46]; [by constructor|]. apply Forall_singleton.
    destruct Hx as [?|[?|?]]; [by left|done|by right]. }
  assert (count_if (fun c => (c =? 44)%N) t1 = count_if (fun c => (c =? 44)%N) t) as C44.
  { apply count_if_bind. apply Forall_forall. intros x _. unfold count_if. simpl.
    destruct (N.eqb_spec x 46) as [->|]; done. }
  assert (count_if is_decimal t1 = count_if is_decimal t) as Cd.
  { apply count_if_bind. apply Forall_forall. intros x _. unfold count_if. simpl.
    destruct (N.eqb_spec x 46) as [->|]; done. }
  apply py_decimal_ok; [| | |done].
  - apply (Forall_bind_str (fun c => is_decimal c = true \/ c = 44%N)); [|exact Ht1]. intros x Hx.
    destruct (N.eqb_spec x 44) as [->|Hx44]; apply Forall_singleton; [by right|].
    destruct Hx as [Hx|Hx]; [by left|done].
  - rewrite (count_if_bind _ (fun c => (c =? 44)%N)); [lia|].
    eapply Forall_impl; [exact Ht1|]. intros x Hx. unfold count_if. simpl.
    destruct (N.eqb_spec x 44) as [->|]; simpl; [done|].
    destruct Hx as [Hx|Hx]; [|done]. destruct (N.eqb_spec x 46) as [->|]; [discriminate|done].
  - rewrite (count_if_bind _ is_decimal); [lia|]. apply Forall_forall. intros x _.
    unfold count_if. simpl. destruct (N.eqb_spec x 44) as [->|]; done.
Qed.

(** The English reading: commas removed. *)
Lemma english_replace_ok t w :
  Forall num_chars t -> count_if (fun c => (c =? 46)%N) t <= 1 -> 1 <= count_if is_decimal t ->
  (w = [] \/ w = [10%N]) ->
  is_Some (py_decimal (py_replace (t ++ w) (u ",") [])).
Proof.
  intros Ht H46 Hd Hw. change (u ",") with [44%N].
  rewrite py_replace_char_bind, bind_app.
  replace (w ≫= _) with w by (destruct Hw as [-> | ->]; reflexivity).
  apply py_decimal_ok; [| | |done].
  - apply (Forall_bind_str num_chars); [|exact Ht]. intros x Hx.
    destruct (N.eqb_spec x 44) as [->|Hx44]; [by constructor|]. apply Forall_singleton.
    destruct Hx as [?|[?|?]]; [by left|by right|done].
  - rewrite (count_if_bind _ (fun c => (c =? 46)%N)); [lia|]. apply Forall_forall. intros x _.
    unfold count_if. simpl. destruct (N.eqb_spec x 44) as [->|]; done.
  - rewrite (count_if_bind _ is_decimal); [lia|]. apply Forall_forall. intros x _.
    unfold count_if. simpl. destruct (N.eqb_spec x 44) as [->|]; done.
Qed.

(** ** The two patterns *)

Lemma german_pattern_facts :
  pat_icase german_format_pattern = false /\ last_eol (pat_re german_format_pattern) = true /\
  max_occ false 44 (pat_re german_format_pattern) = Some 1 /\
  min_digits false (pat_re german_format_pattern) = 1.
Proof. vm_compute. repeat split. Qed.

Lemma english_pattern_facts :
  pat_icase english_format_pattern = false /\ last_eol (pat_re english_format_pattern) = true /\
  max_occ false 46 (pat_re english_format_pattern) = Some 1 /\
  min_digits false (pat_re english_format_pattern) = 1.
Proof. vm_compute. repeat split. Qed.

(** The characters either pattern accepts: digits, points and commas. *)
Lemma char_ok_num_chars r c :
  (forall c, char_ok false r c = is_decimal c || (c =? 46)%N || (c =? 44)%N) ->
  char_ok false r c = true -> num_chars c.
Proof.
  intros Hr. rewrite Hr. unfold num_chars.
  intros [[H|H]%orb_prop|H]%orb_prop; [by left | right; left | right; right]; by apply N.eqb_eq.
Qed.

Lemma german_chars c :
  char_ok false (pat_re german_format_pattern) c = is_decimal c || (c =? 46)%N || (c =? 44)%N.
Proof. cbn. by destruct (is_decimal c), (c =? 46)%N, (c =? 44)%N. Qed.

Lemma english_chars c :
  char_ok false (pat_re english_format_pattern) c = is_decimal c || (c =? 46)%N || (c =? 44)%N.
Proof. cbn. by destruct (is_decimal c), (c =? 46)%N, (c =? 44)%N. Qed.

(** C36: The [except InvalidOperation] branches of [to_python] are dead
    code: a string that either pattern accepts always makes a valid
    [Decimal] once its separators are removed, so [to_python] never
    raises. *)
Theorem to_python_no_invalid_operation value e : to_python value <> Err e.
Proof.
  destruct value as [d|s|]; cbn [to_python]; try discriminate.
  set (v := py_strip_chars strip_chars s).
  destruct german_pattern_facts as (Gi & Ge & Go & Gd).
  destruct english_pattern_facts as (Ei & Ee & Eo & Ed).
  destruct (re_match german_format_pattern v) as [mo|] eqn:EG.
  - destruct (match_shape _ _ _ 44 1 EG) as (t & w & -> & Hw & Hc & Ho & Hd); [done|by rewrite Gi|].
    rewrite Gi in Hc, Hd. rewrite Gd in Hd.
    destruct (german_replace_ok t w) as [d Hdec]; [| done | done | done |].
    { eapply Forall_impl; [exact Hc|]. intros c. apply char_ok_num_chars, german_chars. }
    rewrite Hdec. discriminate.
  - destruct (re_match english_format_pattern v) as [mo|] eqn:EE; [|discriminate].
    destruct (match_shape _ _ _ 46 1 EE) as (t & w & -> & Hw & Hc & Ho & Hd); [done|by rewrite Ei|].
    rewrite Ei in Hc, Hd. rewrite Ed in Hd.
    destruct (english_replace_ok t w) as [d Hdec]; [| done | done | done |].
    { eapply Forall_impl; [exact Hc|]. intros c. apply char_ok_num_chars, english_chars. }
    rewrite Hdec. discriminate.
Qed.

(** German and English numbers, the stripping of quotes and points,
    and the values handed to Django: a [Decimal] is kept, "1.234,56"
    and "1,234.56" are both 1234.56, a quoted "'1.000'" is 1000, a
    final point is stripped, and "-5" goes to [super().to_python]. *)
Example decimal_to_python_cases :
  to_python (DDecimal (Decimal 15 (-1))) = Ok (Ret (Decimal 15 (-1))) /\
  to_python (DStr (u "1.234,56")) = Ok (Ret (Decimal 123456 (-2))) /\
  to_python (DStr (u "1,234.56")) = Ok (Ret (Decimal 123456 (-2))) /\
  to_python (DStr (u "1,234,567.89")) = Ok (Ret (Decimal 123456789 (-2))) /\
  to_python (DStr (u "'1.000'")) = Ok (Ret (Decimal 1000 0)) /\
  to_python (DStr (u "12.")) = Ok (Ret (Decimal 12 0)) /\
  to_python (DStr (u "1,5")) = Ok (Ret (Decimal 15 (-1))) /\
  to_python (DStr (u "-5")) = Ok (Super (DStr (u "-5"))) /\
  to_python DOther = Ok (Super DOther).
Proof. repeat split; vm_compute; reflexivity. Qed.

(** A point followed by three digits is read as a German thousands
    separator: "1.500" is 1500 while "1.50" is 1.50 and "1.5" is 1.5. *)
Example point_three_decimals_is_thousands :
  to_python (DStr (u "1.500")) = Ok (Ret (Decimal 1500 0)) /\
  to_python (DStr (u "1.50")) = Ok (Ret (Decimal 150 (-2))) /\
  to_python (DStr (u "1.5")) = Ok (Ret (Decimal 15 (-1))).
Proof. repeat split; vm_compute; reflexivity. Qed.

(** A German number of four digits or more written without
    thousands separators, such as "1234,5", matches neither pattern and
    is handed unchanged to Django, whose [Decimal] rejects the comma. *)
Example german_without_separators_rejected :
  to_python (DStr (u "1234,5")) = Ok (Super (DStr (u "1234,5"))) /\
  py_decimal (u "1234,5") = None /\
  to_python (DStr (u "123,5")) = Ok (Ret (Decimal 1235 (-1))).
Proof. repeat split; vm_compute; reflexivity. Qed.
