(* ===== verification/ActionReporter.v ===== *)
(** * [ActionResultReporter] and [make_action]
      ([src/admin/action_result_reporter.py], [src/admin/install.py]
      lines 12-32)

    An admin action built by [make_action] walks the queryset, calls the
    model method on each object and sorts the object into one of the
    three lists of an [ActionResultReporter]: a [dict] result with a
    ["warnings"] key makes a warning, another result a success, an
    exception a failure.  [generate_message] then adds at most three
    HTML messages (marked safe) to the request.

    The objects, exceptions and field values of the queryset are
    abstract: a Section [Context] gives [str(obj)] and [repr(e)], and the
    outcome of [getattr(obj, method_name)] followed by the call.  The
    request's message storage is the list of messages added so far. *)

From S2P Require Import Prelude PyStr.
From Stdlib Require String.
Import String.StringSyntax.

Local Open Scope string_scope.
Local Open Scope N_scope.

(** [messages.SUCCESS], [messages.WARNING], [messages.ERROR]. *)
Inductive level : Type := SUCCESS | WARNING | ERROR.

#[export] Instance level_eq_dec : EqDecision level.
Proof. solve_decision. Defined.

(** A message added by [request._messages.add(level, message)]; all the
    reporter's messages go through [mark_safe], so the text is sent as
    HTML. *)
Record message : Type := Message { msg_level : level; msg_text : pystr }.

Section Reporter.

(** [Obj] is the type of the queryset's objects, [Exc] of the exceptions
    a model method raises, [Val] of the values in a warning triple. *)
Context {Obj Exc Val : Type}.
Context (obj_str : Obj -> pystr) (exc_repr : Exc -> pystr).

(** A [(field, value, reason)] triple of a [warnings] list: the field's
    [str], its value and the reasons joined with [", "]. *)
Definition failed_field : Type := pystr * Val * list pystr.

Record ActionResultReporter : Type := {
  success_records : list Obj;
  warning_records : list (Obj * list failed_field);
  failed_records : list (Obj * pystr)
}.

(** [__init__]. *)
Definition reporter_init : ActionResultReporter := {|
  success_records := []; warning_records := []; failed_records := [] |}.

Definition add_success (r : ActionResultReporter) (record : Obj) : ActionResultReporter := {|
  success_records := success_records r ++ [record];
  warning_records := warning_records r;
  failed_records := failed_records r |}.

Definition add_warning (r : ActionResultReporter) (record : Obj) (ff : list failed_field)
    : ActionResultReporter := {|
  success_records := success_records r;
  warning_records := warning_records r ++ [(record, ff)];
  failed_records := failed_records r |}.

(** [add_failure] keeps [repr(error)]. *)
Definition add_failure (r : ActionResultReporter) (record : Obj) (error : Exc)
    : ActionResultReporter := {|
  success_records := success_records r;
  warning_records := warning_records r;
  failed_records := failed_records r ++ [(record, exc_repr error)] |}.

Definition _add_message (request : list message) (msg : pystr) (lvl : level) : list message :=
  request ++ [Message lvl msg].

Definition _format_message (count : N) (base_message : pystr) : pystr :=
  if count =? 1 then base_message ++ u " for <strong>1 record</strong>"
  else base_message ++ u " for <strong>" ++ str_of_N count ++ u " records</strong>".

(** One line of the warning message for a triple. *)
Definition warning_field_line (f : failed_field) : pystr :=
  let '(field, _, reason) := f in
  u "Field <em>" ++ field ++ u "</em>: " ++ html_escape (py_join (u ", ") reason) ++ u "<br />".

Definition warning_record_lines (w : Obj * list failed_field) : pystr :=
  let '(record, ff) := w in
  obj_str record ++ u ": " ++ (if (1 <? length ff)%nat then u "<br />" else [])
  ++ (ff ≫= warning_field_line).

Definition failure_record_line (f : Obj * pystr) : pystr :=
  let '(record, error) := f in obj_str record ++ u ": " ++ html_escape error ++ u "<br />".

Definition success_message (label : pystr) (recs : list Obj) : pystr :=
  let m := _format_message (N.of_nat (length recs)) (label ++ u " was successful") in
  match recs with
  | [x] => m ++ u ": " ++ obj_str x ++ u "."
  | _ => m
  end.

Definition warning_message (label : pystr) (recs : list (Obj * list failed_field)) : pystr :=
  _format_message (N.of_nat (length recs)) (label ++ u " completed with warnings")
  ++ u ":<br />" ++ (recs ≫= warning_record_lines).

Definition failure_message (label : pystr) (recs : list (Obj * pystr)) : pystr :=
  _format_message (N.of_nat (length recs)) (label ++ u " failed")
  ++ u ":<br />" ++ (recs ≫= failure_record_line).

(** [generate_message(request, action_label)]: the request's messages
    after the call. *)
Definition generate_message (r : ActionResultReporter) (request : list message)
    (action_label : pystr) : list message :=
  let label := u "<strong>" ++ py_capitalize action_label ++ u "</strong>" in
  let request :=
    if bool_decide (success_records r = []) then request
    else _add_message request (success_message label (success_records r)) SUCCESS in
  let request :=
    if bool_decide (warning_records r = []) then request
    else _add_message request (warning_message label (warning_records r)) WARNING in
  if bool_decide (failed_records r = []) then request
  else _add_message request (failure_message label (failed_records r)) ERROR.

(** ** [make_action] *)

(** What a model method returns: a [dict] whose ["warnings"] entry is
    the list of triples, or any other value. *)
Inductive method_result : Type :=
| WarningsDict (warnings : list failed_field)
| OtherResult.

(** [getattr(obj, method_name)] followed by [method()]: the attribute is
    missing ([AttributeError], raised outside the [try]), or the call
    returns or raises. *)
Inductive call_outcome : Type :=
| NoAttribute
| Returns (v : method_result)
| Raises (e : Exc).

(** The body of the loop [for obj in queryset]; [None] when [getattr]
    raises, which ends the action with the exception. *)
Definition action_step (outcome : Obj -> call_outcome) (r : ActionResultReporter) (obj : Obj)
    : option ActionResultReporter :=
  match outcome obj with
  | NoAttribute => None
  | Returns (WarningsDict w) => Some (add_warning r obj w)
  | Returns OtherResult => Some (add_success r obj)
  | Raises e => Some (add_failure r obj e)
  end.

Fixpoint action_loop (outcome : Obj -> call_outcome) (r : ActionResultReporter) (queryset : list Obj)
    : option ActionResultReporter :=
  match queryset with
  | [] => Some r
  | obj :: qs => r' ← action_step outcome r obj; action_loop outcome r' qs
  end.

(** [make_action(model, method_name, description)] applied to a request
    and a queryset: [None] is the [AttributeError] that escapes, with no
    message added. *)
Definition make_action (outcome : Obj -> call_outcome) (description : pystr)
    (request : list message) (queryset : list Obj) : option (list message) :=
  r ← action_loop outcome reporter_init queryset;
  Some (generate_message r request description).

End Reporter.

Arguments failed_field : clear implicits.
Arguments ActionResultReporter : clear implicits.
Arguments method_result : clear implicits.
Arguments call_outcome : clear implicits.

(** The outcomes of the methods of four objects, used in the examples. *)
Definition example_outcome (n : N) : call_outcome unit unit :=
  if n =? 0 then Raises tt
  else if n =? 1 then Returns (WarningsDict [(u "price", tt, [u "not a number"; u "negative"])])
  else if n =? 3 then NoAttribute
  else Returns OtherResult.

(** ** Specification of the loop *)

Section Spec.

Context {Obj Exc Val : Type} (exc_repr : Exc -> pystr).
Context (outcome : Obj -> call_outcome Exc Val).

Definition has_attribute (o : Obj) : Prop := outcome o <> NoAttribute.

Definition is_success (o : Obj) : bool :=
  match outcome o with Returns OtherResult => true | _ => false end.

Definition warning_of (o : Obj) : option (Obj * list (failed_field Val)) :=
  match outcome o with Returns (WarningsDict w) => Some (o, w) | _ => None end.

Definition failure_of (o : Obj) : option (Obj * pystr) :=
  match outcome o with Raises e => Some (o, exc_repr e) | _ => None end.

(** ** Lemmas *)

Lemma action_loop_spec r qs :
  Forall has_attribute qs ->
  action_loop exc_repr outcome r qs = Some {|
    success_records := success_records r ++ List.filter is_success qs;
    warning_records := warning_records r ++ omap warning_of qs;
    failed_records := failed_records r ++ omap failure_of qs |}.
Proof.
  revert r. induction qs as [|o qs IH]; intros r Hqs.
  - destruct r; cbn. by rewrite !app_nil_r.
  - apply Forall_cons in Hqs as [Ho Hqs]. cbn [action_loop List.filter omap list_omap].
    unfold action_step, is_success, warning_of, failure_of, has_attribute in *.
    destruct (outcome o) as [|[w|]|e]; [done| | |]; cbn [mbind option_bind];
      rewrite IH by done; cbn; by rewrite <- ?app_assoc.
Qed.

Lemma action_loop_None r qs :
  action_loop exc_repr outcome r qs = None <-> Exists (fun o => outcome o = NoAttribute) qs.
Proof.
  revert r. induction qs as [|o qs IH]; intros r; cbn [action_loop].
  - split; [done|]. by intros ?%Exists_nil.
  - rewrite Exists_cons. unfold action_step.
    destruct (outcome o) as [|[w|]|e]; cbn [mbind option_bind]; rewrite ?IH;
      intuition congruence.
Qed.

Lemma reported_length qs :
  Forall has_attribute qs ->
  (length (List.filter is_success qs) + length (omap warning_of qs) + length (omap failure_of qs)
   = length qs)%nat.
Proof.
  induction qs as [|o qs IH]; intros Hqs; [done|].
  apply Forall_cons in Hqs as [Ho Hqs]. cbn [List.filter omap list_omap length].
  unfold is_success, warning_of, failure_of, has_attribute in *.
  destruct (outcome o) as [|[w|]|e]; [done| | |]; cbn [length]; specialize (IH Hqs); lia.
Qed.

End Spec.

(** ** Theorems *)

Section Claims.

Context {Obj Exc Val : Type} (obj_str : Obj -> pystr) (exc_repr : Exc -> pystr).
Context (outcome : Obj -> call_outcome Exc Val).

(** C8: When every object of the queryset has the method, the action sorts
    the queryset into the three lists in its order (successes, the
    objects with their warnings, the objects with [repr] of their
    exceptions) and adds the messages [generate_message] makes of them. *)
Theorem make_action_reports description request qs :
  Forall (has_attribute outcome) qs ->
  make_action obj_str exc_repr outcome description request qs =
  Some (generate_message obj_str {|
    success_records := List.filter (is_success outcome) qs;
    warning_records := omap (warning_of outcome) qs;
    failed_records := omap (failure_of exc_repr outcome) qs |} request description).
Proof. intros Hqs. unfold make_action. by rewrite action_loop_spec. Qed.

(** Every object of the queryset is reported exactly once: the three
    lists of the reporter together are as long as the queryset. *)
Theorem action_reports_each_once qs :
  Forall (has_attribute outcome) qs ->
  exists r, action_loop exc_repr outcome reporter_init qs = Some r /\
    (length (success_records r) + length (warning_records r) + length (failed_records r)
     = length qs)%nat.
Proof.
  intros Hqs. eexists. split; [by apply action_loop_spec|]. cbn. by apply reported_length.
Qed.

(** C9: The action raises (and adds no message) exactly when some object
    of the queryset lacks the method: [getattr(obj, method_name)] is
    outside the [try], so the [AttributeError] is not reported as a
    failure. *)
Theorem make_action_attribute_error description request qs :
  make_action obj_str exc_repr outcome description request qs = None <->
  Exists (fun o => outcome o = NoAttribute) qs.
Proof.
  unfold make_action. rewrite <- (action_loop_None exc_repr outcome reporter_init).
  destruct (action_loop _ _ _ _); cbn; intuition congruence.
Qed.

(** [generate_message] keeps the request's messages and appends one
    message per non-empty list, in the order success, warning, error;
    what it appends does not depend on the messages already there. *)
Theorem generate_message_levels (r : ActionResultReporter Obj Val) request label :
  generate_message obj_str r request label = request ++ generate_message obj_str r [] label /\
  map msg_level (generate_message obj_str r [] label) =
    (if bool_decide (success_records r = []) then [] else [SUCCESS]) ++
    (if bool_decide (warning_records r = []) then [] else [WARNING]) ++
    (if bool_decide (failed_records r = []) then [] else [ERROR]).
Proof.
  unfold generate_message, _add_message.
  repeat case_bool_decide; split; cbn [app map msg_level]; by rewrite ?app_nil_r, <- ?app_assoc, ?map_app.
Qed.

(** The message for a single success ends with [str] of the record as
    it is, unescaped, inside HTML marked safe. *)
Theorem success_message_single x request label :
  generate_message (Val:=Val) obj_str {| success_records := [x]; warning_records := []; failed_records := [] |}
    request label =
  request ++ [Message SUCCESS (u "<strong>" ++ py_capitalize label ++
    u "</strong> was successful for <strong>1 record</strong>: " ++ obj_str x ++ u ".")].
Proof.
  unfold generate_message. cbn [success_records warning_records failed_records]. repeat case_bool_decide; try congruence.
  unfold _add_message, success_message, _format_message. cbn [success_records length N.of_nat N.eqb Pos.eqb].
  change (N.of_nat 1 =? 1) with true. cbv iota. rewrite <- !app_assoc. reflexivity.
Qed.

(** Each non-empty list of records has its message among the request's
    messages after [generate_message]. *)
Lemma generate_message_has (r : ActionResultReporter Obj Val) request label :
  let lbl := u "<strong>" ++ py_capitalize label ++ u "</strong>" in
  (success_records r <> [] ->
     Message SUCCESS (success_message obj_str lbl (success_records r)) ∈ generate_message obj_str r request label) /\
  (warning_records r <> [] ->
     Message WARNING (warning_message obj_str lbl (warning_records r)) ∈ generate_message obj_str r request label) /\
  (failed_records r <> [] ->
     Message ERROR (failure_message obj_str lbl (failed_records r)) ∈ generate_message obj_str r request label).
Proof. unfold generate_message, _add_message. split_and!; intros; repeat case_bool_decide; set_solver. Qed.

(** C10: [generate_message] writes [str(record)] into HTML marked safe as
    it is, unescaped, while it escapes the error's [repr]: the message for
    a single success ends with the record's [str]; each warning record's
    line starts with it; each failed record's line is its [str], [": "]
    and [escape(repr(error))]. *)
Theorem record_str_not_escaped (r : ActionResultReporter Obj Val) request label :
  (forall x, success_records r = [x] ->
     exists pre, Message SUCCESS (pre ++ obj_str x ++ u ".") ∈ generate_message obj_str r request label) /\
  Forall (fun w => exists pre post,
            Message WARNING (pre ++ obj_str w.1 ++ u ": " ++ post) ∈ generate_message obj_str r request label)
    (warning_records r) /\
  Forall (fun f => exists pre post,
            Message ERROR (pre ++ obj_str f.1 ++ u ": " ++ html_escape f.2 ++ u "<br />" ++ post)
              ∈ generate_message obj_str r request label)
    (failed_records r).
Proof.
  destruct (generate_message_has r request label) as (Hs & Hw & Hf). cbv zeta in Hs, Hw, Hf.
  split_and!.
  - intros x Hx. rewrite Hx in Hs. specialize (Hs ltac:(done)). unfold success_message in Hs.
    exists (_format_message (N.of_nat 1) (u "<strong>" ++ (py_capitalize label ++ u "</strong>") ++
                                          u " was successful") ++ u ": ").
    by rewrite <- app_assoc.
  - apply Forall_forall. intros [x ff] Hx. cbn [fst].
    specialize (Hw ltac:(intros E; rewrite E in Hx; by apply not_elem_of_nil in Hx)).
    destruct (bind_elem_split (warning_record_lines obj_str) _ _ Hx) as (pre & post & Hsp).
    unfold warning_message in Hw. rewrite Hsp in Hw. cbn [warning_record_lines] in Hw.
    exists (_format_message (N.of_nat (length (warning_records r)))
              (u "<strong>" ++ py_capitalize label ++ u "</strong>" ++ u " completed with warnings")
            ++ u ":<br />" ++ pre),
           ((if (1 <? length ff)%nat then u "<br />" else []) ++ (ff ≫= warning_field_line) ++ post).
    rewrite !app_assoc in Hw |- *. exact Hw.
  - apply Forall_forall. intros [x e] Hx. cbn [fst snd].
    specialize (Hf ltac:(intros E; rewrite E in Hx; by apply not_elem_of_nil in Hx)).
    destruct (bind_elem_split (failure_record_line obj_str) _ _ Hx) as (pre & post & Hsp).
    unfold failure_message in Hf. rewrite Hsp in Hf. cbn [failure_record_line] in Hf.
    exists (_format_message (N.of_nat (length (failed_records r)))
              (u "<strong>" ++ py_capitalize label ++ u "</strong>" ++ u " failed") ++ u ":<br />" ++ pre), post.
    rewrite !app_assoc in Hf |- *. exact Hf.
Qed.

End Claims.

(** A record whose [str] is ["<b>x</b>"] is shown in bold, in the
    success and in the failure message, while the same text as the
    error's [repr] is escaped. *)
Example record_str_not_escaped_example :
  generate_message (Val:=unit) (fun s => s)
    {| success_records := [u "<b>x</b>"]; warning_records := [];
       failed_records := [(u "<b>x</b>", u "<b>x</b>")] |} [] (u "approve") =
  [Message SUCCESS (u "<strong>Approve</strong> was successful for <strong>1 record</strong>: <b>x</b>.");
   Message ERROR (u "<strong>Approve</strong> failed for <strong>1 record</strong>:<br /><b>x</b>: &lt;b&gt;x&lt;/b&gt;<br />")].
Proof. vm_compute. reflexivity. Qed.

(** The action label is capitalized with [str.capitalize], which
    lowercases everything after the first letter: the description "Send
    PDF invoice" is shown as "Send pdf invoice". *)
Example label_capitalize_lowercases :
  map msg_text (generate_message (Val:=unit) (fun s => s)
    {| success_records := [u "a"; u "b"]; warning_records := []; failed_records := [] |} []
    (u "Send PDF invoice")) =
  [u "<strong>Send pdf invoice</strong> was successful for <strong>2 records</strong>"].
Proof. vm_compute. reflexivity. Qed.

(** ** Instances *)

Lemma make_action_reports_witness :
  make_action (fun n => str_of_N n) (fun _ => u "ValueError()") example_outcome (u "check") []
    [0; 1; 2] =
  Some (generate_message (fun n => str_of_N n) {|
    success_records := List.filter (is_success example_outcome) [0; 1; 2];
    warning_records := omap (warning_of example_outcome) [0; 1; 2];
    failed_records := omap (failure_of (fun _ => u "ValueError()") example_outcome) [0; 1; 2] |}
    [] (u "check")).
Proof. apply make_action_reports. repeat constructor; vm_compute; discriminate. Defined.

Lemma action_reports_each_once_witness :
  exists r, action_loop (fun _ => u "ValueError()") example_outcome reporter_init [0; 1; 2; 4] = Some r /\
    (length (success_records r) + length (warning_records r) + length (failed_records r) = 4)%nat.
Proof. apply (action_reports_each_once (fun _ => u "ValueError()") example_outcome [0; 1; 2; 4]). repeat constructor; vm_compute; discriminate. Defined.
