(* ===== verification/Install.v ===== *)
(** * [install()]: the generated admin classes and their shared action list
      ([src/admin/install.py] lines 34-73)

    For every app of [settings.INSTALLED_ULTRA_APPS] that has an
    [AppConfig], and every model of it with an inner [Admin] class,
    [install] creates [type(f"{name}Admin", (AutoFieldsetsMixin,
    BaseModelAdmin), attrs)] from the public attributes of the stub,
    appends one action made by [make_action] per model attribute marked
    [_admin_action] to [AdminClass.actions], and registers the class.

    [AdminClass.actions] is looked up through the class's MRO: the stub's
    own [actions] when it has one, else [BaseModelAdmin.actions], a
    single list object.  The model keeps the list objects in a heap
    ([gmap loc]) so that [append] mutates the object every class that
    resolves to it sees.  [admin.site.register] is modelled by its
    documented contract: a model registered twice raises
    [AlreadyRegistered]. *)

From S2P Require Import Prelude PyStr ActionReporter.
From stdpp Require Import gmap.
From Stdlib Require String.
Import String.StringSyntax.

Local Open Scope string_scope.
Local Open Scope N_scope.

(** The address of a list object. *)
Definition loc : Type := N.

(** The list [BaseModelAdmin.actions = list(admin.ModelAdmin.actions)]. *)
Definition base_actions_loc : loc := 0.

(** An action function made by [make_action(model, method_name,
    description)], or one of Django's own ([delete_selected]). *)
Inductive action : Type :=
| BuiltinAction (name : pystr)
| MadeAction (model_name method_name description : pystr).

#[export] Instance action_eq_dec : EqDecision action.
Proof. solve_decision. Defined.

(** The value of an attribute of the [Admin] stub: a list object, or any
    other value (a tuple, [None], a string, ...). *)
Inductive attr_value : Type :=
| VList (l : loc)
| VOther.

(** An entry of [vars(model)]: its [_admin_action] flag and its
    [_admin_action_description], when set. *)
Record model_attr : Type := ModelAttr {
  ma_admin_action : bool;
  ma_description : option pystr
}.

Record model : Type := Model {
  model_name : pystr;
  admin_meta : option (list (pystr * attr_value));   (* [getattr(model, 'Admin', None)] *)
  model_vars : list (pystr * model_attr)             (* [vars(model).items()] *)
}.

(** The class built by [type(...)]: its name and its own attributes. *)
Record admin_class : Type := AdminClass {
  ac_name : pystr;
  ac_attrs : list (pystr * attr_value)
}.

Record state : Type := State {
  heap : gmap loc (list action);
  registry : list (pystr * admin_class)   (* [admin.site._registry] *)
}.

Inductive install_error : Type :=
| AttributeError          (* [.append] on an [actions] that is not a list *)
| AlreadyRegistered (model_name : pystr).

(** [AdminClass.actions]: the class's own attribute, else
    [AutoFieldsetsMixin] (which has none), else [BaseModelAdmin]. *)
Definition class_actions (ac : admin_class) : attr_value :=
  match kv_lookup (u "actions") (ac_attrs ac) with
  | Some v => v
  | None => VList base_actions_loc
  end.

(** [{name: getattr(admin_meta, name) for name in vars(admin_meta) if
    not name.startswith('_')}]. *)
Definition public_attrs (meta : list (pystr * attr_value)) : list (pystr * attr_value) :=
  List.filter (fun '(name, _) => negb (startswith name (u "_"))) meta.

(** The description: [_admin_action_description], else the attribute's
    name with underscores as spaces, capitalized. *)
Definition action_description (attr_name : pystr) (a : model_attr) : pystr :=
  match ma_description a with
  | Some d => d
  | None => py_capitalize (py_replace attr_name (u "_") (u " "))
  end.

(** [AdminClass.actions.append(action_func)]. *)
Definition append_action (st : state) (ac : admin_class) (f : action) : result install_error state :=
  match class_actions ac with
  | VList l => Ok {| heap := <[l := heap st !!! l ++ [f]]> (heap st); registry := registry st |}
  | VOther => Err AttributeError
  end.

(** The loop over [vars(model).items()]. *)
Fixpoint append_actions (m : model) (ac : admin_class) (st : state) (vars : list (pystr * model_attr))
    : result install_error state :=
  match vars with
  | [] => Ok st
  | (attr_name, a) :: vars =>
    if ma_admin_action a then
      st <- append_action st ac (MadeAction (model_name m) attr_name (action_description attr_name a)) ;;
      append_actions m ac st vars
    else append_actions m ac st vars
  end.

(** [admin.site.register(model, AdminClass)]. *)
Definition register (st : state) (name : pystr) (ac : admin_class) : result install_error state :=
  if bool_decide (name ∈ map fst (registry st)) then Err (AlreadyRegistered name)
  else Ok {| heap := heap st; registry := registry st ++ [(name, ac)] |}.

(** The body of [for model in app_config.get_models()]. *)
Definition install_model (st : state) (m : model) : result install_error state :=
  match admin_meta m with
  | None => Ok st
  | Some meta =>
    let ac := {| ac_name := model_name m ++ u "Admin"; ac_attrs := public_attrs meta |} in
    st <- append_actions m ac st (model_vars m) ;;
    register st (model_name m) ac
  end.

Fixpoint install_models (st : state) (models : list model) : result install_error state :=
  match models with
  | [] => Ok st
  | m :: ms => st <- install_model st m ;; install_models st ms
  end.

(** [install()]: [get_app_config] is [None] for a label that raises
    [LookupError], which is skipped. *)
Fixpoint install (get_app_config : pystr -> option (list model)) (st : state)
    (INSTALLED_ULTRA_APPS : list pystr) : result install_error state :=
  match INSTALLED_ULTRA_APPS with
  | [] => Ok st
  | app_label :: labels =>
    match get_app_config app_label with
    | None => install get_app_config st labels
    | Some models => st <- install_models st models ;; install get_app_config st labels
    end
  end.

(** Django calling an action of a model admin on a queryset of that
    admin's model [m]: an object of [m] has the attributes [vars(m)]
    (its methods return a plain value here). *)
Definition object_outcome (m : model) (method_name : pystr) : call_outcome unit unit :=
  if bool_decide (method_name ∈ map fst (model_vars m)) then Returns OtherResult else NoAttribute.

Definition run_action (a : action) (m : model) (request : list message) (queryset : list unit)
    : option (list message) :=
  match a with
  | MadeAction _ method_name description =>
    make_action (fun _ => model_name m) (fun _ => []) (fun _ => object_outcome m method_name)
      description request queryset
  | BuiltinAction _ => Some request
  end.

(** Two models of an app [shop], used in the examples. *)
Definition invoice : model :=
  Model (u "Invoice") (Some []) [(u "send_reminder", ModelAttr true None)].

Definition customer : model :=
  Model (u "Customer") (Some [(u "list_display", VOther)])
    [(u "merge", ModelAttr true (Some (u "Merge duplicates")))].

Definition shop_apps (label : pystr) : option (list model) :=
  if bool_decide (label = u "shop") then Some [invoice; customer] else None.

Definition shop_init : state :=
  {| heap := {[base_actions_loc := [BuiltinAction (u "delete_selected")]]}; registry := [] |}.

(** ** What [install] registers *)

(** The class [install] builds for a model with an [Admin] stub. *)
Definition class_of (m : model) : admin_class :=
  {| ac_name := model_name m ++ u "Admin"; ac_attrs := public_attrs (default [] (admin_meta m)) |}.

(** The actions made for a model's attributes, in the order of
    [vars(model)]. *)
Definition made_actions_of (m : model) (vars : list (pystr * model_attr)) : list action :=
  omap (fun '(n, a) =>
    if ma_admin_action a then Some (MadeAction (model_name m) n (action_description n a)) else None) vars.

Definition made_actions (m : model) : list action := made_actions_of m (model_vars m).

(** The models with an [Admin] stub, and those of the apps that have an
    [AppConfig]. *)
Definition admin_models (ms : list model) : list model :=
  List.filter (fun m => bool_decide (is_Some (admin_meta m))) ms.

Definition app_models (get_app_config : pystr -> option (list model)) (labels : list pystr) : list model :=
  labels ≫= fun l => default [] (get_app_config l).

(** The stub has no public [actions] of its own. *)
Definition no_own_actions (m : model) : Prop :=
  kv_lookup (u "actions") (public_attrs (default [] (admin_meta m))) = None.

(** ** Lemmas *)

Lemma class_of_actions m : no_own_actions m -> class_actions (class_of m) = VList base_actions_loc.
Proof. unfold class_actions, no_own_actions. cbn. by intros ->. Qed.

Lemma append_actions_list m ac st vars l :
  class_actions ac = VList l ->
  exists st', append_actions m ac st vars = Ok st' /\
    heap st' !!! l = heap st !!! l ++ made_actions_of m vars /\
    (forall l', l' <> l -> heap st' !! l' = heap st !! l') /\
    registry st' = registry st.
Proof.
  intros Hl. revert st. induction vars as [|[n a] vars IH]; intros st; cbn [append_actions].
  - exists st. by rewrite app_nil_r.
  - unfold made_actions_of. cbn [omap list_omap]. destruct (ma_admin_action a).
    + unfold append_action. rewrite Hl. cbn [result_bind].
      destruct (IH {| heap := <[l := heap st !!! l ++ [MadeAction (model_name m) n (action_description n a)]]>
                                (heap st); registry := registry st |})
        as (st' & -> & Hh & Ho & Hr).
      exists st'. split; [done|]. cbn in Hh, Ho, Hr. rewrite Hh, lookup_total_insert_eq, <- app_assoc.
      split; [done|]. split; [|done]. intros l' Hne. rewrite Ho by done. by apply lookup_insert_ne.
    + apply IH.
Qed.

Lemma append_actions_other m ac st vars :
  class_actions ac = VOther -> made_actions_of m vars <> [] ->
  append_actions m ac st vars = Err AttributeError.
Proof.
  intros Hv. induction vars as [|[n a] vars IH]; cbn [append_actions]; [done|].
  unfold made_actions_of. cbn [omap list_omap]. destruct (ma_admin_action a); [|apply IH].
  intros _. unfold append_action. by rewrite Hv.
Qed.

Lemma install_model_some st m meta :
  admin_meta m = Some meta -> no_own_actions m -> model_name m ∉ map fst (registry st) ->
  exists st', install_model st m = Ok st' /\
    heap st' !!! base_actions_loc = heap st !!! base_actions_loc ++ made_actions m /\
    registry st' = registry st ++ [(model_name m, class_of m)].
Proof.
  intros Hm Hno Hreg. pose proof (class_of_actions m Hno) as Hc.
  unfold install_model. rewrite Hm.
  replace {| ac_name := _; ac_attrs := public_attrs meta |} with (class_of m)
    by (unfold class_of; by rewrite Hm).
  destruct (append_actions_list m _ st (model_vars m) _ Hc) as (st1 & -> & Hh & _ & Hr).
  cbn [result_bind]. unfold register. rewrite Hr, bool_decide_false by done.
  eexists. split; [reflexivity|]. done.
Qed.

Lemma install_models_spec st ms :
  Forall no_own_actions ms ->
  NoDup (map fst (registry st) ++ map model_name (admin_models ms)) ->
  exists st', install_models st ms = Ok st' /\
    heap st' !!! base_actions_loc = heap st !!! base_actions_loc ++ (admin_models ms ≫= made_actions) /\
    registry st' = registry st ++ map (fun m => (model_name m, class_of m)) (admin_models ms).
Proof.
  revert st. induction ms as [|m ms IH]; intros st Hno Hnd; cbn [install_models].
  - exists st. by rewrite !app_nil_r.
  - apply Forall_cons in Hno as [Hm Hms]. unfold admin_models in *. cbn [List.filter] in *.
    destruct (admin_meta m) as [meta|] eqn:Em.
    + rewrite bool_decide_true in Hnd |- * by done. cbn [map] in Hnd |- *.
      apply NoDup_app in Hnd as Hnd'. destruct Hnd' as (_ & Hdisj & _).
      destruct (install_model_some st m meta Em Hm) as (st1 & -> & Hh & Hr).
      { intros Hin. by apply (Hdisj _ Hin), list_elem_of_here. }
      cbn [result_bind]. destruct (IH st1 Hms) as (st2 & -> & Hh2 & Hr2).
      { rewrite Hr, map_app, <- app_assoc. exact Hnd. }
      exists st2. rewrite Hh2, Hh, Hr2, Hr, bind_cons, <- !app_assoc. done.
    + rewrite bool_decide_false in Hnd |- * by (intros [? ?]; congruence).
      unfold install_model. rewrite Em. cbn [result_bind]. by apply IH.
Qed.

Lemma admin_models_app ms1 ms2 : admin_models (ms1 ++ ms2) = admin_models ms1 ++ admin_models ms2.
Proof. apply List.filter_app. Qed.

Lemma install_spec get_app_config st labels :
  Forall no_own_actions (app_models get_app_config labels) ->
  NoDup (map fst (registry st) ++ map model_name (admin_models (app_models get_app_config labels))) ->
  exists st', install get_app_config st labels = Ok st' /\
    heap st' !!! base_actions_loc =
      heap st !!! base_actions_loc ++ (admin_models (app_models get_app_config labels) ≫= made_actions) /\
    registry st' = registry st ++
      map (fun m => (model_name m, class_of m)) (admin_models (app_models get_app_config labels)).
Proof.
  revert st. induction labels as [|l labels IH]; intros st Hno Hnd; cbn [install].
  - exists st. by rewrite !app_nil_r.
  - unfold app_models in *. rewrite bind_cons in Hno, Hnd |- *.
    destruct (get_app_config l) as [ms|]; cbn [default] in *; [|by apply IH].
    rewrite admin_models_app in Hnd |- *. apply Forall_app in Hno as [Hms Hrest].
    rewrite map_app, app_assoc in Hnd.
    destruct (install_models_spec st ms Hms) as (st1 & -> & Hh & Hr).
    { by apply NoDup_app in Hnd as [? _]. }
    cbn [result_bind]. destruct (IH st1 Hrest) as (st2 & -> & Hh2 & Hr2).
    { rewrite Hr, map_app, map_map. exact Hnd. }
    exists st2. by rewrite Hh2, Hh, Hr2, Hr, bind_app, map_app, <- !app_assoc.
Qed.

(** ** Theorems *)

(** C7: When no [Admin] stub has an [actions] of its own and no model is
    registered twice, [install] succeeds and every generated admin class
    resolves [actions] to the one list [BaseModelAdmin.actions], which
    holds the actions of every model: the admin of one model offers the
    actions made for all the others. *)
Theorem install_shares_actions get_app_config st labels :
  Forall no_own_actions (app_models get_app_config labels) ->
  NoDup (map fst (registry st) ++ map model_name (admin_models (app_models get_app_config labels))) ->
  exists st', install get_app_config st labels = Ok st' /\
    forall m1 m2 f, m1 ∈ admin_models (app_models get_app_config labels) ->
      m2 ∈ admin_models (app_models get_app_config labels) -> f ∈ made_actions m1 ->
      (model_name m2, class_of m2) ∈ registry st' /\
      class_actions (class_of m2) = VList base_actions_loc /\
      f ∈ heap st' !!! base_actions_loc.
Proof.
  intros Hno Hnd. destruct (install_spec get_app_config st labels Hno Hnd) as (st' & -> & Hh & Hr).
  exists st'. split; [done|]. intros m1 m2 f Hm1 Hm2 Hf. split_and!.
  - rewrite Hr. apply elem_of_app. right. apply list_elem_of_fmap. by exists m2.
  - apply class_of_actions. apply list_elem_of_In, List.filter_In in Hm2 as [Hm2 _].
    by eapply Forall_forall in Hno; [|apply list_elem_of_In].
  - rewrite Hh. apply elem_of_app. right. apply list_elem_of_bind. by exists m1.
Qed.

(** A stub whose [actions] is not a list (a tuple, say, as Django
    allows) makes [install] raise [AttributeError] at the first model
    action, before the model is registered. *)
Theorem install_model_non_list_actions st m meta :
  admin_meta m = Some meta -> kv_lookup (u "actions") (public_attrs meta) = Some VOther ->
  made_actions m <> [] ->
  install_model st m = Err AttributeError.
Proof.
  intros Hm Hv Hne. unfold install_model. rewrite Hm.
  rewrite append_actions_other; [done| |done]. unfold class_actions. cbn [ac_attrs]. by rewrite Hv.
Qed.

(** Two models of one app, [Invoice] with the action [send_reminder]
    and [Customer] with [merge]: after [install] the one action list
    holds Django's [delete_selected] and both actions, so the [Customer]
    admin offers [Send reminder], which raises [AttributeError] on every
    customer ([getattr] is outside the [try]). *)
Example customer_admin_offers_invoice_action :
  (st <- install shop_apps shop_init [u "shop"; u "missing"] ;;
   Ok (heap st !!! base_actions_loc, map fst (registry st), map (fun p => class_actions p.2) (registry st)))
  = Ok ([BuiltinAction (u "delete_selected");
         MadeAction (u "Invoice") (u "send_reminder") (u "Send reminder");
         MadeAction (u "Customer") (u "merge") (u "Merge duplicates")],
        [u "Invoice"; u "Customer"],
        [VList base_actions_loc; VList base_actions_loc]) /\
  run_action (MadeAction (u "Invoice") (u "send_reminder") (u "Send reminder")) customer [] [tt] = None.
Proof. split; vm_compute; reflexivity. Qed.

(** ** Instances *)

Lemma install_shares_actions_witness :
  exists st', install shop_apps shop_init [u "shop"; u "missing"] = Ok st' /\
    forall m1 m2 f, m1 ∈ admin_models (app_models shop_apps [u "shop"; u "missing"]) ->
      m2 ∈ admin_models (app_models shop_apps [u "shop"; u "missing"]) -> f ∈ made_actions m1 ->
      (model_name m2, class_of m2) ∈ registry st' /\
      class_actions (class_of m2) = VList base_actions_loc /\
      f ∈ heap st' !!! base_actions_loc.
Proof.
  apply install_shares_actions.
  - vm_compute. repeat constructor.
  - apply (bool_decide_unpack _). vm_compute. exact I.
Defined.
