(* ===== verification/Fieldsets.v ===== *)
(** * [AutoFieldsetsMixin.get_fieldsets] ([src/admin/base.py] lines 57-122)

    The editable fields of a model are grouped by the longest prefix (up
    to a ["_"]) that at least [min_group_size] field names extend; each
    group becomes a fieldset named after its prefix, placed where the
    group's first field stands in [_meta.fields], and the fields without
    a group go to a leading ["General"] fieldset.

    The [Counter] of prefixes and the [defaultdict(list)] of groups are
    [gmap]s; the set [used] is a [gset].  The model's two field lists are
    inputs: [_meta.get_fields()] (forward fields, many-to-many ones
    included, and reverse relations) and [_meta.fields] (the concrete
    forward fields). *)

From S2P Require Import Prelude PyStr.
From stdpp Require Import gmap.
From Stdlib Require String.
Import String.StringSyntax.

Local Open Scope string_scope.
Local Open Scope N_scope.

(** A field of [_meta]: its [name], [editable] and [auto_created]. *)
Record field : Type := Field {
  f_name : pystr;
  f_editable : bool;
  f_auto_created : bool
}.

(** The class attributes [prefix_separator = "_"] and
    [min_group_size = 3]. *)
Definition prefix_separator : N := 95.
Definition min_group_size : nat := 3.

(** Step 1's list [field_names]. *)
Definition field_names (get_fields : list field) : list pystr :=
  map f_name (List.filter (fun f => f_editable f && negb (f_auto_created f)) get_fields).

(** [self.prefix_separator.join(parts[:i])]. *)
Definition join_prefix (parts : list pystr) (i : nat) : pystr :=
  py_join [prefix_separator] (take i parts).

(** The prefixes counted for one name: [for i in range(1, len(parts))]. *)
Definition proper_prefixes (name : pystr) : list pystr :=
  let parts := py_split_char prefix_separator name in
  map (join_prefix parts) (seq 1 (length parts - 1)).

(** Step 1: [prefix_counts[prefix] += 1]. *)
Definition prefix_counts (names : list pystr) : gmap pystr nat :=
  foldl (fun counts name =>
    foldl (fun counts prefix => <[prefix := (counts !!! prefix + 1)%nat]> counts) counts (proper_prefixes name))
    ∅ names.

(** Step 2's inner loop over [range(len(parts), 0, -1)]. *)
Fixpoint first_valid (counts : gmap pystr nat) (parts : list pystr) (idx : list nat) : option pystr :=
  match idx with
  | [] => None
  | i :: idx =>
    let prefix := join_prefix parts i in
    if bool_decide (min_group_size <= counts !!! prefix)%nat then Some prefix
    else first_valid counts parts idx
  end.

(** [field_to_prefix[name]]: the longest valid prefix, or [None]. *)
Definition longest_valid (counts : gmap pystr nat) (name : pystr) : option pystr :=
  let parts := py_split_char prefix_separator name in
  first_valid counts parts (rev (seq 1 (length parts))).

(** Step 3: [grouped[key].append(name)]. *)
Definition grouped_of (field_to_prefix : pystr -> option pystr) (names : list pystr)
    : gmap (option pystr) (list pystr) :=
  foldl (fun grouped name =>
    let key := field_to_prefix name in <[key := grouped !!! key ++ [name]]> grouped) ∅ names.

(** The truth value of [group], a string or [None]. *)
Definition truthy (group : option pystr) : bool :=
  match group with Some (_ :: _) => true | _ => false end.

(** The state of step 4: [fieldsets], [general_fields] and [used]. *)
Record fs_state : Type := FsState {
  fieldsets : list (pystr * list pystr);
  general_fields : list pystr;
  used : gset pystr
}.

(** The body of [for name in self.model._meta.fields]. *)
Definition step4 (names : list pystr) (field_to_prefix : pystr -> option pystr)
    (grouped : gmap (option pystr) (list pystr)) (st : fs_state) (f : field) : fs_state :=
  let fname := f_name f in
  if bool_decide (fname ∉ names) || bool_decide (fname ∈ used st) then st
  else
    let group := field_to_prefix fname in
    if truthy group && bool_decide (head (grouped !!! group) = Some fname) then
      let title := py_capitalize (py_replace (default [] group) [prefix_separator] [32]) in
      {| fieldsets := fieldsets st ++ [(title, grouped !!! group)];
         general_fields := general_fields st;
         used := used st ∪ list_to_set (grouped !!! group) |}
    else if negb (truthy group) then
      {| fieldsets := fieldsets st;
         general_fields := general_fields st ++ [fname];
         used := used st ∪ {[fname]} |}
    else st.

(** [get_fieldsets(request, obj)]: each fieldset as its name and its
    ['fields'] list. *)
Definition get_fieldsets (get_fields meta_fields : list field) : list (pystr * list pystr) :=
  let names := field_names get_fields in
  let counts := prefix_counts names in
  let field_to_prefix := longest_valid counts in
  let grouped := grouped_of field_to_prefix names in
  let st := foldl (step4 names field_to_prefix grouped)
              {| fieldsets := []; general_fields := []; used := ∅ |} meta_fields in
  if bool_decide (general_fields st = []) then fieldsets st
  else (u "General", general_fields st) :: fieldsets st.

(** The fields the fieldsets show, in order. *)
Definition shown (fs : list (pystr * list pystr)) : list pystr := concat (map snd fs).

(** The fields placed by step 4 so far. *)
Definition out (st : fs_state) : list pystr := general_fields st ++ concat (map snd (fieldsets st)).

(** ** The groups *)

Lemma grouped_foldl (ftp : pystr -> option pystr) (m : gmap (option pystr) (list pystr)) l g :
  foldl (fun grouped name =>
    let key := ftp name in <[key := grouped !!! key ++ [name]]> grouped) m l !!! g =
  m !!! g ++ List.filter (fun n => bool_decide (ftp n = g)) l.
Proof.
  revert m. induction l as [|n l IH]; intros m; cbn [foldl List.filter].
  - by rewrite app_nil_r.
  - rewrite IH. destruct (decide (ftp n = g)) as [<-|Hne].
    + rewrite lookup_total_insert_eq, bool_decide_true by done. by rewrite <- app_assoc.
    + rewrite lookup_total_insert_ne, bool_decide_false by done. done.
Qed.

(** The [defaultdict] of step 3 holds, under each key, the names with
    that prefix in the order of [field_names]. *)
Lemma grouped_of_lookup ftp names g :
  grouped_of ftp names !!! g = List.filter (fun n => bool_decide (ftp n = g)) names.
Proof. unfold grouped_of. rewrite grouped_foldl. by rewrite lookup_total_empty. Qed.

Lemma elem_of_grouped ftp names g y :
  y ∈ grouped_of ftp names !!! g <-> y ∈ names /\ ftp y = g.
Proof.
  rewrite grouped_of_lookup, list_elem_of_In, List.filter_In, <- list_elem_of_In.
  by rewrite bool_decide_eq_true.
Qed.

Lemma NoDup_grouped ftp names g : NoDup names -> NoDup (grouped_of ftp names !!! g).
Proof. intros. rewrite grouped_of_lookup. apply NoDup_ListNoDup, List.NoDup_filter, NoDup_ListNoDup. done. Qed.

(** ** The invariant of step 4 *)

Section Step4.

Context (names : list pystr) (ftp : pystr -> option pystr).
Hypothesis names_nodup : NoDup names.

Local Abbreviation grouped := (grouped_of ftp names).

(** The fields placed are distinct, they are the set [used], they are
    [field_names], and a group is placed whole. *)
Definition fs_inv (st : fs_state) : Prop :=
  NoDup (out st) /\
  (forall x, x ∈ used st <-> x ∈ out st) /\
  (forall x, x ∈ out st -> x ∈ names) /\
  (forall x y, x ∈ out st -> truthy (ftp x) = true -> y ∈ names -> ftp y = ftp x -> y ∈ used st).

Lemma out_emit st t G :
  out {| fieldsets := fieldsets st ++ [(t, G)]; general_fields := general_fields st; used := used st ∪ list_to_set G |}
  = out st ++ G.
Proof. unfold out. cbn. rewrite map_app, concat_app. cbn. by rewrite app_nil_r, <- !app_assoc. Qed.

Lemma out_general st x :
  out {| fieldsets := fieldsets st; general_fields := general_fields st ++ [x]; used := used st ∪ {[x]} |}
  ≡ₚ x :: out st.
Proof. unfold out. cbn. rewrite <- app_assoc. cbn. by rewrite Permutation_middle. Qed.

Lemma fs_inv_init : fs_inv {| fieldsets := []; general_fields := []; used := ∅ |}.
Proof. unfold fs_inv, out. cbn. split_and!; [constructor|set_solver|set_solver|set_solver]. Qed.

Lemma step4_emit_inv st fname :
  fs_inv st -> fname ∈ names -> fname ∉ used st -> truthy (ftp fname) = true ->
  fs_inv {| fieldsets := fieldsets st ++ [(py_capitalize (py_replace (default [] (ftp fname)) [prefix_separator] [32]),
                                            grouped !!! ftp fname)];
            general_fields := general_fields st; used := used st ∪ list_to_set (grouped !!! ftp fname) |}.
Proof.
  intros (Hnd & Hused & Hnames & Hwhole) Hin Hnot Ht. unfold fs_inv. rewrite out_emit. cbn [used].
  split_and!.
  - apply NoDup_app. split_and!; [done| |by apply NoDup_grouped].
    intros y Hy Hg%elem_of_grouped. destruct Hg as [_ Hg]. apply Hnot.
    apply (Hwhole y fname Hy); [by rewrite Hg|done|done].
  - intros x. rewrite elem_of_union, elem_of_list_to_set, elem_of_app, Hused. done.
  - intros x [Hx|Hx%elem_of_grouped]%elem_of_app; [by apply Hnames|by destruct Hx].
  - intros x y [Hx|Hx%elem_of_grouped]%elem_of_app Htx Hy Hxy; apply elem_of_union.
    + left. by apply (Hwhole x y).
    + right. apply elem_of_list_to_set, elem_of_grouped. destruct Hx as [_ <-]. by rewrite Hxy.
Qed.

Lemma step4_general_inv st fname :
  fs_inv st -> fname ∈ names -> fname ∉ used st -> truthy (ftp fname) = false ->
  fs_inv {| fieldsets := fieldsets st; general_fields := general_fields st ++ [fname];
            used := used st ∪ {[fname]} |}.
Proof.
  intros (Hnd & Hused & Hnames & Hwhole) Hin Hnot Ht. unfold fs_inv.
  pose proof (out_general st fname) as Hp. cbn [used]. split_and!.
  - rewrite Hp. constructor; [|done]. by rewrite <- Hused.
  - intros x. rewrite Hp, elem_of_union, elem_of_singleton, elem_of_cons, Hused. tauto.
  - intros x Hx. rewrite Hp in Hx. apply elem_of_cons in Hx as [->|Hx]; [done|by apply Hnames].
  - intros x y Hx Htx Hy Hxy. rewrite Hp in Hx. apply elem_of_cons in Hx as [->|Hx]; [congruence|].
    apply elem_of_union. left. by apply (Hwhole x y).
Qed.

Lemma step4_inv st f : fs_inv st -> fs_inv (step4 names ftp grouped st f).
Proof.
  intros Hinv. unfold step4.
  destruct (bool_decide (f_name f ∉ names) || bool_decide (f_name f ∈ used st)) eqn:Hskip; [done|].
  apply orb_false_iff in Hskip as [Hin Hnot]. apply bool_decide_eq_false in Hin, Hnot.
  apply dec_stable in Hin.
  destruct (truthy (ftp (f_name f))) eqn:Ht; cbn [andb negb].
  - destruct (bool_decide _); [by apply step4_emit_inv|done].
  - by apply step4_general_inv.
Qed.

Lemma fold_step4_inv st fs : fs_inv st -> fs_inv (foldl (step4 names ftp grouped) st fs).
Proof. revert st. induction fs as [|f fs IH]; intros st Hst; cbn [foldl]; [done|]. by apply IH, step4_inv. Qed.

Lemma step4_used_mono st f x : x ∈ used st -> x ∈ used (step4 names ftp grouped st f).
Proof.
  intros Hx. unfold step4. destruct (_ || _); [done|].
  destruct (truthy _ && _); [cbn; set_solver|]. destruct (negb _); cbn; set_solver.
Qed.

Lemma fold_used_mono st fs x : x ∈ used st -> x ∈ used (foldl (step4 names ftp grouped) st fs).
Proof. revert st. induction fs as [|f fs IH]; intros st Hx; cbn [foldl]; [done|]. by apply IH, step4_used_mono. Qed.

(** Processing a field that has no group, or that heads its group,
    places it and its whole group. *)
Lemma step4_places st f :
  fs_inv st -> f_name f ∈ names ->
  (truthy (ftp (f_name f)) = false \/ head (grouped !!! ftp (f_name f)) = Some (f_name f)) ->
  forall y, y ∈ names -> (y = f_name f \/ truthy (ftp (f_name f)) = true /\ ftp y = ftp (f_name f)) ->
  y ∈ used (step4 names ftp grouped st f).
Proof.
  intros Hinv Hin Hcase y Hy Hyx. pose proof Hinv as (_ & Hused & _ & Hwhole). unfold step4.
  destruct (bool_decide (f_name f ∉ names) || bool_decide (f_name f ∈ used st)) eqn:Hskip.
  - apply orb_true_iff in Hskip as [Hn|Hu%bool_decide_eq_true]; [by apply bool_decide_eq_true in Hn|].
    destruct Hyx as [->|[Ht Hg]]; [done|]. apply (Hwhole (f_name f) y); [by apply Hused|done|done|done].
  - destruct (truthy (ftp (f_name f))) eqn:Ht; cbn [andb negb].
    + destruct Hcase as [Hc|Hc]; [discriminate|]. rewrite bool_decide_true by done. cbn [used].
      apply elem_of_union. right. apply elem_of_list_to_set, elem_of_grouped.
      split; [done|]. destruct Hyx as [->|[_ ->]]; done.
    + cbn [used]. destruct Hyx as [->|[? _]]; [apply elem_of_union; right; by apply elem_of_singleton|discriminate].
Qed.

Lemma fold_places st fs f :
  fs_inv st -> f ∈ fs -> f_name f ∈ names ->
  (truthy (ftp (f_name f)) = false \/ head (grouped !!! ftp (f_name f)) = Some (f_name f)) ->
  forall y, y ∈ names -> (y = f_name f \/ truthy (ftp (f_name f)) = true /\ ftp y = ftp (f_name f)) ->
  y ∈ used (foldl (step4 names ftp grouped) st fs).
Proof.
  intros Hinv Hf Hin Hcase y Hy Hyx. apply list_elem_of_split in Hf as (fs1 & fs2 & ->).
  rewrite foldl_app. cbn [foldl]. apply fold_used_mono, step4_places; try done.
  by apply fold_step4_inv.
Qed.

End Step4.

Lemma shown_get_fieldsets get_fields meta_fields :
  let names := field_names get_fields in
  let ftp := longest_valid (prefix_counts names) in
  shown (get_fieldsets get_fields meta_fields) =
  out (foldl (step4 names ftp (grouped_of ftp names))
         {| fieldsets := []; general_fields := []; used := ∅ |} meta_fields).
Proof.
  unfold get_fieldsets, shown, out. cbn zeta. case_bool_decide as Hg; [by rewrite Hg|done].
Qed.

(** A name with a group has a head: the first name of its group. *)
Lemma group_head ftp names x :
  x ∈ names -> exists h, head (grouped_of ftp names !!! ftp x) = Some h /\ h ∈ names /\ ftp h = ftp x.
Proof.
  intros Hx. destruct (grouped_of ftp names !!! ftp x) as [|h l] eqn:E.
  - assert (Hin : x ∈ grouped_of ftp names !!! ftp x) by (by apply elem_of_grouped).
    rewrite E in Hin. by apply not_elem_of_nil in Hin.
  - exists h. split; [done|]. apply (elem_of_grouped ftp names (ftp x)). rewrite E. by left.
Qed.

(** ** Theorems *)

(** C6: When every editable field is one of [_meta.fields] (the model has
    no editable many-to-many field), the fieldsets show every editable
    field exactly once: their fields are a permutation of
    [field_names]. *)
Theorem get_fieldsets_partition get_fields meta_fields :
  NoDup (field_names get_fields) ->
  field_names get_fields ⊆ map f_name meta_fields ->
  shown (get_fieldsets get_fields meta_fields) ≡ₚ field_names get_fields.
Proof.
  intros Hnd Hmeta. rewrite shown_get_fieldsets.
  set (names := field_names get_fields) in *. set (ftp := longest_valid (prefix_counts names)).
  pose proof (fold_step4_inv names ftp Hnd _ meta_fields (fs_inv_init names ftp Hnd)) as (Hnd' & Hused & Hsub & _).
  apply NoDup_Permutation; [done|done|]. intros x. split; [by apply Hsub|]. intros Hx. apply Hused.
  destruct (truthy (ftp x)) eqn:Ht.
  - destruct (group_head ftp names x Hx) as (h & Hh & Hhn & Hhx).
    pose proof (Hmeta h Hhn) as (f & -> & Hf)%list_elem_of_fmap.
    apply (fold_places names ftp Hnd _ _ f); [by apply fs_inv_init|done|done|right; by rewrite Hhx|done|].
    right. by rewrite Hhx.
  - pose proof (Hmeta x Hx) as (f & -> & Hf)%list_elem_of_fmap.
    apply (fold_places names ftp Hnd _ _ f); [by apply fs_inv_init|done|done|by left|done|by left].
Qed.

(** A group can be smaller than [min_group_size]: with the fields
    [a_x], [a_y], [a_z_1], [a_z_2], [a_z_3], five names extend [a] and
    three extend [a_z], so [a_z_*] form the group ["A z"] and [a_x],
    [a_y] alone form the group ["A"]. *)
Example small_group :
  get_fieldsets (map (fun n => Field (u n) true false) ["name"; "a_x"; "a_y"; "a_z_1"; "a_z_2"; "a_z_3"])
                (map (fun n => Field (u n) true false) ["name"; "a_x"; "a_y"; "a_z_1"; "a_z_2"; "a_z_3"]) =
  [(u "General", [u "name"]); (u "A", [u "a_x"; u "a_y"]); (u "A z", [u "a_z_1"; u "a_z_2"; u "a_z_3"])].
Proof. vm_compute. reflexivity. Qed.

(** An editable many-to-many field is shown only inside a group: it is
    not in [_meta.fields], so it never reaches ["General"].  With the
    many-to-many fields [tags_main] and [categories] listed after the
    concrete fields (as [get_fields()] lists them), [tags_main] is shown
    in the group ["Tags"] and [categories] in no fieldset. *)
Example many_to_many_without_group_dropped :
  get_fieldsets (map (fun n => Field (u n) true false)
                   ["name"; "tags_extra"; "tags_note"; "tags_main"; "categories"])
                (map (fun n => Field (u n) true false) ["name"; "tags_extra"; "tags_note"]) =
  [(u "General", [u "name"]); (u "Tags", [u "tags_extra"; u "tags_note"; u "tags_main"])].
Proof. vm_compute. reflexivity. Qed.

(** ** Instances *)

Lemma get_fieldsets_partition_witness :
  let fs := map (fun n => Field (u n) true false) ["name"; "addr_street"; "addr_city"; "addr_zip"; "a_x"] in
  shown (get_fieldsets fs fs) ≡ₚ field_names fs.
Proof.
  intros fs. apply get_fieldsets_partition.
  - apply (bool_decide_unpack _). vm_compute. exact I.
  - apply (bool_decide_unpack _). vm_compute. exact I.
Defined.
