(* ===== verification/AdminBase.v ===== *)
(** * [BaseModelAdmin] and the [admin_action] wrapper ([src/admin/base.py])

    The field lists a [BaseModelAdmin] hands to Django's change view:
    [get_readonly_fields] (the declared ones, the non-editable fields,
    and ['id']), [get_exclude], [get_fields] (for the change and the add
    form), [get_list_display] (which inserts ['id'] into the class's own
    list), [get_list_display_links], and [get_actions] (sorted by
    description).  [admin_action] wraps an action so that one
    [LogEntry] is written per object after the action returns;
    [AutocompleteSelectWithPlaceholder.build_attrs] sets the placeholder.

    The model's fields are the [field] records of [Fieldsets]; the
    [list_display] attribute is a value that may be a list object in a
    heap, since [list.insert] changes the class attribute in place. *)

From S2P Require Import Prelude PyStr Fieldsets.
From stdpp Require Import gmap.
From Stdlib Require String.
From Stdlib Require Import Sorted.
Import String.StringSyntax.

Local Open Scope string_scope.
Local Open Scope N_scope.

Definition id_name : pystr := u "id".

(** ** [AutocompleteSelectWithPlaceholder.build_attrs] *)

(** [attrs] is what [super().build_attrs] returned. *)
Definition build_attrs (base_attrs attrs : list (pystr * pystr)) : list (pystr * pystr) :=
  match kv_lookup (u "data-placeholder") base_attrs with
  | Some p => kv_set (u "data-placeholder") p attrs
  | None => kv_set (u "data-placeholder") (u "Select") attrs
  end.

(** ** Field lists *)

(** [get_readonly_fields(request, obj)]: [super()] returns the class's
    [readonly_fields]. *)
Definition get_readonly_fields (readonly_fields : list pystr) (meta_fields : list field) : list pystr :=
  let rf := foldl (fun rf f =>
              if negb (f_editable f) && bool_decide (f_name f ∉ rf) then rf ++ [f_name f] else rf)
              readonly_fields meta_fields in
  rf ++ [id_name].

(** [get_exclude(request, obj)]: [list(super().get_exclude(...) or [])],
    [super()] returning the class's [exclude] ([None] by default). *)
Definition get_exclude (exclude : option (list pystr)) : list pystr := default [] exclude.

(** The loop [for field in self.get_readonly_fields(...)] of the change
    form. *)
Definition add_missing (all_fields extra : list pystr) : list pystr :=
  foldl (fun af f => if bool_decide (f ∈ af) then af else af ++ [f]) all_fields extra.

(** [get_fields(request, obj)]; [obj] tells whether a record is edited,
    [fields] is the class's [fields] ([None] by default), [model_fields]
    is [_meta.get_fields()] and [meta_fields] is [_meta.fields]. *)
Definition get_fields (fields exclude : option (list pystr)) (readonly_fields : list pystr)
    (model_fields : list field) (meta_fields : list field) (obj : bool) : list pystr :=
  match fields with
  | Some ((_ :: _) as fs) => fs
  | _ =>
    let excluded_fields := get_exclude exclude in
    let all_fields :=
      if obj then
        let af := map f_name (List.filter (fun f => negb (f_auto_created f)) model_fields) in
        let af := if bool_decide (id_name ∈ af) then af else id_name :: af in
        add_missing af (get_readonly_fields readonly_fields meta_fields)
      else map f_name (List.filter (fun f => negb (f_auto_created f) && f_editable f) model_fields) in
    List.filter (fun f => bool_decide (f ∉ excluded_fields)) all_fields
  end.

(** The value of [list_display]: a tuple (Django's default is
    [('__str__',)]) or a list object of the heap. *)
Inductive list_display_value : Type :=
| LDTuple (l : list pystr)
| LDList (loc : N).

(** [get_list_display(request)]: the heap after the call and the list
    returned.  A tuple is copied into a new list; a list is the class's
    own object, into which ['id'] is inserted. *)
Definition get_list_display (heap : gmap N (list pystr)) (list_display : list_display_value)
    (field_names : list pystr) : gmap N (list pystr) * list pystr :=
  let needs_id ld := bool_decide (id_name ∉ ld) && bool_decide (id_name ∈ field_names) in
  match list_display with
  | LDTuple l => (heap, if needs_id l then id_name :: l else l)
  | LDList loc =>
    let l := heap !!! loc in
    if needs_id l then (<[loc := id_name :: l]> heap, id_name :: l) else (heap, l)
  end.

(** [get_list_display_links(request, list_display)]. *)
Definition get_list_display_links (list_display : list pystr) : list pystr :=
  match list_display with
  | a :: b :: _ => [a; b]
  | [a] => [a]
  | [] => []
  end.

(** ** [get_actions] *)






(** ** The [admin_action] wrapper *)

(** [LogEntry.objects.log_action(...)] as it records one object. *)
Record log_entry : Type := LogEntry {
  le_object_repr : pystr;
  le_change_message : pystr
}.

Section Wrapper.
Context {Obj R : Type} (obj_str : Obj -> pystr).

(** [wrapper(modeladmin, request, queryset)]: the action [func] returns a
    response or raises ([None]); after it returns, one entry is logged
    per object of the queryset. *)
Definition admin_action_wrapper (func : list Obj -> option R) (func_name : pystr)
    (queryset : list Obj) (log : list log_entry) : option (R * list log_entry) :=
  response ← func queryset;
  Some (response, log ++ map (fun obj =>
    LogEntry (obj_str obj) (u "Custom admin action '" ++ func_name ++ u "' performed.")) queryset).

End Wrapper.

(** ** Lemmas *)


Section Sorting.
Context {A : Type} (key : A -> pystr).






End Sorting.


Lemma add_missing_spec af extra :
  NoDup af ->
  NoDup (add_missing af extra) /\ (forall x, x ∈ add_missing af extra <-> x ∈ af \/ x ∈ extra).
Proof.
  unfold add_missing. revert af. induction extra as [|f extra IH]; intros af Hnd; cbn [foldl].
  - split; [done|]. intros x. rewrite elem_of_nil. tauto.
  - case_bool_decide as Hf.
    + destruct (IH af Hnd) as [IH1 IH2]. split; [done|]. intros x. rewrite IH2, elem_of_cons.
      split; [tauto|]. intros [?|[->|?]]; tauto.
    + destruct (IH (af ++ [f])) as [IH1 IH2].
      { apply NoDup_app. split_and!; [done| |by apply NoDup_singleton]. by intros ? ? ->%list_elem_of_singleton. }
      split; [done|]. intros x. rewrite IH2, elem_of_app, list_elem_of_singleton, elem_of_cons. tauto.
Qed.

Lemma get_list_display_list heap loc names :
  exists l, get_list_display heap (LDList loc) names = (<[loc := l]> heap, l) \/
            (get_list_display heap (LDList loc) names = (heap, l) /\ heap !!! loc = l).
Proof.
  unfold get_list_display. destruct (_ && _); [by eexists; left|]. eexists. right. done.
Qed.

(** ** Theorems *)


(** ['id'] is appended even when it is listed already: a class with
    [readonly_fields = ['id']] gets ['id'] twice. *)
Example readonly_id_duplicated :
  get_readonly_fields [id_name] [Field (u "name") true false] = [id_name; id_name].
Proof. reflexivity. Qed.

(** The change form ([obj] given, no [fields] declared) lists each
    field once, and shows ['id'] and every read-only field that is not
    excluded. *)
Theorem get_fields_change_form exclude readonly_fields model_fields meta_fields :
  NoDup (map f_name (List.filter (fun f => negb (f_auto_created f)) model_fields)) ->
  let shown := get_fields None exclude readonly_fields model_fields meta_fields true in
  NoDup shown /\
  forall x, x ∈ get_readonly_fields readonly_fields meta_fields -> x ∉ get_exclude exclude -> x ∈ shown.
Proof.
  intros Hnd shown. unfold shown, get_fields. cbv zeta.
  set (af := map f_name _) in *.
  set (af' := if bool_decide (id_name ∈ af) then af else id_name :: af).
  assert (Hnd' : NoDup af') by (unfold af'; case_bool_decide; [done|by constructor]).
  destruct (add_missing_spec af' (get_readonly_fields readonly_fields meta_fields) Hnd') as [Ha1 Ha2].
  split.
  - apply NoDup_ListNoDup, List.NoDup_filter, NoDup_ListNoDup, Ha1.
  - intros x Hx Hex. apply list_elem_of_In, List.filter_In. split.
    + apply list_elem_of_In, Ha2. by right.
    + by apply bool_decide_eq_true.
Qed.



(** The wrapper logs nothing when the action raises; when it returns,
    the wrapper returns its response and logs one entry per object of the
    queryset, in order, with [str(obj)]. *)
Theorem admin_action_wrapper_log {Obj R} (obj_str : Obj -> pystr) (func : list Obj -> option R)
    func_name queryset log :
  (func queryset = None -> admin_action_wrapper obj_str func func_name queryset log = None) /\
  (forall r, func queryset = Some r ->
    exists new, admin_action_wrapper obj_str func func_name queryset log = Some (r, log ++ new) /\
      map le_object_repr new = map obj_str queryset).
Proof.
  unfold admin_action_wrapper. split; intros; [by rewrite H|]. rewrite H.
  eexists. split; [reflexivity|]. by rewrite map_map.
Qed.

(** ** Instances *)


Lemma get_fields_change_form_witness :
  let fs := [Field (u "name") true false; Field (u "created_at") false false] in
  let shown := get_fields None None [] fs fs true in
  NoDup shown /\ forall x, x ∈ get_readonly_fields [] fs -> x ∉ get_exclude None -> x ∈ shown.
Proof.
  intros fs. apply get_fields_change_form. apply (bool_decide_unpack _). vm_compute. exact I.
Defined.
