(* ===== verification/ModelBase.v ===== *)
(** * [BaseModel], [BaseQuerySet] and [admin_action] ([src/base.py])

    [admin_action(description)] marks a model method as an admin action,
    the flags [install] reads ([Install.model_attr]).  [BaseQuerySet.delete]
    calls [delete()] on every instance and then deletes the queryset in
    bulk.  [BaseModel.to_dict] collects field values into a dict, and
    [admin_link] renders the link to the change page that
    [get_admin_url] reverses.  [BaseManager] makes [BaseQuerySet]s.
    Module [BaseModel] models [created_at] ([auto_now_add]) and
    [updated_at] ([auto_now]) as Django's [pre_save] fills them on each
    [save()], a step relation with a clock, and proves their invariant
    by induction on the runs.

    The table is the list of its rows in the order the queryset yields
    them; a queryset is the filter of its [WHERE] clause, evaluated once
    by the loop and once more by the bulk [DELETE]. *)

From S2P Require Import Prelude PyStr Install.
From stdpp Require Import relations.
From Stdlib Require String.
Import String.StringSyntax.

Local Open Scope string_scope.
Local Open Scope N_scope.

(** ** [admin_action] *)

(** The attribute flags [decorator(func)] sets on [func]:
    [description or func.__name__.replace('_', ' ').capitalize()]. *)
Definition admin_action (description : option pystr) (func_name : pystr) : model_attr :=
  ModelAttr true (Some (match description with
                        | Some ((_ :: _) as d) => d
                        | _ => py_capitalize (py_replace func_name (u "_") (u " "))
                        end)).

(** ** [BaseQuerySet.delete] *)

Section QuerySet.
Context {Row : Type} (matches : Row -> bool).

(** [for instance in self: instance.delete()], then [super().delete()]:
    [instance_delete] is the instance's [delete()] on the table (every
    model instance has one, so the [else] branch is never taken). *)
Definition queryset_delete (instance_delete : Row -> list Row -> list Row) (table : list Row) : list Row :=
  let instances := List.filter matches table in
  let table := foldl (fun t r => instance_delete r t) table instances in
  List.filter (fun r => negb (matches r)) table.

(** The class of a queryset: Django's [QuerySet], whose [delete()] is
    the bulk [DELETE] alone, or [BaseQuerySet]. *)
Inductive queryset_class : Type := QuerySetClass | BaseQuerySetClass.

(** [queryset.delete()] dispatched on the queryset's class. *)
Definition queryset_delete_of (cls : queryset_class) (instance_delete : Row -> list Row -> list Row)
    (table : list Row) : list Row :=
  match cls with
  | BaseQuerySetClass => queryset_delete instance_delete table
  | QuerySetClass => List.filter (fun r => negb (matches r)) table
  end.

End QuerySet.

(** [BaseManager.get_queryset()]: [Model.objects] of a [BaseModel] makes
    [BaseQuerySet]s. *)
Definition get_queryset : queryset_class := BaseQuerySetClass.

(** ** [BaseModel.to_dict] *)

(** An entry of [chain(opts.concrete_fields, include or [])]: a field
    object or a string. *)
Inductive dict_item : Type :=
| ConcreteField (name : pystr)
| IncludeName (name : pystr).

Section ToDict.
Context {V : Type} (value_from_object : pystr -> V) (getattr : pystr -> option V).

(** The body of the loop of [to_dict]; [None] is an [AttributeError]. *)
Definition to_dict_step (fields exclude : option (list pystr)) (data : option (list (pystr * V)))
    (item : dict_item) : option (list (pystr * V)) :=
  data ← data;
  match item with
  | IncludeName f => v ← getattr f; Some (kv_set f v data)
  | ConcreteField name =>
    if (match fields with Some (_ :: _ as fs) => bool_decide (name ∉ fs) | _ => false end) then Some data
    else if (match exclude with Some (_ :: _ as ex) => bool_decide (name ∈ ex) | _ => false end) then Some data
    else Some (kv_set name (value_from_object name) data)
  end.

(** [to_dict(fields, exclude, include)]; [dict_exclude_fields] is the
    instance's attribute of that name, [None] when it has none, and
    [getattr] is [None] when the attribute is missing
    ([AttributeError]). *)
Definition to_dict (concrete_fields : list pystr) (fields exclude include : option (list pystr))
    (dict_exclude_fields : option (list pystr)) : option (list (pystr * V)) :=
  let exclude := match exclude with None => dict_exclude_fields | Some e => Some e end in
  let items := map ConcreteField concrete_fields ++ map IncludeName (default [] include) in
  foldl (to_dict_step fields exclude) (Some []) items.

End ToDict.

(** ** [admin_link] *)

(** [format_html('<a href="{}">{}</a>', url, escape(text))]: [format_html]
    escapes the URL, and the text once ([escape] returns a safe
    string). *)
Definition admin_link (url text : pystr) : pystr :=
  u "<a href=" ++ [34] ++ html_escape url ++ [34] ++ u ">" ++ html_escape text ++ u "</a>".

(** ** [get_admin_url] and [admin_link] of an instance *)

(** What these methods read of [self]: [_meta.app_label],
    [_meta.model_name], [self.id] and [str(self)]. *)
Record base_model : Type := BaseModelRef {
  bm_app_label : pystr;
  bm_model_name : pystr;
  bm_id : pystr;
  bm_str : pystr
}.

Section AdminUrl.
Context (reverse : pystr -> list pystr -> pystr).   (* [django.urls.reverse(name, args=...)] *)

(** [get_admin_url()]. *)
Definition get_admin_url (self : base_model) : pystr :=
  reverse (u "admin:" ++ bm_app_label self ++ u "_" ++ bm_model_name self ++ u "_change") [bm_id self].

(** [admin_link(link_text)]: the instance's [str] when [link_text] is
    [None] (an empty [link_text] is kept). *)
Definition model_admin_link (self : base_model) (link_text : option pystr) : pystr :=
  admin_link (get_admin_url self) (default (bm_str self) link_text).

End AdminUrl.

(** ** [created_at] and [updated_at] *)

Module BaseModel.

(** [self._state.adding] and the two [DateTimeField]s, in microseconds;
    [None] before the first save. *)
Record stamps : Type := Stamps {
  adding : bool;
  created_at : option N;
  updated_at : option N
}.

(** A new instance, before its first [save()]. *)
Definition new_instance : stamps := Stamps true None None.

(** [save()]: [pre_save] of the fields in their declared order, each
    reading [timezone.now()]: [created_at] ([auto_now_add], only when
    adding) at [t1], then [updated_at] ([auto_now]) at [t2];
    [save_base] then clears [_state.adding]. *)
Definition save (t1 t2 : N) (s : stamps) : stamps :=
  {| adding := false;
     created_at := if adding s then Some t1 else created_at s;
     updated_at := Some t2 |}.

(** The clock and the instance. *)
Record clocked : Type := Clocked { now : N; inst : stamps }.

(** Time passes, or the instance is saved while the clock moves from
    the first reading to the second. *)
Inductive step : clocked -> clocked -> Prop :=
| StepTick w d : step w (Clocked (now w + d) (inst w))
| StepSave w d : step w (Clocked (now w + d) (save (now w) (now w + d) (inst w))).

(** Unsaved with both fields empty, or saved with
    [created_at <= updated_at <= now]. *)
Definition stamps_ok (w : clocked) : Prop :=
  match inst w with
  | Stamps true None None => True
  | Stamps false (Some c) (Some t) => c <= t <= now w
  | _ => False
  end.

End BaseModel.

(** ** Lemmas *)

Section ToDictLemmas.
Context {V : Type} (value_from_object : pystr -> V) (getattr : pystr -> option V).
Context (fields exclude : option (list pystr)).

Local Abbreviation step := (to_dict_step value_from_object getattr fields exclude).

Lemma to_dict_foldl_none items : foldl step None items = None.
Proof. by induction items. Qed.

Lemma to_dict_foldl_includes data names :
  foldl step (Some data) (map IncludeName names) = None <-> Exists (fun f => getattr f = None) names.
Proof.
  revert data. induction names as [|f names IH]; intros data; cbn [map foldl].
  - split; [done|]. by intros ?%Exists_nil.
  - rewrite Exists_cons. unfold to_dict_step at 2. cbn [mbind option_bind]. destruct (getattr f) eqn:E.
    + cbn. rewrite IH. split; [tauto|]. intros [?|?]; [congruence|done].
    + cbn. rewrite to_dict_foldl_none. tauto.
Qed.

Lemma to_dict_foldl_concrete_some data names :
  exists data', foldl step (Some data) (map ConcreteField names) = Some data'.
Proof.
  revert data. induction names as [|n names IH]; intros data; cbn [map foldl]; [by eexists|].
  unfold to_dict_step at 2. cbn [mbind option_bind]. repeat case_match; apply IH.
Qed.

End ToDictLemmas.

Section StampsLemmas.
Import BaseModel.

Lemma step_stamps_ok w w' : step w w' -> stamps_ok w -> stamps_ok w'.
Proof.
  unfold stamps_ok. intros [x d|x d]; cbn [inst now save];
    destruct (inst x) as [[] [c|] [t|]]; cbn; intros; (done || lia).
Qed.

Lemma rtc_stamps_ok w w' : rtc step w w' -> stamps_ok w -> stamps_ok w'.
Proof. induction 1; eauto using step_stamps_ok. Qed.

Lemma step_created_at w w' :
  step w w' -> adding (inst w) = false ->
  adding (inst w') = false /\ created_at (inst w') = created_at (inst w).
Proof. intros [] Ha; cbn [inst save adding created_at]; [done|]. by rewrite Ha. Qed.

Lemma rtc_created_at w w' :
  rtc step w w' -> adding (inst w) = false -> created_at (inst w') = created_at (inst w).
Proof.
  induction 1 as [|w1 w2 w3 Hs _ IH]; [done|]. intros Ha.
  destruct (step_created_at _ _ Hs Ha) as [Ha' <-]. by apply IH.
Qed.

End StampsLemmas.

(** ** Theorems *)

(** The description [admin_action] stores is the one given, or else
    the one [install] would derive from the method's name: the decorator
    and [install] agree on the default. *)
Theorem admin_action_description_default description name :
  action_description name (admin_action description name) =
  match description with
  | Some ((_ :: _) as d) => d
  | _ => action_description name (ModelAttr true None)
  end.
Proof. by destruct description as [[|c d]|]. Qed.

(** After [BaseQuerySet.delete] no row of the queryset is left,
    whatever the instances' own [delete()] did: a model whose [delete()]
    only marks a row as deleted (a soft delete) loses the row all the
    same. *)
Theorem queryset_delete_removes_all {Row} (matches : Row -> bool) instance_delete table :
  Forall (fun r => matches r = false) (queryset_delete matches instance_delete table).
Proof.
  unfold queryset_delete. apply Forall_forall. intros r Hr.
  apply list_elem_of_In, List.filter_In in Hr as [_ Hr]. by apply negb_true_iff.
Qed.

(** [to_dict] raises exactly when a name of [include] is not an
    attribute of the instance; [fields] and [exclude] do not apply to
    the names of [include]. *)
Theorem to_dict_attribute_error {V} (value_from_object : pystr -> V) getattr concrete_fields
    fields exclude include dict_exclude_fields :
  to_dict value_from_object getattr concrete_fields fields exclude include dict_exclude_fields = None <->
  Exists (fun f => getattr f = None) (default [] include).
Proof.
  unfold to_dict. rewrite foldl_app.
  destruct (to_dict_foldl_concrete_some value_from_object getattr fields
    (match exclude with None => dict_exclude_fields | Some e => Some e end) [] concrete_fields) as [d ->].
  apply to_dict_foldl_includes.
Qed.

(** The text of [admin_link] is escaped: between the opening tag and
    ["</a>"] stands [html.escape] of the text, which holds no [<], [>]
    or quote. *)
Theorem admin_link_text_escaped url text :
  exists pre, admin_link url text = pre ++ html_escape text ++ u "</a>" /\
    Forall (fun c => c <> 60 /\ c <> 62 /\ c <> 34 /\ c <> 39) (html_escape text).
Proof.
  eexists. split; [|apply html_escape_safe]. unfold admin_link. by rewrite !app_assoc.
Qed.

(** C37: Along any run of saves and clock ticks from a new instance,
    [created_at] and [updated_at] are both empty before the first save
    and afterwards [created_at <= updated_at <= now]; once the instance
    is saved, [created_at] never changes. *)
Theorem timestamps_invariant t w w' :
  rtc BaseModel.step (BaseModel.Clocked t BaseModel.new_instance) w -> rtc BaseModel.step w w' ->
  BaseModel.stamps_ok w' /\
  (BaseModel.adding (BaseModel.inst w) = false ->
   BaseModel.created_at (BaseModel.inst w') = BaseModel.created_at (BaseModel.inst w)).
Proof.
  intros H1 H2. split; [|by apply rtc_created_at].
  apply (rtc_stamps_ok (BaseModel.Clocked t BaseModel.new_instance)); [etrans; eassumption|done].
Qed.

(** A soft delete does not survive [delete()] on a queryset of
    [Model.objects]: rows
    [(pk, deleted)] whose [delete()] sets the flag are removed by the
    bulk delete that follows. *)
Example soft_delete_overridden :
  queryset_delete_of (fun _ : N * bool => true) get_queryset
    (fun r t => map (fun x => if x.1 =? r.1 then (x.1, true) else x) t)
    [(1, false); (2, false)] = [].
Proof. reflexivity. Qed.

Lemma timestamps_invariant_witness :
  let w := BaseModel.Clocked 7 (BaseModel.save 5 7 BaseModel.new_instance) in
  let w' := BaseModel.Clocked 20 (BaseModel.save 12 20 (BaseModel.inst w)) in
  BaseModel.stamps_ok w' /\
  (BaseModel.adding (BaseModel.inst w) = false ->
   BaseModel.created_at (BaseModel.inst w') = BaseModel.created_at (BaseModel.inst w)).
Proof.
  apply (timestamps_invariant 5).
  - apply rtc_once. apply (BaseModel.StepSave (BaseModel.Clocked 5 BaseModel.new_instance) 2).
  - eapply rtc_l; [apply (BaseModel.StepTick _ 5)|].
    apply rtc_once. apply (BaseModel.StepSave (BaseModel.Clocked 12 _) 8).
Defined.
