(* ===== verification/Middleware.v ===== *)
(** * The middleware classes ([src/middleware.py])

    - [RequestIDMiddleware] keeps the current request, its id, its start
      time and the flag [first_log_message_sent] in a [threading.local]:
      a map from threads to their attributes ([gmap thread]), each
      attribute unset until the thread first sets it.
    - [AdminActionLoggerMiddleware] records the last admin action of a
      model in the session, the model found in the path by [re.search].
    - [AdjustSequenceMiddleware.process_exception] resets a PostgreSQL
      sequence that fell behind its table's ids, the table named by
      [re.search] in the message of the [IntegrityError].
    - [AdminSessionMiddleware] writes [settings.SESSION_COOKIE_NAME], a
      global shared by all threads, on every request.
    - [PatchMorselMiddleware] replaces [http.cookies.Morsel];
      [DevProxyMiddleware], [QueryLoggingMiddleware] and
      [ArtificialDelayMiddleware] decide what to proxy, log or delay.

    The database, [apps.get_model] and [urlencode] are parameters. *)

From S2P Require Import Prelude PyStr Regex.
From stdpp Require Import gmap.
From Stdlib Require Import ZArith.
From Stdlib Require String.
Import String.StringSyntax.

Local Open Scope string_scope.
Local Open Scope N_scope.

(** ** Requests *)

(** The parts of an [HttpRequest] the middleware read and write. *)
Record request : Type := Request {
  method : pystr;
  path : pystr;
  meta_request_id : option pystr;      (* [request.META.get('HTTP_X_REQUEST_ID')] *)
  meta_start_time : option Z;          (* [request.META.get('HTTP_X_START_TIME')] *)
  post : list (pystr * pystr);         (* [request.POST] *)
  csp_nonce : option (option pystr)    (* [request._csp_nonce], unset at first *)
}.

(** ** [RequestIDMiddleware] *)

Definition thread : Type := N.

(** The attributes of [_thread_locals] in one thread; [None] is an
    attribute never set in that thread. *)
Record thread_locals : Type := ThreadLocals {
  tl_request : option request;
  tl_request_id : option (option pystr);
  tl_start_time : option (option Z);
  tl_first_log_message_sent : option bool
}.

Definition tl_unset : thread_locals := ThreadLocals None None None None.

Abbreviation locals := (gmap thread thread_locals).

Definition tl_of (tls : locals) (t : thread) : thread_locals := default tl_unset (tls !! t).

(** [__call__(request)] up to [self.get_response(request)]: the thread's
    attributes and the request with its [_csp_nonce]. *)
Definition request_id_call (tls : locals) (t : thread) (r : request) : locals * request :=
  let request_id := meta_request_id r in
  let start_time := meta_start_time r in
  (<[t := {| tl_request := Some r; tl_request_id := Some request_id;
             tl_start_time := Some start_time; tl_first_log_message_sent := Some false |}]> tls,
   {| method := method r; path := path r; meta_request_id := meta_request_id r;
      meta_start_time := meta_start_time r; post := post r; csp_nonce := Some request_id |}).

(** The static methods, each reading or writing the calling thread's
    attributes with the defaults of their [getattr]. *)
Definition get_request (tls : locals) (t : thread) : option request := tl_request (tl_of tls t).

Definition is_first_log_message (tls : locals) (t : thread) : bool :=
  default false (tl_first_log_message_sent (tl_of tls t)).

Definition set_first_log_message_sent (tls : locals) (t : thread) : locals :=
  let l := tl_of tls t in
  <[t := {| tl_request := tl_request l; tl_request_id := tl_request_id l;
            tl_start_time := tl_start_time l; tl_first_log_message_sent := Some true |}]> tls.

Definition reset_first_log_message (tls : locals) (t : thread) : locals :=
  let l := tl_of tls t in
  <[t := {| tl_request := tl_request l; tl_request_id := tl_request_id l;
            tl_start_time := tl_start_time l; tl_first_log_message_sent := Some false |}]> tls.

Definition get_request_id (tls : locals) (t : thread) : option pystr :=
  default None (tl_request_id (tl_of tls t)).

Definition get_request_start_time (tls : locals) (t : thread) : option Z :=
  default None (tl_start_time (tl_of tls t)).

Definition set_request_start_time (tls : locals) (t : thread) (start_time : option Z) : locals :=
  let l := tl_of tls t in
  <[t := {| tl_request := tl_request l; tl_request_id := tl_request_id l;
            tl_start_time := Some start_time;
            tl_first_log_message_sent := tl_first_log_message_sent l |}]> tls.

(** ** [AdminActionLoggerMiddleware] *)

Definition admin_path_pattern : pattern :=
  Eval vm_compute in pat false "^/admin/(?P<app_label>\w+)/(?P<model_name>\w+)/".

(** The session's ['last_admin_action'] (absent, or a dict from
    ["app_label.model_name"] to the action's path and data) and its
    [modified] flag. *)
Record session : Type := Session {
  last_admin_action : option (list (pystr * (pystr * pystr)));
  modified : bool
}.

Section AdminActionLogger.
Context (get_model : pystr -> pystr -> bool).   (* [apps.get_model] does not raise [LookupError] *)
Context {E : Type} (urlencode : list (pystr * pystr) -> result E pystr).   (* [request.POST.urlencode()] *)

Definition get_model_from_path (p : pystr) : option pystr :=
  match re_search admin_path_pattern p with
  | Some mo =>
    match group_named admin_path_pattern p mo (u "app_label"),
          group_named admin_path_pattern p mo (u "model_name") with
    | Some app_label, Some model_name =>
      if get_model app_label model_name then Some (app_label ++ u "." ++ model_name) else None
    | _, _ => None
    end
  | None => None
  end.

(** [__call__(request)] up to [self.get_response(request)]: the session
    after it. *)
Definition admin_action_logger_call (r : request) (s : session) : result E session :=
  if bool_decide (method r = u "POST") && startswith (path r) (u "/admin/")
     && bool_decide (is_Some (kv_lookup (u "action") (post r))) then
    match get_model_from_path (path r) with
    | Some model =>
      data <- urlencode (post r) ;;
      let action_data := (path r, data) in
      let d := default [] (last_admin_action s) in
      Ok {| last_admin_action := Some (kv_set model action_data d); modified := true |}
    | None => Ok s
    end
  else Ok s.

End AdminActionLogger.

(** ** [AdjustSequenceMiddleware] *)

(** [r'duplicate key value violates unique constraint "(.*?)_pkey"']. *)
Definition pkey_pattern : pattern :=
  Eval vm_compute in
  default (Pattern REmpty [] false)
    (re_compile false (u "duplicate key value violates unique constraint " ++ [34] ++ u "(.*?)_pkey" ++ [34])).

(** The database as [process_exception] sees it: for each sequence the
    value its next [nextval] returns, and for each table [MAX(id)]. *)
Record db : Type := Db {
  sequences : gmap pystr Z;
  max_ids : gmap pystr Z
}.

Inductive db_exception : Type :=
| IntegrityError (message : pystr)
| OtherException.

(** What [process_exception] returns: the response of the retried
    request, or [None] (Django goes on with the exception). *)
Inductive pe_outcome : Type := Retried | NoResponse.

(** [SELECT nextval('seq')]: the value, and the sequence advanced. *)
Definition nextval (d : db) (seq : pystr) : option (Z * db) :=
  v ← sequences d !! seq;
  Some (v, {| sequences := <[seq := (v + 1)%Z]> (sequences d); max_ids := max_ids d |}).

(** [SELECT setval('seq', v, false)]: the next [nextval] returns [v]. *)
Definition setval (d : db) (seq : pystr) (v : Z) : db :=
  {| sequences := <[seq := v]> (sequences d); max_ids := max_ids d |}.

(** [process_exception(request, exception)]; [None] is an SQL error
    raised by a missing sequence or table. *)
Definition process_exception (d : db) (e : db_exception) : option (db * pe_outcome) :=
  match e with
  | OtherException => Some (d, NoResponse)
  | IntegrityError msg =>
    match re_search pkey_pattern msg with
    | None => Some (d, NoResponse)
    | Some mo =>
      match group msg mo 1 with
      | None => Some (d, NoResponse)
      | Some table_name =>
        let sequence_name := table_name ++ u "_id_seq" in
        '(current_sequence_value, d) ← nextval d sequence_name;
        max_id ← max_ids d !! table_name;
        if (current_sequence_value <=? max_id)%Z then
          Some (setval d sequence_name (max_id + 1)%Z, Retried)
        else Some (d, NoResponse)
      end
    end
  end.

(** ** [AdminSessionMiddleware] *)

Definition admin_session_cookie : pystr := u "admin_session_id".
Definition api_session_cookie : pystr := u "api_session_id".

(** [settings.SESSION_COOKIE_NAME] after [__call__] for a path. *)
Definition session_cookie_name (p : pystr) : pystr :=
  if startswith p (u "/admin") then admin_session_cookie else api_session_cookie.

(** The steps of concurrent requests that touch the global: a thread's
    [AdminSessionMiddleware] writes it, and the [SessionMiddleware] that
    follows reads it. *)
Inductive cookie_event : Type :=
| WriteName (t : thread) (p : pystr)
| ReadName (t : thread).

(** The global after a sequence of steps, and what each read saw. *)
Fixpoint run_cookie_events (name : pystr) (evs : list cookie_event) : pystr * list (thread * pystr) :=
  match evs with
  | [] => (name, [])
  | WriteName _ p :: evs => run_cookie_events (session_cookie_name p) evs
  | ReadName t :: evs => let '(n, reads) := run_cookie_events name evs in (n, (t, name) :: reads)
  end.

(** ** [PatchMorselMiddleware] *)

(** The class bound to [http.cookies.Morsel]. *)
Inductive morsel_class : Type := BuiltinMorsel | PatchedMorsel.

(** The [partitioned] attribute of a new [Morsel()]. *)
Definition new_morsel_partitioned (cls : morsel_class) : bool :=
  match cls with BuiltinMorsel => false | PatchedMorsel => true end.

(** [__init__] calls [patch_morsel], which rebinds the class. *)
Definition patch_morsel (cls : morsel_class) : morsel_class := PatchedMorsel.

(** ** [DevProxyMiddleware], [QueryLoggingMiddleware], [ArtificialDelayMiddleware] *)

(** The result of [requests.get(url)]: a response, or a
    [RequestException]. *)
Inductive fetch_result : Type :=
| Fetched (status : N) (headers : list (pystr * pystr))
| FetchFailed.

Inductive proxy_response : Type :=
| Proxied (status : N) (headers : list (pystr * pystr))
| NotFound
| PassedOn.   (* [self.get_response(request)] *)

Definition proxied_headers : list pystr :=
  map u ["Content-Type"; "Content-Length"; "Last-Modified"; "Cache-Control"; "ETag"].

Definition dev_proxy_call (fetch : pystr -> fetch_result) (p : pystr) : proxy_response :=
  if startswith p (u "/static/frontend/") then
    match fetch (u "http://localhost:5173" ++ p) with
    | Fetched status headers =>
      Proxied status (List.filter (fun kv => bool_decide (kv.1 ∈ proxied_headers)) headers)
    | FetchFailed => NotFound
    end
  else PassedOn.

(** [QueryLoggingMiddleware]: the query times in microseconds; the total
    and the queries logged as slow (over 10 ms). *)
Definition query_log (queries : list (N * pystr)) : N * list (N * pystr) :=
  (foldl (fun total q => total + q.1) 0 queries,
   map (fun q => (q.1, take 1000 q.2)) (List.filter (fun q => 10000 <? q.1) queries)).

(** [ArtificialDelayMiddleware]: the seconds slept for a path, given the
    ['path'] and ['delay'] of [settings.ARTIFICIAL_DELAY]. *)
Definition artificial_delay (delay_path : option pystr) (delay_time : N) (p : pystr) : N :=
  match delay_path with
  | Some ((_ :: _) as dp) => if (0 <? delay_time) && startswith p dp then delay_time else 0
  | _ => 0
  end.

(** ** Lemmas *)

Lemma tl_of_insert_ne tls t t' l : t' <> t -> tl_of (<[t := l]> tls) t' = tl_of tls t'.
Proof. intros Hne. unfold tl_of. by rewrite lookup_insert_ne. Qed.

Lemma tl_of_insert_eq tls t l : tl_of (<[t := l]> tls) t = l.
Proof. unfold tl_of. by rewrite lookup_insert_eq. Qed.

(** The reads of a run, when each write is followed by its read. *)
Lemma run_sequential name reqs :
  (run_cookie_events name (reqs ≫= fun '(t, p) => [WriteName t p; ReadName t])).2 =
  map (fun '(t, p) => (t, session_cookie_name p)) reqs.
Proof.
  revert name. induction reqs as [|[t p] reqs IH]; intros name; [done|].
  rewrite bind_cons. cbn [app run_cookie_events]. specialize (IH (session_cookie_name p)).
  destruct (run_cookie_events _ _) as [n reads]. cbn in IH |- *. by rewrite IH.
Qed.

(** ** Theorems *)

(** [RequestIDMiddleware.__call__] sets the calling thread's request
    id and start time from the request's headers, clears its
    [first_log_message_sent], gives the request the id as CSP nonce
    ([None] when the header is missing), and leaves the attributes of
    every other thread as they were. *)
Theorem request_id_call_spec tls t r :
  let '(tls', r') := request_id_call tls t r in
  get_request_id tls' t = meta_request_id r /\
  get_request_start_time tls' t = meta_start_time r /\
  is_first_log_message tls' t = false /\
  csp_nonce r' = Some (meta_request_id r) /\
  (forall t', t' <> t -> tl_of tls' t' = tl_of tls t').
Proof.
  unfold request_id_call, get_request_id, get_request_start_time, is_first_log_message.
  rewrite !tl_of_insert_eq. split_and!; try done. intros t' Hne. by apply tl_of_insert_ne.
Qed.

(** C34: After [process_exception] on a duplicate-key error whose table and
    sequence exist, the sequence's next value is above [MAX(id)]: it is
    reset to [MAX(id) + 1] and the request retried when it had fallen
    behind, and otherwise it has still been advanced by one by the
    [nextval] that read it. *)
Theorem process_exception_sequence d msg mo table cur max_id :
  re_search pkey_pattern msg = Some mo -> group msg mo 1 = Some table ->
  sequences d !! (table ++ u "_id_seq") = Some cur -> max_ids d !! table = Some max_id ->
  exists d' out, process_exception d (IntegrityError msg) = Some (d', out) /\
    sequences d' !! (table ++ u "_id_seq") =
      Some (if (cur <=? max_id)%Z then (max_id + 1)%Z else (cur + 1)%Z) /\
    (max_id < if (cur <=? max_id)%Z then max_id + 1 else cur + 1)%Z /\
    (out = Retried <-> (cur <= max_id)%Z).
Proof.
  intros Hs Hg Hseq Hmax. unfold process_exception. rewrite Hs, Hg. unfold nextval. rewrite Hseq.
  cbn [mbind option_bind max_ids]. rewrite Hmax. cbn [mbind option_bind].
  destruct (Z.leb_spec cur max_id) as [Hle|Hgt].
  - eexists _, _. split; [reflexivity|]. cbn. rewrite lookup_insert_eq. split_and!; [done|lia|].
    split; [intros _; lia|done].
  - eexists _, _. split; [reflexivity|]. cbn. rewrite lookup_insert_eq. split_and!; [done|lia|].
    split; [discriminate|lia].
Qed.

(** The table is read off PostgreSQL's message: the constraint
    ["shop_invoice_pkey"] names the table [shop_invoice]; an error on
    another unique constraint does not match. *)
Example pkey_message_table :
  (mo ← re_search pkey_pattern
          (u "duplicate key value violates unique constraint " ++ [34] ++ u "shop_invoice_pkey" ++ [34]);
   group (u "duplicate key value violates unique constraint " ++ [34] ++ u "shop_invoice_pkey" ++ [34]) mo 1)
  = Some (u "shop_invoice") /\
  re_search pkey_pattern
    (u "duplicate key value violates unique constraint " ++ [34] ++ u "shop_invoice_number_key" ++ [34]) = None.
Proof. split; vm_compute; reflexivity. Qed.

(** The last admin action is stored under ["app_label.model_name"]
    read off the path: a POST with an [action] to
    ["/admin/shop/invoice/"] is stored under ["shop.invoice"]; a path
    without the trailing slash, or without a model, stores nothing. *)
Example admin_action_logged :
  let post := [(u "action", u "delete_selected"); (u "_selected_action", u "3")] in
  let s0 := {| last_admin_action := None; modified := false |} in
  let req p := {| method := u "POST"; path := u p; meta_request_id := None; meta_start_time := None;
                  post := post; csp_nonce := None |} in
  admin_action_logger_call (fun _ _ => true) (fun _ => @Ok unit _ (u "action=delete_selected"))
    (req "/admin/shop/invoice/") s0
    = Ok {| last_admin_action := Some [(u "shop.invoice", (u "/admin/shop/invoice/", u "action=delete_selected"))];
            modified := true |} /\
  admin_action_logger_call (fun _ _ => true) (fun _ => @Ok unit _ []) (req "/admin/shop/invoice") s0 = Ok s0 /\
  admin_action_logger_call (fun _ _ => true) (fun _ => @Ok unit _ []) (req "/admin/shop/") s0 = Ok s0.
Proof. split_and!; vm_compute; reflexivity. Qed.

(** When each request's [SessionMiddleware] reads the cookie name
    right after its own [AdminSessionMiddleware] wrote it, every request
    uses the name its path calls for. *)
Theorem session_cookie_sequential name reqs :
  (run_cookie_events name (reqs ≫= fun '(t, p) => [WriteName t p; ReadName t])).2 =
  map (fun '(t, p) => (t, session_cookie_name p)) reqs.
Proof. apply run_sequential. Qed.

(** [SESSION_COOKIE_NAME] is one global for all threads: when an API
    request writes it between an admin request's write and read, the
    admin request reads the API session's cookie. *)
Example session_cookie_race :
  (run_cookie_events admin_session_cookie
     [WriteName 1 (u "/admin/shop/"); WriteName 2 (u "/api/items/"); ReadName 1; ReadName 2]).2 =
  [(1, api_session_cookie); (2, api_session_cookie)].
Proof. reflexivity. Qed.

(** ** Instances *)


(** ** Instances *)

Lemma process_exception_sequence_witness :
  let msg := u "duplicate key value violates unique constraint " ++ [34] ++ u "shop_invoice_pkey" ++ [34] in
  let d := {| sequences := {[u "shop_invoice_id_seq" := 5%Z]}; max_ids := {[u "shop_invoice" := 9%Z]} |} in
  exists d' out, process_exception d (IntegrityError msg) = Some (d', out) /\
    sequences d' !! (u "shop_invoice" ++ u "_id_seq") =
      Some (if (5 <=? 9)%Z then (9 + 1)%Z else (5 + 1)%Z) /\
    (9 < if (5 <=? 9)%Z then 9 + 1 else 5 + 1)%Z /\ (out = Retried <-> (5 <= 9)%Z).
Proof.
  intros msg d.
  apply (process_exception_sequence d msg (MatchObj 0 (MState 66 [(1%nat, (48%nat, 60%nat))])) (u "shop_invoice"));
    vm_compute; reflexivity.
Defined.
