(* ===== verification/Logging.v ===== *)
(** * [CustomRichHandler]: the message and the time column of a log line
      ([src/logging.py] lines 17-190)

    [emit] computes the time since the request's start from the
    thread-local state of [RequestIDMiddleware] (setting the start at the
    request's first log when the header did not give one) and joins a
    message that has no [%] with its arguments.  [render] drops an empty
    message; [custom_log_render] shows the absolute time, in bold, for
    the first line of a request and when the relative time is zero, and
    otherwise ["+Nms"], or blanks when the column would repeat the
    previous line's.  [_last_time] belongs to the handler, which all
    threads share.  Module [CustomRichHandler] holds
    [get_terminal_width] (with [shutil.get_terminal_size] and the
    environment as a map), [LEVEL_STYLES] with [get_level_text], and
    [RainbowHighlighter.highlight], whose [randint] is unbound.

    Times are integers of microseconds (the resolution of [datetime]);
    [format_time] (the formatter's [formatTime] with ["%X"]) and
    [format_ms] (the ["{:.0f}"] of the milliseconds) are parameters, as
    are [pretty_repr] and the [%]-formatting of [logging]. *)

From S2P Require Import Prelude PyStr Middleware.
From stdpp Require Import gmap.
From Stdlib Require Import ZArith.
From Stdlib Require String.
Import String.StringSyntax.

Local Open Scope string_scope.
Local Open Scope N_scope.

(** ** Records *)

(** [record.msg]: a string, or another object given by its [str]. *)
Inductive log_msg : Type :=
| MsgStr (s : pystr)
| MsgOther (str_of : pystr).

(** An element of [record.args]: a list (its [str] and its
    [pretty_repr]) or another object (its [str]). *)
Inductive log_arg : Type :=
| ArgList (str_of pretty : pystr)
| ArgOther (str_of : pystr).

(** [record.args]: a tuple, or the mapping [logging] keeps when the only
    argument is a dict (given by its [pretty_repr]). *)
Inductive log_args : Type :=
| ArgsTuple (l : list log_arg)
| ArgsMapping (pretty : pystr).

Record log_record : Type := LogRecord {
  created : Z;
  msg : log_msg;
  args : log_args
}.

Definition msg_str (m : log_msg) : pystr := match m with MsgStr s | MsgOther s => s end.

Definition arg_str (a : log_arg) : pystr := match a with ArgList s _ | ArgOther s => s end.

(** The shared state: the threads' attributes and [self._last_time]. *)
Record log_state : Type := LogState {
  ls_locals : locals;
  last_time : option pystr
}.

Section Handler.

Context (format_time : Z -> pystr) (format_ms : Z -> pystr).
Context (percent_format : pystr -> log_args -> pystr).   (* [record.getMessage()] with [%] *)

Definition time_column_width : nat := 8.

(** The first half of [emit]: [record.relativeCreated] (in microseconds)
    and the thread's attributes after it. *)
Definition emit_relative (tls : locals) (t : thread) (current_time : Z) : locals * Z :=
  match get_request_id tls t with
  | Some _ =>
    match get_request_start_time tls t with
    | None => (set_request_start_time tls t (Some current_time), 0%Z)
    | Some start => (tls, (current_time - start)%Z)
    end
  | None => (tls, 0%Z)
  end.

(** The second half of [emit]: a message without [%] is joined with its
    arguments and the arguments cleared; the message [format] then
    gives. *)
Definition emit_message (m : log_msg) (a : log_args) : pystr :=
  let plain := match m with MsgStr s => bool_decide (37 ∉ s) | MsgOther _ => true end in
  if plain then
    match a with
    | ArgsTuple [ArgList _ p] => msg_str m ++ p
    | ArgsTuple l => msg_str m ++ py_join [32] (map arg_str l)
    | ArgsMapping p => msg_str m ++ [32] ++ p
    end
  else percent_format (msg_str m) a.

(** [custom_log_render]: the thread's attributes, [_last_time] and the
    time column after it. *)
Definition custom_log_render (tls : locals) (t : thread) (last : option pystr) (current_time rel : Z)
    : locals * option pystr * pystr :=
  let '(tls, time_display, highlight) :=
    if negb (is_first_log_message tls t) || (rel =? 0)%Z then
      (set_first_log_message_sent tls t, format_time current_time, true)
    else (tls, u "+" ++ format_ms rel ++ u "ms", false) in
  let column :=
    if highlight then u "[b]" ++ time_display ++ u "[/b]"
    else if bool_decide (last = Some time_display) then replicate time_column_width 32
    else time_display in
  (tls, Some time_display, column).

(** [emit(record)] of thread [t]: the state after it and the line shown
    (its time column and its message), none for an empty message. *)
Definition handler_emit (st : log_state) (t : thread) (r : log_record) : log_state * option (pystr * pystr) :=
  let '(tls, rel) := emit_relative (ls_locals st) t (created r) in
  let message := py_strip (emit_message (msg r) (args r)) in
  match message with
  | [] => ({| ls_locals := tls; last_time := last_time st |}, None)
  | _ :: _ =>
    let '(tls, last, column) := custom_log_render tls t (last_time st) (created r) rel in
    ({| ls_locals := tls; last_time := last |}, Some (column, message))
  end.

(** The steps of the threads: a request enters [RequestIDMiddleware], or
    a record is emitted. *)
Inductive log_event : Type :=
| RequestStarts (t : thread) (r : request)
| Emit (t : thread) (r : log_record).

Definition log_step (st : log_state) (e : log_event) : log_state * option (thread * (pystr * pystr)) :=
  match e with
  | RequestStarts t r => ({| ls_locals := (request_id_call (ls_locals st) t r).1; last_time := last_time st |}, None)
  | Emit t r => let '(st, line) := handler_emit st t r in (st, (fun l => (t, l)) <$> line)
  end.

(** The lines shown by a run of steps. *)
Fixpoint run_log (st : log_state) (evs : list log_event) : log_state * list (thread * (pystr * pystr)) :=
  match evs with
  | [] => (st, [])
  | e :: evs =>
    let '(st, line) := log_step st e in
    let '(st, lines) := run_log st evs in
    (st, option_list line ++ lines)
  end.

End Handler.

(** ** [get_terminal_width], [LEVEL_STYLES] and [RainbowHighlighter] *)

Module CustomRichHandler.

(** The exceptions of these methods. *)
Inductive handler_error : Type :=
| ValueError    (* [int()] of a string that is not an integer *)
| NameError.    (* a name the module does not bind *)

(** [os.environ]. *)
Definition environ : Type := gmap pystr pystr.

(** [int(os.environ[name])], with [KeyError] and [ValueError] giving 0,
    as [shutil.get_terminal_size] reads [COLUMNS] and [LINES]. *)
Definition env_int_or_0 (env : environ) (name : pystr) : Z :=
  match env !! name with
  | Some v => default 0%Z (py_int_of_str v)
  | None => 0%Z
  end.

(** [shutil.get_terminal_size(fallback)]: [os_size] is what
    [os.get_terminal_size(sys.__stdout__.fileno())] returns, [None] when
    it raises [AttributeError], [ValueError] or [OSError], which
    [get_terminal_size] catches; it raises nothing itself. *)
Definition get_terminal_size (env : environ) (os_size : option (Z * Z)) (fallback : Z * Z) : Z * Z :=
  let columns := env_int_or_0 env (u "COLUMNS") in
  let lines := env_int_or_0 env (u "LINES") in
  if (columns <=? 0)%Z || (lines <=? 0)%Z then
    let size := default fallback os_size in
    let columns := if (columns <=? 0)%Z then (if (size.1 =? 0)%Z then fallback.1 else size.1) else columns in
    let lines := if (lines <=? 0)%Z then (if (size.2 =? 0)%Z then fallback.2 else size.2) else lines in
    (columns, lines)
  else (columns, lines).

(** [int(os.getenv('DEFAULT_TERMINAL_COLUMNS', 80))], before the [try]. *)
Definition default_columns (env : environ) : result handler_error Z :=
  match env !! u "DEFAULT_TERMINAL_COLUMNS" with
  | None => Ok 80%Z
  | Some v => match py_int_of_str v with Some z => Ok z | None => Err ValueError end
  end.

(** [get_terminal_width()]: the [except OSError] never runs, since
    [shutil.get_terminal_size] raises no [OSError]. *)
Definition get_terminal_width (env : environ) (os_size : option (Z * Z)) : result handler_error Z :=
  dc <- default_columns env ;;
  Ok (get_terminal_size env os_size (dc, 24%Z)).1.

(** [LEVEL_STYLES]. *)
Definition LEVEL_STYLES : list (pystr * pystr) :=
  [(u "DEBUG", u "dim white"); (u "INFO", u "cyan"); (u "WARNING", u "yellow");
   (u "ERROR", u "bold red"); (u "CRITICAL", u "bold underline red")].

(** [get_level_text(record)]: the level name with its style, as a
    [Text] of its plain text and style. *)
Definition get_level_text (levelname : pystr) : pystr * pystr :=
  (levelname, default (u "log.level") (kv_lookup levelname LEVEL_STYLES)).

(** [RainbowHighlighter.highlight(text)]: the loop's body evaluates
    [randint], which [src/logging.py] does not import. *)
Definition rainbow_highlight (text : pystr) : result handler_error unit :=
  foldl (fun acc (_ : nat) => _ <- acc ;; Err NameError) (Ok tt) (seq 0 (length text)).

End CustomRichHandler.

(** The formatting used by the examples: seconds and milliseconds as
    whole numbers. *)
Definition ex_format_time (z : Z) : pystr := str_of_N (Z.to_N (z / 1000000)).
Definition ex_format_ms (z : Z) : pystr := str_of_N (Z.to_N (z / 1000)).
Definition ex_percent_format (s : pystr) (_ : log_args) : pystr := s.

Definition ex_request (id : String.string) (start : Z) : request :=
  {| method := u "GET"; path := u "/"; meta_request_id := Some (u id); meta_start_time := Some start;
     post := []; csp_nonce := None |}.

Definition ex_record (time : Z) (m : String.string) : log_record :=
  {| created := time; msg := MsgStr (u m); args := ArgsTuple [] |}.

(** ** Lemmas *)

Lemma request_id_call_locals tls t r :
  let tls' := (request_id_call tls t r).1 in
  is_first_log_message tls' t = false /\ get_request_id tls' t = meta_request_id r /\
  get_request_start_time tls' t = meta_start_time r.
Proof.
  unfold request_id_call, is_first_log_message, get_request_id, get_request_start_time.
  cbn [fst]. by rewrite tl_of_insert_eq.
Qed.

Lemma emit_relative_first tls t c :
  is_first_log_message tls t = false -> is_first_log_message (emit_relative tls t c).1 t = false.
Proof.
  intros H. unfold emit_relative. destruct (get_request_id tls t); [|done].
  destruct (get_request_start_time tls t); [done|]. cbn [fst].
  unfold set_request_start_time, is_first_log_message in *. by rewrite tl_of_insert_eq.
Qed.

(** ** Theorems *)

Section HandlerTheorems.
Context (format_time : Z -> pystr) (format_ms : Z -> pystr) (percent_format : pystr -> log_args -> pystr).

(** The first line a thread logs after a request starts shows the
    absolute time, in bold, whatever the previous line showed. *)
Theorem first_line_absolute st t r rec :
  py_strip (emit_message percent_format (msg rec) (args rec)) <> [] ->
  (handler_emit format_time format_ms percent_format
     {| ls_locals := (request_id_call (ls_locals st) t r).1; last_time := last_time st |} t rec).2 =
  Some (u "[b]" ++ format_time (created rec) ++ u "[/b]", py_strip (emit_message percent_format (msg rec) (args rec))).
Proof.
  intros Hne. destruct (request_id_call_locals (ls_locals st) t r) as (Hf & _ & _).
  unfold handler_emit. cbn [ls_locals].
  pose proof (emit_relative_first _ t (created rec) Hf) as Hf'.
  destruct (emit_relative _ t (created rec)) as [tls rel]. cbn [fst] in Hf'.
  destruct (py_strip _) as [|c m]; [done|]. unfold custom_log_render. rewrite Hf'. done.
Qed.

(** A later line of the request, at a time other than its start,
    shows ["+Nms"] since the start, or blanks when that is the text the
    previous line of any thread showed. *)
Theorem later_line_relative st t rec id start :
  get_request_id (ls_locals st) t = Some id -> get_request_start_time (ls_locals st) t = Some start ->
  is_first_log_message (ls_locals st) t = true -> created rec <> start ->
  py_strip (emit_message percent_format (msg rec) (args rec)) <> [] ->
  let rel := u "+" ++ format_ms (created rec - start) ++ u "ms" in
  (handler_emit format_time format_ms percent_format st t rec).2 =
  Some (if bool_decide (last_time st = Some rel) then replicate time_column_width 32 else rel,
        py_strip (emit_message percent_format (msg rec) (args rec))).
Proof.
  intros Hid Hst Hf Hne Hm rel. unfold handler_emit, emit_relative. rewrite Hid, Hst.
  destruct (py_strip _) as [|c m]; [done|]. unfold custom_log_render. rewrite Hf.
  rewrite (proj2 (Z.eqb_neq _ _)) by lia. done.
Qed.

End HandlerTheorems.

(** The thread-local state outlives the request: a line the worker
    thread logs a minute after its request ended (from a job run outside
    any request) is still shown relative to that request's start. *)
Example stale_request_state :
  (run_log ex_format_time ex_format_ms ex_percent_format {| ls_locals := ∅; last_time := None |}
     [RequestStarts 1 (ex_request "r1" 1000000); Emit 1 (ex_record 1000000 "GET /");
      Emit 1 (ex_record 61000000 "nightly job started")]).2 =
  [(1, (u "[b]1[/b]", u "GET /")); (1, (u "+60000ms", u "nightly job started"))].
Proof. vm_compute. reflexivity. Qed.

(** [_last_time] is shared by the threads: when two requests on two
    threads each log a line 5 ms after their start, the second line shows
    no time, as if it continued the first thread's line. *)
Example last_time_shared :
  (run_log ex_format_time ex_format_ms ex_percent_format {| ls_locals := ∅; last_time := None |}
     [RequestStarts 1 (ex_request "r1" 0); RequestStarts 2 (ex_request "r2" 100);
      Emit 1 (ex_record 0 "a"); Emit 2 (ex_record 100 "b");
      Emit 1 (ex_record 5000 "c"); Emit 2 (ex_record 5100 "d")]).2 =
  [(1, (u "[b]0[/b]", u "a")); (2, (u "[b]0[/b]", u "b"));
   (1, (u "+5ms", u "c")); (2, (replicate time_column_width 32, u "d"))].
Proof. vm_compute. reflexivity. Qed.

(** A message without [%] is joined with its arguments without a
    space in between: [logger.info("Total", 5)] logs ["Total5"], while a
    single dict argument is joined with a space. *)
Example message_args_joined :
  emit_message ex_percent_format (MsgStr (u "Total")) (ArgsTuple [ArgOther (u "5")]) = u "Total5" /\
  emit_message ex_percent_format (MsgStr (u "Total")) (ArgsTuple [ArgOther (u "5"); ArgOther (u "6")]) = u "Total5 6" /\
  emit_message ex_percent_format (MsgStr (u "POST data:")) (ArgsMapping (u "{}")) = u "POST data: {}".
Proof. split_and!; vm_compute; reflexivity. Qed.

(** ** Instances *)

Lemma later_line_relative_witness :
  let st := (run_log ex_format_time ex_format_ms ex_percent_format {| ls_locals := ∅; last_time := None |}
               [RequestStarts 1 (ex_request "r1" 1000000); Emit 1 (ex_record 1000000 "GET /")]).1 in
  (handler_emit ex_format_time ex_format_ms ex_percent_format st 1 (ex_record 1250000 "query")).2 =
  Some (if bool_decide (last_time st = Some (u "+" ++ ex_format_ms (1250000 - 1000000) ++ u "ms"))
        then replicate time_column_width 32 else u "+" ++ ex_format_ms (1250000 - 1000000) ++ u "ms",
        py_strip (emit_message ex_percent_format (msg (ex_record 1250000 "query")) (args (ex_record 1250000 "query")))).
Proof.
  intros st. apply (later_line_relative ex_format_time ex_format_ms ex_percent_format st 1 (ex_record 1250000 "query")
    (u "r1") 1000000); vm_compute; try reflexivity; discriminate.
Defined.

Lemma first_line_absolute_witness :
  let st := {| ls_locals := ∅; last_time := Some (u "+5ms") |} in
  (handler_emit ex_format_time ex_format_ms ex_percent_format
     {| ls_locals := (request_id_call (ls_locals st) 1 (ex_request "r2" 7000000)).1; last_time := last_time st |}
     1 (ex_record 7000000 "GET /")).2 =
  Some (u "[b]" ++ ex_format_time (created (ex_record 7000000 "GET /")) ++ u "[/b]",
        py_strip (emit_message ex_percent_format (msg (ex_record 7000000 "GET /")) (args (ex_record 7000000 "GET /")))).
Proof. intros st. apply first_line_absolute. vm_compute. discriminate. Defined.

(** ** [get_terminal_width] and [RainbowHighlighter] *)

Section TerminalWidth.
Import CustomRichHandler.

(** C38: [get_terminal_width] gives [COLUMNS] when it is a positive
    integer, else the terminal's width when there is a terminal of
    non-zero width, else [DEFAULT_TERMINAL_COLUMNS] (80 when unset, kept
    as it is when zero or negative); [LINES] does not matter.  A
    [DEFAULT_TERMINAL_COLUMNS] that is not an integer raises
    [ValueError], outside the [try], whatever the terminal. *)
Theorem get_terminal_width_spec env os_size :
  let width dc :=
    let c := env_int_or_0 env (u "COLUMNS") in
    if (0 <? c)%Z then c
    else match os_size with Some (c', _) => if (c' =? 0)%Z then dc else c' | None => dc end in
  get_terminal_width env os_size =
  match env !! u "DEFAULT_TERMINAL_COLUMNS" with
  | Some v => match py_int_of_str v with Some dc => Ok (width dc) | None => Err ValueError end
  | None => Ok (width 80%Z)
  end.
Proof.
  intros width. unfold get_terminal_width, default_columns, width.
  assert (Hw : forall dc, (get_terminal_size env os_size (dc, 24%Z)).1 =
    let c := env_int_or_0 env (u "COLUMNS") in
    if (0 <? c)%Z then c
    else match os_size with Some (c', _) => if (c' =? 0)%Z then dc else c' | None => dc end).
  { intros dc. unfold get_terminal_size. cbn zeta.
    destruct (Z.leb_spec (env_int_or_0 env (u "COLUMNS")) 0), (Z.ltb_spec 0 (env_int_or_0 env (u "COLUMNS")));
      try lia; cbn [orb]; [|destruct (_ <=? 0)%Z; reflexivity].
    destruct os_size as [[c' l']|]; cbn; [by destruct (c' =? 0)%Z|by destruct (dc =? 0)%Z]. }
  destruct (env !! _) as [v|]; [destruct (py_int_of_str v)|]; cbn [result_bind]; rewrite ?Hw; done.
Qed.

Lemma foldl_err {A B E} (f : result E A -> B -> result E A) (e : E) l :
  (forall b, f (Err e) b = Err e) -> foldl f (Err e) l = Err e.
Proof. intros Hf. induction l as [|b l IH]; [done|]. cbn. by rewrite Hf. Qed.

(** [RainbowHighlighter.highlight] raises [NameError] on every non-empty
    text, as [randint] is not imported, and does nothing on the empty
    one. *)
Theorem rainbow_highlight_name_error text :
  rainbow_highlight text = if bool_decide (text = []) then Ok tt else Err NameError.
Proof.
  unfold rainbow_highlight. destruct text as [|c text]; [done|]. cbn [length seq foldl result_bind].
  rewrite bool_decide_false by done. by apply foldl_err.
Qed.

End TerminalWidth.

(** A width of 0 from [DEFAULT_TERMINAL_COLUMNS] reaches [Console] when
    there is no terminal, and [COLUMNS] wins over the terminal. *)
Example get_terminal_width_cases :
  CustomRichHandler.get_terminal_width {[u "DEFAULT_TERMINAL_COLUMNS" := u "0"]} None = Ok 0%Z /\
  CustomRichHandler.get_terminal_width {[u "COLUMNS" := u "132"]} (Some (80, 24)%Z) = Ok 132%Z /\
  CustomRichHandler.get_terminal_width {[u "DEFAULT_TERMINAL_COLUMNS" := u "wide"]} (Some (80, 24)%Z)
    = Err CustomRichHandler.ValueError.
Proof. split_and!; vm_compute; reflexivity. Qed.
