(* ===== verification/ConfigLoader.v ===== *)
(** * [ConfigLoader] ([src/utils/config_loader.py])

    [ConfigLoader(config_file)(name, default, cast)] looks [name] up in
    the environment, then in the [DEFAULT] section of the config file,
    which is read once per path into the class-level [_config_cache]
    (shared by all instances), and converts the string it finds by
    [cast] or by the type of [default].

    The file system is a function from paths to the [DEFAULT] section of
    the file there ([None] when [os.path.exists] is false);
    [configparser] lowercases the option names on reading and on lookup
    ([optionxform]) and applies its [BasicInterpolation] to the values,
    modelled after CPython's [_interpolate_some]. *)

From S2P Require Import Prelude PyStr.
From stdpp Require Import gmap.
From Stdlib Require Import ZArith.
From Stdlib Require String.
Import String.StringSyntax.

Local Open Scope string_scope.
Local Open Scope N_scope.

Inductive config_error : Type :=
| ValueError
| InterpolationSyntaxError
| InterpolationMissingOptionError (option_name : pystr)
| InterpolationDepthError
| CastError.   (* an exception raised by [cast] *)

(** The values [default] and the result can be. *)
Inductive config_value : Type :=
| PBool (b : bool)
| PInt (z : Z)
| PFloat (text : pystr)   (* [float(text)] *)
| PList (l : list pystr)
| PStr (s : pystr)
| POther.

(** A cache entry: the [DEFAULT] section of a parsed file (names
    lowercased), or the [{}] stored for a missing file. *)
Inductive cache_entry : Type :=
| CParser (section : list (pystr * pystr))
| CEmpty.

Abbreviation config_cache := (gmap pystr cache_entry).

(** ** [configparser] *)

(** The name of [%(name)s]: [_KEYCRE = r"%\(([^)]+)\)s"] after the
    ["%("]; the name and the text after [")s"]. *)
Fixpoint key_ref (s : pystr) (acc : pystr) : option (pystr * pystr) :=
  match s with
  | [] => None
  | 41 :: 115 :: rest => match acc with [] => None | _ => Some (rev acc, rest) end
  | 41 :: _ => None
  | c :: rest => key_ref rest (c :: acc)
  end.

Definition find_percent (s : pystr) : option nat :=
  fst <$> list_find (fun c => c = 37) s.

(** [BasicInterpolation._interpolate_some]: [budget] is the depth still
    allowed ([MAX_INTERPOLATION_DEPTH] is 10), and the inner loop's fuel
    the length of the text, which each turn shortens. *)
Fixpoint interpolate_some (budget : nat) (section : list (pystr * pystr)) (rest : pystr)
    : result config_error pystr :=
  match budget with
  | O => Err InterpolationDepthError
  | S budget' =>
    (fix loop (fuel : nat) (rest : pystr) {struct fuel} : result config_error pystr :=
       match fuel with
       | O => Ok rest
       | S fuel =>
         match find_percent rest with
         | None => Ok rest
         | Some p =>
           let pre := take p rest in
           match drop (S p) rest with
           | 37 :: r => s <- loop fuel r ;; Ok (pre ++ [37] ++ s)
           | 40 :: r =>
             match key_ref r [] with
             | None => Err InterpolationSyntaxError
             | Some (var, r') =>
               match kv_lookup (py_lower var) section with
               | None => Err (InterpolationMissingOptionError (py_lower var))
               | Some v =>
                 v' <- (if bool_decide (37 ∈ v) then interpolate_some budget' section v else Ok v) ;;
                 s <- loop fuel r' ;;
                 Ok (pre ++ v' ++ s)
               end
             end
           | _ => Err InterpolationSyntaxError
           end
         end
       end) (length rest) rest
  end.

(** [parser.get('DEFAULT', name, fallback=None)]. *)
Definition parser_get (section : list (pystr * pystr)) (name : pystr) : result config_error (option pystr) :=
  match kv_lookup (py_lower name) section with
  | None => Ok None
  | Some v => v' <- interpolate_some 10 section v ;; Ok (Some v')
  end.

(** ** [ConfigLoader] *)

Definition true_words : list pystr :=
  map u ["true"; "True"; "TRUE"; "1"; "yes"; "Yes"; "YES"; "on"; "On"; "ON"].

Section Loader.
Context (environ : gmap pystr pystr) (files : pystr -> option (list (pystr * pystr))).
Context (py_float : pystr -> result config_error config_value).   (* [float(value)] *)

(** [_load_config_file()]; a path that is [None] or empty is never
    read. *)
Definition _load_config_file (cache : config_cache) (config_file : option pystr) : config_cache :=
  match config_file with
  | Some ((_ :: _) as f) =>
    if bool_decide (f ∈ dom cache) then cache
    else <[f := match files f with
                | Some section => CParser (map (fun kv => (py_lower kv.1, kv.2)) section)
                | None => CEmpty
                end]> cache
  | _ => cache
  end.

(** [ConfigLoader._config_cache.get(self.config_file, {}).get(name)]. *)
Definition cached_get (cache : config_cache) (config_file : option pystr) (name : pystr)
    : result config_error (option pystr) :=
  match config_file with
  | Some f =>
    match cache !! f with
    | Some (CParser section) => parser_get section name
    | _ => Ok None
    end
  | None => Ok None
  end.

(** Steps 3b and 3c: the string converted after the type of [default]. *)
Definition convert_by_default (default : option config_value) (value : pystr) : result config_error config_value :=
  match default with
  | Some (PBool _) => Ok (PBool (bool_decide (py_lower value ∈ true_words)))
  | Some (PInt _) => match py_int_of_str value with Some z => Ok (PInt z) | None => Err ValueError end
  | Some (PFloat _) => py_float value
  | Some (PList _) => Ok (PList (map py_strip (py_split_char 44 value)))
  | _ => Ok (PStr value)
  end.

(** [__call__(name, default, cast)]: the cache after it and the result;
    [cast] is [None] when it is not callable. *)
Definition loader_call (cache : config_cache) (config_file : option pystr) (name : pystr)
    (default : option config_value) (cast : option (pystr -> result config_error config_value))
    : config_cache * result config_error config_value :=
  let '(cache, value) :=
    match environ !! name with
    | Some v => (cache, Ok (Some v))
    | None => let cache := _load_config_file cache config_file in (cache, cached_get cache config_file name)
    end in
  (cache,
   value <- value ;;
   match value with
   | Some v =>
     match cast with
     | Some f => f v
     | None => convert_by_default default v
     end
   | None =>
     match default with
     | Some d => Ok d
     | None => Err ValueError
     end
   end).

End Loader.

(** The file system and [float] of the examples. *)
Definition ex_files (f : pystr) : option (list (pystr * pystr)) :=
  if bool_decide (f = u "app.ini") then
    Some [(u "Secret_Key", u "k3y"); (u "db_password", u "p%ss"); (u "base", u "/srv");
          (u "media", u "%(base)s/media"); (u "debug", u "Yes")]
  else None.

(** The parsed [app.ini] of the examples. *)
Definition ex_section : list (pystr * pystr) :=
  Eval vm_compute in map (fun kv => (py_lower kv.1, kv.2)) (default [] (ex_files (u "app.ini"))).

Definition ex_float (s : pystr) : result config_error config_value := Ok (PFloat s).

(** ** Lemmas *)

Lemma find_percent_app pre rest : 37 ∉ pre -> find_percent (pre ++ 37 :: rest) = Some (length pre).
Proof.
  intros Hp. unfold find_percent.
  rewrite list_find_app_r by (apply list_find_None, Forall_forall; by intros x Hx ->).
  cbn. by rewrite decide_True.
Qed.

(** [_interpolate_some] on a ['%'] followed by neither ['%'] nor
    ['(']. *)
Lemma interpolate_lone_percent budget section pre c rest :
  37 ∉ pre -> c <> 37 -> c <> 40 ->
  interpolate_some (S budget) section (pre ++ 37 :: c :: rest) = Err InterpolationSyntaxError.
Proof.
  intros Hp H37 H40. cbn [interpolate_some].
  replace (length (pre ++ 37 :: c :: rest)) with (S (length pre + S (length rest)))
    by (rewrite length_app; cbn; lia).
  rewrite find_percent_app by done.
  replace (drop (S (length pre)) (pre ++ 37 :: c :: rest)) with (c :: rest)
    by (rewrite drop_app_ge by lia; by replace (S (length pre) - length pre)%nat with 1%nat by lia).
  destruct c as [|p]; [done|].
  do 7 (try (destruct p as [p|p|]; try done)).
Qed.

(** ** Theorems *)

(** A name set in the environment is taken from there: the config
    file is neither read nor consulted, and the cache is left as it
    is. *)
Theorem environ_first environ files py_float cache config_file name default cast v :
  environ !! name = Some v ->
  loader_call environ files py_float cache config_file name default cast =
  (cache, match cast with Some f => f v | None => convert_by_default py_float default v end).
Proof. intros Hv. unfold loader_call. by rewrite Hv. Qed.

(** C35: Once a path is in [_config_cache] the file is never read again:
    the result of every later call is the same whatever the file system
    holds by then (a file created or changed later is not seen). *)
Theorem config_cache_stale environ files files' py_float cache f name default cast :
  f ∈ dom cache ->
  loader_call environ files py_float cache (Some f) name default cast =
  loader_call environ files' py_float cache (Some f) name default cast.
Proof.
  intros Hf. unfold loader_call, _load_config_file.
  destruct (environ !! name); [done|]. destruct f as [|c f]; [done|]. by rewrite !bool_decide_true.
Qed.

(** An integer setting read back from its decimal text is the
    integer: with an [int] default, the environment value [str(n)]
    gives [n]. *)
Theorem int_setting_roundtrip environ files py_float cache config_file name d n :
  environ !! name = Some (str_of_N n) ->
  loader_call environ files py_float cache config_file name (Some (PInt d)) None = (cache, Ok (PInt (Z.of_N n))).
Proof. intros Hv. unfold loader_call. rewrite Hv. cbn [result_bind convert_by_default]. by rewrite py_int_of_str_N. Qed.

(** A name found nowhere, without a default, raises [ValueError]. *)
Theorem missing_setting_error environ files py_float cache config_file name cast :
  environ !! name = None ->
  cached_get (_load_config_file files cache config_file) config_file name = Ok None ->
  (loader_call environ files py_float cache config_file name None cast).2 = Err ValueError.
Proof. intros Hv Hc. unfold loader_call. rewrite Hv. cbn [snd]. by rewrite Hc. Qed.

(** C39: A value read from the config file goes through
    [configparser]'s interpolation, one from the environment does not: a
    value with a ['%'] followed by neither ['%'] nor ['('] (a password
    ["p%ss"]) raises [InterpolationSyntaxError] when it comes from the
    file, and is returned as it is when the same text is set in the
    environment. *)
Theorem config_file_interpolation environ files py_float cache f section name pre c rest :
  environ !! name = None -> cache !! f = Some (CParser section) ->
  kv_lookup (py_lower name) section = Some (pre ++ 37 :: c :: rest) ->
  37 ∉ pre -> c <> 37 -> c <> 40 ->
  (loader_call environ files py_float cache (Some f) name None None).2 = Err InterpolationSyntaxError /\
  (loader_call (<[name := pre ++ 37 :: c :: rest]> environ) files py_float cache (Some f) name None None).2
    = Ok (PStr (pre ++ 37 :: c :: rest)).
Proof.
  intros He Hc Hl Hp H37 H40. unfold loader_call. rewrite lookup_insert_eq, He. split; [|done].
  replace (_load_config_file files cache (Some f)) with cache.
  - cbn [snd cached_get]. rewrite Hc. unfold parser_get. rewrite Hl. by rewrite interpolate_lone_percent.
  - unfold _load_config_file. destruct f as [|x f]; [done|]. rewrite bool_decide_true; [done|].
    by apply elem_of_dom_2 in Hc.
Qed.

(** The file's values are interpolated: ["%(base)s/media"] becomes
    ["/srv/media"]; names are looked up without regard to case in the
    file ([SECRET_KEY] finds [Secret_Key]). *)
Example config_file_interpolation_example :
  (loader_call ∅ ex_files ex_float ∅ (Some (u "app.ini")) (u "MEDIA") None None).2 = Ok (PStr (u "/srv/media")) /\
  (loader_call ∅ ex_files ex_float ∅ (Some (u "app.ini")) (u "SECRET_KEY") None None).2 = Ok (PStr (u "k3y")).
Proof. split_and!; vm_compute; reflexivity. Qed.

(** With a [bool] default only ["true"], ["1"], ["yes"] and ["on"]
    (in any case) are true, so ["y"] is false; with a [list] default
    the empty string gives [[""]], not the empty list. *)
Example typed_defaults :
  (loader_call {[u "DEBUG" := u "Yes"]} ex_files ex_float ∅ None (u "DEBUG") (Some (PBool false)) None).2 = Ok (PBool true) /\
  (loader_call {[u "DEBUG" := u "y"]} ex_files ex_float ∅ None (u "DEBUG") (Some (PBool true)) None).2 = Ok (PBool false) /\
  (loader_call {[u "HOSTS" := u ""]} ex_files ex_float ∅ None (u "HOSTS") (Some (PList [])) None).2 = Ok (PList [[]]) /\
  (loader_call {[u "PORT" := u " 8_000 "]} ex_files ex_float ∅ None (u "PORT") (Some (PInt 0)) None).2 = Ok (PInt 8000) /\
  (loader_call {[u "PORT" := u "80a"]} ex_files ex_float ∅ None (u "PORT") (Some (PInt 0)) None).2 = Err ValueError.
Proof. split_and!; vm_compute; reflexivity. Qed.

(** ** Instances *)

Lemma environ_first_witness :
  loader_call {[u "PORT" := u "8080"]} ex_files ex_float ∅ (Some (u "app.ini")) (u "PORT") (Some (PInt 80)) None =
  (∅, match @None (pystr -> result config_error config_value) with
      | Some f => f (u "8080") | None => convert_by_default ex_float (Some (PInt 80)) (u "8080") end).
Proof. apply environ_first. vm_compute. reflexivity. Defined.

Lemma config_cache_stale_witness :
  loader_call ∅ ex_files ex_float {[u "app.ini" := CEmpty]} (Some (u "app.ini")) (u "MEDIA") None None =
  loader_call ∅ (fun _ => None) ex_float {[u "app.ini" := CEmpty]} (Some (u "app.ini")) (u "MEDIA") None None.
Proof. apply config_cache_stale. vm_compute. set_solver. Defined.

Lemma int_setting_roundtrip_witness :
  loader_call {[u "PORT" := str_of_N 8080]} ex_files ex_float ∅ None (u "PORT") (Some (PInt 80)) None =
  (∅, Ok (PInt (Z.of_N 8080))).
Proof. apply int_setting_roundtrip. vm_compute. reflexivity. Defined.

Lemma missing_setting_error_witness :
  (loader_call ∅ ex_files ex_float ∅ (Some (u "app.ini")) (u "API_TOKEN") None None).2 = Err ValueError.
Proof. apply missing_setting_error; vm_compute; reflexivity. Defined.

Lemma config_file_interpolation_witness :
  (loader_call ∅ ex_files ex_float {[u "app.ini" := CParser ex_section]} (Some (u "app.ini"))
     (u "DB_PASSWORD") None None).2 = Err InterpolationSyntaxError /\
  (loader_call (<[u "DB_PASSWORD" := u "p" ++ 37 :: u "ss"]> ∅) ex_files ex_float
     {[u "app.ini" := CParser ex_section]} (Some (u "app.ini")) (u "DB_PASSWORD") None None).2
    = Ok (PStr (u "p" ++ 37 :: u "ss")).
Proof.
  apply (config_file_interpolation ∅ ex_files ex_float _ (u "app.ini") ex_section (u "DB_PASSWORD") (u "p")
           115 (u "s")); [vm_compute; reflexivity..|set_solver|lia|lia].
Defined.
