(* ===== verification/JSONEncoder.v ===== *)
(** * [CustomJSONEncoder] and [CustomJSONSerializer]
      ([src/serializers.py] lines 16-48)

    [CustomJSONEncoder.default] is the hook [json.dumps] calls on an
    object it cannot encode: dates and datetimes become their ISO 8601
    text, a [Decimal] its fixed-point text with trailing zeros and then
    a trailing point removed, a model the result of its [to_json()] or
    its [str].  [CustomJSONSerializer.dumps] encodes the session data
    with this hook, compact separators and ASCII output.

    [Decimal] is CPython's triple (sign, coefficient, exponent) and
    [format(d, 'f')] is [Decimal.__format__] of [Lib/_pydecimal.py] for
    an empty precision; dates are [Strptime.date] and [isoformat] is the
    one of [Lib/datetime.py] (offsets in whole minutes). *)

From S2P Require Import Prelude PyStr Strptime.
From Stdlib Require Import ZArith.
From Stdlib Require String.
Import String.StringSyntax.

Local Open Scope string_scope.
Local Open Scope N_scope.

(** ** [decimal.Decimal] and [format(d, 'f')] *)

(** A finite [Decimal] is [(-1)^sign * coeff * 10^exp]; the special
    values keep [str(d.copy_abs())] ([NaN], [sNaN], [Infinity], with a
    payload). *)
Inductive pydecimal : Type :=
| Finite (sign : bool) (coeff : N) (exp : Z)
| Special (sign : bool) (body : pystr).

Definition sign_str (sign : bool) : pystr := if sign then [45] else [].

(** [Decimal.__format__(self, 'f')]: a zero with a positive exponent is
    rescaled to [0e0]; the point goes [leftdigits] digits into the
    coefficient, padding with zeros on the side where it falls out. *)
Definition format_f (d : pydecimal) : pystr :=
  match d with
  | Special sign body => sign_str sign ++ body
  | Finite sign coeff exp =>
    let exp := if (coeff =? 0) && (0 <? exp)%Z then 0%Z else exp in
    let ds := str_of_N coeff in
    let dotplace := (exp + Z.of_nat (length ds))%Z in
    let '(intpart, fracpart) :=
      if (dotplace <? 0)%Z then ([48], replicate (Z.to_nat (- dotplace)) 48 ++ ds)
      else if (Z.of_nat (length ds) <? dotplace)%Z then
        (ds ++ replicate (Z.to_nat dotplace - length ds) 48, [])
      else (match take (Z.to_nat dotplace) ds with [] => [48] | ip => ip end,
            drop (Z.to_nat dotplace) ds) in
    sign_str sign ++ intpart ++ (match fracpart with [] => [] | _ => 46 :: fracpart end)
  end.

(** [format(obj, 'f').rstrip('0').rstrip('.')]. *)
Definition encode_decimal (d : pydecimal) : pystr :=
  py_rstrip_chars [46] (py_rstrip_chars [48] (format_f d)).

(** ** [date.isoformat()] and [datetime.isoformat()] *)

Record time : Type := Time {
  hour : N; minute : N; second : N; microsecond : N;
  utcoffset : option Z   (* minutes east of UTC, for an aware datetime *)
}.

(** ["%04d-%02d-%02d" % (year, month, day)]. *)
Definition date_isoformat (d : date) : pystr :=
  pad_N 4 (d_year d) ++ [45] ++ pad_N 2 (d_month d) ++ [45] ++ pad_N 2 (d_day d).

(** [_format_offset(off)]: the sign, hours and minutes. *)
Definition format_offset (off : option Z) : pystr :=
  match off with
  | None => []
  | Some m =>
    let a := Z.to_N (Z.abs m) in
    (if (m <? 0)%Z then [45] else [43]) ++ pad_N 2 (a / 60) ++ [58] ++ pad_N 2 (a mod 60)
  end.

(** [datetime.isoformat()]: [sep='T'], [timespec='auto'] (microseconds
    only when not zero), then the offset. *)
Definition datetime_isoformat (d : date) (t : time) : pystr :=
  date_isoformat d ++ [84] ++ pad_N 2 (hour t) ++ [58] ++ pad_N 2 (minute t) ++ [58] ++ pad_N 2 (second t) ++
  (if microsecond t =? 0 then [] else 46 :: pad_N 6 (microsecond t)) ++
  format_offset (utcoffset t).

(** ** JSON values and the objects the hook receives *)

Local Set Warnings "-register-all".

(** The objects [CustomJSONEncoder.default] tells apart; a model carries
    the result of its [to_json()] when it has a callable one, and its
    [str]. *)
Inductive enc_obj (J : Type) : Type :=
| EDate (d : date)
| EDateTime (d : date) (t : time)
| EDecimal (x : pydecimal)
| EModel (to_json : option J) (str_of : pystr)
| EOther (type_name : pystr).
Arguments EDate {J} d.
Arguments EDateTime {J} d t.
Arguments EDecimal {J} x.
Arguments EModel {J} to_json str_of.
Arguments EOther {J} type_name.

(** A value [json.dumps] is given: JSON data, or an object left to
    [default] (floats are not modelled). *)
Inductive json : Type :=
| JNull
| JBool (b : bool)
| JInt (z : Z)
| JStr (s : pystr)
| JList (l : list json)
| JDict (kvs : list (pystr * json))
| JObj (o : enc_obj json).

(** The result of [default]: a string, or the value [to_json()]
    returned, which [json] encodes in turn. *)
Inductive enc_out : Type :=
| OStr (s : pystr)
| OValue (v : json).

Inductive encode_error : Type :=
| TypeError (type_name : pystr).   (* [Object of type ... is not JSON serializable] *)

Module CustomJSONEncoder.

(** [DjangoJSONEncoder.default] on the objects the subclass passes on:
    the types it knows ([time], [timedelta], [UUID], lazy strings) are
    outside the model, so every other object raises [TypeError] as
    [JSONEncoder.default] does. *)
Definition django_default (type_name : pystr) : result encode_error enc_out :=
  Err (TypeError type_name).

(** [CustomJSONEncoder.default(obj)]; [datetime] is a subclass of
    [date], and both go through [isoformat]. *)
Definition default (obj : enc_obj json) : result encode_error enc_out :=
  match obj with
  | EDate d => Ok (OStr (date_isoformat d))
  | EDateTime d t => Ok (OStr (datetime_isoformat d t))
  | EDecimal x => Ok (OStr (encode_decimal x))
  | EModel (Some v) _ => Ok (OValue v)
  | EModel None s => Ok (OStr s)
  | EOther n => django_default n
  end.

End CustomJSONEncoder.

(** ** [json.dumps(obj, separators=(",", ":"), cls=CustomJSONEncoder)] *)

Definition hex_digit (d : N) : N := if d <? 10 then 48 + d else 87 + d.

(** ['{0:04x}'.format(n)] for [n < 0x10000]. *)
Definition hex4 (n : N) : pystr := map (fun k => hex_digit ((n / 16 ^ k) mod 16)) [3; 2; 1; 0].

(** One character through [ESCAPE_ASCII] (a backslash, a double quote,
    or a character outside space..tilde) and [ESCAPE_DCT]; a character
    outside the BMP becomes its surrogate pair. *)
Definition escape_ascii_char (c : N) : pystr :=
  if c =? 92 then [92; 92]
  else if c =? 34 then [92; 34]
  else if c =? 8 then [92; 98]
  else if c =? 12 then [92; 102]
  else if c =? 10 then [92; 110]
  else if c =? 13 then [92; 114]
  else if c =? 9 then [92; 116]
  else if (32 <=? c) && (c <=? 126) then [c]
  else if c <? 65536 then 92 :: 117 :: hex4 c
  else let n := c - 65536 in
       92 :: 117 :: hex4 (55296 + (n / 1024) mod 1024) ++ 92 :: 117 :: hex4 (56320 + n mod 1024).

(** [py_encode_basestring_ascii(s)]. *)
Definition encode_basestring_ascii (s : pystr) : pystr := [34] ++ (s ≫= escape_ascii_char) ++ [34].

(** The results of a list of computations, or the first error. *)
Fixpoint all_ok {E A} (l : list (result E A)) : result E (list A) :=
  match l with
  | [] => Ok []
  | r :: l => x <- r ;; xs <- all_ok l ;; Ok (x :: xs)
  end.

(** [int.__repr__]. *)
Definition int_repr (z : Z) : pystr := (if (z <? 0)%Z then [45] else []) ++ str_of_N (Z.abs_N z).

(** [_make_iterencode] with [item_separator=","], [key_separator=":"],
    no indent and insertion order, the chunks joined.  [fuel] bounds the
    nesting, the calls of [default] included; [None] is running out of
    it. *)
Fixpoint dumps (fuel : nat) (v : json) : option (result encode_error pystr) :=
  match fuel with
  | O => None
  | S fuel =>
    match v with
    | JNull => Some (Ok (u "null"))
    | JBool true => Some (Ok (u "true"))
    | JBool false => Some (Ok (u "false"))
    | JInt z => Some (Ok (int_repr z))
    | JStr s => Some (Ok (encode_basestring_ascii s))
    | JList l =>
      items ← mapM (dumps fuel) l;
      Some (items <- all_ok items ;; Ok ([91] ++ py_join [44] items ++ [93]))
    | JDict kvs =>
      items ← mapM (fun kv => (fun r => (kv.1, r)) <$> dumps fuel kv.2) kvs;
      Some (items <- all_ok (map (fun kr => s <- kr.2 ;; Ok (encode_basestring_ascii kr.1 ++ [58] ++ s)) items) ;;
            Ok ([123] ++ py_join [44] items ++ [125]))
    | JObj o =>
      match CustomJSONEncoder.default o with
      | Ok (OStr s) => Some (Ok (encode_basestring_ascii s))
      | Ok (OValue v') => dumps fuel v'
      | Err e => Some (Err e)
      end
    end
  end.

(** ** [CustomJSONSerializer] *)

(** [str.encode('utf8')] of one code point; a surrogate raises
    [UnicodeEncodeError]. *)
Definition utf8_encode_char (c : N) : option (list N) :=
  if c <? 128 then Some [c]
  else if c <? 2048 then Some [192 + c / 64; 128 + c mod 64]
  else if (55296 <=? c) && (c <=? 57343) then None
  else if c <? 65536 then Some [224 + c / 4096; 128 + (c / 64) mod 64; 128 + c mod 64]
  else Some [240 + c / 262144; 128 + (c / 4096) mod 64; 128 + (c / 64) mod 64; 128 + c mod 64].

Definition utf8_encode (s : pystr) : option (list N) := bs ← mapM utf8_encode_char s; Some (concat bs).

(** The nesting of a value: what [dumps] needs as fuel. *)
Fixpoint json_depth (v : json) : nat :=
  match v with
  | JList l => S (list_max (map json_depth l))
  | JDict kvs => S (list_max (map (fun kv => json_depth kv.2) kvs))
  | JObj (EModel (Some v) _) => S (json_depth v)
  | _ => 1
  end.

Inductive serializer_error : Type :=
| EncodeError (e : encode_error)
| UnicodeEncodeError
| RecursionError.

Module CustomJSONSerializer.

(** [json.dumps(obj, separators=(",", ":"), cls=CustomJSONEncoder).encode("utf8")]:
    the bytes; [RecursionError] when the nesting exceeds the fuel, which
    [json_depth] makes enough. *)
Definition dumps (v : json) : result serializer_error (list N) :=
  match dumps (json_depth v) v with
  | Some (Ok s) => match utf8_encode s with Some b => Ok b | None => Err UnicodeEncodeError end
  | Some (Err e) => Err (EncodeError e)
  | None => Err RecursionError
  end.

End CustomJSONSerializer.

(** ** Induction on JSON values *)

Section json_ind.
Variable P : json -> Prop.
Hypothesis HNull : P JNull.
Hypothesis HBool : forall b, P (JBool b).
Hypothesis HInt : forall z, P (JInt z).
Hypothesis HStr : forall s, P (JStr s).
Hypothesis HList : forall l, Forall P l -> P (JList l).
Hypothesis HDict : forall kvs, Forall (fun kv => P kv.2) kvs -> P (JDict kvs).
Hypothesis HModel : forall v s, P v -> P (JObj (EModel (Some v) s)).
Hypothesis HObj : forall o : enc_obj json, (forall v s, o <> EModel (Some v) s) -> P (JObj o).

Fixpoint json_ind' (v : json) : P v :=
  match v with
  | JNull => HNull
  | JBool b => HBool b
  | JInt z => HInt z
  | JStr s => HStr s
  | JList l => HList l ((fix go l : Forall P l :=
      match l with [] => @List.Forall_nil _ P | x :: l' => @List.Forall_cons _ P x l' (json_ind' x) (go l') end) l)
  | JDict kvs => HDict kvs ((fix go kvs : Forall (fun kv => P kv.2) kvs :=
      match kvs with [] => @List.Forall_nil _ _ | kv :: kvs' => @List.Forall_cons _ (fun kv => P kv.2) kv kvs' (json_ind' kv.2) (go kvs') end) kvs)
  | JObj (EModel (Some v) s) => HModel v s (json_ind' v)
  | JObj (EModel None s) => HObj (EModel None s) ltac:(intros ???; discriminate)
  | JObj (EDate d) => HObj (EDate d) ltac:(intros ???; discriminate)
  | JObj (EDateTime d t) => HObj (EDateTime d t) ltac:(intros ???; discriminate)
  | JObj (EDecimal x) => HObj (EDecimal x) ltac:(intros ???; discriminate)
  | JObj (EOther n) => HObj (EOther n) ltac:(intros ???; discriminate)
  end.
End json_ind.

(** ** Lemmas on [format(d, 'f')] and [rstrip] *)

Lemma py_rstrip_snoc_in chars s c :
  existsb (N.eqb c) chars = true -> py_rstrip_chars chars (s ++ [c]) = py_rstrip_chars chars s.
Proof. intros Hc. unfold py_rstrip_chars. rewrite rev_app_distr. cbn. by rewrite Hc. Qed.

Lemma py_rstrip_snoc_notin chars s c :
  existsb (N.eqb c) chars = false -> py_rstrip_chars chars (s ++ [c]) = s ++ [c].
Proof. intros Hc. unfold py_rstrip_chars. rewrite rev_app_distr. cbn. rewrite Hc. cbn. by rewrite rev_involutive. Qed.

(** The last character of [str(n)] is the digit [n % 10]. *)
Lemma str_of_N_last n : exists pre, str_of_N n = pre ++ [digit_char (n mod 10)].
Proof.
  unfold str_of_N. rewrite str_of_N_aux_S. destruct (n <? 10); [by exists []|].
  rewrite str_of_N_aux_acc. by eexists.
Qed.

Lemma format_f_int s c : format_f (Finite s c 0) = sign_str s ++ str_of_N c.
Proof.
  destruct (str_of_N_digits c) as [_ Hne]. cbn [format_f].
  rewrite andb_false_r, Z.add_0_l.
  replace (Z.of_nat (length (str_of_N c)) <? 0)%Z with false by (symmetry; apply Z.ltb_ge; lia).
  rewrite Z.ltb_irrefl, Nat2Z.id, firstn_all, drop_all.
  rewrite app_nil_r. by destruct (str_of_N c).
Qed.

(** With a negative exponent the text ends with the last digit of the
    coefficient. *)
Lemma format_f_frac s c e : (e < 0)%Z -> exists pre, format_f (Finite s c e) = pre ++ [digit_char (c mod 10)].
Proof.
  intros He. destruct (str_of_N_last c) as [ds Hds]. cbn [format_f].
  replace ((c =? 0) && (0 <? e)%Z) with false by (symmetry; apply andb_false_iff; right; apply Z.ltb_ge; lia).
  rewrite Hds. set (d := digit_char (c mod 10)).
  rewrite length_app. cbn [length]. destruct (Z.ltb_spec (e + Z.of_nat (length ds + 1)) 0).
  - exists (sign_str s ++ [48; 46] ++ replicate (Z.to_nat (- (e + Z.of_nat (length ds + 1)))) 48 ++ ds).
    rewrite (app_assoc (replicate _ _) ds [d]). generalize (replicate (Z.to_nat (- (e + Z.of_nat (length ds + 1)))) 48 ++ ds) as L.
    intros [|x L]; cbn [app]; by rewrite <- !app_assoc.
  - rewrite (proj2 (Z.ltb_ge _ _)) by lia.
    rewrite drop_app_le by lia.
    exists (sign_str s ++ match take (Z.to_nat (e + Z.of_nat (length ds + 1))) (ds ++ [d]) with [] => [48] | ip => ip end
            ++ [46] ++ drop (Z.to_nat (e + Z.of_nat (length ds + 1))) ds).
    generalize (drop (Z.to_nat (e + Z.of_nat (length ds + 1))) ds) as L.
    intros [|x L]; cbn [app]; by rewrite <- !app_assoc.
Qed.

Lemma digit_char_not_sep d : d < 10 -> existsb (N.eqb (digit_char d)) [46] = false.
Proof. intros Hd. cbn. rewrite orb_false_r. apply N.eqb_neq. unfold digit_char. lia. Qed.

(** ** Lemmas on [dumps] *)

(** Text of printable ASCII characters, space to tilde. *)
Local Abbreviation printable := (Forall (fun c : N => 32 <= c <= 126)).
(** Text of code points below 128. *)
Local Abbreviation ascii := (Forall (fun c : N => c < 128)).
(** A literal of printable characters. *)
Local Ltac printable_lit := repeat (apply Forall_cons; split; [lia|]); constructor.

Lemma mapM_fuel {A B} (d : A -> nat) (g : nat -> A -> option B) l :
  Forall (fun x => exists r, forall f, (d x <= f)%nat -> g f x = Some r) l ->
  exists rs, forall f, (list_max (map d l) <= f)%nat -> mapM (g f) l = Some rs.
Proof.
  induction 1 as [|x l [r Hr] _ [rs Hrs]]; [by exists []|].
  exists (r :: rs). intros f Hf. cbn in Hf. apply Nat.max_lub_iff in Hf as [H1 H2].
  cbn. by rewrite (Hr f H1), (Hrs f H2).
Qed.

Lemma all_ok_cons {E A} (r : result E A) l xs :
  all_ok (r :: l) = Ok xs -> exists x xs', r = Ok x /\ all_ok l = Ok xs' /\ xs = x :: xs'.
Proof.
  cbn. intros (x & -> & (xs' & Hl & [= <-])%result_bind_ok)%result_bind_ok. by exists x, xs'.
Qed.

Lemma decimal_printable c : is_decimal c = true -> 32 <= c <= 126.
Proof. unfold is_decimal, in_range. intros [?%N.leb_le ?%N.leb_le]%andb_true_iff. lia. Qed.

Lemma hex_digit_printable n : 32 <= hex_digit (n mod 16) <= 126.
Proof.
  pose proof (N.mod_lt n 16 ltac:(lia)). unfold hex_digit.
  generalize dependent (n mod 16). intros d Hd. destruct (N.ltb_spec d 10); lia.
Qed.

Lemma escape_ascii_char_printable c : printable (escape_ascii_char c).
Proof.
  unfold escape_ascii_char.
  repeat match goal with |- context [if ?b then _ else _] => destruct b eqn:? end;
    repeat (apply Forall_cons; split); auto using hex_digit_printable; try lia.
  match goal with H : (32 <=? c) && (c <=? 126) = true |- _ => apply andb_true_iff in H as [?%N.leb_le ?%N.leb_le] end. lia.
Qed.

Lemma encode_basestring_ascii_printable s : printable (encode_basestring_ascii s).
Proof.
  unfold encode_basestring_ascii. rewrite !Forall_app. repeat split; [by printable_lit| |by printable_lit].
  apply Forall_bind, Forall_forall. intros c _. apply escape_ascii_char_printable.
Qed.

Lemma int_repr_printable z : printable (int_repr z).
Proof.
  unfold int_repr. apply Forall_app. split; [destruct (z <? 0)%Z; printable_lit|].
  eapply Forall_impl; [apply str_of_N_digits|]. apply decimal_printable.
Qed.

Lemma py_join_printable sep l : printable sep -> Forall printable l -> printable (py_join sep l).
Proof.
  intros Hsep Hl. destruct Hl as [|x l Hx Hl]; [constructor|]. cbn. apply Forall_app. split; [done|].
  apply Forall_bind. eapply Forall_impl; [exact Hl|]. intros y Hy. by apply Forall_app.
Qed.

Lemma list_items_printable f l rs xs :
  Forall (fun v => forall f s, dumps f v = Some (Ok s) -> printable s) l ->
  mapM (dumps f) l = Some rs -> all_ok rs = Ok xs -> Forall printable xs.
Proof.
  intros Hl. revert rs xs. induction Hl as [|v l Hv _ IH]; intros rs xs Hm Ha.
  - cbn in Hm. injection Hm as <-. cbn in Ha. by injection Ha as <-.
  - cbn in Hm. destruct (dumps f v) as [r|] eqn:Ev; [|done]. cbn in Hm.
    destruct (mapM (dumps f) l) as [rs'|] eqn:El; [|done]. injection Hm as <-.
    apply all_ok_cons in Ha as (x & xs' & -> & Ha & ->). constructor; [by eapply Hv|]. by eapply IH.
Qed.

Lemma dict_items_printable f kvs rs xs :
  Forall (fun kv => forall f s, dumps f kv.2 = Some (Ok s) -> printable s) kvs ->
  mapM (fun kv => (fun r => (kv.1, r)) <$> dumps f kv.2) kvs = Some rs ->
  all_ok (map (fun kr => s <- kr.2 ;; Ok (encode_basestring_ascii kr.1 ++ [58] ++ s)) rs) = Ok xs ->
  Forall printable xs.
Proof.
  intros Hl. revert rs xs. induction Hl as [|[k v] l Hv _ IH]; intros rs xs Hm Ha.
  - cbn in Hm. injection Hm as <-. cbn in Ha. by injection Ha as <-.
  - cbn in Hm. destruct (dumps f v) as [r|] eqn:Ev; [|done]. cbn in Hm.
    destruct (mapM _ l) as [rs'|] eqn:El; [|done]. injection Hm as <-.
    apply all_ok_cons in Ha as (x & xs' & Hx & Ha & ->). cbv beta in Hx. cbn [fst snd] in Hx.
    apply result_bind_ok in Hx as (s & -> & Hx).
    assert (x = encode_basestring_ascii k ++ [58] ++ s) as -> by congruence.
    constructor; [|by eapply IH]. rewrite !Forall_app.
    split; [apply encode_basestring_ascii_printable|]. split; [by printable_lit|]. by eapply Hv.
Qed.

Lemma dumps_printable v fuel s : dumps fuel v = Some (Ok s) -> printable s.
Proof.
  revert fuel s. induction v as [| b | z | s | l IH | kvs IH | v s IH | o Ho] using json_ind';
    intros [|f] out H; try discriminate; cbn [dumps] in H.
  - injection H as <-. by apply (bool_decide_unpack _).
  - destruct b; injection H as <-; by apply (bool_decide_unpack _).
  - injection H as <-. apply int_repr_printable.
  - injection H as <-. apply encode_basestring_ascii_printable.
  - destruct (mapM (dumps f) l) as [rs|] eqn:Hm; [|done]. cbn in H. injection H as H.
    apply result_bind_ok in H as (xs & Hxs & H). assert (out = 91 :: py_join [44] xs ++ [93]) as -> by congruence.
    constructor; [lia|]. rewrite Forall_app. split; [|by printable_lit].
    apply py_join_printable; [by printable_lit|]. by eapply list_items_printable.
  - destruct (mapM _ kvs) as [rs|] eqn:Hm; [|done]. cbn in H. injection H as H.
    apply result_bind_ok in H as (xs & Hxs & H). assert (out = 123 :: py_join [44] xs ++ [125]) as -> by congruence.
    constructor; [lia|]. rewrite Forall_app. split; [|by printable_lit].
    apply py_join_printable; [by printable_lit|]. by eapply dict_items_printable.
  - by apply (IH f).
  - destruct o as [d|d t|x|[v|] s|n]; [| | |by destruct (Ho v s)| |]; cbn in H; try discriminate;
      injection H as <-; apply encode_basestring_ascii_printable.
Qed.

(** Fuel at least the nesting of the value gives [dumps] one result. *)
Lemma dumps_fuel_result v : exists r, forall fuel, (json_depth v <= fuel)%nat -> dumps fuel v = Some r.
Proof.
  induction v as [| b | z | s | l IH | kvs IH | v s [r IH] | o Ho] using json_ind';
    try (eexists; intros [|f] Hf; [cbn in Hf; lia|reflexivity]).
  - destruct b; eexists; intros [|f] Hf; [cbn in Hf; lia|reflexivity|cbn in Hf; lia|reflexivity].
  - destruct (mapM_fuel json_depth dumps l IH) as [rs Hrs]. eexists. intros [|f] Hf; cbn in Hf; [lia|].
    cbn [dumps]. rewrite Hrs by lia. reflexivity.
  - destruct (mapM_fuel (fun kv => json_depth kv.2) (fun f kv => (fun r => (kv.1, r)) <$> dumps f kv.2) kvs)
      as [rs Hrs].
    { eapply Forall_impl; [exact IH|]. intros [k v] [r Hr]. exists (k, r). intros f Hf. cbn. by rewrite Hr. }
    eexists. intros [|f] Hf; cbn in Hf; [lia|]. cbn [dumps]. rewrite Hrs by lia. reflexivity.
  - exists r. intros [|f] Hf; cbn in Hf; [lia|]. cbn [dumps CustomJSONEncoder.default]. apply IH. lia.
  - destruct o as [d|d t|x|[v|] s|n]; [| | |by destruct (Ho v s)| |];
      eexists; intros [|f] Hf; cbn in Hf; try lia; reflexivity.
Qed.

Lemma utf8_encode_ascii s : ascii s -> utf8_encode s = Some s.
Proof.
  intros Hs. unfold utf8_encode. rewrite (mapM_Some_2 _ s (map (fun c => [c]) s)).
  - cbn. f_equal. induction s as [|c s IH]; [done|]. cbn. f_equal. apply IH. by inv Hs.
  - induction Hs as [|c s Hc _ IH]; constructor; [|done]. unfold utf8_encode_char.
    by rewrite (proj2 (N.ltb_lt c 128) Hc).
Qed.

(** ** Theorems *)

(** [json.dumps] terminates on every value: with the nesting of the
    value as fuel it computes a result, a text or the [TypeError] of an
    object the hook does not know, and more fuel gives the same result. *)
Theorem dumps_terminates v :
  dumps (json_depth v) v <> None /\ forall fuel, (json_depth v <= fuel)%nat -> dumps fuel v = dumps (json_depth v) v.
Proof.
  destruct (dumps_fuel_result v) as [r Hr]. rewrite (Hr _ (le_n _)).
  split; [done|]. intros f Hf. by apply Hr.
Qed.

(** The text [json.dumps] produces with [ensure_ascii] holds only
    code points below 128, whatever the strings in the data. *)
Theorem dumps_ascii v fuel s : dumps fuel v = Some (Ok s) -> Forall (fun c => c < 128) s.
Proof. intros H. eapply Forall_impl; [exact (dumps_printable v fuel s H)|]. cbv beta. lia. Qed.

(** [CustomJSONSerializer.dumps] never raises [RecursionError] or
    [UnicodeEncodeError]: it returns the bytes of the text [json.dumps]
    produces, one byte per code point, all below 128, or the
    [TypeError] of an object the hook does not know. *)
Theorem serializer_dumps_total v :
  match dumps (json_depth v) v with
  | Some (Ok s) => CustomJSONSerializer.dumps v = Ok s /\ Forall (fun c => c < 128) s
  | Some (Err e) => CustomJSONSerializer.dumps v = Err (EncodeError e)
  | None => False
  end.
Proof.
  destruct (dumps_fuel_result v) as [r Hr]. specialize (Hr (json_depth v) (le_n _)).
  unfold CustomJSONSerializer.dumps. rewrite Hr. destruct r as [s|e]; [|done].
  assert (ascii s) by (eapply Forall_impl; [exact (dumps_printable v _ s Hr)|]; cbv beta; lia).
  by rewrite utf8_encode_ascii.
Qed.

(** C27: A [Decimal] with an integral value loses its trailing zeros:
    [10 * c] and [c] are encoded alike, so [Decimal('100')],
    [Decimal('10')] and [Decimal('1')] all become ["1"]. *)
Theorem decimal_trailing_zero_lost s c :
  encode_decimal (Finite s (10 * c) 0) = encode_decimal (Finite s c 0).
Proof.
  unfold encode_decimal. rewrite !format_f_int.
  destruct (N.eq_dec c 0) as [->|Hc]; [done|].
  rewrite str_of_N_mul10 by lia. rewrite app_assoc, py_rstrip_snoc_in; done.
Qed.

(** A [Decimal] with a negative exponent whose last digit is not zero
    is encoded as [format(d, 'f')]: the [rstrip] calls leave it
    unchanged. *)
Theorem encode_decimal_fraction s c e :
  (e < 0)%Z -> c mod 10 <> 0 -> encode_decimal (Finite s c e) = format_f (Finite s c e).
Proof.
  intros He Hc. destruct (format_f_frac s c e He) as [pre Hpre].
  pose proof (N.mod_lt c 10 ltac:(lia)) as Hlt.
  unfold encode_decimal. rewrite Hpre, !py_rstrip_snoc_notin; [done| |].
  - by apply digit_char_not_sep.
  - cbn. rewrite orb_false_r. apply N.eqb_neq. unfold digit_char. lia.
Qed.

(** The encodings of some [Decimal]s: zero becomes the empty string
    and negative zero ["-"], while [0.00] becomes ["0"]; [1E+2] becomes
    ["1"] and [2.50] ["2.5"]. *)
Example decimal_encodings :
  encode_decimal (Finite false 0 0) = [] /\
  encode_decimal (Finite true 0 0) = u "-" /\
  encode_decimal (Finite false 0 (-2)) = u "0" /\
  encode_decimal (Finite false 1 2) = u "1" /\
  encode_decimal (Finite false 250 (-2)) = u "2.5".
Proof. repeat split; vm_compute; reflexivity. Qed.

(** Text written with single quotes for the double quotes of JSON. *)
Local Abbreviation dq s := (map (fun c => if c =? 39 then 34 else c) (u s)).

(** Session data with a [Decimal] and a date is written as strings
    (the amount without its zeros), and an object the hook does not know
    makes [dumps] raise [TypeError]. *)
Example session_dumps :
  CustomJSONSerializer.dumps (JDict [(u "total", JObj (EDecimal (Finite false 100 0)));
                                     (u "due", JObj (EDate (Date 2024 2 29)));
                                     (u "tags", JList [JStr (u "é"); JInt (-3)])]) =
    Ok (dq "{'total':'1','due':'2024-02-29','tags':['\u00e9',-3]}") /\
  CustomJSONSerializer.dumps (JList [JInt 1; JObj (EOther (u "set"))]) = Err (EncodeError (TypeError (u "set"))).
Proof. split; vm_compute; reflexivity. Qed.

Lemma decimal_trailing_zero_lost_witness :
  encode_decimal (Finite false 10 0) = encode_decimal (Finite false 1 0).
Proof. exact (decimal_trailing_zero_lost false 1). Defined.

Lemma encode_decimal_fraction_witness :
  ((-2) < 0)%Z /\ 125 mod 10 <> 0 /\ encode_decimal (Finite false 125 (-2)) = format_f (Finite false 125 (-2)).
Proof. split; [lia|]. split; [vm_compute; discriminate|]. apply encode_decimal_fraction; [lia|vm_compute; discriminate]. Defined.

Lemma dumps_ascii_witness :
  dumps 3 (JList [JStr (u "é")]) = Some (Ok (dq "['\u00e9']")) /\ Forall (fun c => c < 128) (dq "['\u00e9']").
Proof.
  assert (H : dumps 3 (JList [JStr (u "é")]) = Some (Ok (dq "['\u00e9']"))) by (vm_compute; reflexivity).
  split; [exact H|]. exact (dumps_ascii _ _ _ H).
Defined.
