(* ===== verification/JSONDecoder.v ===== *)
(** * [CustomJSONSerializer.loads] ([src/serializers.py] lines 45-48)

    [loads(data)] is [json.loads(data)]: the bytes are decoded with the
    encoding [json.detect_encoding] finds, then [JSONDecoder.decode]
    skips white space, scans one value with the C scanner of
    [Modules/_json.c] ([scan_once_unicode], [scanstring_unicode],
    [_parse_array_unicode], [_parse_object_unicode],
    [_match_number_unicode]) and rejects what follows but white space.

    The scanner works on the remaining text (a suffix of the input)
    rather than on indices, and error messages are kept without their
    positions.  Floats ([1.5], [1e3], [NaN], [Infinity]) are not
    modelled: the scanner stops with [FloatNotModelled] where Python
    would build a [float].  Of the decoders [detect_encoding] can pick,
    UTF-8 (with [surrogatepass]) is modelled; the UTF-16 and UTF-32 ones
    end with [EncodingNotModelled].  Nesting is bounded by a fuel, the
    length of the text, which each level consumes at least one character
    of. *)

From S2P Require Import Prelude PyStr Strptime JSONEncoder.
From Stdlib Require Import ZArith.
From Stdlib Require String.
Import String.StringSyntax.

Local Open Scope string_scope.
Local Open Scope N_scope.

Inductive decode_error : Type :=
| ExpectingValue
| ExpectingDelimiter (c : N)           (* [','] or [':'] *)
| ExpectingPropertyName
| UnterminatedString
| InvalidControlCharacter
| InvalidEscape
| InvalidUEscape
| ExtraData
| FloatNotModelled
| OutOfFuel
| UnicodeDecodeError
| EncodingNotModelled.

(** ** Characters *)

(** [IS_WHITESPACE]: space, tab, newline, carriage return. *)
Definition is_ws (c : N) : bool := (c =? 32) || (c =? 9) || (c =? 10) || (c =? 13).

Definition skip_ws (s : pystr) : pystr := lstrip_by is_ws s.

Definition hex_value (c : N) : option N :=
  if (48 <=? c) && (c <=? 57) then Some (c - 48)
  else if (97 <=? c) && (c <=? 102) then Some (c - 87)
  else if (65 <=? c) && (c <=? 70) then Some (c - 55)
  else None.

(** Four hexadecimal digits. *)
Definition hex4_value (a b c d : N) : option N :=
  a' ← hex_value a; b' ← hex_value b; c' ← hex_value c; d' ← hex_value d;
  Some (((a' * 16 + b') * 16 + c') * 16 + d').

Definition is_high_surrogate (c : N) : bool := (55296 <=? c) && (c <=? 56319).
Definition is_low_surrogate (c : N) : bool := (56320 <=? c) && (c <=? 57343).

(** [Py_UNICODE_JOIN_SURROGATES]. *)
Definition join_surrogates (hi lo : N) : N := 65536 + (hi - 55296) * 1024 + (lo - 56320).

(** The simple escapes after a backslash. *)
Definition simple_escape (c : N) : option N :=
  if c =? 34 then Some 34
  else if c =? 92 then Some 92
  else if c =? 47 then Some 47
  else if c =? 98 then Some 8
  else if c =? 102 then Some 12
  else if c =? 110 then Some 10
  else if c =? 114 then Some 13
  else if c =? 116 then Some 9
  else None.

(** The text after [\u]: the code point and the text after it.  At least
    one character must follow the four digits ([end >= len] raises); a
    high surrogate followed by [\u] and at least seven characters reads
    a second escape, which must be four hexadecimal digits, and joins
    the pair when it is a low surrogate. *)
Definition u_escape (t : pystr) : result decode_error (N * pystr) :=
  match t with
  | a :: b :: c :: d :: ((_ :: _) as r) =>
    match hex4_value a b c d with
    | None => Err InvalidUEscape
    | Some cp =>
      if is_high_surrogate cp && bool_decide (7 <= length r)%nat then
        match r with
        | x :: y :: a2 :: b2 :: c2 :: d2 :: r2 =>
          if (x =? 92) && (y =? 117) then
            match hex4_value a2 b2 c2 d2 with
            | None => Err InvalidUEscape
            | Some lo => if is_low_surrogate lo then Ok (join_surrogates cp lo, r2) else Ok (cp, r)
            end
          else Ok (cp, r)
        | _ => Ok (cp, r)
        end
      else Ok (cp, r)
    end
  | _ => Err InvalidUEscape
  end.

(** [scanstring_unicode] after the opening quote: the string and the
    text after the closing quote.  [fuel] is the length of the text. *)
Fixpoint scanstring (fuel : nat) (s : pystr) (acc : pystr) : result decode_error (pystr * pystr) :=
  match fuel with
  | O => Err OutOfFuel
  | S fuel =>
    match s with
    | [] => Err UnterminatedString
    | c :: s' =>
      if c =? 34 then Ok (rev acc, s')
      else if c =? 92 then
        match s' with
        | [] => Err UnterminatedString
        | e :: s'' =>
          if e =? 117 then
            match u_escape s'' with
            | Ok (cp, r) => scanstring fuel r (cp :: acc)
            | Err err => Err err
            end
          else match simple_escape e with
               | Some x => scanstring fuel s'' (x :: acc)
               | None => Err InvalidEscape
               end
        end
      else if c <=? 31 then Err InvalidControlCharacter
      else scanstring fuel s' (c :: acc)
    end
  end.

(** ** Numbers *)

Definition is_digit (c : N) : bool := (48 <=? c) && (c <=? 57).

(** The exponent of [_match_number_unicode] after [e] or [E]: it makes
    a float only when at least one digit follows the optional sign. *)
Definition has_exponent (r : pystr) : bool :=
  match r with
  | s :: d :: _ => if (s =? 43) || (s =? 45) then is_digit d else is_digit s
  | [d] => is_digit d
  | [] => false
  end.

(** The integer part [_match_number_unicode] takes: a single [0], or a
    digit from [1] to [9] and the digits after it. *)
Definition int_part (s1 : pystr) : option pystr :=
  match s1 with
  | c :: _ =>
    if c =? 48 then Some [48]
    else if (49 <=? c) && (c <=? 57) then Some (take_while is_digit s1) else None
  | [] => None
  end.

(** A fraction ([.] and a digit) or an exponent follows the integer
    part: the number is a float. *)
Definition float_follows (rest : pystr) : bool :=
  match rest with c :: d :: _ => (c =? 46) && is_digit d | _ => false end ||
  match rest with e :: r => ((e =? 101) || (e =? 69)) && has_exponent r | [] => false end.

(** [_match_number_unicode]: an integer, or [FloatNotModelled] when a
    fraction or an exponent follows; [ExpectingValue] is the
    [StopIteration] of a text that starts no number. *)
Definition match_number (s : pystr) : result decode_error (json * pystr) :=
  let '(neg, s1) := match s with c :: r => if c =? 45 then (true, r) else (false, s) | [] => (false, s) end in
  match int_part s1 with
  | None => Err ExpectingValue
  | Some ds =>
    let rest := drop (length ds) s1 in
    if float_follows rest then Err FloatNotModelled
    else Ok (JInt ((if neg then Z.opp else id) (Z.of_N (py_int ds))), rest)
  end.

(** ** Values *)

(** The elements of an array after the first: each is scanned by
    [pv], followed by [']'] or [','] (white space skipped around). *)
Fixpoint array_items (fuel : nat) (pv : pystr -> result decode_error (json * pystr)) (s : pystr)
    (acc : list json) : result decode_error (json * pystr) :=
  match fuel with
  | O => Err OutOfFuel
  | S fuel =>
    match pv s with
    | Err e => Err e
    | Ok (v, r) =>
      match skip_ws r with
      | 93 :: r' => Ok (JList (rev (v :: acc)), r')
      | 44 :: r' => array_items fuel pv (skip_ws r') (v :: acc)
      | _ => Err (ExpectingDelimiter 44)
      end
    end
  end.

(** The members of an object: a quoted key, [':'], a value, then
    ['}'] or [',']; [PyDict_SetItem] keeps the first position of a key
    and its last value. *)
Fixpoint object_members (fuel : nat) (pv : pystr -> result decode_error (json * pystr)) (s : pystr)
    (acc : list (pystr * json)) : result decode_error (json * pystr) :=
  match fuel with
  | O => Err OutOfFuel
  | S fuel =>
    match s with
    | 34 :: r =>
      match scanstring (length r) r [] with
      | Err e => Err e
      | Ok (key, r1) =>
        match skip_ws r1 with
        | 58 :: r2 =>
          match pv (skip_ws r2) with
          | Err e => Err e
          | Ok (v, r3) =>
            let acc := kv_set key v acc in
            match skip_ws r3 with
            | 125 :: r4 => Ok (JDict acc, r4)
            | 44 :: r4 => object_members fuel pv (skip_ws r4) acc
            | _ => Err (ExpectingDelimiter 44)
            end
          end
        | _ => Err (ExpectingDelimiter 58)
        end
      end
    | _ => Err ExpectingPropertyName
    end
  end.

(** [scan_once_unicode]: one value at the start of the text; [depth]
    bounds the nesting. *)
Fixpoint scan_once (depth : nat) (s : pystr) : result decode_error (json * pystr) :=
  match depth with
  | O => Err OutOfFuel
  | S d =>
    match s with
    | [] => Err ExpectingValue
    | c :: r =>
      if c =? 34 then
        match scanstring (length r) r [] with Ok (str, r') => Ok (JStr str, r') | Err e => Err e end
      else if c =? 123 then
        let r' := skip_ws r in
        if startswith r' [125] then Ok (JDict [], drop 1 r')
        else object_members (length r') (scan_once d) r' []
      else if c =? 91 then
        let r' := skip_ws r in
        if startswith r' [93] then Ok (JList [], drop 1 r')
        else array_items (length r') (scan_once d) r' []
      else if startswith s (u "null") then Ok (JNull, drop 4 s)
      else if startswith s (u "true") then Ok (JBool true, drop 4 s)
      else if startswith s (u "false") then Ok (JBool false, drop 5 s)
      else if startswith s (u "NaN") || startswith s (u "Infinity") || startswith s (u "-Infinity")
      then Err FloatNotModelled
      else match_number s
    end
  end.

(** [JSONDecoder.decode(s)]. *)
Definition decode (s : pystr) : result decode_error json :=
  let s1 := skip_ws s in
  match scan_once (S (length s1)) s1 with
  | Err e => Err e
  | Ok (v, r) => match skip_ws r with [] => Ok v | _ => Err ExtraData end
  end.

(** ** Bytes *)

Inductive encoding : Type := UTF8 | UTF8Sig | UTF16 | UTF16BE | UTF16LE | UTF32 | UTF32BE | UTF32LE.

(** [json.detect_encoding(b)]: the byte order marks, then the
    positions of the zero bytes in the first four, or in the first two
    of a text of two bytes. *)
Definition detect_encoding (b : list N) : encoding :=
  if startswith b [0; 0; 254; 255] || startswith b [255; 254; 0; 0] then UTF32
  else if startswith b [254; 255] || startswith b [255; 254] then UTF16
  else if startswith b [239; 187; 191] then UTF8Sig
  else match b with
  | b0 :: b1 :: b2 :: b3 :: _ =>
    if b0 =? 0 then (if b1 =? 0 then UTF32BE else UTF16BE)
    else if b1 =? 0 then (if negb (b2 =? 0) || negb (b3 =? 0) then UTF16LE else UTF32LE)
    else UTF8
  | [b0; b1] => if b0 =? 0 then UTF16BE else if b1 =? 0 then UTF16LE else UTF8
  | _ => UTF8
  end.

Definition in_byte_range (lo hi b : N) : bool := (lo <=? b) && (b <=? hi).
Definition cont (b : N) : bool := in_byte_range 128 191 b.

(** [bytes.decode('utf-8', 'surrogatepass')]: the well-formed sequences
    of the UTF-8 decoder, and the three-byte encodings of surrogates
    that [surrogatepass] lets through. *)
Fixpoint utf8_decode_bytes (fuel : nat) (b : list N) : option pystr :=
  match fuel with
  | O => None
  | S fuel =>
    match b with
    | [] => Some []
    | b0 :: r =>
      if b0 <? 128 then (b0 ::.) <$> utf8_decode_bytes fuel r
      else if in_byte_range 194 223 b0 then
        match r with
        | b1 :: r' => if cont b1 then ((64 * (b0 - 192) + (b1 - 128)) ::.) <$> utf8_decode_bytes fuel r' else None
        | _ => None
        end
      else if in_byte_range 224 239 b0 then
        match r with
        | b1 :: b2 :: r' =>
          if (if b0 =? 224 then in_byte_range 160 191 b1 else cont b1) && cont b2 then
            ((4096 * (b0 - 224) + 64 * (b1 - 128) + (b2 - 128)) ::.) <$> utf8_decode_bytes fuel r'
          else None
        | _ => None
        end
      else if in_byte_range 240 244 b0 then
        match r with
        | b1 :: b2 :: b3 :: r' =>
          if (if b0 =? 240 then in_byte_range 144 191 b1 else if b0 =? 244 then in_byte_range 128 143 b1 else cont b1)
             && cont b2 && cont b3 then
            ((262144 * (b0 - 240) + 4096 * (b1 - 128) + 64 * (b2 - 128) + (b3 - 128)) ::.)
              <$> utf8_decode_bytes fuel r'
          else None
        | _ => None
        end
      else None
    end
  end.

Definition utf8_decode_surrogatepass (b : list N) : option pystr := utf8_decode_bytes (S (length b)) b.

(** [json.loads(b)] on bytes. *)
Definition loads (b : list N) : result decode_error json :=
  match detect_encoding b with
  | UTF8 => match utf8_decode_surrogatepass b with Some s => decode s | None => Err UnicodeDecodeError end
  | UTF8Sig => match utf8_decode_surrogatepass (drop 3 b) with Some s => decode s | None => Err UnicodeDecodeError end
  | _ => Err EncodingNotModelled
  end.

Module CustomJSONSerializer.

(** [loads(data)]: [json.loads(data)]. *)
Definition loads (data : list N) : result decode_error json := JSONDecoder.loads data.

End CustomJSONSerializer.

(** ** Data that reads back *)

(** A string whose code points are below [0x110000] and in which no high
    surrogate is followed by a low one: [json.dumps] writes such a
    string with escapes that [json.loads] reads back as the string. *)
Fixpoint str_ok (s : pystr) : bool :=
  match s with
  | [] => true
  | c :: s' =>
    (c <? 1114112) &&
    match s' with c' :: _ => negb (is_high_surrogate c && is_low_surrogate c') | [] => true end &&
    str_ok s'
  end.

(** The values [json.loads] can give: no objects for the hook, strings
    as above, and dict keys without duplicates. *)
Fixpoint json_data (v : json) : bool :=
  match v with
  | JNull | JBool _ | JInt _ => true
  | JStr s => str_ok s
  | JList l => forallb json_data l
  | JDict kvs => bool_decide (NoDup kvs.*1) && forallb (fun kv => str_ok kv.1 && json_data kv.2) kvs
  | JObj _ => false
  end.

(** What [json.dumps] writes after a value: nothing, a comma, or the end
    of the enclosing list or dict. *)
Definition follow_ok (r : pystr) : bool :=
  match r with [] => true | c :: _ => (c =? 44) || (c =? 93) || (c =? 125) end.

(** The text after a [\uXXXX] escape of a high surrogate does not
    start with a valid escape of a low one. *)
Definition u_follow_ok (t : pystr) : bool :=
  match t with
  | x :: y :: a :: b :: c :: d :: _ =>
    if (x =? 92) && (y =? 117) then
      match hex4_value a b c d with Some lo => negb (is_low_surrogate lo) | None => false end
    else true
  | _ => true
  end.

(** The first character of a value's text: not white space, and not
    the [']'] that would end a list. *)
Definition value_head (t : pystr) : bool :=
  match t with c :: _ => negb (is_ws c) && negb (c =? 93) | [] => false end.

(** What the scanner makes of the text [t] of [v]: it starts a value,
    holds at least one character per level of nesting, and
    [scan_once_unicode] with depth enough reads [v] from it, whatever
    may follow it in an enclosing text. *)
Definition reads_back (v : json) (t : pystr) : Prop :=
  value_head t = true /\ (json_depth v <= length t)%nat /\
  forall d r, (json_depth v <= d)%nat -> follow_ok r = true -> scan_once d (t ++ r) = Ok (v, r).

(** ** Reading back escapes *)

Lemma hex_value_digit d : d < 16 -> hex_value (hex_digit d) = Some d.
Proof.
  intros Hd. apply (forall_N_decide (fun d => hex_value (hex_digit d) = Some d) 0 15); [|lia].
  by vm_compute.
Qed.

Lemma hex4_split n : n < 65536 ->
  n = ((n / 4096 mod 16 * 16 + n / 256 mod 16) * 16 + n / 16 mod 16) * 16 + n mod 16.
Proof.
  intros Hn.
  assert (E2 : n / 256 = n / 16 / 16) by (rewrite N.Div0.div_div; done).
  assert (E3 : n / 4096 = n / 16 / 16 / 16) by (rewrite !N.Div0.div_div; done).
  rewrite E2, E3. rewrite (N.mod_small (n / 16 / 16 / 16)) by (rewrite !N.Div0.div_div; apply N.Div0.div_lt_upper_bound; lia).
  pose proof (N.div_mod n 16 ltac:(lia)). pose proof (N.div_mod (n / 16) 16 ltac:(lia)).
  pose proof (N.div_mod (n / 16 / 16) 16 ltac:(lia)). lia.
Qed.

(** The four digits of [hex4 n] read back as [n]. *)
Lemma hex4_read n r : n < 65536 ->
  exists a b c d, hex4 n ++ r = a :: b :: c :: d :: r /\ hex4_value a b c d = Some n.
Proof.
  intros Hn. eexists _, _, _, _. split; [reflexivity|]. cbn [N.pow Pos.pow Pos.iter Pos.mul].
  unfold hex4_value. rewrite !hex_value_digit by (apply N.mod_lt; lia). cbn.
  f_equal. rewrite N.div_1_r. symmetry. by apply hex4_split.
Qed.

Lemma u_follow_ok_head x t : x <> 92 -> u_follow_ok (x :: t) = true.
Proof.
  intros Hx. destruct t as [|y [|a [|b [|c [|d t]]]]]; try done. cbn [u_follow_ok].
  by rewrite (proj2 (N.eqb_neq x 92) Hx).
Qed.

Lemma u_follow_ok_second x y t : y <> 117 -> u_follow_ok (x :: y :: t) = true.
Proof.
  intros Hy. destruct t as [|a [|b [|c [|d t]]]]; try done. cbn [u_follow_ok].
  by rewrite (proj2 (N.eqb_neq y 117) Hy), andb_false_r.
Qed.

(** A [\uXXXX] escape of a code point of the BMP reads back as it, unless
    it is a high surrogate and a low one follows. *)
Lemma u_escape_bmp c r :
  c < 65536 -> r <> [] -> is_high_surrogate c = false \/ u_follow_ok r = true ->
  u_escape (hex4 c ++ r) = Ok (c, r).
Proof.
  intros Hc Hr Hf. destruct (hex4_read c r Hc) as (a & b & c' & d & -> & Hv).
  destruct r as [|x r]; [done|]. cbn [u_escape]. rewrite Hv.
  destruct (is_high_surrogate c) eqn:Eh; [|done]. destruct Hf as [Hf|Hf]; [discriminate|].
  destruct (bool_decide _); [|done]. cbn [andb].
  destruct r as [|y [|a2 [|b2 [|c2 [|d2 r2]]]]]; try done. cbn [u_follow_ok] in Hf.
  destruct ((x =? 92) && (y =? 117)); [|done].
  destruct (hex4_value a2 b2 c2 d2) as [lo|]; [|done]. by destruct (is_low_surrogate lo).
Qed.

(** The surrogate pair [py_encode_basestring_ascii] writes for a code
    point outside the BMP. *)
Lemma surrogate_pair c : 65536 <= c < 1114112 ->
  55296 + ((c - 65536) / 1024) mod 1024 < 65536 /\ is_high_surrogate (55296 + ((c - 65536) / 1024) mod 1024) = true /\
  56320 + (c - 65536) mod 1024 < 65536 /\ is_low_surrogate (56320 + (c - 65536) mod 1024) = true /\
  join_surrogates (55296 + ((c - 65536) / 1024) mod 1024) (56320 + (c - 65536) mod 1024) = c.
Proof.
  intros Hc. remember (c - 65536) as n eqn:En. unfold is_high_surrogate, is_low_surrogate, join_surrogates.
  pose proof (N.mod_lt (n / 1024) 1024 ltac:(lia)). pose proof (N.mod_lt n 1024 ltac:(lia)).
  assert (n / 1024 < 1024) by (apply N.Div0.div_lt_upper_bound; clear -Hc En; lia).
  rewrite (N.mod_small (n / 1024)) in * by done. pose proof (N.div_mod n 1024 ltac:(lia)).
  set (q := n / 1024) in *. set (r := n mod 1024) in *. clearbody q r.
  repeat split; try (apply andb_true_iff; split; apply N.leb_le); lia.
Qed.

Lemma u_escape_pair c r : 65536 <= c < 1114112 -> r <> [] ->
  u_escape (hex4 (55296 + ((c - 65536) / 1024) mod 1024) ++ 92 :: 117 :: hex4 (56320 + (c - 65536) mod 1024) ++ r) = Ok (c, r).
Proof.
  intros Hc Hr. destruct (surrogate_pair c Hc) as (Hh1 & Hh2 & Hl1 & Hl2 & Hj).
  destruct (hex4_read _ (92 :: 117 :: hex4 (56320 + (c - 65536) mod 1024) ++ r) Hh1) as (a & b & c' & d & -> & Hv).
  destruct (hex4_read _ r Hl1) as (a2 & b2 & c2 & d2 & E & Hv2). rewrite E.
  cbn [u_escape]. rewrite Hv, Hh2, bool_decide_true by (destruct r; cbn [length]; [done|lia]).
  cbn [andb N.eqb Pos.eqb]. rewrite Hv2, Hl2. by rewrite Hj.
Qed.

(** [scanstring_unicode] reads the escape [py_encode_basestring_ascii]
    writes for one code point back as the code point. *)
Lemma scanstring_escape f c T acc :
  c < 1114112 -> T <> [] -> is_high_surrogate c = false \/ u_follow_ok T = true ->
  scanstring (S f) (escape_ascii_char c ++ T) acc = scanstring f T (c :: acc).
Proof.
  intros Hc HT Hf. unfold escape_ascii_char.
  destruct (N.eqb_spec c 92) as [->|]; [done|]. destruct (N.eqb_spec c 34) as [->|]; [done|].
  destruct (N.eqb_spec c 8) as [->|]; [done|]. destruct (N.eqb_spec c 12) as [->|]; [done|].
  destruct (N.eqb_spec c 10) as [->|]; [done|]. destruct (N.eqb_spec c 13) as [->|]; [done|].
  destruct (N.eqb_spec c 9) as [->|]; [done|].
  destruct ((32 <=? c) && (c <=? 126)) eqn:Ep.
  - apply andb_true_iff in Ep as [Ep%N.leb_le _]. cbn [app scanstring].
    rewrite (proj2 (N.eqb_neq c 34)), (proj2 (N.eqb_neq c 92)), (proj2 (N.leb_gt c 31)) by lia. done.
  - destruct (N.ltb_spec c 65536).
    + cbn [app scanstring N.eqb Pos.eqb]. by rewrite u_escape_bmp.
    + cbv zeta. cbn [app scanstring N.eqb Pos.eqb]. rewrite <- app_assoc. cbn [app].
      by rewrite u_escape_pair by first [lia | done].
Qed.

Lemma high_not_low c : is_high_surrogate c = true -> is_low_surrogate c = false.
Proof.
  unfold is_high_surrogate, is_low_surrogate. intros [_ H%N.leb_le]%andb_true_iff.
  apply andb_false_iff. left. apply N.leb_gt. lia.
Qed.

(** The escape of a code point that is not a low surrogate does not
    start with the escape of one. *)
Lemma u_follow_escape c T :
  c < 1114112 -> is_low_surrogate c = false -> u_follow_ok (escape_ascii_char c ++ T) = true.
Proof.
  intros Hc Hl. unfold escape_ascii_char.
  destruct (N.eqb_spec c 92) as [->|]; [by apply u_follow_ok_second|].
  destruct (N.eqb_spec c 34) as [->|]; [by apply u_follow_ok_second|].
  destruct (N.eqb_spec c 8) as [->|]; [by apply u_follow_ok_second|].
  destruct (N.eqb_spec c 12) as [->|]; [by apply u_follow_ok_second|].
  destruct (N.eqb_spec c 10) as [->|]; [by apply u_follow_ok_second|].
  destruct (N.eqb_spec c 13) as [->|]; [by apply u_follow_ok_second|].
  destruct (N.eqb_spec c 9) as [->|]; [by apply u_follow_ok_second|].
  destruct ((32 <=? c) && (c <=? 126)); [by apply u_follow_ok_head|].
  destruct (N.ltb_spec c 65536).
  - destruct (hex4_read c T) as (a & b & c' & d & E & Hv); [done|].
    cbn [app]. rewrite E. cbn [u_follow_ok andb N.eqb Pos.eqb]. by rewrite Hv, Hl.
  - destruct (surrogate_pair c) as (Hh1 & Hh2 & _); [lia|].
    destruct (hex4_read _ (92 :: 117 :: hex4 (56320 + (c - 65536) mod 1024) ++ T) Hh1) as (a & b & c' & d & E & Hv).
    cbv zeta. cbn [app]. rewrite <- app_assoc. cbn [app]. rewrite E.
    cbn [u_follow_ok andb N.eqb Pos.eqb]. by rewrite Hv, high_not_low.
Qed.

Lemma str_ok_cons c s : str_ok (c :: s) = true ->
  c < 1114112 /\ str_ok s = true /\
  (match s with c' :: _ => is_high_surrogate c = true -> is_low_surrogate c' = false | [] => True end).
Proof.
  cbn [str_ok]. intros [[Hc Hn]%andb_true_iff Hs]%andb_true_iff. apply N.ltb_lt in Hc.
  split; [done|]. split; [done|]. destruct s as [|c' s]; [done|]. intros Hh.
  rewrite Hh in Hn. by destruct (is_low_surrogate c').
Qed.

Lemma escaped_cons c s T : ((c :: s) ≫= escape_ascii_char) ++ T = escape_ascii_char c ++ ((s ≫= escape_ascii_char) ++ T).
Proof. by rewrite bind_cons, <- app_assoc. Qed.

(** [scanstring_unicode] reads the body of [py_encode_basestring_ascii(s)]
    back as [s], and stops after its closing quote. *)
Lemma scanstring_str s rest acc f : str_ok s = true -> (length s < f)%nat ->
  scanstring f ((s ≫= escape_ascii_char) ++ 34 :: rest) acc = Ok (rev acc ++ s, rest).
Proof.
  revert acc f. induction s as [|c s IH]; intros acc [|f] Hs Hf; cbn [length] in Hf; try lia.
  - cbn. by rewrite app_nil_r.
  - apply str_ok_cons in Hs as (Hc & Hs & Hn). rewrite escaped_cons, scanstring_escape; [| done | | ].
    + rewrite IH by (done || lia). cbn [rev]. by rewrite <- app_assoc.
    + by intros []%app_eq_nil.
    + destruct (is_high_surrogate c) eqn:Eh; [right|by left]. destruct s as [|c' s].
      * by apply u_follow_ok_head.
      * rewrite escaped_cons. apply u_follow_escape; [|by apply Hn].
        by apply str_ok_cons in Hs as [? _].
Qed.

(** ** Reading back numbers *)

Lemma follow_ok_cases r : follow_ok r = true -> r = [] \/ exists c r', r = c :: r' /\ (c = 44 \/ c = 93 \/ c = 125).
Proof.
  destruct r as [|c r]; [by left|]. cbn. intros H. right. exists c, r. split; [done|].
  repeat (apply orb_true_iff in H as [H|H]); apply N.eqb_eq in H; auto.
Qed.

Lemma follow_ok_not_digit r : follow_ok r = true -> match r with c :: _ => is_digit c = false | [] => True end.
Proof. intros [->|(c & r' & -> & [->|[->| ->]])]%follow_ok_cases; done. Qed.

(** After a number and what may follow it, [_match_number_unicode] finds
    neither a fraction nor an exponent. *)
Lemma follow_ok_no_float r : follow_ok r = true -> float_follows r = false.
Proof. intros [->|(c & r' & -> & [->|[->| ->]])]%follow_ok_cases; [done| | |]; by destruct r'. Qed.

(** The digits of [str(n)] are the integer part [_match_number_unicode]
    takes. *)
Lemma match_digits n r : follow_ok r = true -> int_part (str_of_N n ++ r) = Some (str_of_N n).
Proof.
  intros Hr. destruct (N.eq_dec n 0) as [->|Hn]; [done|].
  destruct (str_of_N_head n) as (c & t & E & Hc); [lia|]. rewrite E. unfold int_part. cbn [app].
  rewrite (proj2 (N.eqb_neq c 48)) by lia.
  replace ((49 <=? c) && (c <=? 57)) with true by (symmetry; apply andb_true_iff; split; apply N.leb_le; lia).
  f_equal. apply (take_while_app is_digit (c :: t) r); [|by apply follow_ok_not_digit].
  rewrite <- E. exact (proj1 (str_of_N_digits n)).
Qed.

Lemma str_of_N_not_minus n : exists c t, str_of_N n = c :: t /\ c <> 45.
Proof.
  destruct (str_of_N_digits n) as [Hd Hne]. destruct (str_of_N n) as [|c t]; [done|].
  exists c, t. split; [done|]. apply Forall_cons in Hd as [Hc _].
  unfold is_decimal, in_range in Hc. apply andb_true_iff in Hc as [Hc%N.leb_le _]. lia.
Qed.

(** [_match_number_unicode] reads [int.__repr__(z)] back as [z]. *)
Lemma match_number_int z r : follow_ok r = true -> match_number (int_repr z ++ r) = Ok (JInt z, r).
Proof.
  intros Hr. unfold int_repr, match_number. destruct (Z.ltb_spec z 0).
  - cbn [app N.eqb Pos.eqb]. rewrite match_digits, drop_app_length, follow_ok_no_float by done.
    rewrite py_int_str_of_N. cbn. f_equal. f_equal. f_equal. rewrite N2Z.inj_abs_N. lia.
  - cbn [app]. destruct (str_of_N_not_minus (Z.abs_N z)) as (c & t & E & Hc).
    rewrite E. cbn [app]. rewrite (proj2 (N.eqb_neq c 45) Hc). change (c :: t ++ r) with ((c :: t) ++ r). rewrite <- E.
    rewrite match_digits, drop_app_length, follow_ok_no_float by done.
    rewrite py_int_str_of_N. cbn. f_equal. f_equal. f_equal. rewrite N2Z.inj_abs_N. lia.
Qed.

(** ** Reading back lists and dicts *)

Lemma skip_ws_value t r : value_head t = true -> skip_ws (t ++ r) = t ++ r.
Proof.
  destruct t as [|c t]; [done|]. cbn [value_head]. intros [Hc _]%andb_true_iff. apply negb_true_iff in Hc.
  unfold skip_ws. by apply lstrip_by_stop.
Qed.

Lemma value_head_not_close t r : value_head t = true -> startswith (t ++ r) [93] = false.
Proof.
  destruct t as [|c t]; [done|]. cbn [value_head]. intros [_ Hc]%andb_true_iff. apply negb_true_iff in Hc.
  unfold startswith. cbn [is_prefix app]. by rewrite N.eqb_sym, Hc.
Qed.

Lemma py_join_cons2 sep x y l : py_join sep (x :: y :: l) = x ++ sep ++ py_join sep (y :: l).
Proof. cbn [py_join]. by rewrite bind_cons, <- !app_assoc. Qed.

Lemma py_join_head sep t ts : value_head t = true -> value_head (py_join sep (t :: ts)) = true.
Proof. destruct t; [done|]. done. Qed.

Lemma bind_sep_elem_length (sep t : pystr) ts : t ∈ ts -> (length t <= length (ts ≫= fun y => sep ++ y))%nat.
Proof.
  induction ts as [|y ts IH]; [by intros ?%elem_of_nil|]. rewrite bind_cons, !length_app.
  intros [->|Ht]%elem_of_cons; [lia|]. specialize (IH Ht). lia.
Qed.

(** Each item of [sep.join(items)] is at most as long as it. *)
Lemma py_join_elem_length sep ts t : t ∈ ts -> (length t <= length (py_join sep ts))%nat.
Proof.
  destruct ts as [|t0 ts]; [by intros ?%elem_of_nil|]. cbn [py_join]. rewrite length_app.
  intros [->|Ht]%elem_of_cons; [lia|]. pose proof (bind_sep_elem_length sep t ts Ht). lia.
Qed.

(** [sep.join(items)] of non-empty items has at least as many characters
    as items. *)
Lemma py_join_length sep ts : Forall (fun t => t <> []) ts -> (length ts <= length (py_join sep ts))%nat.
Proof.
  intros Hts. destruct Hts as [|t0 ts H0 Hts]; [done|]. cbn [py_join length]. rewrite length_app.
  destruct t0 as [|c0 t0]; [done|]. cbn [length].
  enough (length ts <= length (ts ≫= fun y => sep ++ y))%nat by lia.
  induction Hts as [|y ts Hy _ IH]; [done|]. rewrite bind_cons, !length_app.
  destruct y; [done|]. cbn [length]. lia.
Qed.

Lemma py_join_single sep t : py_join sep [t] = t.
Proof. apply app_nil_r. Qed.

Lemma skip_ws_stop c s : is_ws c = false -> skip_ws (c :: s) = c :: s.
Proof. apply lstrip_by_stop. Qed.

(** [_parse_array_unicode] after the first element's start: the texts of
    the elements, joined by commas and closed by [']'], read back as the
    elements. *)
Lemma array_items_ok pv fuel l ts r acc :
  Forall2 (fun v t => value_head t = true /\ forall r, follow_ok r = true -> pv (t ++ r) = Ok (v, r)) l ts ->
  ts <> [] -> (length ts <= fuel)%nat ->
  array_items fuel pv (py_join [44] ts ++ 93 :: r) acc = Ok (JList (rev acc ++ l), r).
Proof.
  intros Hl. revert fuel acc. induction Hl as [|v t l ts [Hh Hv] Hl IH]; intros fuel acc Hne Hf; [done|].
  destruct fuel as [|fuel]; [cbn in Hf; lia|]. destruct ts as [|t2 ts].
  - inversion Hl; subst. rewrite py_join_single. cbn [array_items]. rewrite Hv by done.
    rewrite skip_ws_stop by done. done.
  - rewrite py_join_cons2, <- !app_assoc. cbn [array_items app]. rewrite Hv by done.
    rewrite skip_ws_stop by done. cbn iota.
    inversion Hl as [|v2 t2' l2 ts2 [Hh2 _] _]; subst.
    rewrite skip_ws_value by (by apply py_join_head). rewrite IH by (done || (cbn in Hf |- *; lia)).
    cbn [rev]. by rewrite <- app_assoc.
Qed.

Lemma enc_app k R : encode_basestring_ascii k ++ R = 34 :: ((k ≫= escape_ascii_char) ++ 34 :: R).
Proof. unfold encode_basestring_ascii. cbn [app]. by rewrite <- app_assoc. Qed.

Lemma escaped_length s : (length s <= length (s ≫= escape_ascii_char))%nat.
Proof.
  induction s as [|c s IH]; [done|]. rewrite bind_cons, length_app. cbn [length].
  enough (1 <= length (escape_ascii_char c))%nat by lia.
  unfold escape_ascii_char. repeat (case_match; [cbn; lia|]). destruct (c <? 65536); cbn; lia.
Qed.

(** The key of a member read back: [scanstring_unicode] after the
    opening quote of [py_encode_basestring_ascii(k)]. *)
Lemma scanstring_key k R : str_ok k = true ->
  scanstring (length ((k ≫= escape_ascii_char) ++ 34 :: R)) ((k ≫= escape_ascii_char) ++ 34 :: R) [] = Ok (k, R).
Proof.
  intros Hk. rewrite scanstring_str; [done|done|]. pose proof (escaped_length k).
  rewrite length_app. cbn [length]. lia.
Qed.

Lemma nodup_snoc_keys {A} (acc : list (pystr * A)) k v ks :
  NoDup (acc.*1 ++ k :: ks) -> (k ∉ acc.*1) /\ NoDup ((acc ++ [(k, v)]).*1 ++ ks).
Proof.
  intros Hnd. rewrite fmap_app, <- app_assoc. cbn. split; [|done].
  apply NoDup_app in Hnd as (_ & Hd & _). intros Hk. apply (Hd k Hk). constructor.
Qed.

(** [_parse_object_unicode] after the opening brace: the members
    [py_encode_basestring_ascii(k) + ':' + text], joined by commas and
    closed by ['}'], read back as the pairs, in order, when the keys are
    distinct. *)
Lemma object_members_ok pv fuel kvs xs r acc :
  Forall2 (fun kv x => str_ok kv.1 = true /\ exists tv, x = encode_basestring_ascii kv.1 ++ [58] ++ tv /\
             value_head tv = true /\ forall r, follow_ok r = true -> pv (tv ++ r) = Ok (kv.2, r)) kvs xs ->
  xs <> [] -> NoDup (acc.*1 ++ kvs.*1) -> (length xs <= fuel)%nat ->
  object_members fuel pv (py_join [44] xs ++ 125 :: r) acc = Ok (JDict (acc ++ kvs), r).
Proof.
  intros Hl. revert fuel acc.
  induction Hl as [|[k v] x kvs xs [Hk (tv & -> & Hh & Hv)] Hl IH]; intros fuel acc Hne Hnd Hf; [done|].
  destruct fuel as [|fuel]; [cbn in Hf; lia|]. cbn [fmap list_fmap fst] in Hnd.
  destruct (nodup_snoc_keys acc k v _ Hnd) as [Hacc Hnd'].
  destruct xs as [|x2 xs].
  - inversion Hl; subst. rewrite py_join_single, <- !app_assoc, enc_app. cbn [object_members].
    rewrite scanstring_key by done. cbn [app]. rewrite skip_ws_stop by done. cbn iota.
    rewrite skip_ws_value, Hv by done. rewrite skip_ws_stop by done. cbn iota.
    by rewrite kv_set_absent.
  - rewrite py_join_cons2, <- !app_assoc, enc_app. cbn [object_members].
    rewrite scanstring_key by done. cbn [app]. rewrite skip_ws_stop by done. cbn iota.
    rewrite skip_ws_value, Hv by done. rewrite skip_ws_stop by done. cbn iota.
    apply Forall2_cons_inv_r in Hl as Hl2. destruct Hl2 as (kv2 & kvs2 & [_ (tv2 & Ex2 & _)] & _ & ->).
    assert (value_head x2 = true) by (rewrite Ex2; reflexivity).
    rewrite kv_set_absent by done. rewrite skip_ws_value by (by apply py_join_head).
    rewrite IH by (done || (cbn in Hf |- *; lia)). by rewrite <- app_assoc.
Qed.

(** ** Reading back values *)

Lemma scan_once_literals d r :
  scan_once (S d) (u "null" ++ r) = Ok (JNull, r) /\
  scan_once (S d) (u "true" ++ r) = Ok (JBool true, r) /\
  scan_once (S d) (u "false" ++ r) = Ok (JBool false, r).
Proof. repeat split; reflexivity. Qed.

Local Ltac digit_cases c :=
  assert (c = 48 \/ c = 49 \/ c = 50 \/ c = 51 \/ c = 52 \/ c = 53 \/ c = 54 \/ c = 55 \/ c = 56 \/ c = 57)
    by lia; destruct_or!; subst.

(** A text that starts with a digit, or with [-] and a digit, is a
    number for [scan_once_unicode]: no literal starts so. *)
Lemma scan_once_digit d c s : 48 <= c <= 57 -> scan_once (S d) (c :: s) = match_number (c :: s).
Proof. intros Hc. digit_cases c; reflexivity. Qed.

Lemma scan_once_minus d c s : 48 <= c <= 57 -> scan_once (S d) (45 :: c :: s) = match_number (45 :: c :: s).
Proof. intros Hc. digit_cases c; reflexivity. Qed.

Lemma str_of_N_cons n : exists c t, str_of_N n = c :: t /\ 48 <= c <= 57.
Proof.
  destruct (str_of_N_digits n) as [Hd Hne]. destruct (str_of_N n) as [|c t]; [done|].
  exists c, t. split; [done|]. apply Forall_cons in Hd as [Hc _].
  unfold is_decimal, in_range in Hc. apply andb_true_iff in Hc as [?%N.leb_le ?%N.leb_le]. lia.
Qed.

(** [scan_once_unicode] reads [int.__repr__(z)] back. *)
Lemma scan_once_int d z r : follow_ok r = true -> scan_once (S d) (int_repr z ++ r) = Ok (JInt z, r).
Proof.
  intros Hr. rewrite <- (match_number_int z r Hr). destruct (str_of_N_cons (Z.abs_N z)) as (c & t & E & Hc).
  unfold int_repr. rewrite E. destruct (z <? 0)%Z; cbn [app].
  - by apply scan_once_minus.
  - by apply scan_once_digit.
Qed.

Lemma value_head_int z : value_head (int_repr z) = true.
Proof.
  destruct (str_of_N_cons (Z.abs_N z)) as (c & t & E & Hc). unfold int_repr. rewrite E.
  destruct (z <? 0)%Z; [done|]. cbn [app]. digit_cases c; reflexivity.
Qed.

Lemma all_ok_Forall2 {E A} (rs : list (result E A)) xs : all_ok rs = Ok xs -> Forall2 (fun r x => r = Ok x) rs xs.
Proof.
  revert xs. induction rs as [|r rs IH]; intros xs H.
  - cbn in H. injection H as <-. constructor.
  - apply all_ok_cons in H as (x & xs' & -> & H & ->). constructor; auto.
Qed.

Lemma all_ok_map_Forall2 {E A B} (h : A -> result E B) items xs :
  all_ok (map h items) = Ok xs -> Forall2 (fun it x => h it = Ok x) items xs.
Proof.
  intros H. apply all_ok_Forall2 in H. revert xs H. induction items as [|it items IH]; intros xs H;
    inversion H; subst; constructor; auto.
Qed.

(** The text [json.dumps] writes for a list: the texts of its elements,
    joined by commas, in brackets. *)
Lemma dumps_list f l t : dumps (S f) (JList l) = Some (Ok t) ->
  exists ts, Forall2 (fun v t => dumps f v = Some (Ok t)) l ts /\ t = [91] ++ py_join [44] ts ++ [93].
Proof.
  cbn [dumps]. destruct (mapM (dumps f) l) as [rs|] eqn:E; [|done]. cbn. intros [= H].
  apply result_bind_ok in H as (ts & Hts & [= <-]). exists ts. split; [|done].
  apply mapM_Some_1 in E. apply all_ok_Forall2 in Hts.
  eapply Forall2_trans; [|exact E|exact Hts]. intros v r x -> ->. done.
Qed.

(** The text [json.dumps] writes for a dict: the members
    [key:text], joined by commas, in braces. *)
Lemma dumps_dict f kvs t : dumps (S f) (JDict kvs) = Some (Ok t) ->
  exists xs, Forall2 (fun kv x => exists tv, dumps f kv.2 = Some (Ok tv) /\
                                   x = encode_basestring_ascii kv.1 ++ [58] ++ tv) kvs xs /\
             t = [123] ++ py_join [44] xs ++ [125].
Proof.
  cbn [dumps]. destruct (mapM _ kvs) as [items|] eqn:E; [|done]. cbn. intros [= H].
  apply result_bind_ok in H as (xs & Hxs & [= <-]). exists xs. split; [|done].
  apply mapM_Some_1 in E. apply all_ok_map_Forall2 in Hxs.
  eapply Forall2_trans; [|exact E|exact Hxs]. intros [k v] [k' r] x Hd Hx. cbn in Hd, Hx |- *.
  destruct (dumps f v) as [r'|] eqn:Ev; [|done]. injection Hd as -> <-.
  apply result_bind_ok in Hx as (tv & -> & [= <-]). by exists tv.
Qed.

Lemma Forall2_nonempty {A} (R : A -> pystr -> Prop) l ts :
  (forall v t, R v t -> t <> []) -> Forall2 R l ts -> Forall (fun t => t <> []) ts.
Proof. intros HR. induction 1; constructor; eauto. Qed.

Lemma scan_once_list d l ts r :
  Forall2 (fun v t => value_head t = true /\ forall r, follow_ok r = true -> scan_once d (t ++ r) = Ok (v, r)) l ts ->
  scan_once (S d) (([91] ++ py_join [44] ts ++ [93]) ++ r) = Ok (JList l, r).
Proof.
  intros Hl. rewrite <- !app_assoc. cbn [app].
  destruct ts as [|t ts]; [inversion Hl; subst; reflexivity|].
  pose proof (Forall2_length _ _ _ Hl) as Hlen.
  apply Forall2_cons_inv_r in Hl as Hl2. destruct Hl2 as (v & l' & [Hh _] & _ & ->).
  cbn [scan_once N.eqb Pos.eqb]. cbv zeta.
  rewrite skip_ws_value, value_head_not_close by (by apply py_join_head).
  rewrite (array_items_ok _ _ (v :: l') (t :: ts)); [done|done|done|]. rewrite length_app.
  enough (length (t :: ts) <= length (py_join [44%N] (t :: ts)))%nat by lia.
  apply py_join_length. eapply Forall2_nonempty; [|exact Hl]. intros ? [|] [? _]; done.
Qed.

Lemma scan_once_dict d kvs xs r :
  Forall2 (fun kv x => str_ok kv.1 = true /\ exists tv, x = encode_basestring_ascii kv.1 ++ [58] ++ tv /\
             value_head tv = true /\ forall r, follow_ok r = true -> scan_once d (tv ++ r) = Ok (kv.2, r)) kvs xs ->
  NoDup kvs.*1 ->
  scan_once (S d) (([123] ++ py_join [44] xs ++ [125]) ++ r) = Ok (JDict kvs, r).
Proof.
  intros Hl Hnd. rewrite <- !app_assoc. cbn [app].
  destruct xs as [|x xs]; [inversion Hl; subst; reflexivity|].
  pose proof (Forall2_length _ _ _ Hl) as Hlen.
  apply Forall2_cons_inv_r in Hl as Hl2. destruct Hl2 as ([k v] & kvs' & [_ (tv & Ex & _)] & _ & ->).
  assert (HX : exists X, py_join [44] (x :: xs) ++ 125 :: r = 34 :: X).
  { rewrite Ex. cbn [py_join]. rewrite enc_app. eexists. rewrite <- !app_assoc. reflexivity. }
  destruct HX as [X HX]. cbn [scan_once N.eqb Pos.eqb]. cbv zeta. rewrite HX.
  rewrite skip_ws_stop by done. cbn [startswith is_prefix N.eqb Pos.eqb andb].
  rewrite <- HX. rewrite (object_members_ok _ _ ((k, v) :: kvs') (x :: xs) r []); [done|done|done|done|].
  rewrite length_app.
  enough (length (x :: xs) <= length (py_join [44%N] (x :: xs)))%nat by lia.
  apply py_join_length. eapply Forall2_nonempty; [|exact Hl].
  intros ? ? [_ (tv' & -> & _)]. by rewrite enc_app.
Qed.

Lemma Forall2_list_max {A} (dep : A -> nat) l (ts : list pystr) n :
  Forall2 (fun v t => (dep v <= length t)%nat) l ts -> Forall (fun t => (length t <= n)%nat) ts ->
  (list_max (map dep l) <= n)%nat.
Proof.
  induction 1 as [|v t l ts Hv _ IH]; [cbn; lia|]. intros [Ht Hts]%Forall_cons.
  cbn [map list_max]. apply Nat.max_lub; [lia|]. by apply IH.
Qed.

Lemma py_join_bound sep ts : Forall (fun t => (length t <= length (py_join sep ts))%nat) ts.
Proof. apply Forall_forall. intros t Ht. by apply py_join_elem_length. Qed.

Lemma Forall_Forall2_l {A B} (P : A -> Prop) (Q : A -> B -> Prop) l k :
  Forall P l -> Forall2 Q l k -> Forall2 (fun a b => P a /\ Q a b) l k.
Proof. intros HP HQ. induction HQ as [|a b l k Hab _ IH]; inversion HP; subst; constructor; auto. Qed.

Lemma value_head_length t : value_head t = true -> (1 <= length t)%nat.
Proof. destruct t; cbn; [done|lia]. Qed.

Lemma reads_back_list l ts :
  Forall2 reads_back l ts -> reads_back (JList l) ([91] ++ py_join [44] ts ++ [93]).
Proof.
  intros Hl. split; [done|]. split.
  - cbn [json_depth length]. rewrite !length_app. cbn [length].
    enough (list_max (map json_depth l) <= length (py_join [44%N] ts))%nat by lia.
    apply (Forall2_list_max _ _ ts); [|apply py_join_bound].
    eapply Forall2_impl; [exact Hl|]. by intros v t (_ & ? & _).
  - intros [|d] r Hd Hr; [cbn in Hd; lia|]. apply scan_once_list.
    cbn [json_depth] in Hd. apply Nat.succ_le_mono, list_max_le in Hd. rewrite List.Forall_map in Hd.
    eapply Forall2_impl; [exact (Forall_Forall2_l _ _ _ _ Hd Hl)|].
    intros v t (Hv & Hh & _ & Hs). split; [done|]. intros r' Hr'. by apply Hs.
Qed.

Lemma reads_back_dict kvs xs :
  Forall2 (fun kv x => str_ok kv.1 = true /\ exists tv, x = encode_basestring_ascii kv.1 ++ [58] ++ tv /\
                                                  reads_back kv.2 tv) kvs xs ->
  NoDup kvs.*1 -> reads_back (JDict kvs) ([123] ++ py_join [44] xs ++ [125]).
Proof.
  intros Hl Hnd. split; [done|]. split.
  - cbn [json_depth length]. rewrite !length_app. cbn [length].
    enough (list_max (map (fun kv => json_depth kv.2) kvs) <= length (py_join [44%N] xs))%nat by lia.
    apply (Forall2_list_max _ _ xs); [|apply py_join_bound].
    eapply Forall2_impl; [exact Hl|]. intros kv x (_ & tv & -> & _ & Hd & _). rewrite !length_app. lia.
  - intros [|d] r Hd Hr; [cbn in Hd; lia|]. apply scan_once_dict; [|done].
    cbn [json_depth] in Hd. apply Nat.succ_le_mono, list_max_le in Hd. rewrite List.Forall_map in Hd.
    eapply Forall2_impl; [exact (Forall_Forall2_l _ _ _ _ Hd Hl)|].
    intros kv x (Hv & Hk & tv & -> & Hh & _ & Hs). split; [done|]. exists tv.
    split; [done|]. split; [done|]. intros r' Hr'. by apply Hs.
Qed.

(** Every text [json.dumps] writes for a value [json.loads] can give is
    read back as the value by [scan_once_unicode]. *)
Lemma dumps_reads_back v : json_data v = true -> forall f t, dumps f v = Some (Ok t) -> reads_back v t.
Proof.
  induction v as [| b | z | s | l IH | kvs IH | v s' _ | o _] using json_ind';
    intros Hdata [|f] t Ht; try discriminate; [cbn [dumps] in Ht..| | | |].
  - injection Ht as <-. split; [done|]. split; [vm_compute; lia|].
    intros [|d] r Hd Hr; [cbn in Hd; lia|]. apply scan_once_literals.
  - destruct b; injection Ht as <-; (split; [done|]); (split; [vm_compute; lia|]);
      intros [|d] r Hd Hr; (try (cbn in Hd; lia)); apply scan_once_literals.
  - injection Ht as <-. split; [apply value_head_int|]. split; [apply value_head_length, value_head_int|].
    intros [|d] r Hd Hr; [cbn in Hd; lia|]. by apply scan_once_int.
  - injection Ht as <-. split; [done|]. split; [unfold encode_basestring_ascii; rewrite !length_app; cbn; lia|].
    intros [|d] r Hd Hr; [cbn in Hd; lia|]. rewrite enc_app. cbn [scan_once N.eqb Pos.eqb].
    by rewrite scanstring_key.
  - apply dumps_list in Ht as (ts & Hts & ->). apply reads_back_list. cbn [json_data] in Hdata.
    assert (Hd : Forall (fun v => json_data v = true) l).
    { apply List.Forall_forall. intros x Hx. by apply (proj1 (forallb_forall _ _) Hdata). }
    eapply Forall2_impl; [exact (Forall_Forall2_l _ _ _ _ (proj2 (Forall_and _ _) (conj Hd IH)) Hts)|].
    intros v t' [[Hv IHv] Ht']. by apply (IHv Hv f).
  - apply dumps_dict in Ht as (xs & Hxs & ->). cbn [json_data] in Hdata.
    apply andb_true_iff in Hdata as [Hnd%bool_decide_eq_true Hall]. apply reads_back_dict; [|done].
    assert (Hd : Forall (fun kv => str_ok kv.1 && json_data kv.2 = true) kvs).
    { apply List.Forall_forall. intros x Hx. by apply (proj1 (forallb_forall _ _) Hall). }
    eapply Forall2_impl; [exact (Forall_Forall2_l _ _ _ _ (proj2 (Forall_and _ _) (conj Hd IH)) Hxs)|].
    intros kv x [[[Hk Hv]%andb_true_iff IHv] (tv & Htv & ->)]. split; [done|].
    exists tv. split; [done|]. by apply (IHv Hv f).
Qed.

(** ** [json.dumps] does not fail on data *)

Lemma all_ok_err {E A} (rs : list (result E A)) e : all_ok rs = Err e -> Err e ∈ rs.
Proof.
  induction rs as [|r rs IH]; [done|]. cbn. destruct r as [x|e']; cbn.
  - destruct (all_ok rs) as [xs|e'']; cbn; [done|]. intros [= ->]. right. by apply IH.
  - intros [= ->]. left.
Qed.

Lemma Forall2_elem_r {A B} (R : A -> B -> Prop) l k y : Forall2 R l k -> y ∈ k -> exists x, x ∈ l /\ R x y.
Proof.
  induction 1 as [|x y' l k Hxy _ IH]; [by intros ?%elem_of_nil|].
  intros [->|Hy]%elem_of_cons; [exists x; split; [left|done]|].
  destruct (IH Hy) as (x' & Hx' & Hr). exists x'. split; [by right|done].
Qed.

(** [json.dumps] raises nothing on a value [json.loads] can give: the
    hook is never called. *)
Lemma dumps_data_no_err v : json_data v = true -> forall f e, dumps f v <> Some (Err e).
Proof.
  induction v as [| b | z | s | l IH | kvs IH | v s' _ | o _] using json_ind';
    intros Hdata [|f] e; try discriminate; [destruct b; discriminate| | ].
  - cbn [dumps]. destruct (mapM (dumps f) l) as [rs|] eqn:E; [|done]. cbn. intros [= H].
    destruct (all_ok rs) as [ts|e'] eqn:Ea; [done|]. injection H as ->. apply all_ok_err in Ea.
    apply mapM_Some_1 in E. destruct (Forall2_elem_r _ _ _ _ E Ea) as (x & Hx & Hd).
    rewrite List.Forall_forall in IH. apply list_elem_of_In in Hx.
    cbn [json_data] in Hdata. exact (IH x Hx (proj1 (forallb_forall _ _) Hdata x Hx) f e Hd).
  - cbn [dumps]. destruct (mapM _ kvs) as [items|] eqn:E; [|done]. cbn. intros [= H].
    destruct (all_ok _) as [xs|e'] eqn:Ea; [done|]. injection H as ->. apply all_ok_err in Ea.
    apply list_elem_of_In, in_map_iff in Ea as ([k r] & Hh & Hin). apply list_elem_of_In in Hin.
    apply mapM_Some_1 in E. destruct (Forall2_elem_r _ _ _ _ E Hin) as ([k' v] & Hx & Hd).
    cbn in Hd, Hh. destruct r as [t|e'']; [done|]. injection Hh as ->.
    destruct (dumps f v) as [r'|] eqn:Ev; [|done]. injection Hd as -> ->.
    rewrite List.Forall_forall in IH. apply list_elem_of_In in Hx.
    cbn [json_data] in Hdata. apply andb_true_iff in Hdata as [_ Hall].
    pose proof (proj1 (forallb_forall _ _) Hall _ Hx) as [_ Hv]%andb_true_iff.
    exact (IH _ Hx Hv f e Ev).
Qed.

(** ** Bytes *)

Lemma detect_encoding_printable b : Forall (fun c => 32 <= c <= 126) b -> detect_encoding b = UTF8.
Proof.
  intros Hb. destruct b as [|b0 b]; [done|].
  repeat match goal with H : Forall _ (_ :: _) |- _ => apply Forall_cons in H as [? ?] end.
  unfold detect_encoding, startswith. cbn [is_prefix].
  destruct b as [|b1 [|b2 [|b3 b]]];
    repeat match goal with H : Forall _ (_ :: _) |- _ => apply Forall_cons in H as [? ?] end;
    repeat match goal with |- context [?x =? ?y] => rewrite (proj2 (N.eqb_neq x y)) by lia end; done.
Qed.

Lemma utf8_decode_bytes_ascii f b : (length b < f)%nat -> Forall (fun c => c < 128) b -> utf8_decode_bytes f b = Some b.
Proof.
  revert f. induction b as [|c b IH]; intros [|f] Hf Hb; cbn [length] in Hf; try lia; [done|].
  apply Forall_cons in Hb as [Hc Hb]. cbn [utf8_decode_bytes]. rewrite (proj2 (N.ltb_lt c 128) Hc).
  rewrite IH by (done || lia). done.
Qed.

(** [JSONDecoder.decode] reads a value back from its text. *)
Lemma decode_reads_back v t : reads_back v t -> decode t = Ok v.
Proof.
  intros (Hh & Hd & Hs). unfold decode.
  assert (E : skip_ws t = t) by (pose proof (skip_ws_value t [] Hh) as E; by rewrite app_nil_r in E).
  rewrite E. pose proof (Hs (S (length t)) [] ltac:(lia) eq_refl) as Hv. rewrite app_nil_r in Hv.
  by rewrite Hv.
Qed.

(** The bytes [CustomJSONSerializer.dumps] writes for a value
    [json.loads] can give. *)
Lemma serializer_dumps_data v : json_data v = true ->
  exists t, JSONEncoder.CustomJSONSerializer.dumps v = Ok t /\ reads_back v t /\
            Forall (fun c => 32 <= c <= 126) t.
Proof.
  intros Hv. destruct (dumps_fuel_result v) as [r Hr]. specialize (Hr _ (le_n _)).
  destruct r as [t|e]; [|by destruct (dumps_data_no_err v Hv _ e Hr)].
  pose proof (dumps_printable v _ t Hr) as Hp. exists t. split; [|split; [by eapply dumps_reads_back|done]].
  unfold JSONEncoder.CustomJSONSerializer.dumps. rewrite Hr, utf8_encode_ascii; [done|].
  eapply Forall_impl; [exact Hp|]. cbv beta. lia.
Qed.

(** [loads] of printable bytes that read back as [v] gives [v]. *)
Lemma loads_reads_back v t :
  reads_back v t -> Forall (fun c => 32 <= c <= 126) t -> CustomJSONSerializer.loads t = Ok v.
Proof.
  intros Hr Hp. unfold CustomJSONSerializer.loads, loads. rewrite detect_encoding_printable by done.
  unfold utf8_decode_surrogatepass. rewrite utf8_decode_bytes_ascii; [|lia|].
  - by apply decode_reads_back.
  - eapply Forall_impl; [exact Hp|]. cbv beta. lia.
Qed.

(** The escape of a code point above the ASCII range in the BMP. *)
Lemma escape_bmp x : 126 < x < 65536 -> escape_ascii_char x = 92 :: 117 :: hex4 x.
Proof. intros Hx. unfold escape_ascii_char. n_tests. reflexivity. Qed.

(** The escape of a code point outside the BMP: its two surrogates. *)
Lemma escape_astral c : 65536 <= c ->
  escape_ascii_char c =
  92 :: 117 :: hex4 (55296 + ((c - 65536) / 1024) mod 1024) ++ 92 :: 117 :: hex4 (56320 + (c - 65536) mod 1024).
Proof. intros Hc. unfold escape_ascii_char. n_tests. reflexivity. Qed.

(** A high and a low surrogate are the halves of the code point they
    join into. *)
Lemma join_surrogates_split hi lo :
  is_high_surrogate hi = true -> is_low_surrogate lo = true ->
  65536 <= join_surrogates hi lo < 1114112 /\
  55296 + ((join_surrogates hi lo - 65536) / 1024) mod 1024 = hi /\
  56320 + (join_surrogates hi lo - 65536) mod 1024 = lo.
Proof.
  unfold is_high_surrogate, is_low_surrogate, join_surrogates.
  intros [H1%N.leb_le H2%N.leb_le]%andb_true_iff [H3%N.leb_le H4%N.leb_le]%andb_true_iff.
  replace (65536 + (hi - 55296) * 1024 + (lo - 56320) - 65536) with ((hi - 55296) * 1024 + (lo - 56320)) by lia.
  assert (Ea : hi = 55296 + (hi - 55296)) by lia. assert (Eb : lo = 56320 + (lo - 56320)) by lia.
  assert (Ha : hi - 55296 < 1024) by lia. assert (Hb : lo - 56320 < 1024) by lia.
  revert Ea Eb Ha Hb. generalize (hi - 55296) (lo - 56320). intros a b Ea Eb Ha Hb.
  replace ((a * 1024 + b) mod 1024) with b
    by (rewrite N.add_comm, N.Div0.mod_add, N.mod_small by lia; done).
  rewrite N.div_add_l, (N.div_small b), N.add_0_r, (N.mod_small a) by lia. lia.
Qed.

(** ** Theorems *)

(** C11: [CustomJSONSerializer.loads] reads back what
    [CustomJSONSerializer.dumps] writes: for every value [json.loads]
    can give (no objects for the hook, strings without a high surrogate
    followed by a low one, dict keys distinct), [dumps] returns bytes and
    [loads] of them returns the value. *)
Theorem loads_dumps v : json_data v = true ->
  exists b, JSONEncoder.CustomJSONSerializer.dumps v = Ok b /\ CustomJSONSerializer.loads b = Ok v.
Proof.
  intros Hv. destruct (serializer_dumps_data v Hv) as (t & Hd & Hr & Hp). exists t. split; [done|].
  by apply loads_reads_back.
Qed.

(** C23: A string holding a high surrogate followed by a low one does
    not read back: for every such pair, [dumps] writes the same bytes as
    for the single code point the two join into (two [\u] escapes), and
    [loads] of them gives that code point. *)
Theorem surrogate_pair_joined hi lo :
  is_high_surrogate hi = true -> is_low_surrogate lo = true ->
  JSONEncoder.CustomJSONSerializer.dumps (JStr [hi; lo]) =
    JSONEncoder.CustomJSONSerializer.dumps (JStr [join_surrogates hi lo]) /\
  exists b, JSONEncoder.CustomJSONSerializer.dumps (JStr [hi; lo]) = Ok b /\
            CustomJSONSerializer.loads b = Ok (JStr [join_surrogates hi lo]).
Proof.
  intros Hh Hl. destruct (join_surrogates_split hi lo Hh Hl) as (Hc & Ehi & Elo).
  assert (E : JSONEncoder.CustomJSONSerializer.dumps (JStr [hi; lo]) =
              JSONEncoder.CustomJSONSerializer.dumps (JStr [join_surrogates hi lo])).
  { unfold JSONEncoder.CustomJSONSerializer.dumps. cbn [json_depth JSONEncoder.dumps]. unfold encode_basestring_ascii.
    rewrite bind_cons, !bind_singleton, (escape_astral (join_surrogates hi lo)) by lia.
    rewrite Ehi, Elo.
    apply andb_true_iff in Hh as [H1%N.leb_le H2%N.leb_le]. apply andb_true_iff in Hl as [H3%N.leb_le H4%N.leb_le].
    rewrite (escape_bmp hi), (escape_bmp lo) by lia. done. }
  split; [done|]. rewrite E.
  destruct (serializer_dumps_data (JStr [join_surrogates hi lo])) as (t & Hd & Hr & Hp).
  { cbn [json_data str_ok]. n_tests. reflexivity. }
  exists t. split; [done|]. by apply loads_reads_back.
Qed.

Lemma loads_dumps_witness :
  json_data (JDict [(u "id", JInt (-42)); (u "tags", JList [JStr [233; 65536]; JNull; JBool true])]) = true /\
  exists b, JSONEncoder.CustomJSONSerializer.dumps
              (JDict [(u "id", JInt (-42)); (u "tags", JList [JStr [233; 65536]; JNull; JBool true])]) = Ok b /\
            CustomJSONSerializer.loads b =
              Ok (JDict [(u "id", JInt (-42)); (u "tags", JList [JStr [233; 65536]; JNull; JBool true])]).
Proof. split; [vm_compute; reflexivity|]. apply loads_dumps. vm_compute. reflexivity. Defined.

Lemma surrogate_pair_joined_witness :
  JSONEncoder.CustomJSONSerializer.dumps (JStr [55296; 56320]) =
    JSONEncoder.CustomJSONSerializer.dumps (JStr [join_surrogates 55296 56320]) /\
  exists b, JSONEncoder.CustomJSONSerializer.dumps (JStr [55296; 56320]) = Ok b /\
            CustomJSONSerializer.loads b = Ok (JStr [join_surrogates 55296 56320]).
Proof. apply surrogate_pair_joined; vm_compute; reflexivity. Defined.
