(* ===== verification/QueryDict.v ===== *)
(** * Django's [QueryDict]: [urlencode] and the parsing of a query string

    [AdminActionLoggerMiddleware] stores [request.POST.urlencode()] in
    the session ([src/middleware.py] line 88) and
    [BaseModelAdmin.changelist_view] reads it back with
    [QueryDict(data).lists()] ([src/admin/base.py] line 220).  Both are
    Django and Python library code, modelled here from their sources:

    - [QueryDict] is a [MultiValueDict]: its keys in insertion order,
      each with the list of its values ([appendlist], [lists]);
    - [QueryDict.urlencode()] joins with [&] the pairs [k=v] of every
      value of every key, each side [urllib.parse.quote_plus] of its
      UTF-8 bytes ([str.encode] raises [UnicodeEncodeError] on a
      surrogate);
    - [QueryDict(query_string)] runs [urllib.parse.parse_qsl] with
      [keep_blank_values=True] and [max_num_fields] set to
      [DATA_UPLOAD_MAX_NUMBER_FIELDS] (its [ValueError] becomes
      [TooManyFieldsSent]) and [appendlist]s each pair; [parse_qsl]
      splits on [&], drops empty fields, splits each on its first [=],
      turns [+] into spaces and [unquote]s both sides;
    - [unquote] decodes the [%XX] escapes of each ASCII run with UTF-8
      and the [replace] error handler (each maximal ill-formed
      subsequence becomes U+FFFD, as CPython's decoder does). *)

From S2P Require Import Prelude PyStr JSONEncoder.
From Stdlib Require String.
Import String.StringSyntax.

Local Open Scope string_scope.
Local Open Scope N_scope.

Inductive qd_error : Type :=
| UnicodeEncodeError
| TooManyFieldsSent.

(** ** [MultiValueDict] *)

(** The keys in insertion order, each with its list of values. *)
Definition mvdict : Type := list (pystr * list pystr).

(** [d.appendlist(k, v)]: [d.setlistdefault(k).append(v)]. *)
Definition appendlist (d : mvdict) (kv : pystr * pystr) : mvdict :=
  match kv_lookup kv.1 d with
  | Some vs => kv_set kv.1 (vs ++ [kv.2]) d
  | None => kv_set kv.1 [kv.2] d
  end.

(** A [QueryDict] filled by [appendlist] from pairs, in order. *)
Definition of_pairs (pairs : list (pystr * pystr)) : mvdict := fold_left appendlist pairs [].

(** The pairs [urlencode] writes: every value of every key, in order. *)
Definition mv_pairs (d : mvdict) : list (pystr * pystr) := d ≫= fun kvs => (fun v => (kvs.1, v)) <$> kvs.2.

(** ** [urllib.parse.quote_plus] *)

(** [_ALWAYS_SAFE]: ASCII letters and digits and [_.-~]. *)
Definition always_safe (b : N) : bool :=
  in_range 65 90 b || in_range 97 122 b || in_range 48 57 b || (b =? 95) || (b =? 46) || (b =? 45) || (b =? 126).

(** The digits of ["%{:02X}"]. *)
Definition hex_upper (n : N) : N := if n <? 10 then 48 + n else 55 + n.

(** [quote_plus] of one byte: [quote] with the space safe, then the
    space replaced by [+]. *)
Definition quote_byte (b : N) : pystr :=
  if always_safe b then [b] else if b =? 32 then [43] else [37; hex_upper (b / 16); hex_upper (b mod 16)].

Definition quote_plus (bs : list N) : pystr := bs ≫= quote_byte.

(** [s.encode('utf-8')]. *)
Definition encode_utf8 (s : pystr) : result qd_error (list N) :=
  match utf8_encode s with Some b => Ok b | None => Err UnicodeEncodeError end.

(** [urlencode({k: v})] of the encoded key and value. *)
Definition encode_pair (k v : pystr) : result qd_error pystr :=
  kb <- encode_utf8 k ;;
  vb <- encode_utf8 v ;;
  Ok (quote_plus kb ++ [61] ++ quote_plus vb).

(** [QueryDict.urlencode()]. *)
Definition urlencode (d : mvdict) : result qd_error pystr :=
  items <- map_result (fun kv => encode_pair kv.1 kv.2) (mv_pairs d) ;;
  Ok (py_join [38] items).

(** ** UTF-8 decoding with [errors='replace'] *)

Definition replacement_char : N := 65533.

Definition cont_byte (b : N) : bool := in_range 128 191 b.

(** A lead byte: the number of continuation bytes and the range of the
    first of them (narrower after [E0], [ED], [F0], [F4]). *)
Definition utf8_lead (b0 : N) : option (nat * N * N) :=
  if in_range 194 223 b0 then Some (1%nat, 128, 191)
  else if b0 =? 224 then Some (2%nat, 160, 191)
  else if in_range 225 236 b0 then Some (2%nat, 128, 191)
  else if b0 =? 237 then Some (2%nat, 128, 159)
  else if in_range 238 239 b0 then Some (2%nat, 128, 191)
  else if b0 =? 240 then Some (3%nat, 144, 191)
  else if in_range 241 243 b0 then Some (3%nat, 128, 191)
  else if b0 =? 244 then Some (3%nat, 128, 143)
  else None.

(** [bytes.decode('utf-8', 'replace')]: a byte that cannot start a
    sequence, or the valid start of a sequence cut by a byte that
    cannot continue it or by the end, gives one U+FFFD; decoding goes
    on at the byte that did not fit. *)
Fixpoint utf8_decode_replace (b : list N) : pystr :=
  match b with
  | [] => []
  | b0 :: r =>
    if b0 <? 128 then b0 :: utf8_decode_replace r else
    match utf8_lead b0 with
    | None => replacement_char :: utf8_decode_replace r
    | Some (n, lo, hi) =>
      match r with
      | [] => [replacement_char]
      | b1 :: r1 =>
        if negb (in_range lo hi b1) then replacement_char :: utf8_decode_replace r else
        match n with
        | 1%nat => (64 * (b0 - 192) + (b1 - 128)) :: utf8_decode_replace r1
        | 2%nat =>
          match r1 with
          | [] => [replacement_char]
          | b2 :: r2 =>
            if cont_byte b2 then (4096 * (b0 - 224) + 64 * (b1 - 128) + (b2 - 128)) :: utf8_decode_replace r2
            else replacement_char :: utf8_decode_replace r1
          end
        | _ =>
          match r1 with
          | [] => [replacement_char]
          | b2 :: r2 =>
            if negb (cont_byte b2) then replacement_char :: utf8_decode_replace r1 else
            match r2 with
            | [] => [replacement_char]
            | b3 :: r3 =>
              if cont_byte b3
              then (262144 * (b0 - 240) + 4096 * (b1 - 128) + 64 * (b2 - 128) + (b3 - 128)) :: utf8_decode_replace r3
              else replacement_char :: utf8_decode_replace r2
            end
          end
        end
      end
    end
  end.

(** ** [urllib.parse.unquote] *)

Definition is_hex (c : N) : bool := in_range 48 57 c || in_range 65 70 c || in_range 97 102 c.

Definition hex_val (c : N) : N := if c <=? 57 then c - 48 else if c <=? 70 then c - 55 else c - 87.

(** [unquote_to_bytes] of an ASCII run: a [%] followed by two
    hexadecimal digits is the byte they spell, any other [%] stays (the
    [KeyError] branch of the loop over [string.split(b'%')]). *)
Fixpoint unquote_to_bytes (s : pystr) : list N :=
  match s with
  | [] => []
  | c :: r =>
    if c =? 37 then
      match r with
      | a :: b :: r' => if is_hex a && is_hex b then (16 * hex_val a + hex_val b) :: unquote_to_bytes r'
                        else 37 :: unquote_to_bytes r
      | _ => 37 :: unquote_to_bytes r
      end
    else c :: unquote_to_bytes r
  end.

(** The loop over [_asciire.split(string)]: each run of ASCII characters
    is unquoted and decoded, the other characters are kept. *)
Fixpoint unquote_runs (run s : pystr) : pystr :=
  match s with
  | [] => utf8_decode_replace (unquote_to_bytes run)
  | c :: s' =>
    if c <? 128 then unquote_runs (run ++ [c]) s'
    else utf8_decode_replace (unquote_to_bytes run) ++ c :: unquote_runs [] s'
  end.

(** [unquote(string)]: unchanged when it has no [%]. *)
Definition unquote (s : pystr) : pystr :=
  if bool_decide (37 ∈ s) then unquote_runs [] s else s.

(** ** [urllib.parse.parse_qsl] and [QueryDict(query_string)] *)

(** [name_value.split('=', 1)], with [''] appended when there is no [=]
    ([keep_blank_values]). *)
Definition split_eq (nv : pystr) : pystr * pystr :=
  let n := take_while (fun c => negb (c =? 61)) nv in (n, drop (S (length n)) nv).

Definition parse_field (nv : pystr) : option (pystr * pystr) :=
  if bool_decide (nv = []) then None
  else let '(n, v) := split_eq nv in Some (unquote (py_replace n [43] [32]), unquote (py_replace v [43] [32])).

(** [parse_qsl(qs, keep_blank_values=True, max_num_fields=m)]. *)
Definition parse_qsl (max_num_fields : option nat) (qs : pystr) : result qd_error (list (pystr * pystr)) :=
  let num_fields := if bool_decide (qs = []) then O else S (count_occ N.eq_dec qs 38) in
  _ <- match max_num_fields with
       | Some m => if (m <? num_fields)%nat then Err TooManyFieldsSent else Ok tt
       | None => Ok tt
       end ;;
  Ok (omap parse_field (if bool_decide (qs = []) then [] else py_split_char 38 qs)).

(** [QueryDict(query_string)], with [DATA_UPLOAD_MAX_NUMBER_FIELDS]. *)
Definition QueryDict (max_num_fields : option nat) (query_string : pystr) : result qd_error mvdict :=
  pairs <- parse_qsl max_num_fields query_string ;;
  Ok (of_pairs pairs).

(** ** What the round trip speaks of *)

(** A Unicode scalar value: a code point that is not a surrogate. *)
Definition scalar_value (c : N) : bool := (c <? 1114112) && negb ((55296 <=? c) && (c <=? 57343)).

Definition str_scalar (s : pystr) : bool := forallb scalar_value s.

(** A [MultiValueDict] as [QueryDict] builds it: distinct keys, none
    with an empty list. *)
Definition mv_wf (d : mvdict) : Prop := NoDup d.*1 /\ Forall (fun kv => kv.2 <> []) d.

(** [quote_plus] of a byte with [+] turned back into a space, as
    [parse_qsl] sees it before [unquote]. *)
Definition quote_sp (b : N) : pystr :=
  if always_safe b then [b] else if b =? 32 then [32] else [37; hex_upper (b / 16); hex_upper (b mod 16)].

(** [max_num_fields] admits [n] fields. *)
Definition fields_fit (max_num_fields : option nat) (n : nat) : bool :=
  match max_num_fields with Some m => (n <=? m)%nat | None => true end.

(** The text [urlencode] writes for one pair. *)
Definition encoded_pair (kv : pystr * pystr) (item : pystr) : Prop :=
  exists kb vb, utf8_encode kv.1 = Some kb /\ utf8_encode kv.2 = Some vb /\
                item = quote_plus kb ++ (61 :: quote_plus vb).

(** The POST data of a [delete_selected] action on two objects, with a
    search term that needs escaping. *)
Definition ex_post : mvdict :=
  [(u "action", [u "delete_selected"]); (u "_selected_action", [u "3"; u "4"]);
   (u "q", [u "a b+c&" ++ [233; 8364; 128512]])].

(** ** Lemmas: UTF-8 *)

(** One step of the decoder on a well-formed sequence. *)
Local Ltac decode_step :=
  cbn [utf8_decode_replace]; unfold utf8_lead, cont_byte, in_range;
  repeat (n_tests; cbn [andb orb negb]); try reflexivity.

Lemma decode_1 b0 r : b0 < 128 -> utf8_decode_replace (b0 :: r) = b0 :: utf8_decode_replace r.
Proof. intros H. cbn [utf8_decode_replace]. by n_tests. Qed.

Lemma decode_2 b0 b1 r :
  194 <= b0 <= 223 -> 128 <= b1 <= 191 ->
  utf8_decode_replace (b0 :: b1 :: r) = (64 * (b0 - 192) + (b1 - 128)) :: utf8_decode_replace r.
Proof. intros H0 H1. decode_step. Qed.

Lemma decode_3 b0 b1 b2 r :
  224 <= b0 <= 239 -> 128 <= b1 <= 191 -> (b0 = 224 -> 160 <= b1) -> (b0 = 237 -> b1 <= 159) ->
  128 <= b2 <= 191 ->
  utf8_decode_replace (b0 :: b1 :: b2 :: r) =
  (4096 * (b0 - 224) + 64 * (b1 - 128) + (b2 - 128)) :: utf8_decode_replace r.
Proof.
  intros H0 H1 HE0 HED H2.
  destruct (N.eq_dec b0 224) as [->|]; [specialize (HE0 eq_refl); decode_step|].
  destruct (N.eq_dec b0 237) as [->|]; [specialize (HED eq_refl); decode_step|].
  destruct (N.leb_spec b0 236); decode_step.
Qed.

Lemma decode_4 b0 b1 b2 b3 r :
  240 <= b0 <= 244 -> 128 <= b1 <= 191 -> (b0 = 240 -> 144 <= b1) -> (b0 = 244 -> b1 <= 143) ->
  128 <= b2 <= 191 -> 128 <= b3 <= 191 ->
  utf8_decode_replace (b0 :: b1 :: b2 :: b3 :: r) =
  (262144 * (b0 - 240) + 4096 * (b1 - 128) + 64 * (b2 - 128) + (b3 - 128)) :: utf8_decode_replace r.
Proof.
  intros H0 H1 HF0 HF4 H2 H3.
  destruct (N.eq_dec b0 240) as [->|]; [specialize (HF0 eq_refl); decode_step|].
  destruct (N.eq_dec b0 244) as [->|]; [specialize (HF4 eq_refl); decode_step|].
  decode_step.
Qed.

(** The digits of a code point in base 64, as the encoder cuts them. *)
Lemma base64_digits c :
  c = 262144 * (c / 262144) + 4096 * ((c / 4096) mod 64) + 64 * ((c / 64) mod 64) + c mod 64 /\
  c = 4096 * (c / 4096) + 64 * ((c / 64) mod 64) + c mod 64 /\
  c = 64 * (c / 64) + c mod 64 /\
  (c / 4096) mod 64 < 64 /\ (c / 64) mod 64 < 64 /\ c mod 64 < 64.
Proof.
  assert (E1 : c / 4096 = c / 64 / 64) by (rewrite N.Div0.div_div; done).
  assert (E2 : c / 262144 = c / 4096 / 64) by (rewrite E1, !N.Div0.div_div; done).
  pose proof (N.div_mod c 64 ltac:(lia)). pose proof (N.div_mod (c / 64) 64 ltac:(lia)).
  pose proof (N.div_mod (c / 4096) 64 ltac:(lia)).
  pose proof (N.mod_lt c 64 ltac:(lia)). pose proof (N.mod_lt (c / 64) 64 ltac:(lia)).
  pose proof (N.mod_lt (c / 4096) 64 ltac:(lia)).
  rewrite E2. rewrite <-E1 in *. lia.
Qed.

Lemma utf8_char_roundtrip c bs r :
  scalar_value c = true -> utf8_encode_char c = Some bs ->
  utf8_decode_replace (bs ++ r) = c :: utf8_decode_replace r.
Proof.
  unfold scalar_value, utf8_encode_char. rewrite andb_true_iff, negb_true_iff, andb_false_iff, N.ltb_lt.
  intros [Hmax Hsur]. rewrite N.leb_gt, N.leb_gt in Hsur.
  destruct (base64_digits c) as (E4 & E3 & E2 & L3 & L2 & L1).
  set (a2 := c / 262144) in *. set (a := c / 4096) in *. set (t := c / 64) in *.
  set (b' := a mod 64) in *. set (b := t mod 64) in *. set (d := c mod 64) in *.
  clearbody a2 a t b' b d.
  destruct (N.ltb_spec c 128); [intros [= <-]; apply decode_1; lia|].
  destruct (N.ltb_spec c 2048); [intros [= <-]; cbn [app]; rewrite decode_2 by lia; f_equal; lia|].
  destruct (N.leb_spec 55296 c), (N.leb_spec c 57343); cbn [andb]; try (exfalso; lia);
  (destruct (N.ltb_spec c 65536);
   [intros [= <-]; cbn [app]; rewrite decode_3 by lia; f_equal; lia
   |intros [= <-]; cbn [app]; rewrite decode_4 by lia; f_equal; lia]).
Qed.

Lemma utf8_char_bytes c bs :
  c < 1114112 -> utf8_encode_char c = Some bs -> Forall (fun x => x < 256) bs.
Proof.
  intros Hmax. unfold utf8_encode_char.
  destruct (base64_digits c) as (E4 & E3 & E2 & L3 & L2 & L1).
  set (a2 := c / 262144) in *. set (a := c / 4096) in *. set (t := c / 64) in *.
  set (b' := a mod 64) in *. set (b := t mod 64) in *. set (d := c mod 64) in *.
  clearbody a2 a t b' b d.
  destruct (N.ltb_spec c 128); [intros [= <-]; repeat constructor; lia|].
  destruct (N.ltb_spec c 2048); [intros [= <-]; repeat constructor; lia|].
  destruct ((55296 <=? c) && (c <=? 57343)); [done|].
  destruct (N.ltb_spec c 65536); intros [= <-]; repeat constructor; lia.
Qed.

Lemma utf8_encode_cons c s :
  utf8_encode (c :: s) = bs ← utf8_encode_char c; b ← utf8_encode s; Some (bs ++ b).
Proof.
  unfold utf8_encode. cbn. destruct (utf8_encode_char c); cbn; [|done].
  by destruct (mapM utf8_encode_char s).
Qed.

Lemma utf8_roundtrip s b : str_scalar s = true -> utf8_encode s = Some b -> utf8_decode_replace b = s.
Proof.
  revert b. induction s as [|c s IH]; intros b; [by intros _ [= <-]|].
  cbn [str_scalar forallb]. rewrite andb_true_iff, utf8_encode_cons. intros [Hc Hs].
  destruct (utf8_encode_char c) as [bs|] eqn:Ec; [|done]. cbn.
  destruct (utf8_encode s) as [b'|]; [|done]. intros [= <-].
  rewrite (utf8_char_roundtrip c bs) by done. f_equal. by apply IH.
Qed.

Lemma utf8_encode_bytes s b : str_scalar s = true -> utf8_encode s = Some b -> Forall (fun x => x < 256) b.
Proof.
  revert b. induction s as [|c s IH]; intros b; [by intros _ [= <-]|].
  cbn [str_scalar forallb]. rewrite andb_true_iff, utf8_encode_cons. intros [Hc Hs].
  destruct (utf8_encode_char c) as [bs|] eqn:Ec; [|done]. cbn.
  destruct (utf8_encode s) as [b'|]; [|done]. intros [= <-]. apply Forall_app. split; [|by apply IH].
  apply (utf8_char_bytes c); [|done]. unfold scalar_value in Hc. apply andb_true_iff in Hc as [Hc%N.ltb_lt _]. lia.
Qed.

(** [str.encode] raises exactly on a surrogate. *)
Lemma utf8_encode_spec s :
  utf8_encode s = None <-> exists c, c ∈ s /\ 55296 <= c <= 57343.
Proof.
  induction s as [|c s IH]; [split; [done|]; intros (c & Hc & _); inversion Hc|].
  rewrite utf8_encode_cons. setoid_rewrite elem_of_cons.
  assert (Ec : utf8_encode_char c = None <-> 55296 <= c <= 57343).
  { unfold utf8_encode_char. split; [|intros Hr; n_tests; reflexivity].
    destruct (N.ltb_spec c 128); [done|]. destruct (N.ltb_spec c 2048); [done|].
    destruct (N.leb_spec 55296 c), (N.leb_spec c 57343); cbn [andb]; [lia|..];
      destruct (c <? 65536); done. }
  destruct (utf8_encode_char c) as [bs|]; cbn.
  - destruct (utf8_encode s) eqn:Es; cbn.
    + split; [done|]. intros (d & [->|Hd] & Hr); [apply Ec in Hr; done|].
      assert (Some l = None) by (apply IH; eauto). congruence.
    + split; [intros _|done]. destruct (proj1 IH eq_refl) as (d & Hd & Hr). eauto.
  - split; [intros _|done]. exists c. split; [by left|]. by apply Ec.
Qed.

(** ** Lemmas: [quote_plus] and [unquote] *)

Lemma hex_upper_ok n : n < 16 -> is_hex (hex_upper n) = true /\ hex_val (hex_upper n) = n.
Proof.
  intros Hn. unfold hex_upper, is_hex, hex_val, in_range.
  destruct (N.ltb_spec n 10); n_tests; cbn [andb orb]; split; (reflexivity || lia).
Qed.

Lemma hex_upper_range n : 48 <= hex_upper n /\ hex_upper n <> 61.
Proof. unfold hex_upper. destruct (N.ltb_spec n 10); lia. Qed.

Lemma always_safe_range b : always_safe b = true -> 45 <= b <= 126 /\ b <> 61 /\ b <> 64 /\ b <> 91 /\ b <> 96.
Proof.
  unfold always_safe, in_range. rewrite !orb_true_iff, !andb_true_iff, !N.leb_le, !N.eqb_eq. lia.
Qed.

Lemma quote_plus_space bs : py_replace (quote_plus bs) [43] [32] = bs ≫= quote_sp.
Proof.
  rewrite py_replace_char_bind. unfold quote_plus. induction bs as [|b bs IH]; [done|].
  rewrite !bind_cons, bind_app, IH. f_equal. unfold quote_byte, quote_sp.
  destruct (always_safe b) eqn:Hs.
  - apply always_safe_range in Hs. cbn. n_tests. by rewrite app_nil_r.
  - destruct (b =? 32); [done|]. pose proof (hex_upper_range (b / 16)). pose proof (hex_upper_range (b mod 16)).
    cbn. by n_tests.
Qed.

Lemma hex_upper_small n : n < 16 -> hex_upper n <= 70.
Proof. unfold hex_upper. destruct (N.ltb_spec n 10); lia. Qed.

Lemma byte_hex b : b < 256 -> b / 16 < 16 /\ b mod 16 < 16 /\ b = 16 * (b / 16) + b mod 16.
Proof.
  intros Hb. pose proof (N.div_mod b 16 ltac:(lia)). pose proof (N.mod_lt b 16 ltac:(lia)).
  split; [|lia]. apply N.Div0.div_lt_upper_bound. lia.
Qed.

Lemma quote_sp_ascii b : b < 256 -> Forall (fun c => c < 128) (quote_sp b).
Proof.
  intros Hb. unfold quote_sp. destruct (always_safe b) eqn:Hs; [apply always_safe_range in Hs; repeat constructor; lia|].
  destruct (b =? 32); [repeat constructor; lia|].
  destruct (byte_hex b Hb) as (H1 & H2 & _).
  pose proof (hex_upper_small _ H1). pose proof (hex_upper_small _ H2). repeat constructor; lia.
Qed.

(** [unquote_to_bytes] reads back each byte [quote_plus] wrote. *)
Lemma unquote_quote_sp b rest :
  b < 256 -> unquote_to_bytes (quote_sp b ++ rest) = b :: unquote_to_bytes rest.
Proof.
  intros Hb. unfold quote_sp. destruct (always_safe b) eqn:Hs.
  - apply always_safe_range in Hs. cbn. by n_tests.
  - destruct (N.eqb_spec b 32) as [->|]; [reflexivity|].
    destruct (byte_hex b Hb) as (H1 & H2 & E).
    cbn [app unquote_to_bytes]. rewrite N.eqb_refl.
    destruct (hex_upper_ok _ H1) as [-> ->]. destruct (hex_upper_ok _ H2) as [-> ->].
    cbn [andb]. by rewrite <-E.
Qed.

Lemma unquote_to_bytes_quote bs :
  Forall (fun x => x < 256) bs -> unquote_to_bytes (bs ≫= quote_sp) = bs.
Proof.
  induction 1 as [|b bs Hb _ IH]; [done|]. by rewrite bind_cons, unquote_quote_sp, IH.
Qed.

(** On an ASCII string, [unquote] decodes what [unquote_to_bytes] gives. *)
Lemma unquote_runs_ascii run t :
  Forall (fun c => c < 128) t -> unquote_runs run t = utf8_decode_replace (unquote_to_bytes (run ++ t)).
Proof.
  revert run. induction t as [|c t IH]; intros run Ht; [by rewrite app_nil_r|].
  apply Forall_cons in Ht as [Hc Ht]. cbn. n_tests. rewrite IH by done. by rewrite <-app_assoc.
Qed.

Lemma unquote_to_bytes_no_percent t : 37 ∉ t -> unquote_to_bytes t = t.
Proof.
  induction t as [|c t IH]; [done|]. rewrite not_elem_of_cons. intros [Hc Ht]. cbn. n_tests. by rewrite IH.
Qed.

Lemma decode_ascii t : Forall (fun c => c < 128) t -> utf8_decode_replace t = t.
Proof. induction 1 as [|c t Hc _ IH]; [done|]. by rewrite decode_1, IH. Qed.

Lemma unquote_ascii t :
  Forall (fun c => c < 128) t -> unquote t = utf8_decode_replace (unquote_to_bytes t).
Proof.
  intros Ht. unfold unquote. case_bool_decide as Hp; [by rewrite unquote_runs_ascii|].
  by rewrite unquote_to_bytes_no_percent, decode_ascii.
Qed.

(** Each side of a pair: [unquote] of [quote_plus] with [+] as a space. *)
Lemma unquote_quote_plus s b :
  str_scalar s = true -> utf8_encode s = Some b -> unquote (py_replace (quote_plus b) [43] [32]) = s.
Proof.
  intros Hs Hb. pose proof (utf8_encode_bytes s b Hs Hb) as Hbytes.
  rewrite quote_plus_space, unquote_ascii.
  - rewrite unquote_to_bytes_quote by done. by apply utf8_roundtrip.
  - apply Forall_bind. unfold compose. eapply Forall_impl; [done|]. intros x Hx. by apply quote_sp_ascii.
Qed.

(** ** Lemmas: fields and pairs *)

Lemma quote_plus_no_sep bs : Forall (fun x => x <> 38 /\ x <> 61) (quote_plus bs).
Proof.
  unfold quote_plus. apply Forall_bind. apply Forall_forall. intros b _. unfold compose, quote_byte.
  destruct (always_safe b) eqn:Hs; [apply always_safe_range in Hs; repeat constructor; lia|].
  destruct (b =? 32); [repeat constructor; lia|].
  pose proof (hex_upper_range (b / 16)). pose proof (hex_upper_range (b mod 16)). repeat constructor; lia.
Qed.

Lemma split_eq_pair q1 q2 : 61 ∉ q1 -> split_eq (q1 ++ 61 :: q2) = (q1, q2).
Proof.
  intros Hq. unfold split_eq. rewrite take_while_app.
  - rewrite drop_app_ge by lia. by replace (S (length q1) - length q1)%nat with 1%nat by lia.
  - apply Forall_forall. intros x Hx. apply negb_true_iff, N.eqb_neq. by intros ->.
  - by rewrite N.eqb_refl.
Qed.

Lemma split_char_aux_app sep t s cur :
  sep ∉ t -> split_char_aux sep (t ++ s) cur = split_char_aux sep s (rev t ++ cur).
Proof.
  revert cur. induction t as [|x t IH]; intros cur; [done|]. rewrite not_elem_of_cons. intros [Hx Ht].
  cbn. rewrite (proj2 (N.eqb_neq x sep)) by done. rewrite IH by done. by rewrite <-app_assoc.
Qed.

(** [qs.split('&')] of ['&'.join(items)]. *)
Lemma split_join sep x l :
  Forall (fun t => sep ∉ t) (x :: l) -> py_split_char sep (py_join [sep] (x :: l)) = x :: l.
Proof.
  unfold py_split_char, py_join. revert x. induction l as [|y l IH]; intros x Hl.
  - rewrite app_nil_r, <-(app_nil_r x) at 1. apply Forall_cons in Hl as [Hx _].
    rewrite split_char_aux_app by done. cbn. by rewrite app_nil_r, rev_involutive.
  - apply Forall_cons in Hl as [Hx Hl]. rewrite bind_cons.
    rewrite split_char_aux_app by done. cbn [app split_char_aux]. rewrite N.eqb_refl, app_nil_r, rev_involutive.
    f_equal. by apply IH.
Qed.

Lemma count_join sep x l :
  Forall (fun t => sep ∉ t) (x :: l) -> count_occ N.eq_dec (py_join [sep] (x :: l)) sep = length l.
Proof.
  unfold py_join. revert x. induction l as [|y l IH]; intros x Hl; apply Forall_cons in Hl as [Hx Hl].
  - rewrite app_nil_r. apply count_occ_not_In. by rewrite <-list_elem_of_In.
  - assert (Hx0 : count_occ N.eq_dec x sep = 0%nat) by (apply count_occ_not_In; by rewrite <-list_elem_of_In).
    rewrite bind_cons, count_occ_app, Hx0.
    rewrite <-app_assoc, count_occ_app, (IH y Hl). cbn [count_occ length].
    destruct (N.eq_dec sep sep) as [_|]; [lia|done].
Qed.

Lemma encoded_pair_no_amp kv item : encoded_pair kv item -> (38 ∉ item) /\ item <> [].
Proof.
  intros (kb & vb & _ & _ & ->). split; [|by destruct (quote_plus kb)].
  pose proof (quote_plus_no_sep kb). pose proof (quote_plus_no_sep vb).
  rewrite elem_of_app, elem_of_cons. intros [Hk|[?|Hv]]; [|lia|].
  - eapply Forall_forall in Hk; [|done]. naive_solver.
  - eapply Forall_forall in Hv; [|done]. naive_solver.
Qed.

Lemma parse_encoded_pair kv item :
  str_scalar kv.1 = true -> str_scalar kv.2 = true -> encoded_pair kv item -> parse_field item = Some kv.
Proof.
  intros Hk Hv Henc. pose proof (encoded_pair_no_amp kv item Henc) as [_ Hne].
  destruct Henc as (kb & vb & Ekb & Evb & ->). unfold parse_field.
  rewrite bool_decide_false by done. rewrite split_eq_pair.
  - destruct kv as [k v]. cbn [fst snd] in *. by rewrite (unquote_quote_plus k kb), (unquote_quote_plus v vb).
  - intros Hin. eapply Forall_forall in Hin; [|apply quote_plus_no_sep]. naive_solver.
Qed.

Lemma map_result_encode l :
  Forall (fun kv => str_scalar kv.1 = true /\ str_scalar kv.2 = true) l ->
  exists items, map_result (fun kv => encode_pair kv.1 kv.2) l = Ok items /\ Forall2 encoded_pair l items.
Proof.
  induction 1 as [|[k v] l [Hk Hv] _ (items & Hl & Hf)]; [by exists []|].
  destruct (utf8_encode k) as [kb|] eqn:Ek; [|apply utf8_encode_spec in Ek as (c & Hc & Hr)].
  2:{ unfold str_scalar in Hk. eapply forallb_forall in Hk; [|by apply list_elem_of_In].
      unfold scalar_value in Hk. apply andb_true_iff in Hk as [_ Hk%negb_true_iff].
      apply andb_false_iff in Hk as [Hk%N.leb_gt|Hk%N.leb_gt]; lia. }
  destruct (utf8_encode v) as [vb|] eqn:Ev; [|apply utf8_encode_spec in Ev as (c & Hc & Hr)].
  2:{ unfold str_scalar in Hv. eapply forallb_forall in Hv; [|by apply list_elem_of_In].
      unfold scalar_value in Hv. apply andb_true_iff in Hv as [_ Hv%negb_true_iff].
      apply andb_false_iff in Hv as [Hv%N.leb_gt|Hv%N.leb_gt]; lia. }
  exists ((quote_plus kb ++ (61 :: quote_plus vb)) :: items). split.
  - rewrite map_result_cons, Hl. cbn [fst snd]. unfold encode_pair, encode_utf8. by rewrite Ek, Ev.
  - constructor; [|done]. by exists kb, vb.
Qed.

Lemma parse_items l items :
  Forall (fun kv => str_scalar kv.1 = true /\ str_scalar kv.2 = true) l -> Forall2 encoded_pair l items ->
  omap parse_field items = l.
Proof.
  intros Hl Hf. induction Hf as [|kv item l items Hp _ IH]; [done|].
  apply Forall_cons in Hl as [[Hk Hv] Hl]. cbn. rewrite (parse_encoded_pair kv item) by done. by rewrite IH.
Qed.

Lemma appendlist_eq d k v :
  appendlist d (k, v) = match kv_lookup k d with Some vs => kv_set k (vs ++ [v]) d | None => kv_set k [v] d end.
Proof. reflexivity. Qed.

(** [appendlist] of more values of the last key. *)
Lemma appendlist_last k vs acc l :
  k ∉ acc.*1 -> fold_left appendlist ((fun v => (k, v)) <$> vs) (acc ++ [(k, l)]) = acc ++ [(k, l ++ vs)].
Proof.
  revert l. induction vs as [|v vs IH]; intros l Hk; cbn; [by rewrite app_nil_r|].
  rewrite appendlist_eq, kv_lookup_last, kv_set_last by done.
  rewrite IH by done. by rewrite <-app_assoc.
Qed.

(** [QueryDict] rebuilds, from the pairs [urlencode] writes, the dict
    they came from. *)
Lemma of_pairs_mv_pairs acc d :
  NoDup (acc.*1 ++ d.*1) -> Forall (fun kv => kv.2 <> []) d ->
  fold_left appendlist (mv_pairs d) acc = acc ++ d.
Proof.
  revert acc. induction d as [|[k vs] d IH]; intros acc Hnd Hne; cbn; [by rewrite app_nil_r|].
  apply Forall_cons in Hne as [Hvs Hne]. cbn in Hvs. destruct vs as [|v vs]; [done|].
  rewrite fold_left_app. cbn [fmap list_fmap fold_left].
  assert (Hk : k ∉ acc.*1).
  { apply NoDup_app in Hnd as (_ & Hdis & _). intros Hin. apply (Hdis k Hin). left. }
  rewrite appendlist_eq, kv_lookup_notin, kv_set_absent by done.
  rewrite appendlist_last by done. rewrite IH.
  - by rewrite <-app_assoc.
  - by rewrite fmap_app, <-app_assoc.
  - done.
Qed.

Lemma encoded_items l items : Forall2 encoded_pair l items -> Forall (fun t => (38 ∉ t) /\ t <> []) items.
Proof. induction 1 as [|kv item l items Hp _ IH]; constructor; [by apply encoded_pair_no_amp with kv|done]. Qed.

(** [encode_pair] raises [UnicodeEncodeError] or returns. *)
Lemma encode_pair_cases k v : (exists t, encode_pair k v = Ok t) \/ encode_pair k v = Err UnicodeEncodeError.
Proof.
  unfold encode_pair, encode_utf8. destruct (utf8_encode k), (utf8_encode v); cbn; eauto.
Qed.

Lemma encode_pair_surrogate k v :
  (exists c, (c ∈ k \/ c ∈ v) /\ 55296 <= c <= 57343) -> encode_pair k v = Err UnicodeEncodeError.
Proof.
  intros (c & [Hc|Hc] & Hr); unfold encode_pair, encode_utf8.
  - rewrite (proj2 (utf8_encode_spec k)) by eauto. done.
  - destruct (utf8_encode k); [|done]. cbn. rewrite (proj2 (utf8_encode_spec v)) by eauto. done.
Qed.

(** [parse_qsl] reads back the pairs whose encodings [urlencode]
    joined with [&]. *)
Lemma parse_qsl_encoded max_num_fields l items :
  Forall (fun kv => str_scalar kv.1 = true /\ str_scalar kv.2 = true) l -> Forall2 encoded_pair l items ->
  parse_qsl max_num_fields (py_join [38] items) =
    if fields_fit max_num_fields (length l) then Ok l else Err TooManyFieldsSent.
Proof.
  intros Hs Hf. pose proof (Forall2_length _ _ _ Hf) as Hlen. pose proof (encoded_items _ _ Hf) as Hit.
  unfold parse_qsl. destruct items as [|x items].
  - destruct l; [|done]. by destruct max_num_fields.
  - apply Forall_cons in Hit as Hx. destruct Hx as [[_ Hx] _].
    rewrite bool_decide_false by (cbn; by destruct x).
    rewrite count_join by (eapply Forall_impl; [done|]; naive_solver).
    rewrite Hlen. cbn [length].
    destruct max_num_fields as [m|]; cbn [fields_fit];
      [destruct (Nat.ltb_spec m (S (length items))), (Nat.leb_spec (S (length items)) m); try lia; [done|]|];
      cbn [result_bind]; rewrite split_join by (eapply Forall_impl; [done|]; naive_solver);
      by rewrite (parse_items l).
Qed.

(** ** Lemmas: [appendlist] *)

Lemma mv_pairs_cons kv d : mv_pairs (kv :: d) = ((fun v => (kv.1, v)) <$> kv.2) ++ mv_pairs d.
Proof. unfold mv_pairs. by rewrite bind_cons. Qed.

(** With distinct keys, a pair is in the dict when its value is in the
    list of its key. *)
Lemma mv_pairs_elem d x :
  NoDup d.*1 -> x ∈ mv_pairs d <-> exists vs, kv_lookup x.1 d = Some vs /\ x.2 ∈ vs.
Proof.
  induction d as [|[k vs] d IH]; intros Hnd; [split; [intros Hx; inversion Hx|intros (? & [=] & _)]|].
  cbn in Hnd. apply NoDup_cons in Hnd as [Hk Hnd].
  rewrite mv_pairs_cons, elem_of_app, list_elem_of_fmap, IH by done. destruct x as [k' w]. cbn.
  case_bool_decide as E; split.
  - subst k'. intros [(w' & Heq & Hw)|(vs' & Hl & _)]; [simplify_eq; eauto|].
    by apply kv_lookup_Some_in in Hl.
  - intros (vs' & Hvs & Hw). simplify_eq. left. eauto.
  - intros [(w' & Heq & _)|Hr]; [simplify_eq|exact Hr].
  - intros Hr. by right.
Qed.

Lemma appendlist_lookup d k v k' :
  kv_lookup k' (appendlist d (k, v)) =
  if bool_decide (k' = k) then Some (default [] (kv_lookup k d) ++ [v]) else kv_lookup k' d.
Proof.
  rewrite appendlist_eq. case_bool_decide as E; [subst k'|];
    destruct (kv_lookup k d) eqn:Ek; rewrite ?kv_lookup_set_eq, ?kv_lookup_set_ne by done; done.
Qed.

Lemma appendlist_wf d kv : mv_wf d -> mv_wf (appendlist d kv).
Proof.
  destruct kv as [k v]. intros [Hnd Hne]. rewrite appendlist_eq.
  destruct (kv_lookup k d); (split; [by apply kv_set_nodup|]);
    (apply (kv_set_values (fun vs => vs <> [])); [done|]); [by destruct l|done].
Qed.

Lemma mv_pairs_kv_set_length d k new :
  (length (mv_pairs (kv_set k new d)) + length (default [] (kv_lookup k d)) =
   length (mv_pairs d) + length new)%nat.
Proof.
  induction d as [|[k' vs] d IH]; cbn [kv_set kv_lookup].
  - cbn. rewrite length_app, length_fmap. cbn. lia.
  - case_bool_decide; subst; rewrite !mv_pairs_cons, !length_app, !length_fmap; cbn [fst snd default id]; lia.
Qed.

Lemma appendlist_length d kv : length (mv_pairs (appendlist d kv)) = S (length (mv_pairs d)).
Proof.
  destruct kv as [k v]. rewrite appendlist_eq. pose proof (mv_pairs_kv_set_length d k).
  destruct (kv_lookup k d) as [vs|] eqn:Ek.
  - specialize (H (vs ++ [v])). rewrite length_app in H. cbn in H. lia.
  - specialize (H [v]). cbn in H. lia.
Qed.

Lemma appendlist_nodup d kv : NoDup d.*1 -> NoDup (appendlist d kv).*1.
Proof. destruct kv as [k v]. rewrite appendlist_eq. destruct (kv_lookup k d); apply kv_set_nodup. Qed.

Lemma appendlist_elem d k v x :
  NoDup d.*1 -> x ∈ mv_pairs (appendlist d (k, v)) <-> x = (k, v) \/ x ∈ mv_pairs d.
Proof.
  intros Hnd. rewrite !mv_pairs_elem by (by apply appendlist_nodup || done).
  destruct x as [k' w]. cbn [fst snd]. rewrite appendlist_lookup. case_bool_decide as E.
  - subst k'. destruct (kv_lookup k d) as [vs|]; cbn [default]; split.
    + intros (vs' & [= <-] & Hw). apply elem_of_app in Hw as [Hw|Hw]; [eauto|].
      apply list_elem_of_singleton in Hw as ->. by left.
    + intros [[= ->]|(vs' & [= <-] & Hw)]; eexists; (split; [done|]); apply elem_of_app; [right; by left|by left].
    + intros (vs' & [= <-] & Hw). apply list_elem_of_singleton in Hw as ->. by left.
    + intros [[= ->]|(vs' & [=] & _)]. eexists. split; [done|]. by left.
  - split; [by right|]. intros [[= -> _]|Hr]; [done|exact Hr].
Qed.

Lemma fold_appendlist l acc :
  mv_wf acc ->
  mv_wf (fold_left appendlist l acc) /\
  length (mv_pairs (fold_left appendlist l acc)) = (length (mv_pairs acc) + length l)%nat /\
  forall x, x ∈ mv_pairs (fold_left appendlist l acc) <-> x ∈ l \/ x ∈ mv_pairs acc.
Proof.
  revert acc. induction l as [|[k v] l IH]; intros acc Hwf; cbn [fold_left].
  - split_and!; [done|cbn; lia|]. intros x. split; [by right|]. intros [Hx|]; [inversion Hx|done].
  - destruct (IH (appendlist acc (k, v)) (appendlist_wf _ _ Hwf)) as (Hw & Hl & He).
    split_and!; [done|rewrite Hl, appendlist_length; cbn; lia|]. intros x.
    rewrite He, elem_of_cons, appendlist_elem by apply Hwf. tauto.
Qed.

(** The list of a key after [appendlist] on each pair in turn: the
    values paired with it, in order, after the ones it had. *)
Lemma fold_appendlist_lookup l acc k :
  kv_lookup k (fold_left appendlist l acc) =
  match (filter (fun kv : pystr * pystr => kv.1 = k) l).*2 with
  | [] => kv_lookup k acc
  | vs => Some (default [] (kv_lookup k acc) ++ vs)
  end.
Proof.
  revert acc. induction l as [|[k' v] l IH]; intros acc; [done|]. cbn [fold_left].
  rewrite IH, appendlist_lookup. destruct (decide (k' = k)) as [->|Hne].
  - rewrite filter_cons_True by done. rewrite bool_decide_true by done. cbn [fmap list_fmap snd default].
    destruct (filter _ l).*2; [done|]. cbn [id]. by rewrite <- app_assoc.
  - rewrite filter_cons_False by done. by rewrite bool_decide_false by congruence.
Qed.

(** ** Theorems *)

(** C14: [QueryDict(request.POST.urlencode())] gives back [request.POST]:
    for a [QueryDict] whose keys and values are Unicode strings without
    surrogates, [urlencode] returns a query string, and parsing it
    returns the same keys in the same order with the same lists of
    values, unless it holds more fields than
    [DATA_UPLOAD_MAX_NUMBER_FIELDS], when [QueryDict] raises
    [TooManyFieldsSent]. *)
Theorem urlencode_querydict_roundtrip max_num_fields d :
  mv_wf d -> Forall (fun kv => str_scalar kv.1 = true /\ str_scalar kv.2 = true) (mv_pairs d) ->
  exists s, urlencode d = Ok s /\
            QueryDict max_num_fields s =
              if fields_fit max_num_fields (length (mv_pairs d)) then Ok d else Err TooManyFieldsSent.
Proof.
  intros [Hnd Hne] Hs. destruct (map_result_encode _ Hs) as (items & Hm & Hf).
  exists (py_join [38] items). split; [unfold urlencode; by rewrite Hm|].
  unfold QueryDict. rewrite (parse_qsl_encoded max_num_fields _ _ Hs Hf).
  destruct (fields_fit _ _); [|done]. cbn [result_bind]. f_equal. by apply (of_pairs_mv_pairs [] d).
Qed.

(** C16: [urlencode] raises [UnicodeEncodeError] as soon as a key or a
    value it writes holds a surrogate, which [str.encode('utf-8')]
    refuses. *)
Theorem urlencode_surrogate_error d :
  Exists (fun kv => exists c, (c ∈ kv.1 \/ c ∈ kv.2) /\ 55296 <= c <= 57343) (mv_pairs d) ->
  urlencode d = Err UnicodeEncodeError.
Proof.
  unfold urlencode. intros Hex.
  enough (map_result (fun kv => encode_pair kv.1 kv.2) (mv_pairs d) = Err UnicodeEncodeError) as -> by done.
  induction Hex as [ [k v] l Hkv | [k v] l _ IH ]; rewrite map_result_cons; cbn [fst snd] in *.
  - by rewrite encode_pair_surrogate.
  - destruct (encode_pair_cases k v) as [[t Ht] | Ht]; rewrite Ht; [|done]. cbn. by rewrite IH.
Qed.

(** C15: [QueryDict] builds its [MultiValueDict] by [appendlist] on each
    parsed pair in turn: whatever the pairs, its keys are distinct, and
    the list of each key is exactly the values paired with that key, in
    the order they came, or the key is absent when there are none. *)
Theorem of_pairs_invariant l :
  NoDup (of_pairs l).*1 /\
  forall k, kv_lookup k (of_pairs l) =
    match (filter (fun kv : pystr * pystr => kv.1 = k) l).*2 with [] => None | vs => Some vs end.
Proof.
  destruct (fold_appendlist l [] ltac:(split; constructor)) as ([Hnd _] & _).
  split; [done|]. intros k. unfold of_pairs. rewrite fold_appendlist_lookup. by destruct (_ <$> _).
Qed.

(** ** Witnesses *)

Lemma urlencode_querydict_roundtrip_witness :
  exists s, urlencode ex_post = Ok s /\
            QueryDict (Some 1000%nat) s =
              if fields_fit (Some 1000%nat) (length (mv_pairs ex_post)) then Ok ex_post else Err TooManyFieldsSent.
Proof.
  apply urlencode_querydict_roundtrip.
  - split; apply (bool_decide_unpack _); vm_compute; reflexivity.
  - apply (bool_decide_unpack _). vm_compute. reflexivity.
Defined.

Lemma urlencode_surrogate_error_witness : urlencode [(u "q", [[55357]])] = Err UnicodeEncodeError.
Proof. apply urlencode_surrogate_error. cbn. left. exists 55357. split; [right; left|lia]. Defined.
