(* ===== verification/AdminChangelist.v ===== *)
(** * [BaseModelAdmin.changelist_view] and [get_change_link]

    [src/admin/base.py], lines 206-229: the change list of a model reads
    the last admin action that [AdminActionLoggerMiddleware] stored in
    the session for ["app_label.model_name"] (module [Middleware]), parses
    its urlencoded POST data back with [QueryDict(...).lists()] (module
    [QueryDict]) and passes it to the template as
    [extra_context['last_action']]; [get_change_link] renders a link to a
    record's change page with [format_html].

    The theorems compose the middleware with the view: an action POSTed
    to a model's change list is found again, with the same keys, values
    and order, when that change list is next shown, and the change lists
    of the other models are unaffected. *)

From stdpp Require Import base list strings.
From S2P Require Import Prelude PyStr ModelBase Middleware QueryDict.

(** ** Data *)

(** The values of the template's [extra_context]: the copy of the last
    action, whose ['data'] [changelist_view] replaced by the parsed
    lists, or another value a caller put there. *)
Inductive ctx_value : Type :=
  | CtxLastAction (action_path : pystr) (data : mvdict)
  | CtxValue (v : pystr).

(** [f'{self.model._meta.app_label}.{self.model._meta.model_name}'], the
    key [get_model_from_path] stores the action under. *)
Definition model_label (app_label model_name : pystr) : pystr := app_label ++ u "." ++ model_name.

(** ** [changelist_view] *)

(** [changelist_view(request, extra_context)] up to the call of
    [super().changelist_view]: the [extra_context] it passes on. The
    session stores ['data'] as the string [request.POST.urlencode()]
    returned, so the [isinstance(..., str)] test holds; the copy is a new
    dict, so the session is not changed. [QueryDict] raises
    [TooManyFieldsSent] past [DATA_UPLOAD_MAX_NUMBER_FIELDS]. *)
Definition changelist_view (max_num_fields : option nat) (app_label model_name : pystr)
    (s : session) (extra_context : option (list (pystr * ctx_value)))
    : result qd_error (list (pystr * ctx_value)) :=
  let extra_context := default [] extra_context in
  let last_action := default [] (last_admin_action s) in
  let model := model_label app_label model_name in
  match kv_lookup model last_action with
  | Some (action_path, data) =>
    lists <- QueryDict max_num_fields data ;;
    Ok (kv_set (u "last_action") (CtxLastAction action_path lists) extra_context)
  | None => Ok extra_context
  end.

(** ** [get_change_link] *)

(** What [get_change_link] reads of a record: its [_meta], its primary
    key and [str(record)]. *)
Record admin_record : Type := AdminRecord {
  rec_app_label : pystr;
  rec_model_name : pystr;
  rec_pk : pystr;
  rec_str : pystr
}.

Section ChangeLink.
Context (reverse : pystr -> list pystr -> pystr).   (* [django.urls.reverse(name, args=...)] *)

Definition change_url_name (record : admin_record) : pystr :=
  u "admin:" ++ rec_app_label record ++ u "_" ++ rec_model_name record ++ u "_change".

(** [format_html('<a href="{}">{}</a>', url, record)] escapes both. *)
Definition get_change_link (record : admin_record) : pystr :=
  admin_link (reverse (change_url_name record) [rec_pk record]) (rec_str record).

End ChangeLink.

(** ** Lemmas *)

(** [QueryDict] keeps exactly the pairs it parsed, so everything it
    holds is as scalar as they are. *)
Lemma of_pairs_scalar l :
  Forall (fun kv => str_scalar kv.1 = true /\ str_scalar kv.2 = true) l ->
  Forall (fun kv => str_scalar kv.1 = true /\ str_scalar kv.2 = true) (mv_pairs (of_pairs l)).
Proof.
  destruct (fold_appendlist l [] ltac:(split; constructor)) as (_ & _ & He).
  rewrite !Forall_forall. intros Hl x Hx. apply Hl. unfold of_pairs in Hx.
  apply He in Hx as [Hx|Hx]; [done|inversion Hx].
Qed.

(** [QueryDict] parses [urlencode] of a [QueryDict] built from pairs
    back into the same [QueryDict]. *)
Lemma querydict_urlencode_of_pairs max_num_fields l :
  Forall (fun kv => str_scalar kv.1 = true /\ str_scalar kv.2 = true) l ->
  exists data, urlencode (of_pairs l) = Ok data /\
    QueryDict max_num_fields data =
      if fields_fit max_num_fields (length l) then Ok (of_pairs l) else Err TooManyFieldsSent.
Proof.
  intros Hs. destruct (fold_appendlist l [] ltac:(split; constructor)) as ([Hnd Hne] & Hl & _).
  destruct (map_result_encode _ (of_pairs_scalar _ Hs)) as (items & Hm & Hf).
  exists (py_join [38%N] items). split; [unfold urlencode; by rewrite Hm|].
  unfold QueryDict. rewrite (parse_qsl_encoded _ _ _ (of_pairs_scalar _ Hs) Hf).
  replace (length (mv_pairs (of_pairs l))) with (length l) by (unfold of_pairs; rewrite Hl; done).
  destruct (fields_fit _ _); [|done]. cbn [result_bind]. f_equal. by apply (of_pairs_mv_pairs []).
Qed.

(** For a [BaseModel] record, whose primary key is [id],
    [get_change_link(record)] is [record.admin_link()]. *)
Lemma get_change_link_admin_link reverse b :
  get_change_link reverse (AdminRecord (bm_app_label b) (bm_model_name b) (bm_id b) (bm_str b)) =
  model_admin_link reverse b None.
Proof. reflexivity. Qed.

(** ** Theorems *)

(** C13: The last admin action is replayed on the change list: after
    [AdminActionLoggerMiddleware] logs a POSTed action on
    ["/admin/<app_label>/<model_name>/..."], [changelist_view] for that
    model puts into [extra_context['last_action']] the action's path and
    [QueryDict(data).lists()], which is [request.POST] itself, with its
    keys, values and order, unless it has more fields than
    [DATA_UPLOAD_MAX_NUMBER_FIELDS]. *)
Theorem admin_action_replayed get_model max_num_fields r s app_label model_name extra :
  method r = u "POST" -> startswith (path r) (u "/admin/") = true ->
  is_Some (kv_lookup (u "action") (post r)) ->
  get_model_from_path get_model (path r) = Some (model_label app_label model_name) ->
  Forall (fun kv => str_scalar kv.1 = true /\ str_scalar kv.2 = true) (post r) ->
  exists s', admin_action_logger_call get_model (fun p => urlencode (of_pairs p)) r s = Ok s' /\
    changelist_view max_num_fields app_label model_name s' extra =
      if fields_fit max_num_fields (length (post r))
      then Ok (kv_set (u "last_action") (CtxLastAction (path r) (of_pairs (post r))) (default [] extra))
      else Err TooManyFieldsSent.
Proof.
  intros Hm Hp Ha Hg Hs. destruct (querydict_urlencode_of_pairs max_num_fields _ Hs) as (data & He & Hq).
  unfold admin_action_logger_call. rewrite Hp, Hg, He, !bool_decide_true by done. cbn [andb result_bind].
  eexists. split; [done|]. unfold changelist_view. cbn [last_admin_action default id].
  cbv zeta. rewrite kv_lookup_set_eq, Hq. by destruct (fields_fit _ _).
Qed.

(** C17: Logging an action for one model leaves the change list of every
    other model as it was. *)
Theorem admin_action_other_model get_model urlenc max_num_fields r s s' app_label model_name extra :
  get_model_from_path get_model (path r) <> Some (model_label app_label model_name) ->
  admin_action_logger_call (E := qd_error) get_model urlenc r s = Ok s' ->
  changelist_view max_num_fields app_label model_name s' extra =
  changelist_view max_num_fields app_label model_name s extra.
Proof.
  intros Hg. unfold admin_action_logger_call.
  destruct (_ && _ && _); [|by intros [= <-]].
  destruct (get_model_from_path _ _) as [model|]; [|by intros [= <-]].
  destruct (urlenc (post r)) as [data|e]; cbn [result_bind]; [|done]. intros [= <-].
  unfold changelist_view. cbn [last_admin_action default id]. cbv zeta.
  rewrite kv_lookup_set_ne by congruence. done.
Qed.

(** ** Witnesses *)

(** A [delete_selected] action POSTed to the invoices of app [shop]. *)
Definition ex_action_request : request :=
  {| method := u "POST"; path := u "/admin/shop/invoice/"; meta_request_id := None; meta_start_time := None;
     post := [(u "action", u "delete_selected"); (u "_selected_action", u "3");
              (u "_selected_action", u "4"); (u "index", u "0")];
     csp_nonce := None |}.

Definition ex_action_session : session := {| last_admin_action := None; modified := false |}.

Lemma admin_action_replayed_witness :
  exists s', admin_action_logger_call (fun _ _ => true) (fun p => urlencode (of_pairs p)) ex_action_request ex_action_session = Ok s' /\
    changelist_view (Some 1000%nat) (u "shop") (u "invoice") s' None =
      if fields_fit (Some 1000%nat) (length (post ex_action_request))
      then Ok (kv_set (u "last_action") (CtxLastAction (path ex_action_request) (of_pairs (post ex_action_request))) (default [] None))
      else Err TooManyFieldsSent.
Proof.
  apply admin_action_replayed; [reflexivity|reflexivity|vm_compute; by eexists|vm_compute; reflexivity|].
  apply (bool_decide_unpack _). vm_compute. reflexivity.
Defined.

Lemma admin_action_other_model_witness :
  exists s', admin_action_logger_call (fun _ _ => true) (fun p => urlencode (of_pairs p)) ex_action_request ex_action_session = Ok s' /\
    changelist_view (Some 1000%nat) (u "shop") (u "customer") s' None =
    changelist_view (Some 1000%nat) (u "shop") (u "customer") ex_action_session None.
Proof.
  eexists. split; [vm_compute; reflexivity|].
  apply (admin_action_other_model (fun _ _ => true) (fun p => urlencode (of_pairs p)) _ ex_action_request);
    [vm_compute; discriminate|vm_compute; reflexivity].
Defined.
