(* ===== verification/Serializers.v ===== *)
(** * [ModelMethodField], [DynamicFieldsModelSerializer] and
      [NoPagination] ([src/serializers.py] lines 50-287)

    A [ModelMethodField] is a read-only field that represents a model
    instance by calling one of its methods or reading an attribute,
    possibly along a dotted path, and converts the value by its type.
    Its method name is state: [bind] fills it in, and
    [to_representation] rewrites it to [get_<name>] the first time an
    instance lacks the attribute but has the getter.  The field object
    lives in the serializer's [fields], so the rewrite carries over to
    the next instance the serializer represents.

    [DynamicFieldsModelSerializer] reads its parameters from [context]
    when it is not empty and from the keyword arguments otherwise, sets
    [Meta.model] on the class, and on first representation ([late_init])
    filters the model's fields, adds a [ModelMethodField] per dynamic
    entry and a nested serializer per relation.

    Python objects are a small universe of values ([pyval]): the
    builtin types the field tells apart, objects with their attributes
    (a property whose getter raises [ValueError] included) and bound
    methods.  What Django REST framework does with a plain model field
    is a parameter of the Sections. *)

From S2P Require Import Prelude PyStr.
From Stdlib Require Import ZArith.
From Stdlib Require String.
Import String.StringSyntax.

Local Open Scope string_scope.
Local Open Scope N_scope.
Local Set Warnings "-register-all".

(** ** Python values *)

Inductive pyval : Type :=
| VNone
| VBool (b : bool)
| VInt (z : Z)
| VStr (s : pystr)
| VTuple (l : list pyval)
| VList (l : list pyval)
| VObj (truthy : bool) (attrs : list (pystr * pyval))   (* another object and its attributes *)
| VMethod (ret : pyval)                                 (* a bound method; calling it returns [ret] *)
| VRaising.                                             (* an attribute whose getter raises [ValueError] *)

Inductive pyexc : Type :=
| ValueError
| TypeError.

(** [getattr(obj, name, None)]: [None] for a missing attribute; the
    values of builtin types have no attributes the code asks for. *)
Definition py_getattr (obj : pyval) (name : pystr) : result pyexc pyval :=
  match obj with
  | VObj _ attrs =>
    match kv_lookup name attrs with
    | Some VRaising => Err ValueError
    | Some v => Ok v
    | None => Ok VNone
    end
  | _ => Ok VNone
  end.

(** [hasattr(obj, name)]: only [AttributeError] is caught, so the
    [ValueError] of a property propagates. *)
Definition py_hasattr (obj : pyval) (name : pystr) : result pyexc bool :=
  match obj with
  | VObj _ attrs =>
    match kv_lookup name attrs with
    | Some VRaising => Err ValueError
    | Some _ => Ok true
    | None => Ok false
    end
  | _ => Ok false
  end.

(** [bool(value)]. *)
Definition py_bool (v : pyval) : bool :=
  match v with
  | VNone => false
  | VBool b => b
  | VInt z => negb (z =? 0)%Z
  | VStr s => negb (bool_decide (s = []))
  | VTuple l | VList l => negb (bool_decide (l = []))
  | VObj t _ => t
  | VMethod _ | VRaising => true
  end.

Definition is_int (v : pyval) : bool := match v with VInt _ | VBool _ => true | _ => false end.

(** ** The representations Django REST framework's fields produce *)

Inductive representation : Type :=
| RNone
| RBool (b : bool)
| RInt (z : Z)
| RStr (s : pystr)
| RList (l : list representation)
| RValue (v : pyval).   (* a value returned as it is *)

(** [IntegerField().to_representation(v)] is [int(v)]; [CharField] is
    [str(v)], given by [py_str]. *)
Definition integer_rep (v : pyval) : representation :=
  match v with
  | VBool b => RInt (if b then 1 else 0)
  | VInt z => RInt z
  | _ => RValue v
  end.

Definition char_rep (py_str : pyval -> pystr) (v : pyval) : representation := RStr (py_str v).

(** ** [ModelMethodField] *)

Module ModelMethodField.

(** The field's [method_name]. *)
Record state : Type := State { method_name : option pystr }.

(** [__init__(method_name=None)]. *)
Definition init (method_name : option pystr) : state := State method_name.

(** [bind(field_name, parent)]: the method name defaults to the field
    name (not [get_<field_name>] as the docstring says). *)
Definition bind (st : state) (field_name : pystr) : state :=
  match method_name st with
  | None => State (Some field_name)
  | Some _ => st
  end.

(** The loop of [get_field_value] over the parts of a dotted name:
    [None] ends it, and a [ValueError] ends it with the object reached
    so far; another exception propagates. *)
Fixpoint walk (obj : pyval) (parts : list pystr) : result pyexc pyval :=
  match parts with
  | [] => Ok obj
  | part :: parts =>
    match py_getattr obj part with
    | Err ValueError => Ok obj
    | Err e => Err e
    | Ok VNone => Ok VNone
    | Ok v => walk v parts
    end
  end.

(** [get_field_value(obj, field_name)]. *)
Definition get_field_value (obj : pyval) (field_name : pystr) : result pyexc pyval :=
  if bool_decide (46 ∉ field_name) then py_getattr obj field_name
  else walk obj (py_split_char 46 field_name).

Section Representation.
Context (py_str : pyval -> pystr).   (* [str(value)] *)

(** The conversion by type at the end of [to_representation]; the
    second [bool] test is dead, and a false value of another type is
    [None]. *)
Definition convert (value : pyval) : representation :=
  match value with
  | VBool b => RBool b
  | VTuple l | VList l =>
    RList (map (if forallb is_int l then integer_rep else char_rep py_str) l)
  | VInt z => RInt z
  | VStr s => RStr s
  | _ => if py_bool value then RValue value else RNone
  end.

(** [to_representation(instance)]: the state after it (the method name
    may have been rewritten) and the representation. *)
Definition to_representation (st : state) (instance : pyval) : result pyexc (state * representation) :=
  match method_name st with
  | None => Err TypeError
  | Some name =>
    h <- py_hasattr instance name ;;
    name <- (if negb h && bool_decide (46 ∉ name) then
               let potential := u "get_" ++ name in
               h' <- py_hasattr instance potential ;;
               Ok (if h' then potential else name)
             else Ok name) ;;
    method <- py_getattr instance name ;;
    let value :=
      match method with
      | VMethod ret => ret
      | _ => match get_field_value instance name with Ok v => v | Err _ => VNone end
      end in
    Ok (State (Some name), convert value)
  end.

End Representation.

End ModelMethodField.

(** ** [create_custom_subclass] *)

(** A serializer class: [DynamicFieldsModelSerializer] itself (or a
    subclass without a [Meta] of its own), whose [Meta] all its
    instances share, or a class made by [create_custom_subclass] with a
    [Meta] of its own. *)
Inductive serializer_class : Type :=
| BaseClass
| CustomSubclass (name : pystr) (meta_model : pystr).

(** [create_custom_subclass(base_class, model, name_suffix)]. *)
Definition create_custom_subclass (base_name model name_suffix : pystr) : serializer_class :=
  CustomSubclass (base_name ++ [95] ++ name_suffix) model.

(** ** [DynamicFieldsModelSerializer] *)

(** ['__all__'] or a list of field names. *)
Inductive fields_param : Type :=
| FAll
| FNames (l : list pystr).

(** An entry of [dynamic]: a name, or a pair [(field_name, method_name)]. *)
Inductive dyn_entry : Type :=
| DName (name : pystr)
| DPair (field_name method_name : pystr).

(** The keys of a [context], of the keyword arguments or of
    [serializer_defaults] the serializer reads, and whether other keys
    are present (which makes a [context] true).  A relation's
    [relation_info] is such a dictionary too, with its [method]. *)
Inductive params : Type := Params {
  p_model : option pystr;
  p_fields : option fields_param;
  p_dynamic : option (list dyn_entry);
  p_exclude : option (list pystr);
  p_relations : option (list (pystr * params));
  p_methods : option (list (pystr * pystr));
  p_method : option pystr;
  p_other : bool
}.

Definition no_params : params := Params None None None None None None None false.

(** [bool(context)]. *)
Definition params_truthy (p : params) : bool :=
  match p with
  | Params m f d e r ms me o =>
    bool_decide (is_Some m) || bool_decide (is_Some f) || bool_decide (is_Some d) ||
    bool_decide (is_Some e) || bool_decide (is_Some r) || bool_decide (is_Some ms) ||
    bool_decide (is_Some me) || o
  end.

(** A field of the serializer's [fields]: one Django REST framework
    builds for a model field, a [ModelMethodField] with its state, or a
    nested serializer made in [late_init] with its [context]. *)
Inductive sfield : Type :=
| SModelField
| SMethodField (st : ModelMethodField.state)
| SRelated (cls : serializer_class) (context : params).

(** The first positional argument: none, a model instance (of the model
    given by name), or another value. *)
Inductive first_arg : Type :=
| NoArgs
| ModelInstance (model : pystr)
| OtherArg.

Inductive ser_error : Type :=
| PyError (e : pyexc)
| KeyError (key : pystr)
| UnexpectedKeyword           (* [TypeError] of [BaseSerializer.__init__] *)
| MissingMetaModel.           (* [AssertionError]: the class has no [Meta.model] *)

Record serializer : Type := Serializer {
  s_class : serializer_class;
  s_late_init : bool;                           (* [self._late_init] *)
  s_fields_param : fields_param;                (* [self._fields] *)
  s_dynamic : list dyn_entry;                   (* [self._dynamic] *)
  s_exclude : list pystr;                       (* [self._exclude] *)
  s_relations : list (pystr * params);          (* [self._relations] *)
  s_methods : list (pystr * pystr);             (* [self.methods] *)
  s_context : params;                           (* [self._context] *)
  s_fields : option (list (pystr * sfield))     (* [self.fields], built on first access *)
}.

Module DynamicFieldsModelSerializer.

Definition class_name : pystr := u "DynamicFieldsModelSerializer".

(** The field name and method name of a dynamic entry. *)
Definition dyn_names (d : dyn_entry) : pystr * pystr :=
  match d with DName n => (n, n) | DPair f m => (f, m) end.

Definition dyn_name (d : dyn_entry) : option pystr :=
  match d with DName n => Some n | DPair _ _ => None end.

Section Serializer.
Context (model_fields : pystr -> list pystr).               (* the fields [ModelSerializer] builds for a model *)
Context (serializer_defaults : pystr -> option params).     (* [model._meta.serializer_defaults] *)

(** [get_param(name, default)]: from [context] when it is true,
    otherwise popped from the keyword arguments; [defaults] is read at
    the call, after [__init__] may have replaced it. *)
Definition get_param {A} (sel : params -> option A) (clear : params -> params) (dflt : A)
    (context defaults kwargs : params) : A * params :=
  if params_truthy context then (default (default dflt (sel defaults)) (sel context), kwargs)
  else (default (default dflt (sel defaults)) (sel kwargs), clear kwargs).

Definition clear_model (p : params) : params :=
  match p with Params _ f d e r ms me o => Params None f d e r ms me o end.
Definition clear_fields (p : params) : params :=
  match p with Params m _ d e r ms me o => Params m None d e r ms me o end.
Definition clear_dynamic (p : params) : params :=
  match p with Params m f _ e r ms me o => Params m f None e r ms me o end.
Definition clear_exclude (p : params) : params :=
  match p with Params m f d _ r ms me o => Params m f d None r ms me o end.
Definition clear_relations (p : params) : params :=
  match p with Params m f d e _ ms me o => Params m f d e None ms me o end.
Definition clear_methods (p : params) : params :=
  match p with Params m f d e r _ me o => Params m f d e r None me o end.

(** The keyword arguments [ModelSerializer.__init__] does not accept. *)
Definition unexpected (kwargs : params) : bool :=
  bool_decide (is_Some (p_model kwargs)) || bool_decide (is_Some (p_fields kwargs)) ||
  bool_decide (is_Some (p_dynamic kwargs)) || bool_decide (is_Some (p_exclude kwargs)) ||
  bool_decide (is_Some (p_relations kwargs)) || bool_decide (is_Some (p_methods kwargs)).

(** [__init__(args, kwargs)] of an instance of [cls]: the [Meta.model]
    of [DynamicFieldsModelSerializer] after it and the new serializer;
    [context] is [kwargs.get('context', {})]. *)
Definition init (base_meta : option pystr) (cls : serializer_class) (arg : first_arg)
    (context kwargs : params) : result ser_error (option pystr * serializer) :=
  let '(model, kwargs) := get_param (fun p => Some <$> p_model p) clear_model None context no_params kwargs in
  let model :=
    match model with
    | Some m => Some m
    | None => if params_truthy context then None
              else match arg with ModelInstance m => Some m | _ => None end
    end in
  let '(base_meta, cls) :=
    match model, cls with
    | Some m, BaseClass => (Some m, BaseClass)
    | Some m, CustomSubclass n _ => (base_meta, CustomSubclass n m)
    | None, _ => (base_meta, cls)
    end in
  let defaults := match model with Some m => default no_params (serializer_defaults m) | None => no_params end in
  let '(fields, kwargs) := get_param p_fields clear_fields (FNames []) context defaults kwargs in
  let '(dynamic, kwargs) := get_param p_dynamic clear_dynamic [] context defaults kwargs in
  let '(exclude, kwargs) := get_param p_exclude clear_exclude [] context defaults kwargs in
  let '(relations, kwargs) := get_param p_relations clear_relations [] context defaults kwargs in
  let '(methods, kwargs) := get_param p_methods clear_methods [] context defaults kwargs in
  if unexpected kwargs then Err UnexpectedKeyword
  else Ok (base_meta, {| s_class := cls; s_late_init := false; s_fields_param := fields;
                         s_dynamic := dynamic; s_exclude := exclude; s_relations := relations;
                         s_methods := methods; s_context := context; s_fields := None |}).

(** [self.fields]: built from [Meta.model] on first access. *)
Definition fields (base_meta : option pystr) (s : serializer) : result ser_error (list (pystr * sfield)) :=
  match s_fields s with
  | Some fs => Ok fs
  | None =>
    let meta_model := match s_class s with BaseClass => base_meta | CustomSubclass _ m => Some m end in
    match meta_model with
    | Some m => Ok (map (fun n => (n, SModelField)) (model_fields m))
    | None => Err MissingMetaModel
    end
  end.

(** The inner loop over [self._relations.items()]: a nested serializer
    per relation, [relation_info['model']] raising [KeyError] when
    missing; the fields reached so far are kept. *)
Fixpoint add_relations (fs : list (pystr * sfield)) (rels : list (pystr * params))
    : list (pystr * sfield) * result ser_error unit :=
  match rels with
  | [] => (fs, Ok tt)
  | (k, info) :: rels =>
    match p_model info with
    | None => (fs, Err (KeyError (u "model")))
    | Some m => add_relations (kv_set k (SRelated (create_custom_subclass class_name m k) info) fs) rels
    end
  end.

(** The loop over [self._dynamic]; the loop over the relations is inside
    it, as the source indents it. *)
Fixpoint add_dynamic (fs : list (pystr * sfield)) (dyn : list dyn_entry) (rels : list (pystr * params))
    : list (pystr * sfield) * result ser_error unit :=
  match dyn with
  | [] => (fs, Ok tt)
  | d :: dyn =>
    let '(field_name, method_name) := dyn_names d in
    let fs := kv_set field_name
                (SMethodField (ModelMethodField.bind (ModelMethodField.init (Some method_name)) field_name)) fs in
    match add_relations fs rels with
    | (fs, Ok _) => add_dynamic fs dyn rels
    | (fs, Err e) => (fs, Err e)
    end
  end.

Definition set_fields (s : serializer) (fs : list (pystr * sfield)) : serializer :=
  {| s_class := s_class s; s_late_init := s_late_init s; s_fields_param := s_fields_param s;
     s_dynamic := s_dynamic s; s_exclude := s_exclude s; s_relations := s_relations s;
     s_methods := s_methods s; s_context := s_context s; s_fields := Some fs |}.

(** [late_init()]: the flag is set before [self.fields] is built, so a
    failure leaves it set. *)
Definition late_init (base_meta : option pystr) (s : serializer) : serializer * result ser_error unit :=
  if s_late_init s then (s, Ok tt)
  else
    let s := {| s_class := s_class s; s_late_init := true; s_fields_param := s_fields_param s;
                s_dynamic := s_dynamic s; s_exclude := s_exclude s; s_relations := s_relations s;
                s_methods := s_methods s; s_context := s_context s; s_fields := s_fields s |} in
    match fields base_meta s with
    | Err e => (s, Err e)
    | Ok fs =>
      let fs :=
        match s_fields_param s with
        | FAll => foldl (fun fs n => kv_delete n fs) fs (s_exclude s)
        | FNames names =>
          let allowed := names ++ omap dyn_name (s_dynamic s) in
          List.filter (fun kv => bool_decide (kv.1 ∈ allowed)) fs
        end in
      let '(fs, r) := add_dynamic fs (s_dynamic s) (s_relations s) in
      (set_fields s fs, r)
    end.

Context (py_str : pyval -> pystr).                          (* [str(value)] *)
Context (model_field_rep : pystr -> pyval -> representation).         (* a model field's representation of an instance *)
Context (related_rep : serializer_class -> params -> pyval -> representation).  (* a nested serializer's ([many=True]) *)
Context (value_rep : sfield -> pyval -> representation).              (* [self.fields[name].to_representation(value)] *)

(** [Serializer.to_representation]: each field in order, a
    [ModelMethodField] keeping the state its call leaves. *)
Fixpoint represent_fields (fs : list (pystr * sfield)) (inst : pyval)
    : list (pystr * sfield) * result ser_error (list (pystr * representation)) :=
  match fs with
  | [] => ([], Ok [])
  | (n, f) :: fs =>
    match f with
    | SMethodField st =>
      match ModelMethodField.to_representation py_str st inst with
      | Err e => ((n, f) :: fs, Err (PyError e))
      | Ok (st', r) =>
        let '(fs', res) := represent_fields fs inst in
        ((n, SMethodField st') :: fs', l <- res ;; Ok ((n, r) :: l))
      end
    | SModelField =>
      let '(fs', res) := represent_fields fs inst in
      ((n, f) :: fs', l <- res ;; Ok ((n, model_field_rep n inst) :: l))
    | SRelated c ctx =>
      let '(fs', res) := represent_fields fs inst in
      ((n, f) :: fs', l <- res ;; Ok ((n, related_rep c ctx inst) :: l))
    end
  end.

(** The loop over [self._context.get('relations', {})]: a relation with
    a [method] whose attribute is callable is represented by the field
    of that name, which must exist. *)
Fixpoint method_relations (fs : list (pystr * sfield)) (rels : list (pystr * params)) (inst : pyval)
    (r : list (pystr * representation)) : result ser_error (list (pystr * representation)) :=
  match rels with
  | [] => Ok r
  | (k, info) :: rels =>
    match p_method info with
    | None => method_relations fs rels inst r
    | Some m =>
      match py_getattr inst m with
      | Err e => Err (PyError e)
      | Ok (VMethod ret) =>
        match kv_lookup k fs with
        | None => Err (KeyError k)
        | Some f => method_relations fs rels inst (kv_set k (value_rep f ret) r)
        end
      | Ok _ => method_relations fs rels inst r
      end
    end
  end.

(** [{key.replace('.', '_'): value for key, value in representation.items()}]. *)
Definition rename_keys (r : list (pystr * representation)) : list (pystr * representation) :=
  foldl (fun d kv => kv_set (py_replace kv.1 [46] [95]) kv.2 d) [] r.

(** [to_representation(instance)]: the serializer after it (flag,
    fields, method names) and the representation. *)
Definition to_representation (base_meta : option pystr) (s : serializer) (inst : pyval)
    : serializer * result ser_error (list (pystr * representation)) :=
  let '(s, r) := late_init base_meta s in
  match r with
  | Err e => (s, Err e)
  | Ok _ =>
    match fields base_meta s with
    | Err e => (s, Err e)
    | Ok fs =>
      let '(fs, res) := represent_fields fs inst in
      (set_fields s fs,
       r <- res ;;
       r <- method_relations fs (default [] (p_relations (s_context s))) inst r ;;
       Ok (rename_keys r))
    end
  end.

(** [ListSerializer.to_representation] ([many=True]): one child
    serializer represents every item in turn. *)
Fixpoint represent_many (base_meta : option pystr) (s : serializer) (insts : list pyval)
    : serializer * list (result ser_error (list (pystr * representation))) :=
  match insts with
  | [] => (s, [])
  | inst :: insts =>
    let '(s, r) := to_representation base_meta s inst in
    let '(s, rs) := represent_many base_meta s insts in
    (s, r :: rs)
  end.

End Serializer.

End DynamicFieldsModelSerializer.

(** ** [NoPagination] *)

Module NoPagination.

Definition paginate_queryset {A} (queryset : A) : A := queryset.

Inductive name_error : Type := NameError (name : pystr).

(** [get_paginated_response(data)]: [Response] is not imported in the
    module, so evaluating the call raises [NameError] before the
    dictionary is built. *)
Definition get_paginated_response {A} (data : list A) : result name_error unit :=
  Err (NameError (u "Response")).

End NoPagination.

(** ** Example data *)

Definition ex_model_fields (m : pystr) : list pystr :=
  if bool_decide (m = u "invoice") then map u ["id"; "number"; "total"] else map u ["id"; "name"].
Definition ex_defaults (_ : pystr) : option params := None.
Definition ex_str (_ : pyval) : pystr := [].
Definition ex_model_rep (n : pystr) (inst : pyval) : representation :=
  match py_getattr inst n with Ok v => RValue v | Err _ => RNone end.
Definition ex_related_rep (_ : serializer_class) (_ : params) (_ : pyval) : representation := RList [].
Definition ex_value_rep (_ : sfield) (v : pyval) : representation := RValue v.

(** ** Lemmas *)

Module DFMSLemmas.
Import DynamicFieldsModelSerializer.

Local Abbreviation model_only fs := (Forall (fun kv : pystr * sfield => kv.2 = SModelField) fs).

Lemma add_relations_spec fs rels fs' :
  add_relations fs rels = (fs', Ok tt) ->
  (forall k, k ∈ rels.*1 -> exists c i, kv_lookup k fs' = Some (SRelated c i)) /\
  (forall k, k ∉ rels.*1 -> kv_lookup k fs' = kv_lookup k fs).
Proof.
  revert fs. induction rels as [|[k info] rels IH]; intros fs H; cbn [add_relations] in H.
  - injection H as <-. split; [intros k Hk; by apply elem_of_nil in Hk|done].
  - destruct (p_model info) as [m|]; [|done]. apply IH in H as [H1 H2]. split.
    + intros k' Hk'. destruct (decide (k' ∈ rels.*1)) as [Hin|Hin]; [by apply H1|].
      rewrite fmap_cons, elem_of_cons in Hk'. destruct Hk' as [->|]; [|done].
      rewrite H2 by done. rewrite kv_lookup_set_eq. by do 2 eexists.
    + intros k' Hk'. rewrite fmap_cons, elem_of_cons in Hk'.
      rewrite H2 by (intros ?; apply Hk'; by right). apply kv_lookup_set_ne. intros ->. apply Hk'. by left.
Qed.

Lemma add_dynamic_spec fs dyn rels fs' :
  dyn <> [] -> add_dynamic fs dyn rels = (fs', Ok tt) ->
  forall k, k ∈ rels.*1 -> exists c i, kv_lookup k fs' = Some (SRelated c i).
Proof.
  revert fs. induction dyn as [|d dyn IH]; intros fs Hne H; [done|]. cbn [add_dynamic] in H.
  destruct (dyn_names d) as [fname mname].
  destruct (add_relations _ rels) as [fs1 [[]|e]] eqn:Hr; [|done].
  destruct dyn as [|d' dyn'].
  - cbn [add_dynamic] in H. injection H as <-. by apply add_relations_spec in Hr as [Hr _].
  - by apply (IH fs1).
Qed.

Lemma model_only_delete fs n : model_only fs -> model_only (kv_delete n fs).
Proof.
  induction 1 as [|[k v] fs Hv Hfs IH]; cbn [kv_delete]; [constructor|]. case_bool_decide; [done|]. by constructor.
Qed.

Lemma model_only_deletes ex fs : model_only fs -> model_only (foldl (fun fs n => kv_delete n fs) fs ex).
Proof. revert fs. induction ex as [|n ex IH]; intros fs Hfs; [done|]. apply IH. by apply model_only_delete. Qed.

Lemma model_only_lookup fs k : model_only fs -> forall c i, kv_lookup k fs <> Some (SRelated c i).
Proof.
  induction 1 as [|[k' v] fs Hv _ IH]; intros c i; cbn; [done|]. cbn in Hv. subst v.
  case_bool_decide; [done|]. apply IH.
Qed.

End DFMSLemmas.

(** ** Theorems *)

Section Theorems.
Import DynamicFieldsModelSerializer DFMSLemmas.

(** C29: [late_init] puts the nested serializer of a relation into
    [fields] only when [dynamic] is not empty: the loop over the
    relations is nested in the loop over the dynamic fields, so a
    serializer with relations and no dynamic fields never gets them. *)
Theorem late_init_relations_need_dynamic model_fields base_meta s s' k :
  s_late_init s = false -> s_fields s = None ->
  late_init model_fields base_meta s = (s', Ok tt) -> k ∈ (s_relations s).*1 ->
  exists fs, s_fields s' = Some fs /\
    ((exists c i, kv_lookup k fs = Some (SRelated c i)) <-> s_dynamic s <> []).
Proof.
  intros Hl Hf H Hk. unfold late_init in H. rewrite Hl in H. unfold fields in H. cbn [s_fields s_class] in H.
  rewrite Hf in H. destruct (match s_class s with BaseClass => base_meta | CustomSubclass _ m => Some m end)
    as [m|]; [|discriminate]. cbn [s_fields_param s_exclude s_dynamic s_relations] in H.
  set (fs1 := match s_fields_param s with FAll => _ | FNames _ => _ end) in H.
  assert (Hm : Forall (fun kv : pystr * sfield => kv.2 = SModelField) fs1).
  { assert (Hm0 : Forall (fun kv : pystr * sfield => kv.2 = SModelField) (map (fun n => (n, SModelField)) (model_fields m))).
    { apply Forall_forall. intros kv Hkv. apply list_elem_of_In, in_map_iff in Hkv as (n & <- & _). done. }
    subst fs1. destruct (s_fields_param s).
    - by apply model_only_deletes.
    - apply Forall_forall. intros kv Hkv. apply list_elem_of_In, List.filter_In in Hkv as [Hkv _].
      apply list_elem_of_In in Hkv. by eapply Forall_forall in Hm0. }
  destruct (add_dynamic fs1 (s_dynamic s) (s_relations s)) as [fs2 r] eqn:Ed. injection H as <- ->.
  exists fs2. split; [done|]. split.
  - intros (c & i & Hki) Hd. rewrite Hd in Ed. cbn [add_dynamic] in Ed. injection Ed as <-.
    by apply (model_only_lookup fs1 k Hm c i).
  - intros Hd. by eapply add_dynamic_spec.
Qed.

End Theorems.

Lemma init_base_shape sd b arg ctx kw b' s :
  DynamicFieldsModelSerializer.init sd b BaseClass arg ctx kw = Ok (b', s) ->
  s_class s = BaseClass /\ s_fields s = None.
Proof. unfold DynamicFieldsModelSerializer.init. intros H. repeat case_match; simplify_eq/=; auto. Qed.

(** A serializer created from a model instance, with no [context] and no
    [model=...], writes that instance's model to [Meta.model]. *)
Lemma init_arg_model sd b m kw b' s :
  DynamicFieldsModelSerializer.init sd b BaseClass (ModelInstance m) no_params kw = Ok (b', s) ->
  p_model kw = None -> b' = Some m.
Proof.
  intros H Hk. unfold DynamicFieldsModelSerializer.init, DynamicFieldsModelSerializer.get_param in H.
  rewrite Hk in H. cbn [params_truthy no_params bool_decide decide_rel orb] in H.
  repeat case_match; simplify_eq/=; done.
Qed.

Section Theorems2.
Import DynamicFieldsModelSerializer.

(** C30: When [context] is not empty the parameters are read from it and
    not popped from the keyword arguments, so a serializer given
    [fields=...] (or another of its parameters) as a keyword argument
    together with a [context] raises [TypeError] in
    [ModelSerializer.__init__]. *)
Theorem init_keyword_with_context sd b cls arg context kwargs :
  params_truthy context = true -> unexpected kwargs = true ->
  init sd b cls arg context kwargs = Err UnexpectedKeyword.
Proof.
  intros Hc Hk. unfold init, get_param. rewrite !Hc. cbn iota beta zeta.
  repeat case_match; simplify_eq/=; by rewrite ?Hk.
Qed.

(** C31: [__init__] writes [Meta.model] on the class, shared by all
    instances of [DynamicFieldsModelSerializer], and fields are built
    later: once a second serializer is created from an instance of model
    [mB], a serializer created before it, from whatever model, builds
    its fields from [mB]. *)
Theorem base_class_fields_shared model_fields sd b0 argA ctxA kwA b1 sA mB kwB b2 sB :
  init sd b0 BaseClass argA ctxA kwA = Ok (b1, sA) ->
  init sd b1 BaseClass (ModelInstance mB) no_params kwB = Ok (b2, sB) -> p_model kwB = None ->
  fields model_fields b2 sA = Ok (map (fun n => (n, SModelField)) (model_fields mB)).
Proof.
  intros [HcA HfA]%init_base_shape HB Hk. rewrite (init_arg_model _ _ _ _ _ _ HB Hk).
  unfold fields. by rewrite HcA, HfA.
Qed.

(** An invoice serializer created before a customer serializer
    represents invoices with the customer's fields. *)
Example invoice_serializer_gets_customer_fields :
  (p <- init ex_defaults None BaseClass (ModelInstance (u "invoice")) no_params no_params ;;
   q <- init ex_defaults p.1 BaseClass (ModelInstance (u "customer")) no_params no_params ;;
   fields ex_model_fields q.1 p.2)
  = Ok [(u "id", SModelField); (u "name", SModelField)].
Proof. vm_compute. reflexivity. Qed.

(** The method name a [ModelMethodField] rewrites to [get_<name>]
    stays rewritten: the serializer of a list represents an item that
    has the attribute but not the getter as [None]. *)
Example method_name_rewrite_carries_over :
  (p <- init ex_defaults None BaseClass (ModelInstance (u "invoice")) no_params
          (Params None (Some (FNames [])) (Some [DName (u "total")]) None None None None false) ;;
   Ok (represent_many ex_model_fields ex_str ex_model_rep ex_related_rep ex_value_rep p.1 p.2
         [VObj true [(u "get_total", VMethod (VInt 7))]; VObj true [(u "total", VInt 5)]]).2)
  = Ok [Ok [(u "total", RInt 7)]; Ok [(u "total", RNone)]].
Proof. vm_compute. reflexivity. Qed.

End Theorems2.

(** Once a [ModelMethodField]'s method name is [get_<n>], an instance
    without [get_<n>] (and without [get_get_<n>]) is represented as
    [None], whatever its attribute [n]. *)
Theorem method_name_rewrite_sticky py_str n inst :
  46 ∉ n -> py_hasattr inst (u "get_" ++ n) = Ok false -> py_hasattr inst (u "get_get_" ++ n) = Ok false ->
  ModelMethodField.to_representation py_str (ModelMethodField.State (Some (u "get_" ++ n))) inst =
  Ok (ModelMethodField.State (Some (u "get_" ++ n)), RNone).
Proof.
  intros Hn H1 H2. unfold ModelMethodField.to_representation. cbn [ModelMethodField.method_name].
  rewrite H1. cbn [result_bind negb andb].
  assert (Hd : 46 ∉ u "get_" ++ n).
  { rewrite elem_of_app. intros [Hc|Hc]; [|done]. revert Hc. apply (bool_decide_unpack _). by vm_compute. }
  rewrite (bool_decide_eq_true_2 _ Hd). cbn [andb].
  replace (u "get_" ++ u "get_" ++ n) with (u "get_get_" ++ n) by (rewrite app_assoc; reflexivity).
  rewrite H2. cbn [result_bind].
  assert (Hg : py_getattr inst (u "get_" ++ n) = Ok VNone).
  { unfold py_hasattr, py_getattr in *. destruct inst; try done. by destruct (kv_lookup _ _) as [[]|]. }
  rewrite Hg. cbn [result_bind]. unfold ModelMethodField.get_field_value.
  by rewrite (bool_decide_eq_true_2 _ Hd), Hg.
Qed.

(** Corner cases of the representation: a dotted name whose last
    attribute raises [ValueError] is represented by the object before
    it, and keys that differ only by [.] and [_] collide in the result,
    the later value winning. *)
Example representation_corner_cases :
  ModelMethodField.to_representation ex_str (ModelMethodField.State (Some (u "customer.address")))
    (VObj true [(u "customer", VObj true [(u "address", VRaising)])]) =
    Ok (ModelMethodField.State (Some (u "customer.address")), RValue (VObj true [(u "address", VRaising)])) /\
  DynamicFieldsModelSerializer.rename_keys [(u "a.b", RInt 1); (u "a_b", RInt 2)] = [(u "a_b", RInt 2)].
Proof. split; vm_compute; reflexivity. Qed.

(** ** Witnesses *)

Definition ex_relation : params := Params (Some (u "line")) None None None None None None false.

Definition ex_serializer (dynamic : list dyn_entry) : serializer :=
  {| s_class := BaseClass; s_late_init := false; s_fields_param := FAll; s_dynamic := dynamic;
     s_exclude := []; s_relations := [(u "lines", ex_relation)]; s_methods := [];
     s_context := no_params; s_fields := None |}.

Definition ex_late_init : serializer * result ser_error unit :=
  Eval vm_compute in DynamicFieldsModelSerializer.late_init ex_model_fields (Some (u "invoice")) (ex_serializer [DName (u "total")]).

Lemma late_init_relations_need_dynamic_witness :
  exists fs, s_fields ex_late_init.1 = Some fs /\
    ((exists c i, kv_lookup (u "lines") fs = Some (SRelated c i)) <-> [DName (u "total")] <> []).
Proof.
  apply (late_init_relations_need_dynamic ex_model_fields (Some (u "invoice")) (ex_serializer [DName (u "total")])
           ex_late_init.1 (u "lines")); [reflexivity|reflexivity|vm_compute; reflexivity|].
  apply (bool_decide_unpack _). vm_compute. exact I.
Defined.

Definition ex_context : params := Params None None None None None None None true.
Definition ex_kwargs : params := Params None (Some (FNames [u "id"])) None None None None None false.

Lemma init_keyword_with_context_witness :
  DynamicFieldsModelSerializer.init ex_defaults None BaseClass (ModelInstance (u "invoice")) ex_context ex_kwargs =
  Err UnexpectedKeyword.
Proof. apply init_keyword_with_context; reflexivity. Defined.

Definition ex_init (b : option pystr) (m : String.string) : option pystr * serializer :=
  match DynamicFieldsModelSerializer.init ex_defaults b BaseClass (ModelInstance (u m)) no_params no_params with
  | Ok p => p
  | Err _ => (None, ex_serializer [])
  end.

Definition ex_init_a : option pystr * serializer := Eval vm_compute in ex_init None "invoice".
Definition ex_init_b : option pystr * serializer := Eval vm_compute in ex_init ex_init_a.1 "customer".

Lemma base_class_fields_shared_witness :
  DynamicFieldsModelSerializer.fields ex_model_fields ex_init_b.1 ex_init_a.2 =
  Ok (map (fun n => (n, SModelField)) (ex_model_fields (u "customer"))).
Proof.
  apply (base_class_fields_shared ex_model_fields ex_defaults None (ModelInstance (u "invoice")) no_params no_params
           ex_init_a.1 ex_init_a.2 (u "customer") no_params ex_init_b.1 ex_init_b.2); vm_compute; reflexivity.
Defined.

Lemma method_name_rewrite_sticky_witness :
  ModelMethodField.to_representation ex_str (ModelMethodField.State (Some (u "get_" ++ u "total")))
    (VObj true [(u "total", VInt 5)]) =
  Ok (ModelMethodField.State (Some (u "get_" ++ u "total")), RNone).
Proof.
  apply method_name_rewrite_sticky; [|vm_compute; reflexivity|vm_compute; reflexivity].
  apply (bool_decide_unpack _). vm_compute. exact I.
Defined.
