(* ===== verification/Settings.v ===== *)
(** * The settings fragment ([src/settings.py])

    [settings.py] is executed into a project's settings module after the
    project has defined [DEBUG], [LOG_LEVEL], [BASE_DIR], [FRONTEND_URL]
    and its own [MIDDLEWARE]; these are the fields of [project].  The
    file models what the fragment computes from them and what Django and
    the Python library do with it:
    - [LOGGING] as data, and [logging.config.dictConfig] with the logger
      tree of [logging]: the effective level of a logger (its nearest
      dotted ancestor with a level), the handlers a record reaches by
      propagation, and the level of each handler;
    - [MIDDLEWARE], the project's list put between djultra's, and the
      order in which Django's handler runs a request through it;
    - the static and media paths ([pathlib]'s [/] on [BASE_DIR]);
    - [immutable_file_test], the test WhiteNoise calls on every URL;
    - [CONTENT_SECURITY_POLICY], with the [re.sub] that turns the
      frontend's URL into the one of its websocket. *)

From S2P Require Import Prelude PyStr Regex Middleware.
From Stdlib Require Import ZArith.
From Stdlib Require String.
Import String.StringSyntax.

Local Open Scope string_scope.
Local Open Scope N_scope.

(** The names the fragment takes from the project's settings. *)
Record project : Type := Project {
  DEBUG : bool;
  LOG_LEVEL : pystr;
  BASE_DIR : pystr;
  FRONTEND_URL : pystr;
  project_middleware : list pystr
}.

(** ** [LOGGING] *)

(** The keys of a logger's dict; an absent ['level'] is [None], an
    absent ['propagate'] is [True]. *)
Record logger_config : Type := LoggerConfig {
  lc_level : option pystr;
  lc_handlers : list pystr;
  lc_propagate : bool
}.

Record handler_config : Type := HandlerConfig {
  hc_class : pystr;
  hc_formatter : pystr;
  hc_level : pystr;
  hc_rich_tracebacks : bool;
  hc_tracebacks_show_locals : bool;
  hc_tracebacks_suppress : list pystr;
  hc_markup : bool
}.

Record logging_config : Type := LoggingConfig {
  lg_version : N;
  lg_disable_existing_loggers : bool;
  lg_loggers : list (pystr * logger_config);
  lg_root : logger_config;
  lg_formatters : list (pystr * (pystr * pystr));    (* ['datefmt'], ['format'] *)
  lg_handlers : list (pystr * handler_config)
}.

Definition level_only (l : String.string) : logger_config := LoggerConfig (Some (u l)) [] true.

(** [LOGGING]: the console handler logs from [DEBUG] in debug mode and
    from [LOG_LEVEL] otherwise. *)
Definition LOGGING (ps : project) : logging_config := {|
  lg_version := 1;
  lg_disable_existing_loggers := false;
  lg_loggers := [(u "django", level_only "DEBUG");
                 (u "django.utils.autoreload", level_only "INFO");
                 (u "django.db.backends", level_only "INFO");
                 (u "django.template", level_only "INFO")];
  lg_root := LoggerConfig (Some (u "INFO")) [u "console"] true;
  lg_formatters := [(u "rich", (u "%X", u "%(message)s"))];
  lg_handlers := [(u "console", {|
    hc_class := u "djultra.logging.CustomRichHandler";
    hc_formatter := u "rich";
    hc_level := if DEBUG ps then u "DEBUG" else LOG_LEVEL ps;
    hc_rich_tracebacks := true;
    hc_tracebacks_show_locals := false;
    hc_tracebacks_suppress := [u "venv"; u "/usr/lib"];
    hc_markup := false |})]
|}.

(** ** [logging] *)

(** [logging._nameToLevel]. *)
Definition name_to_level : list (pystr * N) :=
  [(u "CRITICAL", 50); (u "FATAL", 50); (u "ERROR", 40); (u "WARN", 30); (u "WARNING", 30);
   (u "INFO", 20); (u "DEBUG", 10); (u "NOTSET", 0)].

Definition lvl_debug : N := 10.
Definition lvl_info : N := 20.

(** [logging._checkLevel] of a string: [ValueError('Unknown level')]
    for a name that is not a level's. *)
Definition check_level (s : pystr) : option N := kv_lookup s name_to_level.

(** A logger after [dictConfig]; an unconfigured logger has level
    [NOTSET] (0), no handler, and propagates. *)
Record logger_state : Type := LoggerState {
  ls_level : N;
  ls_handlers : list pystr;
  ls_propagate : bool
}.

Record logging_state : Type := LoggingState {
  st_loggers : list (pystr * logger_state);
  st_root : logger_state;
  st_handler_levels : list (pystr * N)
}.

Inductive dict_config_error : Type :=
| UnableToConfigureHandler (name : pystr)
| UnableToConfigureLogger (name : pystr)
| UnableToConfigureRoot.

Definition configure_logger (lc : logger_config) : option logger_state :=
  match lc_level lc with
  | None => Some (LoggerState 0 (lc_handlers lc) (lc_propagate lc))
  | Some s => (fun l => LoggerState l (lc_handlers lc) (lc_propagate lc)) <$> check_level s
  end.

(** [DictConfigurator.configure] for [version] 1 without [incremental]:
    the handlers, then the loggers, then the root; a level that is not a
    level's name raises [ValueError] naming the part. *)
Definition dict_config (c : logging_config) : result dict_config_error logging_state :=
  hls <- map_result (fun nh => match check_level (hc_level nh.2) with
                               | Some l => Ok (nh.1, l)
                               | None => Err (UnableToConfigureHandler nh.1)
                               end) (lg_handlers c) ;;
  lgs <- map_result (fun nl => match configure_logger nl.2 with
                               | Some st => Ok (nl.1, st)
                               | None => Err (UnableToConfigureLogger nl.1)
                               end) (lg_loggers c) ;;
  root <- match configure_logger (lg_root c) with Some st => Ok st | None => Err UnableToConfigureRoot end ;;
  Ok (LoggingState lgs root hls).

(** [str.rfind('.', 0, e)]: the last dot before [e]. *)
Fixpoint rfind_dot (s : pystr) (e : nat) : option nat :=
  match e with
  | O => None
  | S j => if bool_decide (s !! j = Some 46) then Some j else rfind_dot s j
  end.

(** The loop of [Manager._fixupParents]: the names before each dot,
    from the last dot, the next search ending before the dot found
    minus one, and stopping at a dot in first position. *)
Fixpoint dotted_parents (fuel : nat) (name : pystr) (i : option nat) : list pystr :=
  match fuel, i with
  | S fuel, Some (S k) => take (S k) name :: dotted_parents fuel name (rfind_dot name k)
  | _, _ => []
  end.

(** A logger and the loggers above it, the root excepted. *)
Definition ancestors (name : pystr) : list pystr :=
  name :: dotted_parents (length name) name (rfind_dot name (length name)).

Definition logger_of (st : logging_state) (name : pystr) : logger_state :=
  default (LoggerState 0 [] true) (kv_lookup name (st_loggers st)).

(** [Logger.getEffectiveLevel]: the first level that is not [NOTSET]
    from the logger up, the root's at last. *)
Definition effective_level (st : logging_state) (name : pystr) : N :=
  default (ls_level (st_root st))
    (first_some (fun n => let l := ls_level (logger_of st n) in if l =? 0 then None else Some l) (ancestors name)).

(** The loggers [Logger.callHandlers] visits: up to the first that does
    not propagate, the root if none stops. *)
Fixpoint visited (st : logging_state) (names : list pystr) : list logger_state :=
  match names with
  | [] => [st_root st]
  | n :: names => let lg := logger_of st n in if ls_propagate lg then lg :: visited st names else [lg]
  end.

Definition handler_level (st : logging_state) (h : pystr) : N := default 0 (kv_lookup h (st_handler_levels st)).

(** The handlers that emit a record of level [lv] logged on [name]:
    [Logger.isEnabledFor] checks the effective level, then each handler
    met by propagation checks its own level (the levels of the loggers
    above are not consulted). *)
Definition handlers_emitting (st : logging_state) (name : pystr) (lv : N) : list pystr :=
  if effective_level st name <=? lv then
    List.filter (fun h => handler_level st h <=? lv) (visited st (ancestors name) ≫= ls_handlers)
  else [].

(** ** [MIDDLEWARE] *)

Definition mw_patch_morsel : pystr := u "djultra.middleware.PatchMorselMiddleware".
Definition mw_request_id : pystr := u "djultra.middleware.RequestIDMiddleware".
Definition mw_admin_session : pystr := u "djultra.middleware.AdminSessionMiddleware".
Definition mw_admin_action_logger : pystr := u "djultra.middleware.AdminActionLoggerMiddleware".
Definition mw_query_logging : pystr := u "djultra.middleware.QueryLoggingMiddleware".
Definition mw_session : pystr := u "django.contrib.sessions.middleware.SessionMiddleware".

(** [MIDDLEWARE = [..., *MIDDLEWARE, ...]]. *)
Definition MIDDLEWARE (ps : project) : list pystr :=
  [mw_patch_morsel; mw_request_id; mw_admin_session] ++ project_middleware ps ++
  [mw_admin_action_logger; mw_query_logging].

(** What a request does with [settings.SESSION_COOKIE_NAME] in
    Django's handler: each middleware in the order of the list on the
    way in ([AdminSessionMiddleware] writes the name before calling the
    next, [SessionMiddleware.process_request] reads it to find the
    session's cookie), then in the reverse order on the way out
    ([SessionMiddleware.process_response] reads it again to set the
    cookie). *)
Definition request_phase (t : thread) (p : pystr) (m : pystr) : list cookie_event :=
  if bool_decide (m = mw_admin_session) then [WriteName t p]
  else if bool_decide (m = mw_session) then [ReadName t] else [].

Definition response_phase (t : thread) (m : pystr) : list cookie_event :=
  if bool_decide (m = mw_session) then [ReadName t] else [].

Definition cookie_name_events (mws : list pystr) (t : thread) (p : pystr) : list cookie_event :=
  (mws ≫= request_phase t p) ++ (rev mws ≫= response_phase t).

(** ** Static and media files *)

(** [pathlib]'s [path / part] for a relative [part]. *)
Definition path_join (path part : pystr) : pystr := path ++ [47] ++ part.

Definition STATIC_URL : pystr := u "/static/".
Definition STATIC_ROOT (ps : project) : pystr := path_join (BASE_DIR ps) (u "static/collected").

(** [STATICFILES_DIRS], defined in debug mode only: paths, and a
    prefixed path. *)
Inductive static_dir : Type :=
| StaticDir (path : pystr)
| PrefixedStaticDir (prefix path : pystr).

Definition STATICFILES_DIRS (ps : project) : option (list static_dir) :=
  if DEBUG ps then
    Some [StaticDir (path_join (BASE_DIR ps) (u "static/src"));
          StaticDir (path_join (BASE_DIR ps) (u "static/frontend"));
          PrefixedStaticDir (u "src/assets") (path_join (BASE_DIR ps) (u "frontend/src/assets"))]
  else None.

Definition DJANGO_VITE_ASSETS_PATH (ps : project) : pystr :=
  if DEBUG ps then path_join (path_join (BASE_DIR ps) (u "static")) (u "frontend") else STATIC_ROOT ps.

Definition DJANGO_VITE_MANIFEST_PATH (ps : project) : pystr :=
  if DEBUG ps then path_join (BASE_DIR ps) (u "static/frontend/manifest.json")
  else path_join (STATIC_ROOT ps) (u "manifest.json").

Definition MEDIA_URL : pystr := u "media/".
Definition MEDIA_ROOT (ps : project) : pystr := path_join (BASE_DIR ps) (u "media").
Definition TEMP_ROOT (ps : project) : pystr := path_join (MEDIA_ROOT ps) (u "temp").

(** [str.rsplit('.', 1)[1]]: what follows the last dot. *)
Definition after_last_dot (s : pystr) : pystr := rev (take_while (fun c => negb (c =? 46)) (rev s)).

Definition immutable_exts : list pystr := [u "jpg"; u "svg"; u "png"; u "woff"; u "woff2"; u "txt"].

(** [immutable_file_test(path, url)]. *)
Definition immutable_file_test (path url : pystr) : bool :=
  if negb (existsb (N.eqb 46) url) then false
  else bool_decide (py_lower (after_last_dot url) ∈ immutable_exts).

(** ** [CONTENT_SECURITY_POLICY] *)

(** A source of a directive: one of [csp.constants] or a string. *)
Inductive csp_source : Type :=
| CSP_SELF | CSP_NONCE | CSP_NONE | CSP_UNSAFE_INLINE
| CSPHost (s : pystr).

Definition CSP_EXTRA_HOST : pystr := [].

(** [re.sub(r'^https?', 'ws', FRONTEND_URL)]. *)
Definition ws_url (url : pystr) : pystr := re_sub (pat false "^https?") (u "ws") url.

Definition CSP_DIRECTIVES (ps : project) : list (pystr * list csp_source) :=
  [(u "default-src", [CSP_SELF; CSPHost (FRONTEND_URL ps); CSP_NONCE; CSPHost CSP_EXTRA_HOST]);
   (u "style-src", [CSP_SELF; CSPHost (FRONTEND_URL ps); CSPHost CSP_EXTRA_HOST;
                    CSPHost (u "https://sign.relonee.com"); CSP_UNSAFE_INLINE]);
   (u "frame-src", [CSP_SELF; CSPHost (FRONTEND_URL ps); CSPHost CSP_EXTRA_HOST;
                    CSPHost (u "https://www.recaptcha.net"); CSPHost (u "https://sign.relonee.com");
                    CSPHost (u "blob:")]);
   (u "img-src", [CSP_SELF; CSPHost (FRONTEND_URL ps); CSPHost CSP_EXTRA_HOST;
                  CSPHost (u "blob:"); CSPHost (u "data:")]);
   (u "connect-src", [CSP_SELF; CSPHost (ws_url (FRONTEND_URL ps)); CSPHost (FRONTEND_URL ps);
                      CSPHost (u "http://localhost:3000"); CSPHost (u "https://localhost:3000");
                      CSPHost (u "https://www.recaptcha.net")]);
   (u "worker-src", [CSP_SELF; CSP_NONCE; CSPHost (u "blob:")]);
   (u "object-src", [CSP_NONE]);
   (u "base-uri", [CSP_SELF])].

(** The websocket URL by hand: the scheme [https] or [http] at the
    start replaced by [ws]. *)
Definition ws_url_ref (url : pystr) : pystr :=
  if startswith url (u "https") then u "ws" ++ drop 5 url
  else if startswith url (u "http") then u "ws" ++ drop 4 url
  else url.

(** The loggers [LOGGING] configures. *)
Definition configured_loggers : list (pystr * logger_state) :=
  [(u "django", LoggerState 10 [] true); (u "django.utils.autoreload", LoggerState 20 [] true);
   (u "django.db.backends", LoggerState 20 [] true); (u "django.template", LoggerState 20 [] true)].

(** The pattern [r'^https?'] as [re] compiles it. *)
Definition https_re : regex :=
  RSeq RBol (RSeq (RChar 104) (RSeq (RChar 116) (RSeq (RChar 116) (RSeq (RChar 112)
    (RSeq (RSeq REmpty (RAlt (RSeq (RChar 115) REmpty) REmpty)) REmpty))))).

(** ** Lemmas *)

(** [dictConfig(LOGGING)]: only the console handler's level can fail. *)
Lemma dict_config_LOGGING ps :
  dict_config (LOGGING ps) =
  match check_level (if DEBUG ps then u "DEBUG" else LOG_LEVEL ps) with
  | Some l => Ok (LoggingState configured_loggers (LoggerState 20 [u "console"] true) [(u "console", l)])
  | None => Err (UnableToConfigureHandler (u "console"))
  end.
Proof. unfold dict_config. cbn [LOGGING lg_handlers map_result hc_level]. by destruct (check_level _). Qed.

Lemma rfind_dot_lt s e j : rfind_dot s e = Some j -> (j < e)%nat /\ s !! j = Some 46.
Proof.
  induction e as [|e IH]; [done|]. cbn. case_bool_decide; [intros [= <-]; split; [lia|done]|].
  intros Hj. destruct (IH Hj). split; [lia|done].
Qed.

(** Every logger above [name] is named by a prefix of [name]. *)
Lemma ancestors_prefix name a : a ∈ ancestors name -> exists k, a = take k name.
Proof.
  unfold ancestors. intros [->|Ha]%elem_of_cons; [exists (length name); by rewrite firstn_all|].
  revert Ha. generalize (rfind_dot name (length name)).
  induction (length name) as [|f IH]; intros [[|k]|] Ha; cbn in Ha; try by apply elem_of_nil in Ha.
  apply elem_of_cons in Ha as [->|Ha]; [by eexists|]. by apply (IH _ Ha).
Qed.

Lemma first_some_none {A B} (f : A -> option B) l : Forall (fun x => f x = None) l -> first_some f l = None.
Proof. induction 1 as [|x l Hx _ IH]; [done|]. cbn. by rewrite Hx. Qed.

(** No logger above a name outside [django] is configured. *)
Lemma unconfigured_ancestor name a :
  startswith name (u "django") = false -> a ∈ ancestors name -> kv_lookup a configured_loggers = None.
Proof.
  intros Hn Ha. destruct (ancestors_prefix name a Ha) as [k ->].
  destruct (kv_lookup _ _) as [x|] eqn:E; [exfalso|done]. apply kv_lookup_Some_in in E.
  assert (H6 : take 6 (take k name) = u "django") by (repeat (apply elem_of_cons in E as [E|E]; [by rewrite E|]);
    by apply elem_of_nil in E).
  rewrite take_take in H6. assert (Hk : min 6 k = 6%nat).
  { pose proof (f_equal length H6) as Hl. rewrite length_take in Hl. change (length (u "django")) with 6%nat in Hl.
    pose proof (Nat.le_min_l (min 6 k) (length name)). destruct (Nat.min_spec 6 k) as [[? E6]|[? E6]]; lia. }
  rewrite Hk in H6. unfold startswith in Hn. by rewrite (proj2 (is_prefix_spec (u "django") name) H6) in Hn.
Qed.

(** The records of a logger outside [django] are filtered by the
    root's level. *)
Lemma effective_level_outside st name :
  st_loggers st = configured_loggers -> startswith name (u "django") = false ->
  effective_level st name = ls_level (st_root st).
Proof.
  intros Hst Hn. unfold effective_level. rewrite first_some_none; [done|].
  apply Forall_forall. intros a Ha. unfold logger_of. rewrite Hst, (unconfigured_ancestor name a Hn Ha). done.
Qed.

Lemma logger_of_configured st n :
  st_loggers st = configured_loggers -> ls_handlers (logger_of st n) = [] /\ ls_propagate (logger_of st n) = true.
Proof. intros Hst. unfold logger_of. rewrite Hst. unfold configured_loggers. cbn [kv_lookup]. repeat case_bool_decide; split; reflexivity. Qed.

(** Under [LOGGING] a record reaches the root's handlers, and only
    them, from every logger. *)
Lemma visited_handlers st names :
  st_loggers st = configured_loggers -> visited st names ≫= ls_handlers = ls_handlers (st_root st).
Proof.
  intros Hst. induction names as [|n names IH]; cbn [visited]; [by rewrite bind_singleton|].
  destruct (logger_of_configured st n Hst) as [Hh Hp]. rewrite Hp, bind_cons, Hh, IH. done.
Qed.

Lemma handlers_emitting_LOGGING ps st name lv : dict_config (LOGGING ps) = Ok st ->
  handlers_emitting st name lv =
  if (effective_level st name <=? lv) && (handler_level st (u "console") <=? lv) then [u "console"] else [].
Proof.
  rewrite dict_config_LOGGING. destruct (check_level _) as [l|]; [|done]. intros [= <-].
  unfold handlers_emitting. rewrite visited_handlers by done. cbn [st_root ls_handlers].
  destruct (_ <=? lv); [|done]. cbn. by destruct (_ <=? lv).
Qed.

Lemma rfind_dot_app_l p n e : (e <= length p)%nat -> rfind_dot (p ++ n) e = rfind_dot p e.
Proof.
  induction e as [|e IH]; intros He; [done|]. cbn. rewrite lookup_app_l by lia. rewrite IH by lia. done.
Qed.

(** The last dot of [p ++ n] is [p]'s when [n] has none. *)
Lemma rfind_dot_app p n : Forall (fun c => c <> 46) n -> rfind_dot (p ++ n) (length p + length n) = rfind_dot p (length p).
Proof.
  intros Hn. enough (forall j, (j <= length n)%nat -> rfind_dot (p ++ n) (length p + j) = rfind_dot p (length p))
    by auto. induction j as [|j IH]; intros Hj.
  - rewrite Nat.add_0_r. by apply rfind_dot_app_l.
  - rewrite Nat.add_succ_r. cbn. rewrite lookup_app_r by lia. replace (length p + j - length p)%nat with j by lia.
    rewrite bool_decide_false; [apply IH; lia|].
    destruct (n !! j) as [c|] eqn:E; [|done]. intros [= ->]. rewrite Forall_lookup in Hn. by apply (Hn j 46).
Qed.

(** The loggers above [django.<n>], for a name [n] without a dot. *)
Lemma ancestors_django n : Forall (fun c => c <> 46) n -> ancestors (u "django." ++ n) = [u "django." ++ n; u "django"].
Proof.
  intros Hn. unfold ancestors. rewrite length_app, rfind_dot_app by done. reflexivity.
Qed.

Lemma forall_no_dot_app n : Forall (fun c => c <> 46) n -> forall a b, n = a ++ 46 :: b -> False.
Proof. intros Hn a b ->. apply Forall_app in Hn as [_ Hn]. by inversion Hn. Qed.

(** A logger [django.<n>] for a name [n] without a dot is not one of
    [LOGGING]'s, but for [django.template]. *)
Lemma django_child_unconfigured n :
  Forall (fun c => c <> 46) n -> n <> u "template" -> kv_lookup (u "django." ++ n) configured_loggers = None.
Proof.
  intros Hn Ht. unfold configured_loggers. cbn [kv_lookup].
  repeat case_bool_decide; try done.
  - match goal with H : _ = _ ++ n |- _ =>
      change (u "django.utils.autoreload") with (u "django." ++ u "utils" ++ 46 :: u "autoreload") in H;
      apply app_inv_head in H end. exfalso. by apply (forall_no_dot_app n Hn (u "utils") (u "autoreload")).
  - match goal with H : _ = _ ++ n |- _ =>
      change (u "django.db.backends") with (u "django." ++ u "db" ++ 46 :: u "backends") in H;
      apply app_inv_head in H end. exfalso. by apply (forall_no_dot_app n Hn (u "db") (u "backends")).
  - match goal with H : _ = _ ++ n |- _ =>
      change (u "django.template") with (u "django." ++ u "template") in H; apply app_inv_head in H end.
    by subst.
Qed.

(** *** [re.sub(r'^https?', 'ws', url)] *)

(** Split on whether the character [c] is [k]. *)
Local Ltac char_is c k :=
  destruct (N.eqb_spec c k) as [->|?];
  [|rewrite ?(proj2 (N.eqb_neq c k)), ?(proj2 (N.eqb_neq k c)) by congruence].

Lemma pat_https : pat false "^https?" = Pattern https_re [] false.
Proof. reflexivity. Qed.

(** The pattern is anchored: it matches nowhere but at the start. *)
Lemma https_match_at_pos s i m : i <> 0%nat -> re_match_at (pat false "^https?") s i m = None.
Proof. intros Hi. rewrite pat_https. destruct i as [|i]; [done|]. reflexivity. Qed.

Lemma https_search_from_pos s pos m : pos <> 0%nat -> re_search_from (pat false "^https?") s pos m = None.
Proof.
  intros Hpos. unfold re_search_from. apply first_some_none, Forall_forall.
  intros i Hi%elem_of_seq. apply https_match_at_pos. lia.
Qed.

Lemma https_search_0 s : re_search_from (pat false "^https?") s 0 false = re_match_at (pat false "^https?") s 0 false.
Proof.
  unfold re_search_from. rewrite Nat.sub_0_r. cbn [seq first_some].
  destruct (re_match_at _ s 0 _); [done|]. apply first_some_none, Forall_forall.
  intros i Hi%elem_of_seq. apply https_match_at_pos. lia.
Qed.

(** Where the match at the start ends: after [https], after [http], or
    no match. *)
Lemma https_match_0 s :
  re_match_at (pat false "^https?") s 0 false =
  if startswith s (u "https") then Some (MatchObj 0 (MState 5 []))
  else if startswith s (u "http") then Some (MatchObj 0 (MState 4 [])) else None.
Proof.
  rewrite pat_https. change (u "https") with [104; 116; 116; 112; 115]. change (u "http") with [104; 116; 116; 112].
  unfold startswith. destruct s as [|c0 [|c1 [|c2 [|c3 [|c4 s]]]]]; cbn -[N.eqb];
    try char_is c0 104; try char_is c1 116; try char_is c2 116; try char_is c3 112; try char_is c4 115;
    reflexivity.
Qed.

(** *** [MIDDLEWARE] and the session cookie *)

Lemma run_cookie_reads name t evs :
  Forall (fun e => e = ReadName t) evs -> run_cookie_events name evs = (name, map (fun _ => (t, name)) evs).
Proof. induction 1 as [|e evs -> _ IH]; [done|]. cbn. by rewrite IH. Qed.

(** The project's middleware, without [AdminSessionMiddleware], only
    read the name. *)
Lemma project_events_reads t p (mws : list pystr) : mw_admin_session ∉ mws ->
  Forall (fun e => e = ReadName t) (mws ≫= request_phase t p).
Proof.
  intros Hn. apply Forall_bind, Forall_forall. intros m Hm. unfold compose, request_phase.
  rewrite bool_decide_false by (intros ->; contradiction). by case_bool_decide; repeat constructor.
Qed.

Lemma response_events_reads t (mws : list pystr) : Forall (fun e => e = ReadName t) (mws ≫= response_phase t).
Proof. apply Forall_bind, Forall_forall. intros m _. unfold compose, response_phase. by case_bool_decide; repeat constructor. Qed.

Lemma session_event_in t p (mws : list pystr) : mw_session ∈ mws -> ReadName t ∈ mws ≫= request_phase t p.
Proof.
  intros Hs. apply list_elem_of_bind. exists mw_session. split; [|done].
  replace (request_phase t p mw_session) with [ReadName t] by (vm_compute; reflexivity). left.
Qed.

(** The events of one request through [MIDDLEWARE]: the write of
    [AdminSessionMiddleware] first, then reads only. *)
Lemma cookie_events_shape ps t p : mw_admin_session ∉ project_middleware ps ->
  exists R, cookie_name_events (MIDDLEWARE ps) t p = WriteName t p :: R /\ Forall (fun e => e = ReadName t) R /\
            (mw_session ∈ project_middleware ps -> ReadName t ∈ R).
Proof.
  intros Ha. unfold cookie_name_events, MIDDLEWARE. rewrite !rev_app_distr, !bind_app, !bind_cons.
  replace (request_phase t p mw_patch_morsel) with (@nil cookie_event) by (vm_compute; reflexivity).
  replace (request_phase t p mw_request_id) with (@nil cookie_event) by (vm_compute; reflexivity).
  replace (request_phase t p mw_admin_session) with [WriteName t p] by (vm_compute; reflexivity).
  replace (request_phase t p mw_admin_action_logger) with (@nil cookie_event) by (vm_compute; reflexivity).
  replace (request_phase t p mw_query_logging) with (@nil cookie_event) by (vm_compute; reflexivity).
  replace (rev [mw_admin_action_logger; mw_query_logging] ≫= response_phase t) with (@nil cookie_event)
    by (vm_compute; reflexivity).
  replace (rev [mw_patch_morsel; mw_request_id; mw_admin_session] ≫= response_phase t) with (@nil cookie_event)
    by (vm_compute; reflexivity).
  change ([] ≫= request_phase t p) with (@nil cookie_event). rewrite !app_nil_l, !app_nil_r.
  exists ((project_middleware ps ≫= request_phase t p) ++ (rev (project_middleware ps) ≫= response_phase t)).
  split; [reflexivity|]. split.
  - apply Forall_app. auto using project_events_reads, response_events_reads.
  - intros Hs. apply elem_of_app. left. by apply session_event_in.
Qed.

(** *** [immutable_file_test] *)

Lemma after_last_dot_app pre ext : Forall (fun c => c <> 46) ext -> after_last_dot (pre ++ 46 :: ext) = ext.
Proof.
  intros Hext. unfold after_last_dot. rewrite rev_app_distr. cbn [rev]. rewrite <- app_assoc. cbn [app].
  rewrite take_while_app; [apply rev_involutive| |done].
  apply Forall_rev. eapply Forall_impl; [exact Hext|]. intros c Hc. by apply negb_true_iff, N.eqb_neq.
Qed.

(** ** Theorems *)

(** C18: [dictConfig(LOGGING)] fails, at startup, exactly when the
    project is not in debug mode and its [LOG_LEVEL] is not the name of
    a level of [logging] ([ValueError: Unable to configure handler
    'console']); in debug mode [LOG_LEVEL] is not read. *)
Theorem logging_config_error ps :
  (exists e, dict_config (LOGGING ps) = Err e) <-> DEBUG ps = false /\ check_level (LOG_LEVEL ps) = None.
Proof.
  rewrite dict_config_LOGGING. destruct (DEBUG ps).
  - replace (check_level (u "DEBUG")) with (Some 10) by reflexivity.
    split; [intros [e He]; discriminate|intros [? _]; discriminate].
  - destruct (check_level (LOG_LEVEL ps)); split.
    + intros [e He]; discriminate.
    + intros [_ ?]; discriminate.
    + done.
    + intros _. by eexists.
Qed.

(** Records below [INFO] of a logger outside [django], those of
    djultra's own modules included ([djultra.checks] logs [sys.path]
    and [ALLOWED_HOSTS] at [DEBUG]), reach no handler, in debug mode as
    well: the root's level [INFO] is their effective level. *)
Theorem outside_django_below_info_dropped ps st name lv :
  dict_config (LOGGING ps) = Ok st -> startswith name (u "django") = false -> lv < lvl_info ->
  handlers_emitting st name lv = [].
Proof.
  intros Hst Hn Hlv. rewrite (handlers_emitting_LOGGING ps st name lv Hst).
  rewrite dict_config_LOGGING in Hst. destruct (check_level _); [|done]. injection Hst as <-.
  rewrite effective_level_outside by done. cbn. unfold lvl_info in Hlv.
  by rewrite (proj2 (N.leb_gt 20 lv) Hlv).
Qed.

(** In debug mode a [DEBUG] record of a logger [django.<n>] ([n]
    without a dot, [django.template] excepted) reaches the console
    handler: its effective level is [django]'s, and the root's level
    [INFO] does not filter what propagates to its handler. *)
Theorem django_debug_reaches_console ps st n :
  DEBUG ps = true -> dict_config (LOGGING ps) = Ok st -> Forall (fun c => c <> 46) n -> n <> u "template" ->
  handlers_emitting st (u "django." ++ n) lvl_debug = [u "console"].
Proof.
  intros Hd Hst Hn Ht. rewrite (handlers_emitting_LOGGING ps st _ lvl_debug Hst).
  rewrite dict_config_LOGGING, Hd in Hst. cbn in Hst. injection Hst as <-.
  unfold effective_level. rewrite ancestors_django by done. cbn [first_some].
  unfold logger_of at 1. cbn [st_loggers]. rewrite django_child_unconfigured by done. reflexivity.
Qed.

(** [django.db.backends], which logs every SQL query at [DEBUG],
    reaches no handler at that level, in debug mode as well. *)
Theorem sql_debug_dropped ps st :
  dict_config (LOGGING ps) = Ok st -> handlers_emitting st (u "django.db.backends") lvl_debug = [].
Proof.
  intros Hst. rewrite (handlers_emitting_LOGGING ps st _ lvl_debug Hst).
  rewrite dict_config_LOGGING in Hst. destruct (check_level _); [|done]. injection Hst as <-. reflexivity.
Qed.

(** C19: The websocket source of [connect-src],
    [re.sub(r'^https?', 'ws', FRONTEND_URL)] computed by the [re]
    engine, is the frontend's URL with a leading [https] or [http]
    replaced by [ws] (so [https://host] gives [ws://host], not
    [wss://host]), and the URL itself otherwise. *)
Theorem ws_url_spec url : ws_url url = ws_url_ref url.
Proof.
  unfold ws_url, re_sub, ws_url_ref. replace (2 * length url + 2)%nat with (S (S (2 * length url))) by lia.
  cbn [sub_loop]. rewrite https_search_0, https_match_0.
  destruct (startswith url (u "https")); [|destruct (startswith url (u "http"))]; cbn [sub_loop];
    try (rewrite https_search_from_pos by (cbn; lia)); reflexivity.
Qed.

(** [immutable_file_test(path, url)] marks a URL immutable exactly
    when it has a dot and what follows its last dot is, in lower case,
    one of [jpg], [svg], [png], [woff], [woff2], [txt]: the [js] and
    [css] bundles are never immutable, whatever hash their names
    carry. *)
Theorem immutable_file_test_spec path pre ext :
  Forall (fun c => c <> 46) ext ->
  immutable_file_test path (pre ++ 46 :: ext) = bool_decide (py_lower ext ∈ immutable_exts).
Proof.
  intros Hext. unfold immutable_file_test. rewrite after_last_dot_app by done.
  replace (existsb (N.eqb 46) (pre ++ 46 :: ext)) with true; [done|].
  symmetry. apply existsb_exists. exists 46. split; [apply in_or_app; right; left; done|apply N.eqb_refl].
Qed.

(** C20: On a request for [p], every read of
    [settings.SESSION_COOKIE_NAME] by the project's [SessionMiddleware]
    (in [process_request] and in [process_response]) sees the name
    [AdminSessionMiddleware] chose for [p], there is at least one, and
    the global keeps that name: [MIDDLEWARE] puts
    [AdminSessionMiddleware] before the project's list. *)
Theorem session_cookie_name_chosen_first ps t p name :
  mw_session ∈ project_middleware ps -> mw_admin_session ∉ project_middleware ps ->
  exists reads, run_cookie_events name (cookie_name_events (MIDDLEWARE ps) t p) = (session_cookie_name p, reads) /\
                reads <> [] /\ Forall (fun r => r = (t, session_cookie_name p)) reads.
Proof.
  intros Hs Ha. destruct (cookie_events_shape ps t p Ha) as (R & -> & HR & Hin). cbn [run_cookie_events].
  rewrite (run_cookie_reads _ t) by done. eexists. split; [reflexivity|]. split.
  - specialize (Hin Hs). destruct R; [by apply elem_of_nil in Hin|done].
  - apply Forall_forall. intros r (? & -> & _)%list_elem_of_fmap. done.
Qed.

(** ** Witnesses *)

Definition ex_project : project := Project true (u "INFO") (u "/srv/app") (u "https://app.example.com") [mw_session].

Definition ex_logging_state : logging_state :=
  LoggingState configured_loggers (LoggerState 20 [u "console"] true) [(u "console", 10)].

Lemma outside_django_below_info_dropped_witness :
  handlers_emitting ex_logging_state (u "djultra.checks") lvl_debug = [].
Proof.
  apply (outside_django_below_info_dropped ex_project); [reflexivity|reflexivity|reflexivity].
Defined.

Lemma django_debug_reaches_console_witness :
  handlers_emitting ex_logging_state (u "django." ++ u "request") lvl_debug = [u "console"].
Proof.
  apply (django_debug_reaches_console ex_project); [reflexivity|reflexivity| |].
  - vm_compute. repeat constructor; discriminate.
  - intros H. vm_compute in H. discriminate.
Defined.

Lemma sql_debug_dropped_witness : handlers_emitting ex_logging_state (u "django.db.backends") lvl_debug = [].
Proof. apply (sql_debug_dropped ex_project). reflexivity. Defined.

Lemma immutable_file_test_spec_witness :
  immutable_file_test [] (u "/static/img/logo" ++ 46 :: u "PNG") = true.
Proof.
  rewrite (immutable_file_test_spec [] (u "/static/img/logo") (u "PNG")); [vm_compute; reflexivity|].
  vm_compute. repeat constructor; discriminate.
Defined.

Lemma session_cookie_name_chosen_first_witness :
  exists reads, run_cookie_events api_session_cookie (cookie_name_events (MIDDLEWARE ex_project) 1 (u "/admin/"))
                = (session_cookie_name (u "/admin/"), reads) /\ reads <> [] /\
                Forall (fun r => r = (1, session_cookie_name (u "/admin/"))) reads.
Proof.
  apply session_cookie_name_chosen_first; [left|].
  intros H. apply list_elem_of_singleton in H. vm_compute in H. discriminate.
Defined.
