(* ===== verification/Checks.v ===== *)
(** * The system checks ([src/checks.py])

    Django runs the three functions [checks.register()] registers; each
    returns its messages and logs through the logger [djultra.checks].
    A check is modelled as a function from what it reads (the settings,
    [sys.path], [os.environ], the availability of Watchman) to what it
    leaves ([sys.path]), the calls it makes on the logger and the
    messages it returns.  [os.path] is modelled from [posixpath]
    ([dirname], [join], [abspath], [normpath]); the current directory
    and the [str] of [sys.path] are parameters. *)

From S2P Require Import Prelude PyStr Logging.
From Stdlib Require Import ZArith.
From Stdlib Require String.
Import String.StringSyntax.

Local Open Scope string_scope.
Local Open Scope N_scope.

(** A call [logger.<level>(msg, *args)]. *)
Record log_call : Type := LogCall {
  call_level : N;
  call_msg : log_msg;
  call_args : log_args
}.

(** [checks.Warning(msg, hint=...)]. *)
Inductive check_message : Type :=
| CheckWarning (msg hint : pystr).

(** ** [posixpath] *)

Definition slash : N := 47.

(** [p.rfind('/') + 1]. *)
Definition last_slash_end (p : pystr) : nat :=
  Nat.sub (length p) (length (take_while (fun c => negb (c =? slash)) (rev p))).

(** [posixpath.dirname(p)]: the part before the last slash, without the
    slashes that end it unless it is made of slashes only. *)
Definition dirname (p : pystr) : pystr :=
  let head := take (last_slash_end p) p in
  if negb (bool_decide (head = [])) && negb (forallb (N.eqb slash) head)
  then py_rstrip_chars [slash] head else head.

(** [posixpath.join(a, b)]. *)
Definition join2 (a b : pystr) : pystr :=
  if startswith b [slash] then b
  else if bool_decide (a = []) || endswith a [slash] then a ++ b
  else a ++ [slash] ++ b.

Definition path_join_all (a : pystr) (parts : list pystr) : pystr := fold_left join2 parts a.

(** One component of the loop of [posixpath.normpath]. *)
Definition normpath_step (initial_slashes : nat) (new_comps : list pystr) (comp : pystr) : list pystr :=
  if bool_decide (comp = []) || bool_decide (comp = u ".") then new_comps
  else if negb (bool_decide (comp = u "..")) || (bool_decide (initial_slashes = O) && bool_decide (new_comps = []))
          || bool_decide (last new_comps = Some (u ".."))
  then new_comps ++ [comp]
  else match new_comps with [] => [] | _ => removelast new_comps end.

(** [posixpath.normpath(path)]. *)
Definition normpath (path : pystr) : pystr :=
  if bool_decide (path = []) then u "." else
  let initial_slashes :=
    if startswith path [slash] then
      (if startswith path [slash; slash] && negb (startswith path [slash; slash; slash]) then 2%nat else 1%nat)
    else O in
  let new_comps := fold_left (normpath_step initial_slashes) (py_split_char slash path) [] in
  let p := replicate initial_slashes slash ++ py_join [slash] new_comps in
  if bool_decide (p = []) then u "." else p.

(** [posixpath.abspath(path)] in the current directory [cwd]. *)
Definition abspath (cwd path : pystr) : pystr :=
  normpath (if startswith path [slash] then path else join2 cwd path).

Section CheckFunctions.

Context (cwd : pystr).                           (* [os.getcwd()] *)
Context (list_str list_pretty : list pystr -> pystr).   (* [str] and [pretty] of a list of [str] *)

(** [check_debug_and_allowed_hosts]: two log calls, no message. *)
Definition check_debug_and_allowed_hosts (debug : bool) (allowed_hosts : list pystr) :
    list log_call * list check_message :=
  ([LogCall 20 (MsgStr (u "DEBUG setting: %s")) (ArgsTuple [ArgOther (if debug then u "True" else u "False")]);
    LogCall 10 (MsgStr (u "Allowed hosts: %s"))
            (ArgsTuple [ArgList (list_str allowed_hosts) (list_pretty allowed_hosts)])], []).

(** The [vendor] directory next to the package's. *)
Definition vendor_path (file : pystr) : pystr :=
  abspath cwd (path_join_all (dirname file) [u ".."; u "vendor"]).

(** [check_vendor_in_sys_path]: [sys.path] after it, and the log call
    with the list it logs. *)
Definition check_vendor_in_sys_path (file : pystr) (sys_path : list pystr) :
    list pystr * list log_call * list check_message :=
  let v := vendor_path file in
  let sys_path := if bool_decide (v ∈ sys_path) then sys_path else v :: sys_path in
  (sys_path, [LogCall 10 (MsgStr (u "Current sys.path: %s"))
                         (ArgsTuple [ArgList (list_str sys_path) (list_pretty sys_path)])], []).

End CheckFunctions.

(** ** [check_statreloader_usage] *)

Definition DJANGO_AUTORELOAD_ENV : pystr := u "RUN_MAIN".

Inductive reloader_class : Type := StatReloader | WatchmanReloader.

Definition reloader_name (c : reloader_class) : pystr :=
  match c with StatReloader => u "StatReloader" | WatchmanReloader => u "WatchmanReloader" end.

(** [django.utils.autoreload.get_reloader()]: Watchman when
    [WatchmanReloader.check_availability()] does not raise; [watchman]
    is [None] then, and the message of [WatchmanUnavailable] otherwise. *)
Definition get_reloader (watchman : option pystr) : reloader_class :=
  match watchman with None => WatchmanReloader | Some _ => StatReloader end.

Definition statreloader_warning : check_message :=
  CheckWarning
    (u "Django is about to use StatReloader, which polls the filesystem with `os.stat()` and is considerably slower than native watchers.")
    (u "Install watchman for a faster, inotify-based file system watcher").

(** [check_statreloader_usage]: outside the autoreloaded process nothing;
    otherwise, when the reloader is not Watchman, a second call of
    [check_availability] whose exception is logged (the value it
    returns is never used), and the warning for the [StatReloader]. *)
Definition check_statreloader_usage (environ : list (pystr * pystr)) (watchman : option pystr) :
    list log_call * list check_message :=
  if negb (bool_decide (kv_lookup DJANGO_AUTORELOAD_ENV environ = Some (u "true"))) then ([], [])
  else
    let reloader_cls := get_reloader watchman in
    let logs :=
      if negb (bool_decide (reloader_name reloader_cls = u "WatchmanReloader")) then
        match watchman with
        | None => []
        | Some e => [LogCall 40 (MsgStr (u "Cannot use Watchman reloader: ")) (ArgsTuple [ArgOther e])]
        end
      else [] in
    (logs, if bool_decide (reloader_name reloader_cls = u "StatReloader") then [statreloader_warning] else []).

(** ** Lemmas *)

Lemma emit_message_plain pf s e :
  bool_decide (37 ∉ s) = true -> emit_message pf (MsgStr s) (ArgsTuple [ArgOther e]) = s ++ e.
Proof. intros H. unfold emit_message. rewrite H. cbn. by rewrite app_nil_r. Qed.

(** The package [/srv/app/djultra] has its [vendor] next to it. *)
Example vendor_path_example :
  vendor_path (u "/tmp") (u "/srv/app/djultra/checks.py") = u "/srv/app/vendor" /\
  vendor_path (u "/srv") (u "djultra/checks.py") = u "/srv/vendor".
Proof. split; vm_compute; reflexivity. Qed.

(** ** Theorems *)

(** [check_vendor_in_sys_path] leaves the [vendor] directory in
    [sys.path], inserting it at the front only when it is missing, so a
    second run changes nothing; it returns no message. *)
Theorem check_vendor_in_sys_path_idempotent cwd ls lp file sys_path :
  let '(sp1, _, msgs) := check_vendor_in_sys_path cwd ls lp file sys_path in
  vendor_path cwd file ∈ sp1 /\ msgs = [] /\
  (sp1 = sys_path \/ sp1 = vendor_path cwd file :: sys_path) /\
  (check_vendor_in_sys_path cwd ls lp file sp1).1.1 = sp1.
Proof.
  unfold check_vendor_in_sys_path. case_bool_decide as Hin; cbn.
  - split; [done|]. split; [done|]. split; [by left|]. by rewrite bool_decide_true.
  - split; [left|]. split; [done|]. split; [by right|]. rewrite bool_decide_true; [done|left].
Qed.

(** C22: [check_statreloader_usage] warns exactly in the autoreloaded
    process ([RUN_MAIN=true]) when Watchman is unavailable, and then
    logs the [WatchmanUnavailable] message at [ERROR]; the call
    [logger.error('Cannot use Watchman reloader: ', e)] has no [%], and
    [CustomRichHandler.emit] writes the message followed by [e]. *)
Theorem check_statreloader_usage_spec pf environ watchman :
  let '(logs, msgs) := check_statreloader_usage environ watchman in
  (map (fun c => (call_level c, emit_message pf (call_msg c) (call_args c))) logs, msgs) =
  if bool_decide (kv_lookup DJANGO_AUTORELOAD_ENV environ = Some (u "true")) then
    match watchman with
    | None => ([], [])
    | Some e => ([(40, u "Cannot use Watchman reloader: " ++ e)], [statreloader_warning])
    end
  else ([], []).
Proof.
  unfold check_statreloader_usage. case_bool_decide; [|done]. cbn [negb].
  destruct watchman as [e|]; [|reflexivity]. cbn [get_reloader].
  rewrite bool_decide_false by (vm_compute; discriminate). rewrite bool_decide_true by reflexivity.
  cbn [negb map call_level call_msg call_args]. rewrite emit_message_plain by (vm_compute; reflexivity). done.
Qed.
