(* ===== verification/Dev.v ===== *)
(** * The [dev] management command ([src/management/commands/dev.py])

    [Command.handle] runs Django's development server in the parent
    process and forks a child that runs the task worker.  It is modelled
    as an interaction tree over the effects it performs ([devE]): reading
    and writing [os.environ], [connections.close_all()], [os.fork()], the
    log lines, the calls of the server and of the worker (each returns or
    raises), [os.kill] and [os.waitpid].  The [finally] clauses are
    binds after the call whose outcome they pass on.

    [run_process] gives the events their meaning on the state of the
    processes ([world]): [os.fork()] answers a fresh pid in the parent
    and [0] in the copy that becomes the child; the server and the worker
    end as the world says. *)

From S2P Require Import Prelude PyStr Checks.
From ITree Require Import ITree ITreeFacts Events.State Events.StateFacts.
From Stdlib Require String.
Import String.StringSyntax.

Local Open Scope string_scope.
Local Open Scope N_scope.

(** Binds of interaction trees; [x <~ t ;; k] and [t ~;; k]. *)
Local Notation "x <~ t ;; k" := (ITree.bind t (fun x => k)) (at level 100, t at next level, right associativity).
Local Notation "t ~;; k" := (ITree.bind t (fun _ => k)) (at level 100, right associativity).

(** An exception, by its [repr]. *)
Definition exn : Type := pystr.

Variant devE : Type -> Type :=
| EnvGet (k : pystr) : devE (option pystr)          (* [os.environ.get(k)] *)
| EnvSet (k v : pystr) : devE unit                  (* [os.environ[k] = v] *)
| RedirectOutput : devE unit                        (* [self.stdout.write = logger.info], ... *)
| CloseAll : devE unit                              (* [connections.close_all()] *)
| Fork : devE N                                     (* [os.fork()] *)
| LogInfo (msg : pystr) : devE unit                 (* [logger.info(msg)] *)
| RunServer : devE (option exn)                     (* [super().handle(...)]: returns or raises *)
| RunWorker : devE (option exn)                     (* [worker.run()] *)
| Kill (pid sig : N) : devE unit                    (* [os.kill(pid, sig)] *)
| WaitPid (pid : N) : devE unit.                    (* [os.waitpid(pid, 0)] *)

Definition SIGTERM : N := 15.

(** [_run_worker()]: the log line, [worker.run()], and the [finally]
    log line; the worker's exception goes on. *)
Definition run_worker (self_pid : N) : itree devE (option exn) :=
  ITree.trigger (LogInfo (u "Worker starting: pid=" ++ str_of_N self_pid)) ~;;
  r <~ ITree.trigger RunWorker ;;
  ITree.trigger (LogInfo (u "Worker finished: pid=" ++ str_of_N self_pid)) ~;;
  Ret r.

(** The parent's side of the fork: the server, and in the [finally]
    clause the log line, [os.kill(pid, SIGTERM)] and [os.waitpid(pid, 0)];
    the server's exception goes on. *)
Definition parent_branch (pid : N) : itree devE (option exn) :=
  ITree.trigger (LogInfo (u "Django dev server starting: pid=" ++ str_of_N pid)) ~;;
  r <~ ITree.trigger RunServer ;;
  ITree.trigger (LogInfo (u "Django dev server finished: pid=" ++ str_of_N pid)) ~;;
  ITree.trigger (Kill pid SIGTERM) ~;;
  ITree.trigger (WaitPid pid) ~;;
  Ret r.

(** [handle(args, options)] with [options['use_reloader']]: [None]
    when it returns, [Some e] when it raises [e]. *)
Definition handle (use_reloader : bool) : itree devE (option exn) :=
  h <~ ITree.trigger (EnvGet (u "DJANGO_RUNSERVER_HIDE_WARNING")) ;;
  (match h with None => ITree.trigger (EnvSet (u "DJANGO_RUNSERVER_HIDE_WARNING") (u "true")) | Some _ => Ret tt end) ~;;
  ITree.trigger RedirectOutput ~;;
  m <~ ITree.trigger (EnvGet DJANGO_AUTORELOAD_ENV) ;;
  let is_main := bool_decide (m = Some (u "true")) in
  if use_reloader && negb is_main then ITree.trigger RunServer
  else
    ITree.trigger CloseAll ~;;
    pid <~ ITree.trigger Fork ;;
    if pid =? 0 then run_worker pid else parent_branch pid.

(** ** The processes *)

Record world : Type := World {
  w_env : list (pystr * pystr);
  w_next_pid : N;                 (* the pid the next fork gives *)
  w_children : list N;            (* forked and not yet waited for *)
  w_signals : list (N * N);       (* [os.kill] calls, the latest first *)
  w_reaped : list N;              (* children waited for *)
  w_log : list pystr;             (* the log lines, the latest first *)
  w_server : option exn;          (* how the server ends *)
  w_worker : option exn           (* how the worker ends *)
}.

Definition set_env (w : world) (env : list (pystr * pystr)) : world :=
  World env (w_next_pid w) (w_children w) (w_signals w) (w_reaped w) (w_log w) (w_server w) (w_worker w).

Definition add_log (w : world) (l : pystr) : world :=
  World (w_env w) (w_next_pid w) (w_children w) (w_signals w) (w_reaped w) (l :: w_log w) (w_server w) (w_worker w).

Definition add_child (w : world) : world :=
  World (w_env w) (w_next_pid w + 1) (w_next_pid w :: w_children w) (w_signals w) (w_reaped w) (w_log w)
        (w_server w) (w_worker w).

Definition add_signal (w : world) (pid sig : N) : world :=
  World (w_env w) (w_next_pid w) (w_children w) ((pid, sig) :: w_signals w) (w_reaped w) (w_log w)
        (w_server w) (w_worker w).

Definition reap (w : world) (pid : N) : world :=
  World (w_env w) (w_next_pid w) (List.filter (fun c => negb (c =? pid)) (w_children w)) (w_signals w)
        (pid :: w_reaped w) (w_log w) (w_server w) (w_worker w).

(** The meaning of the events in one process; [in_child] is the side of
    [os.fork()] it continues on. *)
Definition run_process (in_child : bool) : devE ~> Monads.stateT world (itree void1) :=
  fun _ e w =>
    match e with
    | EnvGet k => Ret (w, kv_lookup k (w_env w))
    | EnvSet k v => Ret (set_env w (kv_set k v (w_env w)), tt)
    | RedirectOutput => Ret (w, tt)
    | CloseAll => Ret (w, tt)
    | Fork => if in_child then Ret (w, 0) else Ret (add_child w, w_next_pid w)
    | LogInfo l => Ret (add_log w l, tt)
    | RunServer => Ret (w, w_server w)
    | RunWorker => Ret (w, w_worker w)
    | Kill pid sig => Ret (add_signal w pid sig, tt)
    | WaitPid pid => Ret (reap w pid, tt)
    end.

(** The world after the test of [DJANGO_RUNSERVER_HIDE_WARNING]. *)
Definition hide_warning (w : world) : world :=
  match kv_lookup (u "DJANGO_RUNSERVER_HIDE_WARNING") (w_env w) with
  | None => set_env w (kv_set (u "DJANGO_RUNSERVER_HIDE_WARNING") (u "true") (w_env w))
  | Some _ => w
  end.

(** The lines the parent logs about itself. *)
Definition starting_line (pid : N) : pystr := u "Django dev server starting: pid=" ++ str_of_N pid.
Definition finished_line (pid : N) : pystr := u "Django dev server finished: pid=" ++ str_of_N pid.

(** A world for the examples: the server exits with status 3. *)
Definition ex_world (env : list (pystr * pystr)) : world :=
  World env 4242 [] [] [] [] (Some (u "SystemExit(3)")) None.

(** ** Lemmas *)

(** Running a straight-line tree: split the bind, answer the event,
    drop the [Ret]. *)
Local Ltac run_steps :=
  repeat (first [ rewrite interp_state_bind | rewrite interp_state_trigger | rewrite interp_state_ret
                | rewrite bind_ret_l ]; cbn [run_process fst snd]).

(** The parent's side ends after reaping the worker, with the server's
    outcome. *)
Lemma parent_branch_run b w pid :
  interp_state (run_process b) (parent_branch pid) w ≈
  Ret (reap (add_signal (add_log (add_log w (starting_line pid)) (finished_line pid)) pid SIGTERM) pid, w_server w).
Proof. unfold parent_branch. run_steps. cbn [w_server]. unfold starting_line, finished_line, reap, add_signal, add_log. reflexivity. Qed.

Lemma run_worker_run b w pid :
  interp_state (run_process b) (run_worker pid) w ≈
  Ret (add_log (add_log w (u "Worker starting: pid=" ++ str_of_N pid)) (u "Worker finished: pid=" ++ str_of_N pid),
       w_worker w).
Proof. unfold run_worker. run_steps. cbn [w_worker add_log]. reflexivity. Qed.

Lemma run_main_hide w : kv_lookup DJANGO_AUTORELOAD_ENV (w_env (hide_warning w)) = kv_lookup DJANGO_AUTORELOAD_ENV (w_env w).
Proof.
  unfold hide_warning. destruct (kv_lookup _ (w_env w)); [done|]. cbn [w_env set_env].
  apply kv_lookup_set_ne. vm_compute. discriminate.
Qed.

(** [handle] in the process that forks: the parent reaps the worker. *)
Lemma handle_parent_run use_reloader w :
  (0 < w_next_pid w) -> use_reloader = false \/ kv_lookup DJANGO_AUTORELOAD_ENV (w_env w) = Some (u "true") ->
  interp_state (run_process false) (handle use_reloader) w ≈
  Ret (reap (add_signal (add_log (add_log (add_child (hide_warning w)) (starting_line (w_next_pid w)))
                                 (finished_line (w_next_pid w))) (w_next_pid w) SIGTERM) (w_next_pid w),
       w_server w).
Proof.
  intros Hpid Hfork. pose proof (run_main_hide w) as Hm. unfold handle. unfold hide_warning in *. run_steps.
  destruct (kv_lookup (u "DJANGO_RUNSERVER_HIDE_WARNING") (w_env w)) eqn:Eh; run_steps;
    try rewrite Hm; (destruct Hfork as [Hu|Hmain];
      [subst use_reloader; cbn [andb]|rewrite Hmain, bool_decide_true by done; rewrite andb_false_r]);
    run_steps; rewrite (proj2 (N.eqb_neq _ 0)) by (cbn; lia); rewrite parent_branch_run; reflexivity.
Qed.

(** [handle] in the forked child: the worker runs. *)
Lemma handle_child_run use_reloader w :
  use_reloader = false \/ kv_lookup DJANGO_AUTORELOAD_ENV (w_env w) = Some (u "true") ->
  interp_state (run_process true) (handle use_reloader) w ≈
  Ret (add_log (add_log (hide_warning w) (u "Worker starting: pid=" ++ str_of_N 0))
               (u "Worker finished: pid=" ++ str_of_N 0), w_worker w).
Proof.
  intros Hfork. pose proof (run_main_hide w) as Hm. unfold handle. unfold hide_warning in *. run_steps.
  destruct (kv_lookup (u "DJANGO_RUNSERVER_HIDE_WARNING") (w_env w)) eqn:Eh; run_steps;
    try rewrite Hm; (destruct Hfork as [Hu|Hmain];
      [subst use_reloader; cbn [andb]|rewrite Hmain, bool_decide_true by done; rewrite andb_false_r]);
    run_steps; rewrite N.eqb_refl, run_worker_run; reflexivity.
Qed.

(** [handle] in the process of the autoreloader that is not the main
    one: the server only. *)
Lemma handle_reloader_run b w :
  kv_lookup DJANGO_AUTORELOAD_ENV (w_env w) <> Some (u "true") ->
  interp_state (run_process b) (handle true) w ≈ Ret (hide_warning w, w_server w).
Proof.
  intros Hn. pose proof (run_main_hide w) as Hm. unfold handle. unfold hide_warning in *. run_steps.
  destruct (kv_lookup (u "DJANGO_RUNSERVER_HIDE_WARNING") (w_env w)) eqn:Eh; run_steps;
    try rewrite Hm; rewrite bool_decide_false by done; cbn [andb negb]; run_steps; reflexivity.
Qed.

(** Hiding the warning changes the environment only. *)
Lemma hide_warning_procs w :
  w_children (hide_warning w) = w_children w /\ w_signals (hide_warning w) = w_signals w /\
  w_next_pid (hide_warning w) = w_next_pid w.
Proof. unfold hide_warning. by destruct (kv_lookup _ _). Qed.

Lemma reap_children w p : p ∉ w_children (reap w p).
Proof. cbn. intros Hp%list_elem_of_In. apply filter_In in Hp as [_ Hp]. by rewrite N.eqb_refl in Hp. Qed.

(** ** Theorems *)

(** C12: In the process that forks (without the autoreloader, or in its
    main process), [handle] terminates, whatever the server does: it
    returns, or raises the server's exception, and by then the worker
    it forked has been sent [SIGTERM], waited for, and is no longer a
    child of the process. *)
Theorem dev_worker_reaped use_reloader w :
  (0 < w_next_pid w) -> use_reloader = false \/ kv_lookup DJANGO_AUTORELOAD_ENV (w_env w) = Some (u "true") ->
  exists w', interp_state (run_process false) (handle use_reloader) w ≈ Ret (w', w_server w) /\
             (w_next_pid w, SIGTERM) ∈ w_signals w' /\ w_next_pid w ∈ w_reaped w' /\
             w_next_pid w ∉ w_children w'.
Proof.
  intros Hpid Hfork. eexists. split; [by apply handle_parent_run|].
  split; [cbn; left|]. split; [cbn; left|]. apply reap_children.
Qed.

(** C21: The forked child runs the worker and logs [Worker starting:
    pid=0] and [Worker finished: pid=0]: [self.pid] is what [os.fork()]
    returned in the child, [0], not the worker's pid; the child signals
    no process. *)
Theorem worker_logs_pid_zero use_reloader w :
  use_reloader = false \/ kv_lookup DJANGO_AUTORELOAD_ENV (w_env w) = Some (u "true") ->
  exists w', interp_state (run_process true) (handle use_reloader) w ≈ Ret (w', w_worker w) /\
             take 2 (w_log w') = [u "Worker finished: pid=0"; u "Worker starting: pid=0"] /\
             w_signals w' = w_signals w.
Proof.
  intros Hfork. eexists. split; [by apply handle_child_run|]. split; [reflexivity|].
  apply hide_warning_procs.
Qed.

(** With the autoreloader, the process that is not its main one
    runs the server only: [handle] forks no worker and signals no
    process there. *)
Theorem reloader_process_never_forks b w :
  kv_lookup DJANGO_AUTORELOAD_ENV (w_env w) <> Some (u "true") ->
  exists w', interp_state (run_process b) (handle true) w ≈ Ret (w', w_server w) /\
             w_children w' = w_children w /\ w_signals w' = w_signals w /\ w_next_pid w' = w_next_pid w.
Proof.
  intros Hn. exists (hide_warning w). split; [by apply handle_reloader_run|].
  apply hide_warning_procs.
Qed.

(** ** Witnesses *)

Lemma dev_worker_reaped_witness :
  exists w', interp_state (run_process false) (handle true) (ex_world [(u "RUN_MAIN", u "true")]) ≈
               Ret (w', Some (u "SystemExit(3)")) /\
             (4242, SIGTERM) ∈ w_signals w' /\ 4242 ∈ w_reaped w' /\ 4242 ∉ w_children w'.
Proof. apply (dev_worker_reaped true (ex_world [(u "RUN_MAIN", u "true")])); [reflexivity|right; reflexivity]. Defined.

Lemma worker_logs_pid_zero_witness :
  exists w', interp_state (run_process true) (handle false) (ex_world []) ≈ Ret (w', None) /\
             take 2 (w_log w') = [u "Worker finished: pid=0"; u "Worker starting: pid=0"] /\
             w_signals w' = [].
Proof. apply (worker_logs_pid_zero false (ex_world [])). by left. Defined.

Lemma reloader_process_never_forks_witness :
  exists w', interp_state (run_process false) (handle true) (ex_world []) ≈ Ret (w', Some (u "SystemExit(3)")) /\
             w_children w' = [] /\ w_signals w' = [] /\ w_next_pid w' = 4242.
Proof. apply (reloader_process_never_forks false (ex_world [])). discriminate. Defined.
